(** * ftpServerInC: the chunked transfer engine of the epoll server and client

    A shallow embedding of the receive and send paths of
    [server/epoll_server.c], [server/commands.c] and
    [client/epoll_client.c], with the properties the design document
    states about them.

    Conventions.
    - C [int], [long] and [uint32_t] values are [Z]; conversions between
      [uint32_t] and [int] are written out with [to_u32] and [to_int].
    - Buffers are [list byte]; a C string is the bytes before its first NUL.
    - The host is little-endian with 32-bit [int] (x86-64 Linux): where
      the code reads an integer in place as bytes, or bytes in place as an
      integer, the least significant byte comes first.
    - Every system call a function makes is recorded, in order, in a list
      of [event]s; what the environment answers (the bytes [recv] returns,
      whether [fopen] or [fwrite] succeeds, what [send] accepts) is an
      argument of the function.
    - Console output ([printf]) is recorded only where a property refers
      to it. *)

From Stdlib Require Import Strings.String Strings.Byte.
From Stdlib Require Import ZArith List Lia Bool.
Import ListNotations.
Open Scope Z_scope.

(** ** Machine integers and bytes *)

Definition to_u32 (z : Z) : Z := z mod 2 ^ 32.

Definition to_int (z : Z) : Z :=
  let u := z mod 2 ^ 32 in
  if u <? 2 ^ 31 then u else u - 2 ^ 32.

Definition byte_val (b : byte) : Z := Z.of_N (Byte.to_N b).

Definition byte_of_Z (z : Z) : byte :=
  match Byte.of_N (Z.to_N (z mod 256)) with
  | Some b => b
  | None => x00
  end.

Definition len {A : Type} (l : list A) : Z := Z.of_nat (length l).

(** [buf + off], [n] bytes of it. *)
Definition slice (buf : list byte) (off n : Z) : list byte :=
  firstn (Z.to_nat n) (skipn (Z.to_nat off) buf).

(** [memcpy(dst + off, src, length src)] inside an array [dst]. *)
Definition memcpy (dst : list byte) (off : Z) (src : list byte) : list byte :=
  firstn (Z.to_nat off) dst ++ src
    ++ skipn (Z.to_nat off + length src) dst.

(** The bytes of a C string stored in [buf]: everything before the first
    NUL.  For an array without a NUL this is the whole array (the C code
    would read on past its end). *)
Fixpoint c_str (buf : list byte) : list byte :=
  match buf with
  | [] => []
  | b :: rest => if Byte.eqb b x00 then [] else b :: c_str rest
  end.

(** Whether a NUL is among the bytes. *)
Definition has_nul (buf : list byte) : bool :=
  existsb (fun b => Byte.eqb b x00) buf.

(** The four bytes an [int] or [uint32_t] occupies in memory. *)
Definition int_bytes (z : Z) : list byte :=
  [byte_of_Z z; byte_of_Z (z / 2 ^ 8); byte_of_Z (z / 2 ^ 16);
   byte_of_Z (z / 2 ^ 24)].

(** The [uint32_t] stored at [raw + off], read without conversion. *)
Definition host_u32 (raw : list byte) (off : nat) : Z :=
  byte_val (nth off raw x00)
  + byte_val (nth (off + 1) raw x00) * 2 ^ 8
  + byte_val (nth (off + 2) raw x00) * 2 ^ 16
  + byte_val (nth (off + 3) raw x00) * 2 ^ 24.

Definition bytes_of (s : string) : list byte := list_byte_of_string s.

Definition bytes_eqb (a b : list byte) : bool :=
  if list_eq_dec Byte.byte_eq_dec a b then true else false.

Fixpoint is_prefix (p l : list byte) : bool :=
  match p, l with
  | [], _ => true
  | a :: p', b :: l' => Byte.eqb a b && is_prefix p' l'
  | _ :: _, [] => false
  end.

(** ** The chunk header on the wire *)

Module Wire.

Definition CHUNK_SIZE : Z := 512.
Definition FILENAME_MAX_LEN : Z := 64.

(** [sizeof(FileChunkHeader)]: four [uint32_t] and [char filename[64]]. *)
Definition HEADER_SIZE : Z := 80.

(** A header with its integer fields in host order. *)
Record FileChunkHeader := mkHeader {
  chunk_id : Z;
  chunk_size : Z;
  total_chunks : Z;
  type : Z;
  filename : list byte          (* the 64 bytes of the field *)
}.

(** [htonl]: the four bytes of a 32-bit value, most significant first. *)
Definition htonl (z : Z) : list byte :=
  let u := to_u32 z in
  [byte_of_Z (u / 2 ^ 24); byte_of_Z (u / 2 ^ 16);
   byte_of_Z (u / 2 ^ 8); byte_of_Z u].

(** [ntohl] of the 32-bit field stored at [raw + off]. *)
Definition ntohl (raw : list byte) (off : nat) : Z :=
  byte_val (nth off raw x00) * 2 ^ 24
  + byte_val (nth (off + 1) raw x00) * 2 ^ 16
  + byte_val (nth (off + 2) raw x00) * 2 ^ 8
  + byte_val (nth (off + 3) raw x00).

(** The field of a [char[64]] after [strncpy(field, name, 63)] and
    [field[63] = 0] on a zeroed field: at most 63 bytes of the string,
    padded with NUL. *)
Definition strncpy_field (name : list byte) : list byte :=
  let s := firstn 63 (c_str name) in
  s ++ repeat x00 (64 - length s).

(** The 80 bytes of a header whose integer fields went through [htonl]. *)
Definition encode_header (h : FileChunkHeader) : list byte :=
  htonl (chunk_id h) ++ htonl (chunk_size h) ++ htonl (total_chunks h)
    ++ htonl (type h) ++ firstn 64 (filename h ++ repeat x00 64).

(** The header read from 80 raw bytes, integer fields through [ntohl]. *)
Definition decode_header (raw : list byte) : FileChunkHeader :=
  {| chunk_id := ntohl raw 0;
     chunk_size := ntohl raw 4;
     total_chunks := ntohl raw 8;
     type := ntohl raw 12;
     filename := firstn 64 (skipn 16 raw ++ repeat x00 64) |}.

Definition zero_header : FileChunkHeader :=
  mkHeader 0 0 0 0 (repeat x00 64).

End Wire.
Import Wire.

(** ** System calls and the environment *)

Inductive recv_result :=
| RecvData (data : list byte)   (* bytes queued in the socket *)
| RecvEOF                       (* orderly shutdown: recv returns 0 *)
| RecvWouldBlock                (* -1 with EAGAIN / EWOULDBLOCK *)
| RecvError.                    (* -1 with another errno *)

Inductive send_result :=
| SendAccepts (n : nat)         (* the kernel takes up to [S n] bytes *)
| SendWouldBlock                (* -1 with EAGAIN / EWOULDBLOCK *)
| SendReset                     (* -1 with EPIPE / ECONNRESET *)
| SendFails.                    (* -1 with another errno *)

Inductive event :=
| ESend (fd : Z) (data : list byte)
| EMkdir (path : list byte)
| EFopen (path : list byte) (mode : string) (ok : bool)
| EFwrite (path : list byte) (data : list byte)
| EFwriteShort (path : list byte)           (* fwrite wrote too little *)
| EFflush (path : list byte)
| EFsync (path : list byte)
| EFsyncFd (fd : Z)
| EFclose (path : list byte)
| EUsleep (usec : Z)
| EEpollDel (fd : Z)
| EEpollMod (fd : Z) (epollout : bool)        (* EPOLLIN, with or without EPOLLOUT *)
| EClose (fd : Z)
| ECall (fn : string) (fd : Z) (args : list (list byte))
                                            (* a handler of commands.c *)
| EChunkCount (received expected : Z)       (* "Received chunk %d/%d" *)
| EProgress (percent : Z)                   (* progress_bar(percent) *)
| EPrintLine (text : list byte).            (* a line of the peer, shown *)

(** What a call of a C function does: it returns with a value, a new state
    and the events it caused; or the C code leaves defined behaviour (a
    negative length reaches [memcpy] or [fwrite], or a string without a
    NUL is read past the members this model holds); or the model ran out
    of loop iterations. *)
Inductive outcome (St : Type) :=
| Returned (r : Z) (s : St) (tr : list event)
| Undefined
| OutOfFuel.
Arguments Returned {St} r s tr.
Arguments Undefined {St}.
Arguments OutOfFuel {St}.

(** The data of the [send] calls on descriptor [fd], in order. *)
Fixpoint sent_to (fd : Z) (tr : list event) : list (list byte) :=
  match tr with
  | [] => []
  | ESend fd' data :: rest =>
      if fd' =? fd then data :: sent_to fd rest else sent_to fd rest
  | _ :: rest => sent_to fd rest
  end.

(** The events of a first part, then what follows. *)
Definition prepend {St : Type} (tr : list event) (o : outcome St)
  : outcome St :=
  match o with
  | Returned r s tr' => Returned r s (tr ++ tr')
  | other => other
  end.

(** [recv(fd, buf, cap, 0)] on a non-blocking socket: at most [cap] of the
    queued bytes are delivered; no bytes at all is the end of the stream. *)
Definition recv (cap : nat) (r : recv_result) : recv_result :=
  match r with
  | RecvData [] => RecvEOF
  | RecvData data => RecvData (firstn cap data)
  | other => other
  end.

Definition line (s : string) : list byte := bytes_of s ++ [x0a].

(** ** The server: [server/epoll_server.c] *)

Module Server.

Definition MAX_EVENTS : Z := 64.
Definition MAX_CLIENTS : Z := 10.

(** [sizeof(client->buffer)]. *)
Definition BUFFER_SIZE : Z := 1024.

(** [client_info_t].  [buffer] holds the [buffer_len] bytes accumulated so
    far and [recv_buffer] the [bytes_in_buffer] bytes of the header being
    assembled; [upload_file] is the path the open [FILE *] was created on.
    [current_header] keeps the received header; its integer fields are
    read through [ntohl]. *)
Record client_info_t := mkClient {
  socket_fd : Z;
  buffer : list byte;
  state : Z;                       (* 0 = reading command, 1 = file transfer *)
  client_ip : string;
  upload_file : option (list byte);
  upload_filename : list byte;
  expected_chunks : Z;
  received_chunks : Z;
  recv_buffer : list byte;
  header_complete : bool;
  current_header : FileChunkHeader;
  payload_remaining : Z
}.

Definition buffer_len (c : client_info_t) : Z := len (buffer c).
Definition bytes_in_buffer (c : client_info_t) : Z := len (recv_buffer c).

Definition set_buffer (v : list byte) (c : client_info_t) :=
  mkClient (socket_fd c) v (state c) (client_ip c) (upload_file c)
    (upload_filename c) (expected_chunks c) (received_chunks c)
    (recv_buffer c) (header_complete c) (current_header c)
    (payload_remaining c).
Definition set_state (v : Z) (c : client_info_t) :=
  mkClient (socket_fd c) (buffer c) v (client_ip c) (upload_file c)
    (upload_filename c) (expected_chunks c) (received_chunks c)
    (recv_buffer c) (header_complete c) (current_header c)
    (payload_remaining c).
Definition set_upload_file (v : option (list byte)) (c : client_info_t) :=
  mkClient (socket_fd c) (buffer c) (state c) (client_ip c) v
    (upload_filename c) (expected_chunks c) (received_chunks c)
    (recv_buffer c) (header_complete c) (current_header c)
    (payload_remaining c).
Definition set_upload_filename (v : list byte) (c : client_info_t) :=
  mkClient (socket_fd c) (buffer c) (state c) (client_ip c) (upload_file c)
    v (expected_chunks c) (received_chunks c)
    (recv_buffer c) (header_complete c) (current_header c)
    (payload_remaining c).
Definition set_expected_chunks (v : Z) (c : client_info_t) :=
  mkClient (socket_fd c) (buffer c) (state c) (client_ip c) (upload_file c)
    (upload_filename c) v (received_chunks c)
    (recv_buffer c) (header_complete c) (current_header c)
    (payload_remaining c).
Definition set_received_chunks (v : Z) (c : client_info_t) :=
  mkClient (socket_fd c) (buffer c) (state c) (client_ip c) (upload_file c)
    (upload_filename c) (expected_chunks c) v
    (recv_buffer c) (header_complete c) (current_header c)
    (payload_remaining c).
Definition set_recv_buffer (v : list byte) (c : client_info_t) :=
  mkClient (socket_fd c) (buffer c) (state c) (client_ip c) (upload_file c)
    (upload_filename c) (expected_chunks c) (received_chunks c)
    v (header_complete c) (current_header c)
    (payload_remaining c).
Definition set_header_complete (v : bool) (c : client_info_t) :=
  mkClient (socket_fd c) (buffer c) (state c) (client_ip c) (upload_file c)
    (upload_filename c) (expected_chunks c) (received_chunks c)
    (recv_buffer c) v (current_header c)
    (payload_remaining c).
Definition set_current_header (v : FileChunkHeader) (c : client_info_t) :=
  mkClient (socket_fd c) (buffer c) (state c) (client_ip c) (upload_file c)
    (upload_filename c) (expected_chunks c) (received_chunks c)
    (recv_buffer c) (header_complete c) v
    (payload_remaining c).
Definition set_payload_remaining (v : Z) (c : client_info_t) :=
  mkClient (socket_fd c) (buffer c) (state c) (client_ip c) (upload_file c)
    (upload_filename c) (expected_chunks c) (received_chunks c)
    (recv_buffer c) (header_complete c) (current_header c) v.

(** The entry [add_client] initialises. *)
Definition new_client (fd : Z) (ip : string) : client_info_t :=
  mkClient fd [] 0 ip None [] 0 0 [] false zero_header 0.

(** *** The client table *)

(** [strncpy(dst, src, n)] and [dst[n] = 0], read back as a string: the
    characters of [src] before its first NUL, [n] of them at most. *)
Fixpoint strncpy_string (n : nat) (src : string) : string :=
  match n, src with
  | S n', String a rest =>
      if Ascii.eqb a Ascii.zero then EmptyString
      else String a (strncpy_string n' rest)
  | _, _ => EmptyString
  end.

(** [INET_ADDRSTRLEN], the size of [client_ip]. *)
Definition INET_ADDRSTRLEN : nat := 16.

Definition add_client (clients : list client_info_t) (fd : Z)
  (client_ip : string) : option (list client_info_t) :=
  if MAX_CLIENTS <=? len clients then None
  else
    Some (clients
            ++ [new_client fd
                  (strncpy_string (INET_ADDRSTRLEN - 1) client_ip)]).

Fixpoint find_client (clients : list client_info_t) (fd : Z)
  : option client_info_t :=
  match clients with
  | [] => None
  | c :: rest => if socket_fd c =? fd then Some c else find_client rest fd
  end.

(** The entry [find_client] points to, overwritten. *)
Fixpoint store_client (clients : list client_info_t) (fd : Z)
  (c' : client_info_t) : list client_info_t :=
  match clients with
  | [] => []
  | c :: rest =>
      if socket_fd c =? fd then c' :: rest
      else c :: store_client rest fd c'
  end.

Definition fclose_upload (c : client_info_t) : list event :=
  match upload_file c with
  | Some f => [EFclose f]
  | None => []
  end.

(** [remove_client]: the first entry of that descriptor has its file
    closed and is overwritten by the last entry. *)
Fixpoint remove_client (clients : list client_info_t) (fd : Z)
  : list client_info_t * list event :=
  match clients with
  | [] => ([], [])
  | c :: rest =>
      if socket_fd c =? fd then
        (match rev rest with
         | [] => []
         | last :: _ => last :: removelast rest
         end, fclose_upload c)
      else
        let '(rest', tr) := remove_client rest fd in (c :: rest', tr)
  end.

(** *** Receiving chunks *)

Definition SAVED_DIR : list byte := bytes_of "saved".

(** The bytes a [%s] or a [strncpy] reads at
    [client->current_header.filename]: the 64 bytes of the field and, when
    they hold no NUL, the member that follows [current_header] in
    [client_info_t], the [int payload_remaining]. *)
Definition filename_and_beyond (filename_field : list byte)
  (payload_remaining : Z) : list byte :=
  filename_field ++ int_bytes payload_remaining.

(** [snprintf(full_path, sizeof(full_path), "saved/%s",
    client->current_header.filename)], for the value [payload_remaining]
    has at that point.  The 512 bytes of [full_path] hold the result
    whole. *)
Definition full_path (filename_field : list byte) (payload_remaining : Z)
  : list byte :=
  bytes_of "saved/"
    ++ c_str (filename_and_beyond filename_field payload_remaining).

Definition MSG_INVALID_HEADER := line "ERROR: Invalid file transfer header".
Definition MSG_CANNOT_CREATE := line "ERROR: Cannot create file".
Definition MSG_UPLOADED := line "SUCCESS: File uploaded".
Definition MSG_OVERFLOW :=
  line "ERROR: Buffer overflow - connection terminated".
Definition MSG_UNKNOWN := line "ERROR: Unknown command".
Definition MSG_BAD_RENAME := line "ERROR: Invalid rename command".

(** One pass through the body of a [while (processed < bytes_read)] loop. *)
Inductive step :=
| Continue (c : client_info_t) (processed : Z) (tr : list event)
| Return (r : Z) (c : client_info_t) (tr : list event)
| Stuck.

(** The state reset made when the last chunk has arrived. *)
Definition reset_transfer (c : client_info_t) : client_info_t :=
  set_upload_filename []
    (set_received_chunks 0
      (set_expected_chunks 0
        (set_payload_remaining 0
          (set_header_complete false
            (set_recv_buffer [] (set_state 0 c)))))).

Definition min_avail (bytes_read processed wanted : Z) : Z :=
  if bytes_read - processed <? wanted then bytes_read - processed
  else wanted.

Section Env.

(** Whether [fopen(path, "wb")] succeeds. *)
Variable fopen_ok : list byte -> bool.

(** What [handle_file_transfer] does once the 80 bytes of a header are in
    [recv_buffer]. *)
Definition header_complete_actions (c : client_info_t) (processed : Z)
  : step :=
  let client_fd := socket_fd c in
  let h := decode_header (firstn 80 (recv_buffer c)) in
  let c := set_header_complete true (set_current_header h c) in
  (* Validate header values to prevent client crashes *)
  if (chunk_size h =? 0) || (total_chunks h =? 0)
     || (8192 <? chunk_size h) || (2000000 <? total_chunks h)
  then
    Return (-1) (set_state 0 c) [ESend client_fd MSG_INVALID_HEADER]
  else
    let c := set_payload_remaining (chunk_size h) c in
    (* If this is the first chunk, open the file *)
    if chunk_id h =? 0 then
      (* [chunk_size] is 8192 at most: a NUL is among the bytes read *)
      let path := full_path (filename h) (payload_remaining c) in
      if fopen_ok path then
        let c := set_upload_file (Some path) c in
        let c := set_upload_filename
                   (c_str (filename_and_beyond (filename h)
                             (payload_remaining c))) c in
        let c := set_expected_chunks (total_chunks h) c in
        let c := set_received_chunks 0 c in
        Continue (set_recv_buffer [] c) processed
          [EMkdir SAVED_DIR; EFopen path "wb" true]
      else
        Return (-1) (set_state 0 (set_upload_file None c))
          [EMkdir SAVED_DIR; EFopen path "wb" false;
           ESend client_fd MSG_CANNOT_CREATE]
    else Continue (set_recv_buffer [] c) processed [].

(** What it does once the payload of a chunk has arrived whole. *)
Definition chunk_complete_actions (c : client_info_t) (processed : Z)
  (tr_write : list event) : step :=
  let c := set_recv_buffer []
             (set_header_complete false
               (set_received_chunks (received_chunks c + 1) c)) in
  let tr_count := [EChunkCount (received_chunks c) (expected_chunks c)] in
  if expected_chunks c <=? received_chunks c then
    (* File transfer complete *)
    Return 0 (reset_transfer (set_upload_file None c))
      (tr_write ++ tr_count ++ fclose_upload c
         ++ [ESend (socket_fd c) MSG_UPLOADED])
  else Continue c processed (tr_write ++ tr_count).

(** The loop body of [handle_file_transfer]. *)
Definition transfer_step (temp_buffer : list byte) (bytes_read : Z)
  (c : client_info_t) (processed : Z) : step :=
  if negb (header_complete c) then
    (* Still receiving header *)
    let header_needed := HEADER_SIZE - bytes_in_buffer c in
    let to_copy := min_avail bytes_read processed header_needed in
    if (to_copy <? 0) || (processed <? 0) then Stuck else
    let c := set_recv_buffer
               (recv_buffer c ++ slice temp_buffer processed to_copy) c in
    let processed := processed + to_copy in
    if HEADER_SIZE <=? bytes_in_buffer c
    then header_complete_actions c processed
    else Continue c processed []
  else
    (* Receiving payload *)
    let to_copy := min_avail bytes_read processed (payload_remaining c) in
    if match upload_file c with
       | Some _ => (to_copy <? 0) || (processed <? 0)
       | None => false
       end
    then Stuck else
    let tr_write :=
      match upload_file c with
      | Some f => [EFwrite f (slice temp_buffer processed to_copy); EFflush f]
      | None => []
      end in
    let processed := processed + to_copy in
    let c := set_payload_remaining (payload_remaining c - to_copy) c in
    if payload_remaining c =? 0
    then chunk_complete_actions c processed tr_write
    else Continue c processed tr_write.

(** The copy of that loop inside [handle_client_data], run on the bytes
    that made the server leave command mode, checks no header field,
    ignores a failed [fopen], and goes on after the last chunk. *)
Definition detected_header_actions (c : client_info_t) (processed : Z)
  : step :=
  let h := decode_header (firstn 80 (recv_buffer c)) in
  let c := set_header_complete true (set_current_header h c) in
  let c := set_payload_remaining (to_int (chunk_size h)) c in
  let c := set_recv_buffer [] c in
  (* If first chunk, open file *)
  if chunk_id h =? 0 then
    (* with no NUL in the field or in [payload_remaining], the read goes
       on into the padding that ends the entry, whose bytes C leaves
       unspecified, and into what follows the entry *)
    if negb (has_nul (filename_and_beyond (filename h)
                        (payload_remaining c)))
    then Stuck else
    let path := full_path (filename h) (payload_remaining c) in
    if fopen_ok path then
      let c := set_upload_file (Some path) c in
      let c := set_upload_filename
                 (c_str (filename_and_beyond (filename h)
                           (payload_remaining c))) c in
      let c := set_expected_chunks (to_int (total_chunks h)) c in
      let c := set_received_chunks 0 c in
      Continue c processed [EMkdir SAVED_DIR; EFopen path "wb" true]
    else
      Continue (set_upload_file None c) processed
        [EMkdir SAVED_DIR; EFopen path "wb" false]
  else Continue c processed [].

Definition detected_chunk_actions (c : client_info_t) (processed : Z)
  (tr_write : list event) : step :=
  let c := set_recv_buffer []
             (set_header_complete false
               (set_received_chunks (received_chunks c + 1) c)) in
  let tr_count := [EChunkCount (received_chunks c) (expected_chunks c)] in
  if expected_chunks c <=? received_chunks c then
    Continue (reset_transfer (set_upload_file None c)) processed
      (tr_write ++ tr_count ++ fclose_upload c
         ++ [ESend (socket_fd c) MSG_UPLOADED])
  else Continue c processed (tr_write ++ tr_count).

Definition detect_step (temp_buffer : list byte) (bytes_read : Z)
  (c : client_info_t) (processed : Z) : step :=
  if negb (header_complete c) then
    let header_needed := HEADER_SIZE - bytes_in_buffer c in
    let to_copy := min_avail bytes_read processed header_needed in
    if (to_copy <? 0) || (processed <? 0) then Stuck else
    let c := set_recv_buffer
               (recv_buffer c ++ slice temp_buffer processed to_copy) c in
    let processed := processed + to_copy in
    if HEADER_SIZE <=? bytes_in_buffer c
    then detected_header_actions c processed
    else Continue c processed []
  else
    let to_copy := min_avail bytes_read processed (payload_remaining c) in
    if match upload_file c with
       | Some _ => (to_copy <? 0) || (processed <? 0)
       | None => false
       end
    then Stuck else
    let tr_write :=
      match upload_file c with
      | Some f => [EFwrite f (slice temp_buffer processed to_copy); EFflush f]
      | None => []
      end in
    let processed := processed + to_copy in
    let c := set_payload_remaining (payload_remaining c - to_copy) c in
    if payload_remaining c =? 0
    then detected_chunk_actions c processed tr_write
    else Continue c processed tr_write.

(** [while (processed < bytes_read) body], then [return 0]. *)
Fixpoint run_loop (body : client_info_t -> Z -> step) (fuel : nat)
  (bytes_read : Z) (c : client_info_t) (processed : Z)
  : outcome client_info_t :=
  if processed <? bytes_read then
    match fuel with
    | O => OutOfFuel
    | S fuel' =>
        match body c processed with
        | Continue c' processed' tr =>
            prepend tr (run_loop body fuel' bytes_read c' processed')
        | Return r c' tr => Returned r c' tr
        | Stuck => Undefined
        end
    end
  else Returned 0 c [].

(** Two passes for every byte are enough: a pass that copies nothing
    completes a chunk whose payload is empty. *)
Definition loop_fuel (data : list byte) : nat := 2 * length data + 2.

(** [handle_file_transfer], on the entry [find_client] returned. *)
Definition handle_file_transfer (c : client_info_t) (r : recv_result)
  : outcome client_info_t :=
  match recv 2048 r with
  | RecvEOF | RecvError =>
      Returned (-1) (set_state 0 (set_upload_file None c)) (fclose_upload c)
  | RecvWouldBlock => Returned 0 c []
  | RecvData temp_buffer =>
      let bytes_read := len temp_buffer in
      run_loop (transfer_step temp_buffer bytes_read)
        (loop_fuel temp_buffer) bytes_read c 0
  end.

(** *** Commands *)

(** The position [strchr(buffer, '\n')] finds in a C string. *)
Fixpoint strchr_nl (buf : list byte) : option nat :=
  match buf with
  | [] => None
  | b :: rest =>
      if Byte.eqb b x0a then Some 0%nat
      else if Byte.eqb b x00 then None
      else option_map S (strchr_nl rest)
  end.

(** Remove carriage return if present. *)
Definition strip_cr (cmd : list byte) : list byte :=
  match rev cmd with
  | b :: before => if Byte.eqb b x0d then rev before else cmd
  | [] => cmd
  end.

(** The tokens [strtok(s, " ")] yields one after another. *)
Fixpoint strtok_spaces (cur : list byte) (s : list byte)
  : list (list byte) :=
  match s with
  | [] => match cur with [] => [] | _ => [rev cur] end
  | b :: rest =>
      if Byte.eqb b x20 then
        match cur with
        | [] => strtok_spaces [] rest
        | _ => rev cur :: strtok_spaces [] rest
        end
      else strtok_spaces (b :: cur) rest
  end.

(** [process_client_command]: [upload] switches the entry of that socket
    to file transfer mode; the other commands go to their handler. *)
Definition process_client_command (c : client_info_t) (command : list byte)
  : client_info_t * list event :=
  let sock := socket_fd c in
  if is_prefix (bytes_of "upload") command then (set_state 1 c, [])
  else if is_prefix (bytes_of "get ") command then
    (c, [ECall "send_file" sock [skipn 4 command]])
  else if bytes_eqb command (bytes_of "ls") then
    (c, [ECall "send_list" sock []])
  else if bytes_eqb command (bytes_of "pwd") then
    (c, [ECall "send_pwd" sock []])
  else if is_prefix (bytes_of "cd ") command then
    (c, [ECall "change_dir" sock [skipn 3 command]])
  else if is_prefix (bytes_of "delete ") command then
    (c, [ECall "delete_file" sock [skipn 7 command]])
  else if is_prefix (bytes_of "rename ") command then
    match strtok_spaces [] (skipn 7 (firstn 127 command)) with
    | old_name :: new_name :: _ =>
        (c, [ECall "rename_file" sock [old_name; new_name]])
    | _ => (c, [ESend sock MSG_BAD_RENAME])
    end
  else if bytes_eqb command (bytes_of "health") then
    (c, [ECall "send_health_info" sock []])
  else (c, [ESend sock MSG_UNKNOWN]).

(** Process complete commands (ending with newline). *)
Fixpoint command_loop (fuel : nat) (c : client_info_t)
  : outcome client_info_t :=
  match strchr_nl (buffer c) with
  | None => Returned 0 c []
  | Some pos =>
      match fuel with
      | O => OutOfFuel
      | S fuel' =>
          let command := strip_cr (firstn pos (buffer c)) in
          let '(c1, tr) := process_client_command c command in
          let remaining := buffer_len c - (Z.of_nat pos + 1) in
          let c2 :=
            if 0 <? remaining then set_buffer (skipn (S pos) (buffer c)) c1
            else set_buffer [] c1 in
          prepend tr (command_loop fuel' c2)
      end
  end.

(** The test made on the first bytes read in command mode. *)
Definition looks_like_header (temp_buffer : list byte) : bool :=
  (HEADER_SIZE <=? len temp_buffer)
  && (let potential_header := decode_header temp_buffer in
      let chunk_size := chunk_size potential_header in
      let total_chunks := total_chunks potential_header in
      (0 <? chunk_size) && (chunk_size <=? 8192)
      && (0 <? total_chunks) && (total_chunks <=? 2000000)).

(** The second half of [handle_client_data]: the bytes read are appended
    to the command buffer and the complete commands processed, or the
    buffer overflows. *)
Definition handle_text (c : client_info_t) (temp_buffer : list byte)
  : outcome client_info_t :=
  let client_fd := socket_fd c in
  let bytes_read := len temp_buffer in
  if buffer_len c + bytes_read <? BUFFER_SIZE - 1 then
    let c := set_buffer (buffer c ++ temp_buffer) c in
    command_loop (S (length (buffer c))) c
  else
    (* Send error message to client before disconnecting *)
    Returned (-1) c
      [ESend client_fd MSG_OVERFLOW; EFsyncFd client_fd; EUsleep 100000].

(** The first half, for bytes that look like a file header: the server
    switches to file transfer mode and runs its copy of the chunk loop on
    these bytes. *)
Definition handle_detected (c : client_info_t) (temp_buffer : list byte)
  : outcome client_info_t :=
  let bytes_read := len temp_buffer in
  run_loop (detect_step temp_buffer bytes_read)
    (loop_fuel temp_buffer) bytes_read (set_state 1 c) 0.

(** [handle_client_data], on the entry [find_client] returned. *)
Definition handle_client_data (c : client_info_t) (r : recv_result)
  : outcome client_info_t :=
  if state c =? 1 then handle_file_transfer c r
  else
    match recv 1023 r with
    | RecvEOF | RecvWouldBlock | RecvError => Returned (-1) c []
    | RecvData temp_buffer =>
        if looks_like_header temp_buffer
        then handle_detected c temp_buffer
        else handle_text c temp_buffer
    end.

(** *** The event loop *)

(** What [epoll_wait] reports for a client descriptor, with what [recv]
    will answer. *)
Inductive client_event :=
| EvErrHup                       (* EPOLLERR | EPOLLHUP *)
| EvIn (r : recv_result).        (* EPOLLIN *)

Definition disconnect (clients : list client_info_t) (fd : Z)
  : list client_info_t * list event :=
  let '(clients', tr) := remove_client clients fd in
  (clients', [EEpollDel fd] ++ tr ++ [EClose fd]).

(** The branch of the event loop for a ready client descriptor. *)
Definition dispatch (clients : list client_info_t) (fd : Z)
  (ev : client_event) : outcome (list client_info_t) :=
  match ev with
  | EvErrHup =>
      let '(clients', tr) := disconnect clients fd in Returned 0 clients' tr
  | EvIn r =>
      match find_client clients fd with
      | None =>
          let '(clients', tr) := disconnect clients fd in
          Returned (-1) clients' tr
      | Some c =>
          match handle_client_data c r with
          | Returned rv c' tr =>
              let clients1 := store_client clients fd c' in
              if rv =? -1 then
                let '(clients', tr') := disconnect clients1 fd in
                Returned rv clients' (tr ++ tr')
              else Returned rv clients1 tr
          | Undefined => Undefined
          | OutOfFuel => OutOfFuel
          end
      end
  end.

End Env.

(** *** What a step meets *)

(** The bytes of [temp_buffer] from [processed] on complete the header
    being assembled. *)
Definition header_arrives (c : client_info_t) (temp_buffer : list byte)
  (processed : Z) : Prop :=
  header_complete c = false /\ 0 <= processed
  /\ bytes_in_buffer c < HEADER_SIZE
  /\ HEADER_SIZE <= bytes_in_buffer c + (len temp_buffer - processed).

(** That header. *)
Definition arriving_header (c : client_info_t) (temp_buffer : list byte)
  (processed : Z) : FileChunkHeader :=
  decode_header
    (firstn 80 (recv_buffer c ++ skipn (Z.to_nat processed) temp_buffer)).

(** The client entry once the arriving header has been copied. *)
Definition with_header (c : client_info_t) (temp_buffer : list byte)
  (processed : Z) : client_info_t :=
  set_recv_buffer
    (recv_buffer c
       ++ slice temp_buffer processed (HEADER_SIZE - bytes_in_buffer c)) c.

(** The sizes [handle_file_transfer] refuses. *)
Definition bad_sizes (h : FileChunkHeader) : Prop :=
  chunk_size h = 0 \/ total_chunks h = 0
  \/ 8192 < chunk_size h \/ 2000000 < total_chunks h.

(** *** Counting chunks *)













(** The ways a header makes [handle_file_transfer] give up. *)
Inductive failure (fopen_ok : list byte -> bool) (c : client_info_t)
  (temp_buffer : list byte) (processed : Z) : Prop :=
| BadSizes :
    header_arrives c temp_buffer processed ->
    bad_sizes (arriving_header c temp_buffer processed) ->
    failure fopen_ok c temp_buffer processed
| CannotCreate :
    header_arrives c temp_buffer processed ->
    ~ bad_sizes (arriving_header c temp_buffer processed) ->
    chunk_id (arriving_header c temp_buffer processed) = 0 ->
    fopen_ok
      (full_path (filename (arriving_header c temp_buffer processed))
         (chunk_size (arriving_header c temp_buffer processed)))
      = false ->
    failure fopen_ok c temp_buffer processed.

(** What the test on the first bytes read in command mode asks for. *)
Definition plausible_header (temp_buffer : list byte) : Prop :=
  HEADER_SIZE <= len temp_buffer
  /\ 0 < chunk_size (decode_header temp_buffer) <= 8192
  /\ 0 < total_chunks (decode_header temp_buffer) <= 2000000.

(** The loop of [handle_file_transfer], started with entry [c] at offset
    [processed] of [temp_buffer], comes to entry [c'] at offset
    [processed'] after the events [tr]. *)
Inductive runs_to (fopen_ok : list byte -> bool) (temp_buffer : list byte)
  : client_info_t -> Z -> client_info_t -> Z -> list event -> Prop :=
| runs_here c processed :
    runs_to fopen_ok temp_buffer c processed c processed []
| runs_on c processed c1 processed1 tr1 c2 processed2 tr2 :
    processed < len temp_buffer ->
    transfer_step fopen_ok temp_buffer (len temp_buffer) c processed
      = Continue c1 processed1 tr1 ->
    runs_to fopen_ok temp_buffer c1 processed1 c2 processed2 tr2 ->
    runs_to fopen_ok temp_buffer c processed c2 processed2 (tr1 ++ tr2).

(** A frame that starts with [ERROR:]. *)
Definition error_frame (data : list byte) : Prop :=
  is_prefix (bytes_of "ERROR:") data = true.

(** No byte is written to a file in [tr]. *)
Definition writes_nothing (tr : list event) : Prop :=
  forall path data, ~ In (EFwrite path data) tr.


(** The descriptors of the connections in the table. *)
Definition descriptors (clients : list client_info_t) : list Z :=
  map socket_fd clients.

End Server.

(** ** The client: [client/epoll_client.c] *)

Module Client.

Inductive client_state_t :=
| STATE_COMMAND      (* command processing *)
| STATE_SENDING      (* Sending file to server *)
| STATE_RECEIVING.   (* Receiving file from server *)

(** An open [FILE *]: a file being read, with the bytes not read yet, or
    a file being written. *)
Inductive FILE :=
| ReadFile (path : list byte) (unread : list byte)
| WriteFile (path : list byte).

Definition file_path (f : FILE) : list byte :=
  match f with
  | ReadFile p _ => p
  | WriteFile p => p
  end.

(** [transfer_state_t].  [filename] is the C string held in the field.
    The fields [bytes_written], [file_buffer], [buffer_pos] and
    [header_received] are never read and are left out. *)
Record transfer_state_t := mkTransfer {
  state : client_state_t;
  file_ptr : option FILE;
  filename : list byte;
  total_chunks : Z;
  current_chunk : Z;
  file_size : Z;
  current_header : FileChunkHeader
}.

Definition init_transfer_state : transfer_state_t :=
  mkTransfer STATE_COMMAND None [] 0 0 0 zero_header.

Definition set_state (v : client_state_t) (t : transfer_state_t) :=
  mkTransfer v (file_ptr t) (filename t) (total_chunks t) (current_chunk t)
    (file_size t) (current_header t).
Definition set_file_ptr (v : option FILE) (t : transfer_state_t) :=
  mkTransfer (state t) v (filename t) (total_chunks t) (current_chunk t)
    (file_size t) (current_header t).
Definition set_filename (v : list byte) (t : transfer_state_t) :=
  mkTransfer (state t) (file_ptr t) v (total_chunks t) (current_chunk t)
    (file_size t) (current_header t).
Definition set_total_chunks (v : Z) (t : transfer_state_t) :=
  mkTransfer (state t) (file_ptr t) (filename t) v (current_chunk t)
    (file_size t) (current_header t).
Definition set_current_chunk (v : Z) (t : transfer_state_t) :=
  mkTransfer (state t) (file_ptr t) (filename t) (total_chunks t) v
    (file_size t) (current_header t).
Definition set_file_size (v : Z) (t : transfer_state_t) :=
  mkTransfer (state t) (file_ptr t) (filename t) (total_chunks t)
    (current_chunk t) v (current_header t).
Definition set_current_header (v : FileChunkHeader) (t : transfer_state_t) :=
  mkTransfer (state t) (file_ptr t) (filename t) (total_chunks t)
    (current_chunk t) (file_size t) v.

(** The [static] variables of [receive_file_chunk_epoll]; [recv_buffer]
    holds the [recv_pos] bytes copied so far. *)
Record statics := mkStatics {
  recv_buffer : list byte;
  expecting_header : bool;
  payload_remaining : Z;
  last_chunk_id : Z;
  transfer_active : bool
}.

Definition recv_pos (s : statics) : Z := len (recv_buffer s).

(** Their initial values. *)
Definition initial_statics : statics := mkStatics [] true 0 (-1) false.

Definition set_recv_buffer (v : list byte) (s : statics) :=
  mkStatics v (expecting_header s) (payload_remaining s) (last_chunk_id s)
    (transfer_active s).
Definition set_expecting_header (v : bool) (s : statics) :=
  mkStatics (recv_buffer s) v (payload_remaining s) (last_chunk_id s)
    (transfer_active s).
Definition set_payload_remaining (v : Z) (s : statics) :=
  mkStatics (recv_buffer s) (expecting_header s) v (last_chunk_id s)
    (transfer_active s).
Definition set_last_chunk_id (v : Z) (s : statics) :=
  mkStatics (recv_buffer s) (expecting_header s) (payload_remaining s) v
    (transfer_active s).
Definition set_transfer_active (v : bool) (s : statics) :=
  mkStatics (recv_buffer s) (expecting_header s) (payload_remaining s)
    (last_chunk_id s) v.

(** [sizeof(recv_buffer)]. *)
Definition RECV_BUFFER_SIZE : Z := HEADER_SIZE + CHUNK_SIZE.

Definition fclose_file (t : transfer_state_t) : list event :=
  match file_ptr t with
  | Some f => [EFclose (file_path f)]
  | None => []
  end.

(** *** Receiving chunks *)

Definition rstate : Type := statics * transfer_state_t.

Inductive step :=
| Continue (s : rstate) (processed : Z) (tr : list event)
| Return (r : Z) (s : rstate) (tr : list event)
| Stuck.

Definition min_avail (bytes_available processed wanted : Z) : Z :=
  if bytes_available - processed <? wanted then bytes_available - processed
  else wanted.

(** [(current_chunk * 100) / total_chunks], or 0. *)
Definition percent_of (current total : Z) : Z :=
  if 0 <? total then Z.quot (current * 100) total else 0.

Section Env.

(** Whether [fopen(path, "wb")] succeeds. *)
Variable fopen_ok : list byte -> bool.

(** Whether the [fwrite] of the chunk counted [n] writes all its bytes. *)
Variable fwrite_ok : Z -> bool.

(** What [receive_file_chunk_epoll] does once the 80 bytes of a header
    are in [recv_buffer]. *)
Definition header_complete_actions (s : rstate) (processed : Z) : step :=
  let '(st, state) := s in
  let h := decode_header (firstn 80 (recv_buffer st)) in
  (* Convert from network byte order: all but [type] *)
  let type_as_sent := host_u32 (firstn 80 (recv_buffer st)) 12 in
  let state :=
    set_current_header
      (mkHeader (chunk_id h) (chunk_size h) (Wire.total_chunks h)
         type_as_sent (Wire.filename h)) state in
  (* Validate chunk size *)
  if (CHUNK_SIZE <? chunk_size h) || (chunk_size h <=? 0) then
    Return (-1) (set_transfer_active false st, state) []
  (* Validate total chunks for very large files *)
  else if 2000000 <? Wire.total_chunks h then
    Return (-1) (set_transfer_active false st, state) []
  (* Update last chunk id tracking and validate sequence *)
  else if (0 <? current_chunk state)
          && negb (chunk_id h =? to_u32 (last_chunk_id st + 1)) then
    Return (-1) (set_transfer_active false st, state) []
  else
    let st := set_last_chunk_id (to_int (chunk_id h)) st in
    let expect_payload (st : statics) :=
      set_recv_buffer []
        (set_payload_remaining (chunk_size h)
           (set_expecting_header false st)) in
    (* First chunk contains filename *)
    if chunk_id h =? 0 then
      let h := mkHeader (chunk_id h) (chunk_size h) (Wire.total_chunks h)
                 type_as_sent (firstn 63 (Wire.filename h) ++ [x00]) in
      let state := set_current_header h state in
      let state := set_filename (c_str (Wire.filename h)) state in
      let state := set_total_chunks (to_int (Wire.total_chunks h)) state in
      if fopen_ok (filename state) then
        Continue
          (expect_payload st,
           set_file_ptr (Some (WriteFile (filename state))) state)
          processed [EFopen (filename state) "wb" true]
      else
        Return (-1)
          (set_transfer_active false st, set_file_ptr None state)
          [EFopen (filename state) "wb" false]
    else Continue (expect_payload st, state) processed [].

(** What it does once the payload of a chunk is in [recv_buffer]. *)
Definition payload_complete_actions (s : rstate) (processed : Z) : step :=
  let '(st, state) := s in
  (* Payload complete, write to file *)
  match file_ptr state with
  | Some f =>
      if negb (fwrite_ok (current_chunk state)) then
        Return (-1) (set_transfer_active false st, state)
          [EFwriteShort (file_path f)]
      else
        let tr_write := [EFwrite (file_path f) (recv_buffer st)] in
        let tr_flush :=
          if (10000 <? total_chunks state)
             && (Z.rem (current_chunk state) 1000 =? 0)
          then [EFflush (file_path f)] else [] in
        let state := set_current_chunk (current_chunk state + 1) state in
        let percent :=
          percent_of (current_chunk state) (total_chunks state) in
        let tr_sync :=
          if (500000 <? total_chunks state)
             && (Z.rem (current_chunk state) 500 =? 0)
          then [EFflush (file_path f); EFsync (file_path f)] else [] in
        let tr := tr_write ++ tr_flush ++ [EProgress percent] ++ tr_sync in
        (* Check if transfer complete *)
        if total_chunks state <=? current_chunk state then
          Return 1 (initial_statics, state) tr
        else
          Continue
            (set_recv_buffer [] (set_expecting_header true st), state)
            processed tr
  | None =>
      let state := set_current_chunk (current_chunk state + 1) state in
      let percent :=
        percent_of (current_chunk state) (total_chunks state) in
      if (500000 <? total_chunks state)
         && (Z.rem (current_chunk state) 500 =? 0)
      then Stuck                           (* fileno(NULL) *)
      else if total_chunks state <=? current_chunk state then
        Return 1 (initial_statics, state) [EProgress percent]
      else
        Continue
          (set_recv_buffer [] (set_expecting_header true st), state)
          processed [EProgress percent]
  end.

(** The loop body of [receive_file_chunk_epoll]. *)
Definition receive_step (buffer : list byte) (bytes_available : Z)
  (s : rstate) (processed : Z) : step :=
  let '(st, state) := s in
  if expecting_header st then
    (* Need to receive header *)
    let header_needed := HEADER_SIZE - recv_pos st in
    let to_copy := min_avail bytes_available processed header_needed in
    if (to_copy <? 0) || (processed <? 0) then Stuck else
    let st := set_recv_buffer
                (recv_buffer st ++ slice buffer processed to_copy) st in
    let processed := processed + to_copy in
    if HEADER_SIZE <=? recv_pos st
    then header_complete_actions (st, state) processed
    else Continue (st, state) processed []
  else
    (* Receive payload *)
    let to_copy :=
      min_avail bytes_available processed (payload_remaining st) in
    if (to_copy <? 0) || (processed <? 0)
       || (RECV_BUFFER_SIZE <? recv_pos st + to_copy) then Stuck else
    let st := set_recv_buffer
                (recv_buffer st ++ slice buffer processed to_copy) st in
    let processed := processed + to_copy in
    let st := set_payload_remaining (payload_remaining st - to_copy) st in
    if payload_remaining st =? 0
    then payload_complete_actions (st, state) processed
    else Continue (st, state) processed [].

(** [while (processed < bytes_available && iteration_count <
    max_iterations)]; the argument counts the iterations still allowed. *)
Fixpoint receive_loop (iterations_left : nat) (buffer : list byte)
  (bytes_available : Z) (s : rstate) (processed : Z) : outcome rstate :=
  match iterations_left with
  | O =>
      (* Hit iteration limit *)
      Returned (-1) (set_transfer_active false (fst s), snd s) []
  | S n =>
      if processed <? bytes_available then
        match receive_step buffer bytes_available s processed with
        | Continue s' processed' tr =>
            prepend tr (receive_loop n buffer bytes_available s' processed')
        | Return r s' tr => Returned r s' tr
        | Stuck => Undefined
        end
      else Returned 0 s []                (* Continue receiving *)
  end.

(** Reset static variables only when starting a completely new
    download. *)
Definition entry_statics (st : statics) (state : transfer_state_t)
  : statics :=
  if (current_chunk state =? 0) && (total_chunks state =? 0)
     && negb (transfer_active st)
  then mkStatics [] true 0 (-1) true
  else st.

(** [receive_file_chunk_epoll(sock, state, buffer, bytes_available)]. *)
Definition receive_file_chunk_epoll (s : rstate) (buffer : list byte)
  : outcome rstate :=
  let '(st, state) := s in
  let bytes_available := len buffer in
  let st := entry_statics st state in
  let max_iterations := bytes_available * 2 in
  receive_loop (Z.to_nat max_iterations) buffer bytes_available
    (st, state) 0.

(** *** Sending chunks *)

(** Whether [send(sock, data, length data, MSG_NOSIGNAL)] returned
    [length data], with the bytes that left, and what the test of [errno]
    that follows a failure makes of it.  A short count leaves [errno] as
    it was: [errno_again] tells whether it held [EAGAIN] or [EWOULDBLOCK]
    from an earlier call when [send_file_chunk_epoll] was entered. *)
Definition send_whole (sock : Z) (data : list byte) (answer : send_result)
  (errno_again : bool) : Z * list event :=
  match answer with
  | SendAccepts n =>
      if (length data <=? S n)%nat then (0, [ESend sock data])
      else (if errno_again then -2 else -1,
            [ESend sock (firstn (S n) data)])
  | SendWouldBlock => (-2, [])       (* Would block, try again later *)
  | SendReset | SendFails => (-1, [])
  end.

(** The header [send_file_chunk_epoll] builds for [bytes_read] bytes. *)
Definition upload_header (state : transfer_state_t) (bytes_read : Z)
  : FileChunkHeader :=
  mkHeader (to_u32 (current_chunk state)) (to_u32 bytes_read)
    (to_u32 (total_chunks state)) 0
    (if current_chunk state =? 0 then strncpy_field (filename state)
     else repeat x00 64).

(** [send_file_chunk_epoll(sock, state)], with what the two [send] calls
    are answered and whether [errno] holds [EAGAIN] or [EWOULDBLOCK] when
    it is entered. *)
Definition send_file_chunk_epoll (sock : Z) (state : transfer_state_t)
  (answer_header answer_payload : send_result) (errno_again : bool)
  : Z * transfer_state_t * list event :=
  match file_ptr state with
  | None => (-1, state, [])                        (* File not open *)
  | Some (WriteFile _) => (0, state, [])           (* fread fails *)
  | Some (ReadFile path unread) =>
      (* Read chunk from file *)
      let file_buffer := firstn 512 unread in
      let bytes_read := len file_buffer in
      let state :=
        set_file_ptr (Some (ReadFile path (skipn 512 unread))) state in
      if bytes_read <=? 0 then (0, state, [])      (* End of file *)
      else
        let header := upload_header state bytes_read in
        (* Send header *)
        match send_whole sock (encode_header header) answer_header
                errno_again with
        | (0, tr_header) =>
            (* Send payload *)
            match send_whole sock file_buffer answer_payload
                    errno_again with
            | (0, tr_payload) =>
                let state :=
                  set_current_chunk (current_chunk state + 1) state in
                let percent :=
                  percent_of (current_chunk state) (total_chunks state) in
                let tr := tr_header ++ tr_payload ++ [EProgress percent] in
                if total_chunks state <=? current_chunk state
                then (1, state, tr)                (* Transfer complete *)
                else (0, state, tr)                (* Continue *)
            | (r, tr_payload) => (r, state, tr_header ++ tr_payload)
            end
        | (r, tr_header) => (r, state, tr_header)
        end
  end.

(** [start_file_upload(sock, filename, state)]; [local_file] is what
    [fopen(filename, "rb")] finds. *)
Definition start_file_upload (local_file : list byte -> option (list byte))
  (filename : list byte) (state : transfer_state_t)
  : Z * transfer_state_t * list event :=
  match local_file filename with
  | None => (-1, state, [EFopen filename "rb" false])
  | Some contents =>
      (* Get file size *)
      let filesize := len contents in
      if filesize <=? 0 then
        (-1, state, [EFopen filename "rb" true; EFclose filename])
      else
        (* Initialize upload state *)
        let state := set_state STATE_SENDING state in
        let state := set_file_ptr (Some (ReadFile filename contents)) state in
        let state := set_filename (firstn 63 (c_str filename)) state in
        let state := set_file_size filesize state in
        let state :=
          set_total_chunks
            (to_int (if 0 <? filesize
                     then Z.quot (filesize + CHUNK_SIZE - 1) CHUNK_SIZE
                     else 1)) state in
        let state := set_current_chunk 0 state in
        (0, state, [EFopen filename "rb" true])
  end.

(** *** The event loop *)

(** The variables of [start_epoll_client] the loop works on. *)
Record loop_state := mkLoop {
  transfer_state : transfer_state_t;
  recv_statics : statics;
  no_data_iterations : Z;
  server_buffer : list byte;           (* server_data_len bytes *)
  running : bool
}.

Definition set_transfer (st : statics) (t : transfer_state_t)
  (l : loop_state) :=
  mkLoop t st (no_data_iterations l) (server_buffer l) (running l).
Definition set_no_data_iterations (v : Z) (l : loop_state) :=
  mkLoop (transfer_state l) (recv_statics l) v (server_buffer l) (running l).
Definition set_server_buffer (v : list byte) (l : loop_state) :=
  mkLoop (transfer_state l) (recv_statics l) (no_data_iterations l) v
    (running l).
Definition set_running (v : bool) (l : loop_state) :=
  mkLoop (transfer_state l) (recv_statics l) (no_data_iterations l)
    (server_buffer l) v.

Definition initial_loop_state : loop_state :=
  mkLoop init_transfer_state initial_statics 0 [] true.

(** The timeout passed to [epoll_wait], in milliseconds; -1 waits without
    limit. *)
Definition epoll_timeout (l : loop_state) : Z :=
  match state (transfer_state l) with
  | STATE_RECEIVING => 10000
  | _ => -1
  end.

(** For very large files, allow longer timeouts. *)
Definition max_timeouts (t : transfer_state_t) : Z :=
  if 100000 <? total_chunks t then 10 else 5.

(** The branch [num_events == 0] of the loop: the wait timed out. *)
Definition on_timeout (l : loop_state) : loop_state * list event :=
  let t := transfer_state l in
  match state t with
  | STATE_RECEIVING =>
      let l := set_no_data_iterations (no_data_iterations l + 1) l in
      if max_timeouts t <=? no_data_iterations l then
        (set_transfer (recv_statics l) init_transfer_state l, fclose_file t)
      else (l, [])
  | _ => (l, [])                      (* Normal timeout in command mode *)
  end.

(** What the loop does with the value of [receive_file_chunk_epoll] or of
    a failed [send_file_chunk_epoll]: on 1 and on -1 the file is closed
    and the transfer state initialised again. *)
Definition after_transfer_call (result : Z) (l : loop_state)
  : loop_state * list event :=
  if (result =? 1) || (result =? -1) then
    (set_transfer (recv_statics l) init_transfer_state l,
     fclose_file (transfer_state l))
  else (l, []).

(** The test that makes the client take bytes read in command mode for
    the start of a download. *)
Definition looks_like_header (t : transfer_state_t)
  (temp_buffer : list byte) : bool :=
  (HEADER_SIZE <=? len temp_buffer)
  && match state t with STATE_COMMAND => true | _ => false end
  && (let potential_header := decode_header temp_buffer in
      (chunk_id potential_header =? 0)
      && (0 <? Wire.total_chunks potential_header)
      && (Wire.total_chunks potential_header <? 2000000)
      && (0 <? chunk_size potential_header)
      && (chunk_size potential_header <=? CHUNK_SIZE)
      && negb (Byte.eqb (nth 0 (Wire.filename potential_header) x00) x00)).

(** Process complete lines from server. *)
Fixpoint response_loop (fuel : nat) (server_buffer : list byte)
  : option (list byte * list event) :=
  match Server.strchr_nl server_buffer with
  | None => Some (server_buffer, [])
  | Some pos =>
      match fuel with
      | O => None
      | S fuel' =>
          let text := firstn pos server_buffer in
          let tr := match text with [] => [] | _ => [EPrintLine text] end in
          let remaining := len server_buffer - (Z.of_nat pos + 1) in
          let rest :=
            if 0 <? remaining then skipn (S pos) server_buffer else [] in
          match response_loop fuel' rest with
          | Some (buf, tr') => Some (buf, tr ++ tr')
          | None => None
          end
      end
  end.

(** [sizeof(server_buffer)]. *)
Definition SERVER_BUFFER_SIZE : Z := 4096.

(** Handle regular server responses (text). *)
Definition on_text (l : loop_state) (temp_buffer : list byte)
  : outcome loop_state :=
  let bytes_read := len temp_buffer in
  let buf :=
    if len (server_buffer l) + bytes_read <? SERVER_BUFFER_SIZE - 1
    then server_buffer l ++ temp_buffer
    else server_buffer l in
  match response_loop (S (length buf)) buf with
  | Some (buf', tr) => Returned 0 (set_server_buffer buf' l) tr
  | None => OutOfFuel
  end.

(** Run [receive_file_chunk_epoll] on the bytes read and act on its
    value. *)
Definition on_file_data (l : loop_state) (temp_buffer : list byte)
  : outcome loop_state :=
  match receive_file_chunk_epoll (recv_statics l, transfer_state l)
          temp_buffer with
  | Returned result (st, t) tr =>
      let '(l', tr') := after_transfer_call result (set_transfer st t l) in
      Returned result l' (tr ++ tr')
  | Undefined => Undefined
  | OutOfFuel => OutOfFuel
  end.

(** The transfer state with which the client starts a download it has
    detected. *)
Definition detected_download (t : transfer_state_t) : transfer_state_t :=
  set_filename []
    (set_total_chunks 0 (set_current_chunk 0 (set_state STATE_RECEIVING t))).

(** The branch of the loop for [EPOLLIN] on the socket. *)
Definition on_socket_readable (l : loop_state) (r : recv_result)
  : outcome loop_state :=
  match recv 1023 r with
  | RecvEOF | RecvWouldBlock | RecvError =>
      Returned 0 (set_running false l) []
  | RecvData temp_buffer =>
      let t := transfer_state l in
      match state t with
      | STATE_RECEIVING => on_file_data l temp_buffer
      | _ =>
          if looks_like_header t temp_buffer then
            (* This is likely the start of a file transfer *)
            let t := detected_download t in
            on_file_data (set_transfer (recv_statics l) t l) temp_buffer
          else on_text l temp_buffer
      end
  end.

(** The branch of the loop for [EPOLLOUT] on the socket while sending. *)
Definition on_socket_writable (sock : Z) (l : loop_state)
  (answer_header answer_payload : send_result) (errno_again : bool)
  : loop_state * list event :=
  let '(result, t, tr) :=
    send_file_chunk_epoll sock (transfer_state l)
      answer_header answer_payload errno_again in
  let l := set_transfer (recv_statics l) t l in
  if (result =? 1) || (result =? -1) then
    let '(l', tr') := after_transfer_call result l in
    (l', tr ++ tr' ++ [EEpollMod sock false])
  else (l, tr).

(** What [epoll_wait] returned, with what the environment will answer to
    the calls that follow and whether [errno] holds [EAGAIN] or
    [EWOULDBLOCK] by then.  Events of the user's terminal are not part of
    this model. *)
Inductive wait_result :=
| WaitInterrupted                     (* -1 with EINTR *)
| WaitFailed                          (* -1 with another errno *)
| WaitTimeout                         (* 0 events *)
| WaitSocket (err_or_hup epollout epollin : bool)
    (answer_header answer_payload : send_result) (errno_again : bool)
    (r : recv_result).

(** One iteration of [while (running)]. *)
Definition event_loop_iteration (sock : Z) (l : loop_state)
  (w : wait_result) : outcome loop_state :=
  match w with
  | WaitInterrupted => Returned 0 l []
  | WaitFailed => Returned 0 (set_running false l) []
  | WaitTimeout => let '(l', tr) := on_timeout l in Returned 0 l' tr
  | WaitSocket err_or_hup epollout epollin answer_header answer_payload
      errno_again r =>
      (* Reset timeout counter when we receive data *)
      let l := set_no_data_iterations 0 l in
      if err_or_hup then Returned 0 (set_running false l) []
      else if epollout
              && match state (transfer_state l) with
                 | STATE_SENDING => true
                 | _ => false
                 end
      then
        let '(l', tr) :=
          on_socket_writable sock l answer_header answer_payload
            errno_again in
        Returned 0 l' tr
      else if epollin then on_socket_readable l r
      else Returned 0 l []
  end.

(** The loop, over the successive results of [epoll_wait]. *)
Fixpoint event_loop (sock : Z) (l : loop_state) (ws : list wait_result)
  : outcome loop_state :=
  match ws with
  | [] => Returned 0 l []
  | w :: ws' =>
      if running l then
        match event_loop_iteration sock l w with
        | Returned _ l' tr => prepend tr (event_loop sock l' ws')
        | other => other
        end
      else Returned 0 l []
  end.

End Env.

(** *** What a step meets *)

(** The bytes of [buffer] from [processed] on complete the header being
    assembled. *)
Definition header_arrives (st : statics) (buffer : list byte)
  (processed : Z) : Prop :=
  expecting_header st = true /\ 0 <= processed
  /\ recv_pos st < HEADER_SIZE
  /\ HEADER_SIZE <= recv_pos st + (len buffer - processed).

(** That header. *)
Definition arriving_header (st : statics) (buffer : list byte)
  (processed : Z) : FileChunkHeader :=
  decode_header
    (firstn 80 (recv_buffer st ++ skipn (Z.to_nat processed) buffer)).

(** The bytes of [buffer] from [processed] on complete the payload being
    assembled. *)
Definition payload_arrives (st : statics) (buffer : list byte)
  (processed : Z) : Prop :=
  expecting_header st = false /\ 0 <= processed < len buffer
  /\ 0 <= payload_remaining st <= len buffer - processed
  /\ recv_pos st + payload_remaining st <= RECV_BUFFER_SIZE.

(** The static variables once the arriving header, or payload, has been
    copied. *)
Definition with_header (st : statics) (buffer : list byte) (processed : Z)
  : statics :=
  set_recv_buffer
    (recv_buffer st ++ slice buffer processed (HEADER_SIZE - recv_pos st))
    st.

Definition with_payload (st : statics) (buffer : list byte) (processed : Z)
  : statics :=
  set_payload_remaining 0
    (set_recv_buffer
       (recv_buffer st ++ slice buffer processed (payload_remaining st)) st).

(** The loop, started in state [s] at offset [processed] of [buffer],
    comes to state [s'] at offset [processed'] after the events [tr]. *)
Inductive runs_to (fopen_ok : list byte -> bool) (fwrite_ok : Z -> bool)
  (buffer : list byte)
  : rstate -> Z -> rstate -> Z -> list event -> Prop :=
| runs_here s processed :
    runs_to fopen_ok fwrite_ok buffer s processed s processed []
| runs_on s processed s1 processed1 tr1 s2 processed2 tr2 :
    processed < len buffer ->
    receive_step fopen_ok fwrite_ok buffer (len buffer) s processed
      = Continue s1 processed1 tr1 ->
    runs_to fopen_ok fwrite_ok buffer s1 processed1 s2 processed2 tr2 ->
    runs_to fopen_ok fwrite_ok buffer s processed s2 processed2
      (tr1 ++ tr2).

(** The events a failing step leaves: none, or the call that failed. *)
Definition failure_trace (tr : list event) : Prop :=
  tr = [] \/ (exists path, tr = [EFopen path "wb" false])
  \/ (exists path, tr = [EFwriteShort path]).

(** No byte is written to a file in [tr]. *)
Definition writes_nothing (tr : list event) : Prop :=
  forall path data, ~ In (EFwrite path data) tr.





(** What the test on the first bytes read in command mode asks for. *)
Definition plausible_header (t : transfer_state_t) (temp_buffer : list byte)
  : Prop :=
  HEADER_SIZE <= len temp_buffer
  /\ state t = STATE_COMMAND
  /\ chunk_id (decode_header temp_buffer) = 0
  /\ 0 < Wire.total_chunks (decode_header temp_buffer) < 2000000
  /\ 0 < chunk_size (decode_header temp_buffer) <= CHUNK_SIZE
  /\ nth 0 (Wire.filename (decode_header temp_buffer)) x00 <> x00.

(** The name under which the client stores a download. *)
Definition local_name (h : FileChunkHeader) : list byte :=
  c_str (firstn 63 (Wire.filename h) ++ [x00]).

(** The ways a chunk makes [receive_file_chunk_epoll] give up. *)
Inductive failure (fopen_ok : list byte -> bool) (fwrite_ok : Z -> bool)
  (st : statics) (t : transfer_state_t) (buffer : list byte)
  (processed : Z) : Prop :=
| BadChunkSize :
    header_arrives st buffer processed ->
    CHUNK_SIZE < chunk_size (arriving_header st buffer processed)
    \/ chunk_size (arriving_header st buffer processed) <= 0 ->
    failure fopen_ok fwrite_ok st t buffer processed
| BadTotal :
    header_arrives st buffer processed ->
    2000000 < Wire.total_chunks (arriving_header st buffer processed) ->
    failure fopen_ok fwrite_ok st t buffer processed
| OutOfOrder :
    header_arrives st buffer processed ->
    0 < current_chunk t ->
    chunk_id (arriving_header st buffer processed)
      <> to_u32 (last_chunk_id st + 1) ->
    failure fopen_ok fwrite_ok st t buffer processed
| CannotOpen :
    header_arrives st buffer processed ->
    chunk_id (arriving_header st buffer processed) = 0 ->
    fopen_ok (local_name (arriving_header st buffer processed)) = false ->
    failure fopen_ok fwrite_ok st t buffer processed
| WriteFails :
    payload_arrives st buffer processed ->
    file_ptr t <> None ->
    fwrite_ok (current_chunk t) = false ->
    failure fopen_ok fwrite_ok st t buffer processed.

End Client.

(** ** The blocking transfer routines: [server/commands.c] *)

Module Commands.

Definition MAX_RETRIES : Z := 10.

Definition MSG_NOT_FOUND := line "ERROR: File not found".
Definition MSG_CANNOT_CREATE := line "ERROR: Cannot create file".
Definition MSG_UPLOADED := line "SUCCESS: File uploaded".
Definition MSG_TRANSFER_FAILED := line "ERROR: File transfer failed".

(** [int total_chunks = (fsize + CHUNK_SIZE - 1) / CHUNK_SIZE]. *)
Definition total_chunks_of (fsize : Z) : Z :=
  to_int (Z.quot (fsize + CHUNK_SIZE - 1) CHUNK_SIZE).

(** The header [send_file] builds for chunk [i]. *)
Definition chunk_header (filename : list byte) (i read_bytes total : Z)
  : FileChunkHeader :=
  mkHeader (to_u32 i) (to_u32 read_bytes) (to_u32 total) (to_u32 0)
    (strncpy_field filename).

Inductive send_status :=
| ChunkSent                (* sent == total_to_send *)
| ChunkFailed              (* the function closes the file and returns *)
| NoFuel.

(** The inner loop of [send_file]:
    [while (sent < total_to_send && retry_count < MAX_RETRIES)].
    [answers k] is what the [k]-th [send] call of the run is answered. *)
Fixpoint send_with_retry (fuel : nat) (answers : nat -> send_result)
  (k : nat) (sock : Z) (chunk_data : list byte) (sent retry_count : Z)
  : send_status * nat * list event :=
  let total_to_send := len chunk_data in
  if (sent <? total_to_send) && (retry_count <? MAX_RETRIES) then
    match fuel with
    | O => (NoFuel, k, [])
    | S fuel' =>
        match answers k with
        | SendAccepts n =>
            let result := Z.min (Z.of_nat (S n)) (total_to_send - sent) in
            let '(st, k', tr) :=
              send_with_retry fuel' answers (S k) sock chunk_data
                (sent + result) 0 in
            (st, k', ESend sock (slice chunk_data sent result) :: tr)
        | SendWouldBlock =>
            (* Socket buffer full, wait and retry *)
            let '(st, k', tr) :=
              send_with_retry fuel' answers (S k) sock chunk_data
                sent (retry_count + 1) in
            (st, k', EUsleep (1000 * (retry_count + 1)) :: tr)
        | SendReset | SendFails => (ChunkFailed, S k, [])
        end
    end
  else if sent <? total_to_send then (ChunkFailed, k, [])
  else (ChunkSent, k, []).

Definition retry_fuel (chunk_data : list byte) : nat :=
  11 * (length chunk_data + 1).

(** Progressive delays for very large files. *)
Definition chunk_delay (total_chunks i : Z) : list event :=
  if (500000 <? total_chunks) && (Z.rem i 100 =? 0) then [EUsleep 900]
  else if (100000 <? total_chunks) && (Z.rem i 500 =? 0) then [EUsleep 600]
  else [].

(** The chunk loop of [send_file], [for (i = ...; i < total_chunks; i++)],
    with [n] chunks to go and [unread] the rest of the file.  The value is
    0 when the loop ends and -1 when the function gave up. *)
Fixpoint send_chunks (n : nat) (answers : nat -> send_result) (k : nat)
  (sock : Z) (filename path : list byte) (total_chunks i : Z)
  (unread : list byte) : outcome unit :=
  match n with
  | O => Returned 0 tt [EFclose path]
  | S n' =>
      let buffer := firstn 512 unread in
      let read_bytes := len buffer in
      let header := chunk_header filename i read_bytes total_chunks in
      (* Send header + data as a single atomic operation *)
      let chunk_data := encode_header header ++ buffer in
      match send_with_retry (retry_fuel chunk_data) answers k sock
              chunk_data 0 0 with
      | (ChunkSent, k', tr) =>
          prepend (tr ++ chunk_delay total_chunks i)
            (send_chunks n' answers k' sock filename path total_chunks
               (i + 1) (skipn 512 unread))
      | (ChunkFailed, _, tr) => Returned (-1) tt (tr ++ [EFclose path])
      | (NoFuel, _, _) => OutOfFuel
      end
  end.

(** [send_file(sock, filename)]; [local_file] is what
    [fopen(filename, "rb")] finds.  The socket buffer sizes set for very
    large files are not recorded. *)
Definition send_file (local_file : list byte -> option (list byte))
  (answers : nat -> send_result) (sock : Z) (filename : list byte)
  : outcome unit :=
  match local_file filename with
  | None =>
      Returned (-1) tt [EFopen filename "rb" false; ESend sock MSG_NOT_FOUND]
  | Some contents =>
      let fsize := len contents in
      let total_chunks := total_chunks_of fsize in
      prepend [EFopen filename "rb" true]
        (send_chunks (Z.to_nat total_chunks) answers 0 sock filename
           filename total_chunks 0 contents)
  end.

(** [receive_file(sock)], the blocking receiver.  [stream] is everything
    the peer sends before it closes; each [recv(..., MSG_WAITALL)] takes
    what it asks for from the front.  The value is 0 when a file was open
    at the end and -1 otherwise. *)
Fixpoint receive_file_loop (fuel : nat) (fopen_ok : list byte -> bool)
  (sock : Z) (stream : list byte) (fp : option (list byte))
  (received_chunks : Z) : outcome unit :=
  let finish (tr : list event) :=
    match fp with
    | Some f => Returned 0 tt (tr ++ [EFclose f; ESend sock MSG_UPLOADED])
    | None => Returned (-1) tt (tr ++ [ESend sock MSG_TRANSFER_FAILED])
    end in
  match fuel with
  | O => OutOfFuel
  | S fuel' =>
      match stream with
      | [] => finish []                          (* header_bytes <= 0 *)
      | _ =>
          if len stream <? HEADER_SIZE then Undefined else
          let header := decode_header (firstn 80 stream) in
          let stream := skipn 80 stream in
          let chunk_id := to_int (chunk_id header) in
          let chunk_size := to_int (chunk_size header) in
          let total_chunks := to_int (total_chunks header) in
          let opened :=
            if chunk_id =? 0 then
              let filename := firstn 63 (c_str (filename header)) in
              let full_path := bytes_of "saved/" ++ filename in
              Some (full_path, fopen_ok full_path)
            else None in
          match opened with
          | Some (full_path, false) =>
              Returned (-1) tt
                [EFopen full_path "wb" false; ESend sock MSG_CANNOT_CREATE]
          | _ =>
              let fp' :=
                match opened with
                | Some (full_path, _) => Some full_path
                | None => fp
                end in
              let tr_open :=
                match opened with
                | Some (full_path, _) => [EFopen full_path "wb" true]
                | None => []
                end in
              let finish' (tr : list event) :=
                match fp' with
                | Some f =>
                    Returned 0 tt (tr ++ [EFclose f; ESend sock MSG_UPLOADED])
                | None =>
                    Returned (-1) tt (tr ++ [ESend sock MSG_TRANSFER_FAILED])
                end in
              if (chunk_size <? 0) || (CHUNK_SIZE <? chunk_size)
              then Undefined                     (* buffer[CHUNK_SIZE] *)
              else
                let buffer := firstn (Z.to_nat chunk_size) stream in
                if negb (len buffer =? chunk_size) then finish' tr_open
                else
                  let tr_write :=
                    match fp' with
                    | Some f => [EFwrite f buffer]
                    | None => []
                    end in
                  let received_chunks := received_chunks + 1 in
                  if total_chunks <=? received_chunks
                  then finish' (tr_open ++ tr_write)
                  else
                    prepend (tr_open ++ tr_write)
                      (receive_file_loop fuel' fopen_ok sock
                         (skipn (Z.to_nat chunk_size) stream) fp'
                         received_chunks)
          end
      end
  end.

Definition receive_file (fopen_ok : list byte -> bool) (sock : Z)
  (stream : list byte) : outcome unit :=
  prepend [EMkdir (bytes_of "saved")]
    (receive_file_loop (S (length stream)) fopen_ok sock stream None 0).

(** A socket that takes every chunk in one [send]. *)
Definition accepts_whole (answers : nat -> send_result) : Prop :=
  forall k, exists n, answers k = SendAccepts n /\ (592 <= S n)%nat.

(** The largest file whose count of chunks fits an [int]. *)
Definition MAX_FILE_SIZE : Z := 2 ^ 40 - 512.

(** The bytes of the file that chunk [i] carries. *)
Definition piece (contents : list byte) (i : nat) : list byte :=
  slice contents (CHUNK_SIZE * Z.of_nat i) CHUNK_SIZE.

(** What chunk number [j] of the chunks sent from offset [first] on says
    on the wire; [contents] is the file from that offset on. *)
Definition chunk_says (filename contents : list byte) (total : Z)
  (first j : nat) (d : list byte) : Prop :=
  let h := decode_header d in
  chunk_id h = Z.of_nat (first + j)
  /\ total_chunks h = total
  /\ chunk_size h = len (skipn 80 d)
  /\ skipn 80 d = piece contents j
  /\ Wire.filename h = strncpy_field filename.

End Commands.

(** ** Where a relative path leads *)

(** Pathname resolution as the operating system does it for a relative
    path, without symbolic links: components are separated by [/], empty
    components and [.] stay where they are, [..] goes up one directory. *)
Module Path.









End Path.

(** ** Streams used in the examples *)

Module Examples.

(** A chunk as it travels: the header, then the payload. *)
Definition chunk (id total : Z) (name : string) (payload : list byte)
  : list byte :=
  encode_header
    (mkHeader id (len payload) total 0 (strncpy_field (bytes_of name)))
  ++ payload.

(** A header alone, announcing [size] bytes. *)
Definition header_only (id size total : Z) (name : string) : list byte :=
  encode_header (mkHeader id size total 0 (strncpy_field (bytes_of name))).

Definition always (_ : list byte) : bool := true.
Definition never (_ : list byte) : bool := false.
Definition writes (_ : Z) : bool := true.

(** A connection of descriptor 5 that has sent [upload]. *)
Definition uploading : Server.client_info_t :=
  Server.set_state 1 (Server.new_client 5 "10.0.0.7").

(** A fresh connection in command mode. *)
Definition commanding : Server.client_info_t :=
  Server.new_client 5 "10.0.0.7".

(** A connection in command mode that holds 1000 bytes without a
    newline. *)
Definition nearly_full : Server.client_info_t :=
  Server.set_buffer (repeat "a"%byte 1000) commanding.

(** Five chunks announced, ids 0, 1 and 3 sent. *)
Definition ids_0_1_3 : list byte :=
  chunk 0 5 "f" ["A"%byte] ++ chunk 1 5 "" ["B"%byte]
    ++ chunk 3 5 "" ["C"%byte].



(** A first chunk, then a header announcing 9000 bytes. *)
Definition then_oversized : list byte :=
  chunk 0 2 "f" ["A"%byte] ++ header_only 1 9000 2 "".


(** A header of id 7 without a file name. *)
Definition nameless_id_7 : list byte := header_only 7 1 1 "".

(** That connection after the first of two chunks of [saved/f]. *)
Definition midway : Server.client_info_t :=
  Server.set_received_chunks 1
    (Server.set_expected_chunks 2
       (Server.set_upload_file (Some (bytes_of "saved/f")) uploading)).

(** The client after the first of two chunks of a download. *)
Definition midway_download : Client.rstate :=
  (Client.mkStatics [] true 0 0 true,
   Client.mkTransfer Client.STATE_RECEIVING
     (Some (Client.WriteFile (bytes_of "f"))) (bytes_of "f") 2 1 0
     zero_header).

(** The client after the chunks 0 and 1 of a download of five. *)
Definition after_two : Client.rstate :=
  (Client.mkStatics [] true 0 1 true,
   Client.mkTransfer Client.STATE_RECEIVING
     (Some (Client.WriteFile (bytes_of "f"))) (bytes_of "f") 5 2 0
     zero_header).

(** The event loop of the client after the first of two chunks of a
    download, the wait just returned. *)
Definition stalled : Client.loop_state :=
  Client.mkLoop (snd midway_download) (fst midway_download) 0 [] true.

(** The client before the second of two chunks of an upload. *)
Definition midway_upload : Client.transfer_state_t :=
  Client.mkTransfer Client.STATE_SENDING
    (Some (Client.ReadFile (bytes_of "f") ["z"%byte])) (bytes_of "f") 2 1
    513 zero_header.

(** The client while it downloads, before the first byte. *)
Definition downloading : Client.rstate :=
  (Client.initial_statics,
   Client.set_state Client.STATE_RECEIVING Client.init_transfer_state).

(** A socket that takes every chunk whole. *)
Definition roomy (_ : nat) : send_result := SendAccepts 591.

(** A file of 513 bytes named [a]. *)
Definition file_513 (name : list byte) : option (list byte) :=
  if bytes_eqb name (bytes_of "a") then Some (repeat "x"%byte 513) else None.

End Examples.

(** ** Accepting connections: [handle_new_connection] *)

Module Connections.
Import Server.

(** What [accept] returns, with what the calls that follow are answered:
    whether [fcntl] sets the socket non-blocking and whether
    [epoll_ctl(EPOLL_CTL_ADD)] takes it.  [client_ip] is the text
    [inet_ntop] writes. *)
Inductive accept_result :=
| AcceptFails                          (* -1, whatever errno *)
| Accepted (client_fd : Z) (client_ip : string)
    (nonblocking_ok epoll_add_ok : bool).

(** [handle_new_connection(server_fd, epoll_fd)]: its value, the client
    table it leaves and the files and sockets it closes. *)
Definition handle_new_connection (clients : list client_info_t)
  (a : accept_result) : Z * list client_info_t * list event :=
  match a with
  | AcceptFails => (-1, clients, [])
  | Accepted client_fd client_ip nonblocking_ok epoll_add_ok =>
      (* Set client socket to non-blocking *)
      if negb nonblocking_ok then (-1, clients, [EClose client_fd])
      else
        (* Add client to our tracking *)
        match add_client clients client_fd client_ip with
        | None => (-1, clients, [EClose client_fd])
        | Some clients1 =>
            (* Add client socket to epoll *)
            if epoll_add_ok then (0, clients1, [])
            else
              let '(clients2, tr) := remove_client clients1 client_fd in
              (-1, clients2, tr ++ [EClose client_fd])
        end
  end.

End Connections.

(** ** Text on the wire *)

Module Text.

(** Lines as they travel, each followed by a line feed. *)
Definition framed_lines (ls : list (list byte)) : list byte :=
  flat_map (fun l => l ++ [x0a]) ls.

(** A line holds neither a line feed nor a NUL. *)
Definition plain (l : list byte) : Prop := ~ In x0a l /\ ~ In x00 l.

(** A NUL comes before every line feed of the buffer. *)
Definition nul_first (buf : list byte) : Prop :=
  exists pre post, buf = pre ++ x00 :: post /\ ~ In x0a pre.

(** The command is an [upload]: [strncmp(command, "upload", 6) == 0]. *)
Definition is_upload (cmd : list byte) : bool :=
  is_prefix (bytes_of "upload") (Server.strip_cr cmd).

End Text.

(** ** The file commands of [server/commands.c] *)

Module Handlers.

Definition MSG_DIR_CHANGED := line "OK: Directory changed".
Definition MSG_CANNOT_CHDIR := line "ERROR: Cannot change directory".

(** The 23 bytes [send] is told to take from a literal of 22 characters:
    the text and the NUL that ends it. *)
Definition MSG_DELETED := line "SUCCESS: File deleted" ++ [x00].
Definition MSG_CANNOT_DELETE := line "ERROR: Cannot delete file".

(** Again 23 bytes of a literal of 22 characters. *)
Definition MSG_RENAMED := line "SUCCESS: File renamed" ++ [x00].
Definition MSG_CANNOT_RENAME := line "ERROR: Cannot rename file".

(** [change_dir(sock, path)]; [chdir_ok] tells whether [chdir] returns
    0.  Of the calls made, the [send] is recorded. *)
Definition change_dir (chdir_ok : list byte -> bool) (sock : Z)
  (path : list byte) : list event :=
  if chdir_ok path then [ESend sock MSG_DIR_CHANGED]
  else [ESend sock MSG_CANNOT_CHDIR].

(** [delete_file(sock, filename)]; [unlink_ok] tells whether [unlink]
    returns 0. *)
Definition delete_file (unlink_ok : list byte -> bool) (sock : Z)
  (filename : list byte) : list event :=
  if unlink_ok filename then [ESend sock MSG_DELETED]
  else [ESend sock MSG_CANNOT_DELETE].

(** [rename_file(sock, old_name, new_name)]; [rename_ok] tells whether
    [rename] returns 0. *)
Definition rename_file (rename_ok : list byte -> list byte -> bool)
  (sock : Z) (old_name new_name : list byte) : list event :=
  if rename_ok old_name new_name then [ESend sock MSG_RENAMED]
  else [ESend sock MSG_CANNOT_RENAME].

End Handlers.

(** ** An upload, chunk after chunk *)

Module Upload.
Import Client.

(** The transfer state once [fread] has taken a chunk from the file. *)
Definition after_read (path unread : list byte) (t : transfer_state_t)
  : transfer_state_t :=
  set_file_ptr (Some (ReadFile path (skipn 512 unread))) t.

End Upload.

(** ** A file as chunks on the wire *)

Module Frames.

(** What follows the 80 bytes of the header in a chunk. *)
Definition payload_of (d : list byte) : list byte := skipn 80 d.

(** [d] is chunk [i] of [n]: its header says so and announces the
    payload that follows it, of 1 to [CHUNK_SIZE] bytes. *)
Definition is_chunk (n i : Z) (d : list byte) : Prop :=
  chunk_id (decode_header d) = i
  /\ total_chunks (decode_header d) = n
  /\ chunk_size (decode_header d) = len (payload_of d)
  /\ 0 < len (payload_of d) <= CHUNK_SIZE.

(** [ds] are the chunks [i], [i + 1], ... of [n]. *)
Fixpoint chunks_from (n i : Z) (ds : list (list byte)) : Prop :=
  match ds with
  | [] => True
  | d :: rest => is_chunk n i d /\ chunks_from n (i + 1) rest
  end.

(** [ds] are all the chunks of a file of [n] chunks. *)
Definition whole_file (n : Z) (ds : list (list byte)) : Prop :=
  chunks_from n 0 ds /\ len ds = n.

(** The bytes of the file that the chunks carry. *)
Definition carried (ds : list (list byte)) : list byte :=
  flat_map payload_of ds.

(** The bytes written to the file [path] in [tr], in order. *)
Fixpoint written (path : list byte) (tr : list event) : list byte :=
  match tr with
  | [] => []
  | EFwrite p data :: rest =>
      if bytes_eqb p path then data ++ written path rest
      else written path rest
  | _ :: rest => written path rest
  end.

(** The name a first chunk gives the file. *)
Definition name_of (d : list byte) : list byte :=
  c_str (filename (decode_header d)).

(** The path the blocking [receive_file] opens for a first chunk. *)
Definition blocking_path (d : list byte) : list byte :=
  bytes_of "saved/" ++ firstn 63 (name_of d).

End Frames.

(** ** One connection over several reads *)

Module Session.
Import Server Frames.

(** The calls of [handle_client_data] the event loop makes for one
    connection, one for each read, as long as they return 0; [reads] are
    the bytes each [recv] finds. *)
Fixpoint serve (fopen_ok : list byte -> bool) (c : client_info_t)
  (reads : list (list byte)) : outcome client_info_t :=
  match reads with
  | [] => Returned 0 c []
  | data :: rest =>
      match handle_client_data fopen_ok c (RecvData data) with
      | Returned rv c' tr =>
          if rv =? 0 then prepend tr (serve fopen_ok c' rest)
          else Returned rv c' tr
      | Undefined => Undefined
      | OutOfFuel => OutOfFuel
      end
  end.

(** What the entry of an upload holds when the stream stands at byte [o]
    of [d], the chunk [j] of [n] of the file stored at [path]. *)
Definition stands_at (n : Z) (path : list byte) (c : client_info_t)
  (j : Z) (d : list byte) (o : Z) : Prop :=
  state c = 1 /\ 0 <= o < len d
  /\ (o < 80 ->
      header_complete c = false /\ recv_buffer c = firstn (Z.to_nat o) d)
  /\ (80 <= o ->
      header_complete c = true /\ payload_remaining c = len d - o)
  /\ (0 < j \/ 80 <= o ->
      upload_file c = Some path /\ expected_chunks c = n
      /\ received_chunks c = j).

(** The stream stands in [d], the chunk [j] of [n], before the chunks
    [rest]; the first chunk names the file, which can be created. *)
Definition placed (fopen_ok : list byte -> bool) (n : Z) (path : list byte)
  (j : Z) (d : list byte) (rest : list (list byte)) : Prop :=
  chunks_from n j (d :: rest) /\ j + len (d :: rest) = n /\ 0 <= j
  /\ (j = 0 ->
      path = full_path (filename (decode_header d))
               (chunk_size (decode_header d))
      /\ fopen_ok path = true).

(** The bytes of the file still to come from byte [o] of [d] on. *)
Definition payload_left (o : Z) (d : list byte) (rest : list (list byte))
  : list byte :=
  skipn (Z.to_nat (Z.max o 80)) d ++ carried rest.

(** The entry once the last chunk has been stored. *)
Definition stored (c : client_info_t) : Prop :=
  state c = 0 /\ upload_file c = None /\ header_complete c = false
  /\ recv_buffer c = [] /\ expected_chunks c = 0 /\ received_chunks c = 0.

End Session.

(** ** A download over several reads *)

Module Download.
Import Client Frames.

(** [epoll_wait] reports the socket readable, and writable as it always
    is while nothing is being sent; [data] are the bytes [recv] finds.
    It is used for a client that is not sending: no [send] is made then,
    and its answers and [errno] play no part. *)
Definition readable (data : list byte) : wait_result :=
  WaitSocket false true true SendWouldBlock SendWouldBlock false
    (RecvData data).

(** What the client holds when the stream stands at byte [o] of [d], the
    chunk [j] of [n] of the file stored as [name]. *)
Definition stands_at (n : Z) (name : list byte) (s : rstate) (j : Z)
  (d : list byte) (o : Z) : Prop :=
  0 <= o < len d
  /\ transfer_active (fst s) = true
  /\ state (snd s) = STATE_RECEIVING
  /\ current_chunk (snd s) = j
  /\ (o < 80 ->
      expecting_header (fst s) = true
      /\ recv_buffer (fst s) = firstn (Z.to_nat o) d
      /\ (0 < j -> last_chunk_id (fst s) = j - 1))
  /\ (80 <= o ->
      expecting_header (fst s) = false
      /\ recv_buffer (fst s) = slice d 80 (o - 80)
      /\ payload_remaining (fst s) = len d - o
      /\ last_chunk_id (fst s) = j)
  /\ (0 < j \/ 80 <= o ->
      file_ptr (snd s) = Some (WriteFile name)
      /\ total_chunks (snd s) = n).

(** The stream stands in [d], the chunk [j] of [n], before the chunks
    [rest]; the first chunk names the file, which can be created. *)
Definition placed (fopen_ok : list byte -> bool) (n : Z) (name : list byte)
  (j : Z) (d : list byte) (rest : list (list byte)) : Prop :=
  chunks_from n j (d :: rest) /\ j + len (d :: rest) = n /\ 0 <= j
  /\ (j = 0 ->
      name = local_name (decode_header d) /\ fopen_ok name = true).

(** What a read leaves of a download of which the chunks [d], [rest]
    were still to be stored: with [more] bytes of the stream to come,
    the download is done, or it stands further on. *)
Definition left_by_read (fopen_ok : list byte -> bool) (n : Z)
  (name : list byte) (l l' : loop_state) (tr : list event) (d : list byte)
  (rest : list (list byte)) (more : list byte) : Prop :=
  server_buffer l' = server_buffer l /\ running l' = running l
  /\ ((more = [] /\ transfer_state l' = init_transfer_state
       /\ recv_statics l' = initial_statics
       /\ written name tr = carried (d :: rest)
       /\ In (EFclose name) tr)
      \/ (exists j' d' rest' o',
            stands_at n name (recv_statics l', transfer_state l') j' d' o'
            /\ placed fopen_ok n name j' d' rest'
            /\ more = skipn (Z.to_nat o') d' ++ concat rest'
            /\ written name tr ++ carried (d' :: rest')
               = carried (d :: rest))).

End Download.

(** ** The commands of the user: [process_user_command] *)

Module Console.
Import Client.

(** What a [send] whose data is [data] puts on the wire. *)
Definition sent (sock : Z) (data : list byte) (answer : send_result)
  : list event :=
  match answer with
  | SendAccepts n => [ESend sock (firstn (S n) data)]
  | SendWouldBlock | SendReset | SendFails => []
  end.

(** [snprintf(buf, 256, ...)] keeps 255 bytes of the text. *)
Definition snprintf_256 (text : list byte) : list byte := firstn 255 text.

(** [start_file_download(sock, filename, state)]: the [get] command is
    sent and the state is left alone. *)
Definition start_file_download (sock : Z) (filename : list byte)
  (answer : send_result) : Z * list event :=
  let command := snprintf_256 (bytes_of "get " ++ filename ++ [x0a]) in
  match answer with
  | SendAccepts _ => (0, sent sock command answer)
  | SendWouldBlock | SendReset | SendFails => (-1, [])
  end.

(** [process_user_command(sock, command, transfer_state, epoll_fd)], for
    a command that is a C string; [answer] is what the one [send] it may
    make is answered.  What it prints is left out. *)
Definition process_user_command
  (local_file : list byte -> option (list byte)) (sock : Z)
  (command : list byte) (answer : send_result) (t : transfer_state_t)
  : transfer_state_t * list event :=
  if is_prefix (bytes_of "get ") command then
    let filename := skipn 4 command in
    match filename with
    | [] => (t, [])               (* 'get' command requires a filename *)
    | _ =>
        match state t with
        | STATE_COMMAND =>
            (t, snd (start_file_download sock filename answer))
        | _ => (t, [])             (* File transfer already in progress *)
        end
    end
  else if is_prefix (bytes_of "send ") command then
    let filename := skipn 5 command in
    match filename with
    | [] => (t, [])
    | _ =>
        match state t with
        | STATE_COMMAND =>
            match start_file_upload local_file filename t with
            | (0, t', tr) =>
                (* Send upload command to server first *)
                (t', tr ++ sent sock (line "upload") answer
                       ++ [EEpollMod sock true])
            | (_, t', tr) => (t', tr)
            end
        | _ => (t, [])
        end
    end
  else if bytes_eqb command (bytes_of "list") then
    (t, sent sock (line "ls") answer)
  else if bytes_eqb command (bytes_of "pwd") then
    (t, sent sock (line "pwd") answer)
  else if is_prefix (bytes_of "cd ") command then
    match skipn 3 command with
    | [] => (t, [])
    | _ => (t, sent sock (snprintf_256 (command ++ [x0a])) answer)
    end
  else if is_prefix (bytes_of "delete ") command then
    match skipn 7 command with
    | [] => (t, [])
    | _ => (t, sent sock (snprintf_256 (command ++ [x0a])) answer)
    end
  else if bytes_eqb command (bytes_of "health") then
    (t, sent sock (line "health") answer)
  else (t, []).                    (* Unknown command *)

(** [epoll_wait] reports the socket writable; the two [send] calls of a
    chunk take up to [S n1] and [S n2] bytes. *)
Definition writable (n1 n2 : nat) (errno_again : bool) : wait_result :=
  WaitSocket false true false (SendAccepts n1) (SendAccepts n2)
    errno_again RecvWouldBlock.

(** A command as it is typed: no control characters. *)
Definition typed (command : list byte) : Prop :=
  Forall (fun b => 32 <= byte_val b) command.

(** The header of chunk [j] of the [total] chunks of [contents] as
    [send_file_chunk_epoll] builds it for the file held under [name]. *)
Definition upload_head (name contents : list byte) (total : Z) (j : nat)
  : FileChunkHeader :=
  mkHeader (to_u32 (Z.of_nat j))
    (to_u32 (len (Commands.piece contents j))) (to_u32 total) 0
    (if Z.of_nat j =? 0 then strncpy_field name else repeat x00 64).

(** That chunk on the wire: the header of one [send], then the payload of
    the next. *)
Definition upload_frame (name contents : list byte) (total : Z) (j : nat)
  : list byte :=
  encode_header (upload_head name contents total j)
    ++ Commands.piece contents j.

End Console.

(** ** A download that stalls *)

Module Stalled.

(** The event loop of the client in the first of two chunks of a
    download, one byte of a payload of two received. *)
Definition in_payload : Client.loop_state :=
  Client.mkLoop
    (Client.mkTransfer Client.STATE_RECEIVING
       (Some (Client.WriteFile (bytes_of "f"))) (bytes_of "f") 2 0 0
       zero_header)
    (Client.mkStatics ["A"%byte] false 1 0 true) 0 [] true.

End Stalled.

(** ** The lines of the blocking server: [read_line] *)

Module Lines.

(** [while (recv(sock, &c, 1, 0) > 0 && c != '\n');]: what is left of the
    stream. *)
Fixpoint drain (stream : list byte) : list byte :=
  match stream with
  | [] => []
  | c :: rest => if Byte.eqb c x0a then rest else drain rest
  end.

(** The loop [while (i < max_len - 1)] of [read_line] and what follows
    it, with [room] for [max_len - 1 - i] and [buf] for the [i] bytes
    stored.  [stream] is what the peer sends before it closes; every
    [recv] takes its first byte, and returns 0 when there is none.  The
    value is what [read_line] returns, with the bytes stored and the
    stream not read. *)
Fixpoint read_line_from (room : nat) (stream : list byte) (buf : list byte)
  : Z * list byte * list byte :=
  match room with
  | O => (len buf, buf, drain stream)      (* Ensure no buffer overflow *)
  | S room' =>
      match stream with
      | [] => (0, buf, [])                 (* n <= 0 *)
      | c :: rest =>
          if Byte.eqb c x0a then (len buf, buf, rest)
          else read_line_from room' rest (buf ++ [c])
      end
  end.

(** [read_line(sock, buf, max_len)], for [max_len] of 1 or more. *)
Definition read_line (max_len : nat) (stream : list byte)
  : Z * list byte * list byte :=
  read_line_from (max_len - 1) stream [].

End Lines.

(** * Properties *)

(** ** Bytes and headers *)

Lemma len_nonneg {A : Type} (l : list A) : 0 <= len l.
Proof. unfold len. lia. Qed.

Lemma len_app {A : Type} (l1 l2 : list A) : len (l1 ++ l2) = len l1 + len l2.
Proof. unfold len. rewrite length_app. lia. Qed.

Lemma len_nil_iff {A : Type} (l : list A) : len l = 0 <-> l = [].
Proof.
  unfold len. split.
  - destruct l; [reflexivity | simpl; lia].
  - intros ->. reflexivity.
Qed.

Lemma byte_val_range (b : byte) : 0 <= byte_val b < 256.
Proof.
  unfold byte_val. pose proof (Byte.to_N_bounded b) as H.
  split; [apply N2Z.is_nonneg |].
  apply N.lt_succ_r in H. change 256 with (Z.of_N 256).
  apply N2Z.inj_lt. exact H.
Qed.

Lemma byte_val_of_Z (z : Z) : byte_val (byte_of_Z z) = z mod 256.
Proof.
  unfold byte_of_Z, byte_val.
  assert (Hr : 0 <= z mod 256 < 256) by (apply Z.mod_pos_bound; lia).
  destruct (Byte.of_N (Z.to_N (z mod 256))) as [b|] eqn:E.
  - apply Byte.to_of_N in E. rewrite E. rewrite Z2N.id; lia.
  - apply Byte.of_N_None_iff in E. lia.
Qed.

Lemma to_u32_range (z : Z) : 0 <= to_u32 z < 2 ^ 32.
Proof. unfold to_u32. apply Z.mod_pos_bound. lia. Qed.

Lemma to_u32_small (z : Z) : 0 <= z < 2 ^ 32 -> to_u32 z = z.
Proof. intros H. unfold to_u32. apply Z.mod_small. exact H. Qed.

Lemma to_int_small (z : Z) : 0 <= z < 2 ^ 31 -> to_int z = z.
Proof.
  intros H. unfold to_int. rewrite Z.mod_small by lia.
  destruct (z <? 2 ^ 31) eqn:E; [reflexivity | apply Z.ltb_ge in E; lia].
Qed.

(** The four bytes [htonl] writes read back, through [ntohl], as the value
    modulo 2^32. *)
Lemma ntohl_htonl (z : Z) (rest : list byte) :
  ntohl (htonl z ++ rest) 0 = to_u32 z.
Proof.
  unfold ntohl, htonl. cbn [nth app Nat.add].
  rewrite !byte_val_of_Z.
  pose proof (to_u32_range z) as Hr. set (u := to_u32 z) in *.
  clearbody u.
  change (2 ^ 24) with 16777216. change (2 ^ 16) with 65536.
  change (2 ^ 8) with 256. change (2 ^ 32) with 4294967296 in Hr.
  pose proof (Z.div_mod u 256 ltac:(lia)) as H0.
  pose proof (Z.div_mod (u / 256) 256 ltac:(lia)) as H1.
  pose proof (Z.div_mod (u / 65536) 256 ltac:(lia)) as H2.
  replace (u / 256 / 256) with (u / 65536) in H1
    by (rewrite Z.div_div by lia; reflexivity).
  replace (u / 65536 / 256) with (u / 16777216) in H2
    by (rewrite Z.div_div by lia; reflexivity).
  assert (H3 : u / 16777216 < 256)
    by (apply Z.div_lt_upper_bound; lia).
  assert (H4 : 0 <= u / 16777216) by (apply Z.div_pos; lia).
  rewrite (Z.mod_small (u / 16777216) 256) by lia.
  pose proof (Z.mod_pos_bound u 256 ltac:(lia)).
  pose proof (Z.mod_pos_bound (u / 256) 256 ltac:(lia)).
  pose proof (Z.mod_pos_bound (u / 65536) 256 ltac:(lia)).
  lia.
Qed.

Lemma htonl_length (z : Z) : length (htonl z) = 4%nat.
Proof. reflexivity. Qed.

Lemma ntohl_skip (pre raw : list byte) (off : nat) :
  ntohl (pre ++ raw) (length pre + off) = ntohl raw off.
Proof.
  unfold ntohl.
  replace (length pre + off + 1)%nat with (length pre + (off + 1))%nat by lia.
  replace (length pre + off + 2)%nat with (length pre + (off + 2))%nat by lia.
  replace (length pre + off + 3)%nat with (length pre + (off + 3))%nat by lia.
  rewrite !app_nth2_plus. reflexivity.
Qed.

Lemma encode_header_length (h : FileChunkHeader) :
  length (encode_header h) = 80%nat.
Proof.
  unfold encode_header. rewrite !length_app, !htonl_length.
  rewrite firstn_length_le; [reflexivity |].
  rewrite length_app, repeat_length. lia.
Qed.

Lemma strncpy_field_length (name : list byte) :
  length (strncpy_field name) = 64%nat.
Proof.
  unfold strncpy_field. rewrite length_app, repeat_length.
  pose proof (firstn_le_length 63 (c_str name)). lia.
Qed.

Lemma firstn_app_exact {A : Type} (n : nat) (l r : list A) :
  length l = n -> firstn n (l ++ r) = l.
Proof.
  intros <-. rewrite firstn_app, Nat.sub_diag, firstn_all. simpl.
  apply app_nil_r.
Qed.

(** What was encoded is what is decoded, whatever follows the header. *)
Lemma decode_encode (h : FileChunkHeader) (payload : list byte) :
  length (filename h) = 64%nat ->
  decode_header (encode_header h ++ payload) =
    mkHeader (to_u32 (chunk_id h)) (to_u32 (chunk_size h))
      (to_u32 (total_chunks h)) (to_u32 (type h)) (filename h).
Proof.
  intros Hf. unfold decode_header, encode_header.
  rewrite (firstn_app_exact 64 (filename h)) by exact Hf.
  rewrite <- !app_assoc.
  f_equal.
  - apply ntohl_htonl.
  - change 4%nat with (length (htonl (chunk_id h)) + 0)%nat.
    rewrite ntohl_skip. apply ntohl_htonl.
  - rewrite (app_assoc (htonl (chunk_id h))).
    change 8%nat
      with (length (htonl (chunk_id h) ++ htonl (chunk_size h)) + 0)%nat.
    rewrite ntohl_skip. apply ntohl_htonl.
  - rewrite (app_assoc (htonl (chunk_id h))).
    rewrite (app_assoc (htonl (chunk_id h) ++ htonl (chunk_size h))).
    change 12%nat
      with (length ((htonl (chunk_id h) ++ htonl (chunk_size h))
                      ++ htonl (total_chunks h)) + 0)%nat.
    rewrite ntohl_skip. apply ntohl_htonl.
  - unfold htonl. cbn [app skipn]. rewrite <- app_assoc.
    apply firstn_app_exact. exact Hf.
Qed.

Lemma ntohl_first_80 (raw : list byte) (off : nat) :
  (off + 3 < 80)%nat -> ntohl (firstn 80 raw) off = ntohl raw off.
Proof.
  intros H. unfold ntohl.
  rewrite !nth_firstn.
  assert (E0 : (off <? 80)%nat = true) by (apply Nat.ltb_lt; lia).
  assert (E1 : (off + 1 <? 80)%nat = true) by (apply Nat.ltb_lt; lia).
  assert (E2 : (off + 2 <? 80)%nat = true) by (apply Nat.ltb_lt; lia).
  assert (E3 : (off + 3 <? 80)%nat = true) by (apply Nat.ltb_lt; lia).
  rewrite E0, E1, E2, E3. reflexivity.
Qed.

(** A header is read from the first 80 bytes. *)
Lemma decode_first_80 (raw : list byte) :
  decode_header (firstn 80 raw) = decode_header raw.
Proof.
  unfold decode_header. rewrite !ntohl_first_80 by lia. f_equal.
  rewrite skipn_firstn_comm. change (80 - 16)%nat with 64%nat.
  rewrite !firstn_app, firstn_firstn, Nat.min_id.
  rewrite length_firstn.
  destruct (Nat.le_ge_cases 64 (length (skipn 16 raw))) as [H | H].
  - rewrite Nat.min_l by exact H.
    replace (64 - length (skipn 16 raw))%nat with 0%nat by lia.
    rewrite Nat.sub_diag. reflexivity.
  - rewrite Nat.min_r by exact H. reflexivity.
Qed.

(** ** Lists of bytes *)

Lemma slice_len (buf : list byte) (off n : Z) :
  0 <= off -> 0 <= n -> off + n <= len buf -> len (slice buf off n) = n.
Proof.
  intros Ho Hn Hb. unfold slice, len in *.
  rewrite firstn_length_le; [lia |].
  rewrite length_skipn. lia.
Qed.

Lemma slice_whole (buf : list byte) : slice buf 0 (len buf) = buf.
Proof.
  unfold slice, len. rewrite Nat2Z.id. simpl. apply firstn_all.
Qed.

Lemma firstn_app_firstn {A : Type} (n k : nat) (l r : list A) :
  (length l + k = n)%nat ->
  firstn n (l ++ firstn k r) = firstn n (l ++ r).
Proof.
  intros H. rewrite !firstn_app.
  replace (n - length l)%nat with k by lia.
  rewrite firstn_firstn, Nat.min_id. reflexivity.
Qed.

Lemma min_avail_enough (bytes_read processed wanted : Z) :
  wanted <= bytes_read - processed ->
  Server.min_avail bytes_read processed wanted = wanted.
Proof.
  intros H. unfold Server.min_avail.
  destruct (bytes_read - processed <? wanted) eqn:E;
    [apply Z.ltb_lt in E; lia | reflexivity].
Qed.


(** ** Strings read in place *)

Lemma c_str_stops_at_nul (f rest : list byte) :
  has_nul f = true -> c_str (f ++ rest) = c_str f.
Proof.
  unfold has_nul. induction f as [| b f IH]; cbn [existsb app c_str].
  - discriminate.
  - intros H.
    destruct (Byte.eqb b x00); [reflexivity |].
    cbn [orb] in H. rewrite (IH H). reflexivity.
Qed.

Lemma c_str_app_plain (f rest : list byte) :
  has_nul f = false -> c_str (f ++ rest) = f ++ c_str rest.
Proof.
  unfold has_nul. induction f as [| b f IH]; cbn [existsb app c_str].
  - reflexivity.
  - intros H.
    destruct (Byte.eqb b x00); [discriminate H |].
    cbn [orb] in H. rewrite (IH H). reflexivity.
Qed.

Lemma has_nul_app (f rest : list byte) :
  has_nul (f ++ rest) = has_nul f || has_nul rest.
Proof. unfold has_nul. apply existsb_app. Qed.

Lemma byte_of_Z_mod (z : Z) : byte_of_Z (z mod 256) = byte_of_Z z.
Proof. unfold byte_of_Z. rewrite Z.mod_mod by lia. reflexivity. Qed.

Lemma to_int_byte (z k : Z) :
  0 <= k <= 24 -> byte_of_Z (to_int z / 2 ^ k) = byte_of_Z (z / 2 ^ k).
Proof.
  intros Hk.
  assert (Hshift : forall u,
             byte_of_Z ((u - 2 ^ 32) / 2 ^ k) = byte_of_Z (u / 2 ^ k)).
  { intros u. rewrite <- (byte_of_Z_mod ((u - 2 ^ 32) / 2 ^ k)).
    rewrite <- (byte_of_Z_mod (u / 2 ^ k)). f_equal.
    replace (u - 2 ^ 32) with (u + (- 2 ^ (32 - k)) * 2 ^ k).
    2: { rewrite Z.mul_opp_l, <- Z.pow_add_r by lia.
         replace (32 - k + k) with 32 by lia. lia. }
    rewrite Z.div_add by (apply Z.pow_nonzero; lia).
    replace (- 2 ^ (32 - k)) with (- 2 ^ (24 - k) * 256).
    2: { replace (32 - k) with (24 - k + 8) by lia.
         rewrite Z.pow_add_r by lia. lia. }
    rewrite Z.mod_add by lia. reflexivity. }
  assert (Hmod :
            byte_of_Z ((z mod 2 ^ 32) / 2 ^ k) = byte_of_Z (z / 2 ^ k)).
  { rewrite <- (byte_of_Z_mod ((z mod 2 ^ 32) / 2 ^ k)).
    rewrite <- (byte_of_Z_mod (z / 2 ^ k)). f_equal.
    rewrite (Z.div_mod z (2 ^ 32)) at 2 by lia.
    replace (2 ^ 32 * (z / 2 ^ 32) + z mod 2 ^ 32)
      with (z mod 2 ^ 32 + (z / 2 ^ 32 * 2 ^ (32 - k)) * 2 ^ k).
    2: { rewrite <- Z.mul_assoc, <- Z.pow_add_r by lia.
         replace (32 - k + k) with 32 by lia. lia. }
    rewrite Z.div_add by (apply Z.pow_nonzero; lia).
    replace (z / 2 ^ 32 * 2 ^ (32 - k))
      with (z / 2 ^ 32 * 2 ^ (24 - k) * 256).
    2: { replace (32 - k) with (24 - k + 8) by lia.
         rewrite Z.pow_add_r by lia. lia. }
    rewrite Z.mod_add by lia. reflexivity. }
  unfold to_int. destruct (z mod 2 ^ 32 <? 2 ^ 31).
  - exact Hmod.
  - rewrite Hshift. exact Hmod.
Qed.

(** An [int] and the [uint32_t] it came from occupy the same bytes. *)
Lemma int_bytes_to_int (z : Z) : int_bytes (to_int z) = int_bytes z.
Proof.
  unfold int_bytes.
  rewrite (to_int_byte z 8), (to_int_byte z 16), (to_int_byte z 24) by lia.
  pose proof (to_int_byte z 0) as H0.
  change (2 ^ 0) with 1 in H0. rewrite !Z.div_1_r in H0.
  rewrite H0 by lia. reflexivity.
Qed.

(** A size the transfer loop accepts has a zero byte. *)
Lemma int_bytes_small (z : Z) :
  0 <= z < 2 ^ 24 -> has_nul (int_bytes z) = true.
Proof.
  intros H. unfold has_nul, int_bytes. cbn [existsb].
  rewrite (Z.div_small z (2 ^ 24)) by lia.
  rewrite !orb_true_r || (cbn; rewrite !orb_true_r). reflexivity.
Qed.

(** A name field that holds a NUL is read as it is. *)
Lemma full_path_plain (f : list byte) (z : Z) :
  has_nul f = true -> Server.full_path f z = bytes_of "saved/" ++ c_str f.
Proof.
  intros H. unfold Server.full_path, Server.filename_and_beyond.
  rewrite (c_str_stops_at_nul f _ H). reflexivity.
Qed.

(** The name field a sender fills with [strncpy] ends with a NUL. *)
Lemma strncpy_field_has_nul (name : list byte) :
  has_nul (strncpy_field name) = true.
Proof.
  unfold strncpy_field. rewrite has_nul_app.
  pose proof (firstn_le_length 63 (c_str name)) as H.
  destruct (64 - length (firstn 63 (c_str name)))%nat as [| k] eqn:E;
    [lia |].
  cbn [repeat has_nul existsb Byte.eqb]. apply orb_true_r.
Qed.

(** ** The server's chunk loop *)

Module ServerFacts.
Import Server.

Section Env.
Variable fopen_ok : list byte -> bool.

Lemma with_header_decodes c temp_buffer processed :
  header_arrives c temp_buffer processed ->
  decode_header (firstn 80 (recv_buffer (with_header c temp_buffer processed)))
  = arriving_header c temp_buffer processed.
Proof.
  intros (_ & Hp & Hlt & Hge).
  unfold with_header, arriving_header, set_recv_buffer.
  cbn [recv_buffer]. unfold slice. f_equal.
  apply firstn_app_firstn. unfold bytes_in_buffer, len, HEADER_SIZE in *.
  lia.
Qed.

(** A step that meets the end of a header runs the header actions. *)
Lemma transfer_step_header c temp_buffer processed :
  header_arrives c temp_buffer processed ->
  transfer_step fopen_ok temp_buffer (len temp_buffer) c processed
  = header_complete_actions fopen_ok (with_header c temp_buffer processed)
      (processed + (HEADER_SIZE - bytes_in_buffer c)).
Proof.
  intros (Hc & Hp & Hlt & Hge). unfold transfer_step. rewrite Hc. cbn [negb].
  rewrite min_avail_enough by lia.
  assert (E1 : (HEADER_SIZE - bytes_in_buffer c <? 0) = false)
    by (apply Z.ltb_ge; lia).
  assert (E2 : (processed <? 0) = false) by (apply Z.ltb_ge; lia).
  rewrite E1, E2. cbn [orb].
  fold (with_header c temp_buffer processed).
  assert (E3 : bytes_in_buffer (with_header c temp_buffer processed)
               = HEADER_SIZE).
  { unfold with_header, bytes_in_buffer, set_recv_buffer in *.
    cbn [recv_buffer].
    rewrite len_app, slice_len; lia. }
  rewrite E3, Z.leb_refl. reflexivity.
Qed.

Lemma run_loop_header body' n c temp_buffer processed :
  body' = transfer_step fopen_ok temp_buffer (len temp_buffer) ->
  header_arrives c temp_buffer processed ->
  run_loop body' (S n) (len temp_buffer) c processed
  = match header_complete_actions fopen_ok
            (with_header c temp_buffer processed)
            (processed + (HEADER_SIZE - bytes_in_buffer c)) with
    | Continue c' processed' tr =>
        prepend tr (run_loop body' n (len temp_buffer) c' processed')
    | Return r c' tr => Returned r c' tr
    | Stuck => Undefined
    end.
Proof.
  intros -> H. pose proof H as (Hc & Hp & Hlt & Hge).
  cbn [run_loop].
  assert (E : (processed <? len temp_buffer) = true)
    by (apply Z.ltb_lt; lia).
  rewrite E, transfer_step_header by exact H. reflexivity.
Qed.

(** A header with a size that is refused ends the call: one error frame,
    command mode, -1. *)
Lemma header_actions_bad_sizes c processed :
  bad_sizes (decode_header (firstn 80 (recv_buffer c))) ->
  exists c',
    header_complete_actions fopen_ok c processed
    = Return (-1) c' [ESend (socket_fd c) MSG_INVALID_HEADER]
    /\ state c' = 0 /\ upload_file c' = upload_file c
    /\ socket_fd c' = socket_fd c.
Proof.
  intros Hbad. unfold header_complete_actions.
  set (h := decode_header (firstn 80 (recv_buffer c))) in *.
  assert (E : (chunk_size h =? 0) || (total_chunks h =? 0)
              || (8192 <? chunk_size h) || (2000000 <? total_chunks h)
              = true).
  { destruct Hbad as [H | [H | [H | H]]].
    - apply Z.eqb_eq in H. rewrite H. reflexivity.
    - apply Z.eqb_eq in H. rewrite H, orb_true_r. reflexivity.
    - apply Z.ltb_lt in H. rewrite H, orb_true_r. reflexivity.
    - apply Z.ltb_lt in H. rewrite H, !orb_true_r. reflexivity. }
  rewrite E. eexists. split; [reflexivity |]. destruct c; cbn. auto.
Qed.

Lemma good_sizes_test (h : FileChunkHeader) :
  ~ bad_sizes h ->
  (chunk_size h =? 0) || (total_chunks h =? 0)
  || (8192 <? chunk_size h) || (2000000 <? total_chunks h) = false.
Proof.
  intros H. unfold bad_sizes in H.
  destruct (chunk_size h =? 0) eqn:E1;
    [apply Z.eqb_eq in E1; tauto |].
  destruct (total_chunks h =? 0) eqn:E2;
    [apply Z.eqb_eq in E2; tauto |].
  destruct (8192 <? chunk_size h) eqn:E3;
    [apply Z.ltb_lt in E3; tauto |].
  destruct (2000000 <? total_chunks h) eqn:E4;
    [apply Z.ltb_lt in E4; tauto |].
  reflexivity.
Qed.


(** An accepted first chunk opens the path [full_path] gives, for
    writing. *)
Lemma header_actions_first_chunk c processed :
  let h := decode_header (firstn 80 (recv_buffer c)) in
  ~ bad_sizes h -> chunk_id h = 0 ->
  fopen_ok (full_path (filename h) (chunk_size h)) = true ->
  exists c',
    header_complete_actions fopen_ok c processed
    = Continue c' processed
        [EMkdir SAVED_DIR;
         EFopen (full_path (filename h) (chunk_size h)) "wb" true]
    /\ upload_file c' = Some (full_path (filename h) (chunk_size h))
    /\ expected_chunks c' = total_chunks h /\ received_chunks c' = 0.
Proof.
  intros h Hgood Hid Hopen. unfold header_complete_actions. fold h.
  rewrite (good_sizes_test h Hgood), Hid. cbn [Z.eqb].
  cbn [payload_remaining set_payload_remaining].
  rewrite Hopen. eexists. split; [reflexivity |]. destruct c; cbn. auto.
Qed.

End Env.
End ServerFacts.

(** ** Chunk counts on the server *)

Module ServerCounts.
Import Server ServerFacts.











Ltac unfold_setters :=
  unfold bytes_in_buffer, buffer_len in *;
  cbn [reset_transfer with_header set_buffer set_state set_upload_file
       set_upload_filename set_expected_chunks set_received_chunks
       set_recv_buffer set_header_complete set_current_header
       set_payload_remaining
       socket_fd buffer state client_ip upload_file upload_filename
       expected_chunks received_chunks recv_buffer header_complete
       current_header payload_remaining] in *.






Section Env.
Variable fopen_ok : list byte -> bool.








End Env.
End ServerCounts.

(** ** Chunk counts on the client *)

Module ClientCounts.
Import Client.

Ltac unfold_setters :=
  unfold recv_pos in *;
  cbn [set_state set_file_ptr set_filename set_total_chunks
       set_current_chunk set_file_size set_current_header
       set_recv_buffer set_expecting_header set_payload_remaining
       set_last_chunk_id set_transfer_active initial_statics
       state file_ptr filename total_chunks current_chunk file_size
       current_header recv_buffer expecting_header payload_remaining
       last_chunk_id transfer_active fst snd] in *.

(** A step that gives up, and a step that completes the download. *)
Ltac gives_up :=
  split; [lia | split; [split; [discriminate | lia]
                       | split; [discriminate | reflexivity]]].

Lemma min_avail_cases (bytes_available processed wanted : Z) :
  (wanted <= bytes_available - processed
   /\ min_avail bytes_available processed wanted = wanted)
  \/ (bytes_available - processed < wanted
      /\ min_avail bytes_available processed wanted
         = bytes_available - processed).
Proof.
  unfold min_avail.
  destruct (bytes_available - processed <? wanted) eqn:E;
    [apply Z.ltb_lt in E | apply Z.ltb_ge in E]; lia.
Qed.

Section Env.
Variable fopen_ok : list byte -> bool.
Variable fwrite_ok : Z -> bool.









End Env.
End ClientCounts.

(** ** Chunks sent by the client *)

Module ClientSend.
Import Client.



End ClientSend.

(** ** C2: chunk counts and completion *)




(** ** Failures on the client *)

Module ClientFacts.
Import Client.

Section Env.
Variable fopen_ok : list byte -> bool.
Variable fwrite_ok : Z -> bool.

Lemma client_header_decodes st buffer p :
  header_arrives st buffer p ->
  decode_header (firstn 80 (recv_buffer (with_header st buffer p)))
  = arriving_header st buffer p.
Proof.
  intros (_ & Hp & Hlt & Hge).
  unfold with_header, arriving_header, set_recv_buffer.
  cbn [recv_buffer]. unfold slice. f_equal.
  apply firstn_app_firstn. unfold recv_pos, len, HEADER_SIZE in *. lia.
Qed.

(** A step that meets the end of a header runs the header actions. *)
Lemma receive_step_header st t buffer p :
  header_arrives st buffer p ->
  receive_step fopen_ok fwrite_ok buffer (len buffer) (st, t) p
  = header_complete_actions fopen_ok (with_header st buffer p, t)
      (p + (HEADER_SIZE - recv_pos st)).
Proof.
  intros (He & Hp & Hlt & Hge). unfold receive_step. rewrite He.
  destruct (ClientCounts.min_avail_cases (len buffer) p
              (HEADER_SIZE - recv_pos st)) as [[_ ->] | [Hc _]]; [| lia].
  assert (E1 : (HEADER_SIZE - recv_pos st <? 0) = false)
    by (apply Z.ltb_ge; lia).
  assert (E2 : (p <? 0) = false) by (apply Z.ltb_ge; lia).
  rewrite E1, E2. cbn [orb]. fold (with_header st buffer p).
  assert (E3 : recv_pos (with_header st buffer p) = HEADER_SIZE).
  { unfold with_header, recv_pos in *. cbn [set_recv_buffer recv_buffer].
    rewrite len_app, slice_len; lia. }
  rewrite E3, Z.leb_refl. reflexivity.
Qed.

(** A step that meets the end of a payload runs the payload actions. *)
Lemma receive_step_payload st t buffer p :
  payload_arrives st buffer p ->
  receive_step fopen_ok fwrite_ok buffer (len buffer) (st, t) p
  = payload_complete_actions fwrite_ok (with_payload st buffer p, t)
      (p + payload_remaining st).
Proof.
  intros (He & Hp & Hrem & Hroom). unfold receive_step. rewrite He.
  destruct (ClientCounts.min_avail_cases (len buffer) p
              (payload_remaining st)) as [[_ ->] | [Hc _]]; [| lia].
  assert (E1 : (payload_remaining st <? 0) || (p <? 0)
               || (RECV_BUFFER_SIZE <? recv_pos st + payload_remaining st)
               = false).
  { repeat (apply orb_false_iff; split); apply Z.ltb_ge; lia. }
  rewrite E1. unfold with_payload.
  cbn [set_payload_remaining set_recv_buffer payload_remaining recv_buffer
       expecting_header last_chunk_id transfer_active].
  rewrite Z.sub_diag. cbn [Z.eqb]. reflexivity.
Qed.

Ltac refuse_here :=
  eexists _, _, _; split; [reflexivity |];
  cbn [set_transfer_active set_current_header set_file_ptr set_filename
       set_total_chunks set_last_chunk_id transfer_active current_chunk];
  repeat split; auto.

Lemma header_actions_failure st t p :
  let h := decode_header (firstn 80 (recv_buffer st)) in
  (CHUNK_SIZE < chunk_size h \/ chunk_size h <= 0)
  \/ 2000000 < Wire.total_chunks h
  \/ (0 < current_chunk t /\ chunk_id h <> to_u32 (last_chunk_id st + 1))
  \/ (chunk_id h = 0 /\ fopen_ok (local_name h) = false) ->
  exists st' t' tr,
    header_complete_actions fopen_ok (st, t) p = Return (-1) (st', t') tr
    /\ transfer_active st' = false
    /\ current_chunk t' = current_chunk t
    /\ failure_trace tr.
Proof.
  intros h Hfail. unfold header_complete_actions. fold h.
  destruct ((CHUNK_SIZE <? chunk_size h) || (chunk_size h <=? 0)) eqn:E1.
  { refuse_here. left. reflexivity. }
  destruct (2000000 <? Wire.total_chunks h) eqn:E2.
  { refuse_here. left. reflexivity. }
  cbn [set_current_header current_chunk].
  destruct ((0 <? current_chunk t)
            && negb (chunk_id h =? to_u32 (last_chunk_id st + 1))) eqn:E3.
  { refuse_here. left. reflexivity. }
  apply orb_false_iff in E1. destruct E1 as [E1a E1b].
  apply Z.ltb_ge in E1a. apply Z.leb_gt in E1b. apply Z.ltb_ge in E2.
  unfold CHUNK_SIZE in *.
  destruct Hfail as [Hsize | [Htot | [[Hcur Hid] | [Hid Hopen]]]];
    try lia.
  rewrite Hid. cbn [Z.eqb].
  cbn [set_total_chunks set_filename set_current_header filename
       Wire.filename].
  unfold local_name in Hopen. rewrite Hopen.
  refuse_here. right. left. eexists. reflexivity.
Qed.

(** A step that meets a failure returns -1 there and then. *)
Lemma client_failing_step st t buffer p :
  failure fopen_ok fwrite_ok st t buffer p ->
  0 <= p < len buffer
  /\ exists st' t' tr,
       receive_step fopen_ok fwrite_ok buffer (len buffer) (st, t) p
       = Return (-1) (st', t') tr
       /\ transfer_active st' = false
       /\ current_chunk t' = current_chunk t
       /\ failure_trace tr.
Proof.
  assert (Hin : forall st, header_arrives st buffer p -> 0 <= p < len buffer).
  { intros st0 (_ & Hp & Hlt & Hge). lia. }
  intros [Harr Hbad | Harr Hbad | Harr Hcur Hbad | Harr Hid Hopen
         | Harr Hfile Hwrite];
    (split; [try exact (Hin _ Harr) |]).
  - rewrite (receive_step_header st t buffer p Harr).
    apply header_actions_failure. rewrite client_header_decodes by exact Harr.
    left. exact Hbad.
  - rewrite (receive_step_header st t buffer p Harr).
    apply header_actions_failure. rewrite client_header_decodes by exact Harr.
    right. left. exact Hbad.
  - rewrite (receive_step_header st t buffer p Harr).
    apply header_actions_failure. rewrite client_header_decodes by exact Harr.
    right. right. left. split; [exact Hcur | exact Hbad].
  - rewrite (receive_step_header st t buffer p Harr).
    apply header_actions_failure. rewrite client_header_decodes by exact Harr.
    right. right. right. split; [exact Hid | exact Hopen].
  - destruct Harr as (_ & Hp & _). exact Hp.
  - rewrite (receive_step_payload st t buffer p Harr).
    unfold payload_complete_actions.
    destruct (file_ptr t) as [f |]; [| congruence].
    rewrite Hwrite. cbn [negb]. refuse_here.
    right. right. eexists. reflexivity.
Qed.

(** So does the loop, whatever the number of iterations it has left. *)
Lemma receive_loop_failure n st t buffer p :
  failure fopen_ok fwrite_ok st t buffer p ->
  exists st' t' tr,
    receive_loop fopen_ok fwrite_ok (S n) buffer (len buffer) (st, t) p
    = Returned (-1) (st', t') tr
    /\ transfer_active st' = false
    /\ current_chunk t' = current_chunk t
    /\ failure_trace tr.
Proof.
  intros Hfail. destruct (client_failing_step st t buffer p Hfail)
    as (Hp & st' & t' & tr & Hstep & Hrest).
  cbn [receive_loop].
  assert (E : (p <? len buffer) = true) by (apply Z.ltb_lt; lia).
  rewrite E, Hstep. exists st', t', tr. split; [reflexivity | exact Hrest].
Qed.


End Env.
End ClientFacts.

(** ** C1: chunk ids in sequence *)

(** C1, as stated, fails on the server: of five chunks announced, the ids
    0, 1 and 3 are all accepted; the transfer goes on in file transfer
    mode, three chunks counted, the payload of the third written. *)
Lemma C1_counterexample :
  exists c tr,
    Server.handle_file_transfer Examples.always Examples.uploading
      (RecvData Examples.ids_0_1_3) = Returned 0 c tr
    /\ Server.state c = 1
    /\ Server.received_chunks c = 3
    /\ Server.upload_file c = Some (bytes_of "saved/f")
    /\ In (EFwrite (bytes_of "saved/f") ["C"%byte]) tr
    /\ sent_to 5 tr = [].
Proof.
  eexists _, _. split; [vm_compute; reflexivity |].
  repeat split. do 8 right. left. reflexivity.
Qed.

(** C1, amended: the check is the client's.  In
    [receive_file_chunk_epoll], once a chunk has been received, a header
    whose id is not the id of the chunk before plus one makes the loop
    return -1 at that header, whatever the state and wherever in the bytes
    read the header ends, with nothing written; and of five chunks
    announced, the ids 0, 1 and 3 make the call return -1 at the third
    header, two chunks written.  (The server checks no id.) *)
Theorem C1_client_checks_sequence
  (fopen_ok : list byte -> bool) (fwrite_ok : Z -> bool) :
  (forall n st t buffer p,
     Client.header_arrives st buffer p ->
     0 < Client.current_chunk t ->
     chunk_id (Client.arriving_header st buffer p)
       <> to_u32 (Client.last_chunk_id st + 1) ->
     exists st' t' tr,
       Client.receive_loop fopen_ok fwrite_ok (S n) buffer (len buffer)
         (st, t) p = Returned (-1) (st', t') tr
       /\ Client.transfer_active st' = false
       /\ Client.current_chunk t' = Client.current_chunk t
       /\ Client.writes_nothing tr)
  /\ exists st' t',
       Client.receive_file_chunk_epoll Examples.always Examples.writes
         Examples.downloading Examples.ids_0_1_3
       = Returned (-1) (st', t')
           [EFopen (bytes_of "f") "wb" true;
            EFwrite (bytes_of "f") ["A"%byte]; EProgress 20;
            EFwrite (bytes_of "f") ["B"%byte]; EProgress 40]
       /\ Client.current_chunk t' = 2
       /\ Client.transfer_active st' = false.
Proof.
  split.
  - intros n st t buffer p Harr Hcur Hid.
    destruct (ClientFacts.receive_loop_failure fopen_ok fwrite_ok n st t
                buffer p (Client.OutOfOrder _ _ _ _ _ _ Harr Hcur Hid))
      as (st' & t' & tr & Hrun & Hact & Hsame & Htr).
    exists st', t', tr. repeat split; try assumption.
    intros path data Hin.
    destruct Htr as [-> | [[f ->] | [f ->]]];
      cbn in Hin; intuition discriminate.
  - eexists _, _. split; [vm_compute; reflexivity |]. split; reflexivity.
Qed.

(** After the chunks 0 and 1, the header of chunk 3 is refused. *)
Lemma C1_witness :
  (Client.header_arrives (fst Examples.after_two)
     (Examples.chunk 3 5 "" ["C"%byte]) 0
   /\ 0 < Client.current_chunk (snd Examples.after_two)
   /\ chunk_id (Client.arriving_header (fst Examples.after_two)
                  (Examples.chunk 3 5 "" ["C"%byte]) 0)
      <> to_u32 (Client.last_chunk_id (fst Examples.after_two) + 1))
  /\ exists st' t' tr,
       Client.receive_loop Examples.always Examples.writes 1
         (Examples.chunk 3 5 "" ["C"%byte])
         (len (Examples.chunk 3 5 "" ["C"%byte]))
         (fst Examples.after_two, snd Examples.after_two) 0
       = Returned (-1) (st', t') tr
       /\ Client.transfer_active st' = false
       /\ Client.current_chunk t' = Client.current_chunk (snd Examples.after_two)
       /\ Client.writes_nothing tr.
Proof.
  assert (H1 : Client.header_arrives (fst Examples.after_two)
                 (Examples.chunk 3 5 "" ["C"%byte]) 0).
  { vm_compute. repeat split; discriminate. }
  assert (H2 : 0 < Client.current_chunk (snd Examples.after_two))
    by reflexivity.
  assert (H3 : chunk_id (Client.arriving_header (fst Examples.after_two)
                           (Examples.chunk 3 5 "" ["C"%byte]) 0)
               <> to_u32 (Client.last_chunk_id (fst Examples.after_two) + 1)).
  { vm_compute. discriminate. }
  split; [auto |].
  exact (proj1 (C1_client_checks_sequence Examples.always Examples.writes)
           0%nat _ _ _ _ H1 H2 H3).
Defined.

(** ** Failures on the server *)

Module ServerFail.
Import Server ServerFacts ServerCounts.

Section Env.
Variable fopen_ok : list byte -> bool.







End Env.
End ServerFail.

(** ** The client table and the event loop of the server *)

Module ServerTable.
Import Server.

Lemma find_client_fd clients fd c :
  find_client clients fd = Some c -> socket_fd c = fd.
Proof.
  induction clients as [| x rest IH]; cbn [find_client]; [discriminate |].
  destruct (socket_fd x =? fd) eqn:E.
  - intros H. inversion H; subst. apply Z.eqb_eq. exact E.
  - exact IH.
Qed.

Lemma store_descriptors clients fd c' :
  socket_fd c' = fd ->
  descriptors (store_client clients fd c') = descriptors clients.
Proof.
  intros Hfd. unfold descriptors.
  induction clients as [| x rest IH]; cbn [store_client map]; [reflexivity |].
  destruct (socket_fd x =? fd) eqn:E.
  - cbn [map]. apply Z.eqb_eq in E. congruence.
  - cbn [map]. rewrite IH. reflexivity.
Qed.

(** Removing a connection closes the file its entry holds. *)
Lemma remove_stored_closes clients fd c c' :
  find_client clients fd = Some c -> socket_fd c' = fd ->
  snd (remove_client (store_client clients fd c') fd) = fclose_upload c'.
Proof.
  intros Hfind Hfd.
  induction clients as [| x rest IH]; cbn [find_client] in Hfind;
    [discriminate |].
  cbn [store_client]. destruct (socket_fd x =? fd) eqn:E.
  - cbn [remove_client]. rewrite Hfd, Z.eqb_refl. reflexivity.
  - cbn [remove_client]. rewrite E.
    specialize (IH Hfind).
    destruct (remove_client (store_client rest fd c') fd) as [rest' tr].
    exact IH.
Qed.

Lemma in_removelast {A : Type} (x : A) (l : list A) :
  In x (removelast l) -> In x l.
Proof.
  induction l as [| a l IH]; cbn [removelast]; [auto |].
  destruct l as [| b l]; [intros [] |].
  intros [H | H]; [left; exact H | right; exact (IH H)].
Qed.

Lemma removed_has_other_fd clients fd :
  NoDup (descriptors clients) ->
  forall x, In x (fst (remove_client clients fd)) -> socket_fd x <> fd.
Proof.
  unfold descriptors.
  induction clients as [| c rest IH]; intros Hnd x Hin;
    cbn [remove_client] in Hin; [destruct Hin |].
  cbn [map] in Hnd. inversion Hnd as [| ? ? Hnotin Hnd']; subst.
  destruct (socket_fd c =? fd) eqn:E.
  - apply Z.eqb_eq in E. cbn [fst] in Hin.
    assert (Hrest : In x rest).
    { destruct (rev rest) as [| last before] eqn:Er; [destruct Hin |].
      destruct Hin as [<- | Hin].
      - apply in_rev. rewrite Er. left. reflexivity.
      - apply in_removelast. exact Hin. }
    intros Hx. apply Hnotin. rewrite E, <- Hx. apply in_map. exact Hrest.
  - apply Z.eqb_neq in E.
    destruct (remove_client rest fd) as [rest' tr] eqn:Er.
    cbn [fst] in Hin, IH. destruct Hin as [<- | Hin]; [exact E |].
    exact (IH Hnd' x Hin).
Qed.

Lemma find_client_none clients fd :
  (forall x, In x clients -> socket_fd x <> fd) ->
  find_client clients fd = None.
Proof.
  induction clients as [| c rest IH]; intros H; cbn [find_client];
    [reflexivity |].
  destruct (socket_fd c =? fd) eqn:E.
  - apply Z.eqb_eq in E. exfalso. exact (H c (or_introl eq_refl) E).
  - apply IH. intros x Hx. apply H. right. exact Hx.
Qed.

(** A removed connection cannot be found any more. *)
Lemma removed_is_gone clients fd :
  NoDup (descriptors clients) ->
  find_client (fst (remove_client clients fd)) fd = None.
Proof.
  intros Hnd. apply find_client_none. apply removed_has_other_fd. exact Hnd.
Qed.

Section Env.
Variable fopen_ok : list byte -> bool.

(** When [handle_client_data] returns -1 the event loop takes the
    connection out of [epoll], closes the file its entry holds, removes
    the entry and closes the socket. *)
Lemma dispatch_disconnects clients fd c r c' tr :
  NoDup (descriptors clients) ->
  find_client clients fd = Some c ->
  handle_client_data fopen_ok c r = Returned (-1) c' tr ->
  socket_fd c' = socket_fd c ->
  exists clients',
    dispatch fopen_ok clients fd (EvIn r)
    = Returned (-1) clients'
        (tr ++ [EEpollDel fd] ++ fclose_upload c' ++ [EClose fd])
    /\ find_client clients' fd = None.
Proof.
  intros Hnd Hfind Hrun Hfd. pose proof (find_client_fd _ _ _ Hfind) as Hc.
  unfold dispatch. rewrite Hfind, Hrun. cbn [Z.eqb Pos.eqb].
  unfold disconnect.
  pose proof (remove_stored_closes clients fd c c' Hfind ltac:(congruence))
    as Hcl.
  pose proof (removed_is_gone (store_client clients fd c') fd) as Hgone.
  rewrite store_descriptors in Hgone by congruence.
  specialize (Hgone Hnd).
  destruct (remove_client (store_client clients fd c') fd) as [clients' tr'].
  cbn [fst snd] in *. subst tr'. exists clients'. split; [reflexivity |].
  exact Hgone.
Qed.

End Env.
End ServerTable.

(** ** C5: what a failure tears down *)




(** ** C8: overflow of the command buffer *)

Lemma sent_to_app fd tr1 tr2 :
  sent_to fd (tr1 ++ tr2) = sent_to fd tr1 ++ sent_to fd tr2.
Proof.
  induction tr1 as [| ev tr1 IH]; cbn [app sent_to]; [reflexivity |].
  destruct ev; try exact IH.
  destruct (fd0 =? fd); [cbn [app]; f_equal |]; exact IH.
Qed.

Lemma sent_to_fclose fd c : sent_to fd (Server.fclose_upload c) = [].
Proof.
  unfold Server.fclose_upload. destruct (Server.upload_file c); reflexivity.
Qed.

(** C8.  For a connection in command mode, bytes that are not taken for a
    file header and that, added to those accumulated, reach the capacity
    of the command buffer less one (so also whenever they exceed the
    capacity, with or without a newline) make the server send that client
    one frame, which starts with [ERROR:], and then disconnect it: the
    descriptor leaves [epoll], the entry is removed and the socket
    closed. *)
Theorem C8_overflow_disconnects
  (fopen_ok : list byte -> bool) (clients : list Server.client_info_t)
  (fd : Z) (c : Server.client_info_t) (r : recv_result)
  (temp_buffer : list byte) :
  NoDup (Server.descriptors clients) ->
  Server.find_client clients fd = Some c ->
  Server.state c <> 1 ->
  recv 1023 r = RecvData temp_buffer ->
  Server.looks_like_header temp_buffer = false ->
  Server.BUFFER_SIZE - 1 <= Server.buffer_len c + len temp_buffer ->
  exists clients' tr,
    Server.dispatch fopen_ok clients fd (Server.EvIn r)
    = Returned (-1) clients' tr
    /\ tr = [ESend fd Server.MSG_OVERFLOW; EFsyncFd fd; EUsleep 100000;
             EEpollDel fd] ++ Server.fclose_upload c ++ [EClose fd]
    /\ sent_to fd tr = [Server.MSG_OVERFLOW]
    /\ Server.error_frame Server.MSG_OVERFLOW
    /\ Server.find_client clients' fd = None.
Proof.
  intros Hnd Hfind Hst Hrecv Hlook Hfull.
  pose proof (ServerTable.find_client_fd _ _ _ Hfind) as Hfd.
  assert (Hdata : Server.handle_client_data fopen_ok c r
                  = Returned (-1) c
                      [ESend fd Server.MSG_OVERFLOW; EFsyncFd fd;
                       EUsleep 100000]).
  { unfold Server.handle_client_data.
    assert (E : (Server.state c =? 1) = false) by (apply Z.eqb_neq; exact Hst).
    rewrite E, Hrecv, Hlook. unfold Server.handle_text.
    assert (E' : (Server.buffer_len c + len temp_buffer
                  <? Server.BUFFER_SIZE - 1) = false)
      by (apply Z.ltb_ge; exact Hfull).
    rewrite E', Hfd. reflexivity. }
  destruct (ServerTable.dispatch_disconnects fopen_ok clients fd c r c _
              Hnd Hfind Hdata eq_refl) as (clients' & Hdisp & Hgone).
  exists clients'. eexists. split; [exact Hdisp |].
  split; [reflexivity |]. split; [| split; [reflexivity | exact Hgone]].
  cbn [app sent_to]. rewrite Z.eqb_refl, sent_to_app, sent_to_fclose.
  reflexivity.
Qed.

(** Thirty more bytes for a connection that holds a thousand. *)
Lemma C8_witness :
  (NoDup (Server.descriptors [Examples.nearly_full])
   /\ Server.find_client [Examples.nearly_full] 5 = Some Examples.nearly_full
   /\ Server.state Examples.nearly_full <> 1
   /\ recv 1023 (RecvData (repeat "b"%byte 30))
      = RecvData (repeat "b"%byte 30)
   /\ Server.looks_like_header (repeat "b"%byte 30) = false
   /\ Server.BUFFER_SIZE - 1
      <= Server.buffer_len Examples.nearly_full
         + len (repeat "b"%byte 30))
  /\ exists clients' tr,
       Server.dispatch Examples.always [Examples.nearly_full] 5
         (Server.EvIn (RecvData (repeat "b"%byte 30)))
       = Returned (-1) clients' tr
       /\ tr = [ESend 5 Server.MSG_OVERFLOW; EFsyncFd 5; EUsleep 100000;
                EEpollDel 5]
               ++ Server.fclose_upload Examples.nearly_full ++ [EClose 5]
       /\ sent_to 5 tr = [Server.MSG_OVERFLOW]
       /\ Server.error_frame Server.MSG_OVERFLOW
       /\ Server.find_client clients' 5 = None.
Proof.
  assert (H1 : NoDup (Server.descriptors [Examples.nearly_full])).
  { repeat constructor. intros []. }
  assert (H2 : Server.find_client [Examples.nearly_full] 5
               = Some Examples.nearly_full) by reflexivity.
  assert (H3 : Server.state Examples.nearly_full <> 1) by discriminate.
  assert (H4 : recv 1023 (RecvData (repeat "b"%byte 30))
               = RecvData (repeat "b"%byte 30)) by reflexivity.
  assert (H5 : Server.looks_like_header (repeat "b"%byte 30) = false)
    by reflexivity.
  assert (H6 : Server.BUFFER_SIZE - 1
               <= Server.buffer_len Examples.nearly_full
                  + len (repeat "b"%byte 30))
    by (vm_compute; discriminate).
  split; [auto 10 |].
  exact (C8_overflow_disconnects Examples.always _ 5 _ _ _
           H1 H2 H3 H4 H5 H6).
Defined.

(** ** C9: a download that stalls *)

Module ClientLoop.
Import Client.

Section Env.
Variable fopen_ok : list byte -> bool.
Variable fwrite_ok : Z -> bool.
Variable sock : Z.

Lemma max_timeouts_positive t : 5 <= max_timeouts t <= 10.
Proof. unfold max_timeouts. destruct (100000 <? total_chunks t); lia. Qed.

(** A timeout below the threshold only counts. *)
Lemma timeout_counts l :
  state (transfer_state l) = STATE_RECEIVING ->
  no_data_iterations l + 1 < max_timeouts (transfer_state l) ->
  on_timeout l = (set_no_data_iterations (no_data_iterations l + 1) l, []).
Proof.
  intros Hst Hlt. unfold on_timeout. rewrite Hst.
  cbn [set_no_data_iterations no_data_iterations].
  assert (E : (max_timeouts (transfer_state l)
               <=? no_data_iterations l + 1) = false) by lia.
  rewrite E. reflexivity.
Qed.

(** The timeout that reaches the threshold ends the download. *)
Lemma timeout_aborts l :
  state (transfer_state l) = STATE_RECEIVING ->
  no_data_iterations l + 1 = max_timeouts (transfer_state l) ->
  on_timeout l
  = (mkLoop init_transfer_state (recv_statics l)
       (max_timeouts (transfer_state l)) (server_buffer l) (running l),
     fclose_file (transfer_state l)).
Proof.
  intros Hst Heq. unfold on_timeout. rewrite Hst.
  cbn [set_no_data_iterations no_data_iterations].
  rewrite Heq, Z.leb_refl. reflexivity.
Qed.

Lemma timeouts_below :
  forall k l,
    state (transfer_state l) = STATE_RECEIVING -> running l = true ->
    no_data_iterations l + Z.of_nat k < max_timeouts (transfer_state l) ->
    event_loop fopen_ok fwrite_ok sock l (repeat WaitTimeout k)
    = Returned 0
        (set_no_data_iterations (no_data_iterations l + Z.of_nat k) l) [].
Proof.
  induction k as [| k IH]; intros l Hst Hrun Hlt.
  - cbn [repeat event_loop]. rewrite Z.add_0_r. destruct l; reflexivity.
  - cbn [repeat event_loop]. rewrite Hrun. cbn [event_loop_iteration].
    rewrite timeout_counts by (try assumption; lia).
    rewrite IH by (cbn [set_no_data_iterations transfer_state running
                        no_data_iterations]; try assumption; lia).
    cbn [prepend app]. unfold set_no_data_iterations.
    cbn [transfer_state recv_statics no_data_iterations server_buffer
         running].
    replace (no_data_iterations l + 1 + Z.of_nat k)
      with (no_data_iterations l + Z.of_nat (S k)) by lia.
    reflexivity.
Qed.

Lemma timeouts_abort l :
  state (transfer_state l) = STATE_RECEIVING -> running l = true ->
  no_data_iterations l = 0 ->
  event_loop fopen_ok fwrite_ok sock l
    (repeat WaitTimeout (Z.to_nat (max_timeouts (transfer_state l))))
  = Returned 0
      (mkLoop init_transfer_state (recv_statics l)
         (max_timeouts (transfer_state l)) (server_buffer l) true)
      (fclose_file (transfer_state l)).
Proof.
  intros Hst Hrun Hzero.
  pose proof (max_timeouts_positive (transfer_state l)) as Hm.
  set (m := max_timeouts (transfer_state l)) in *.
  replace (Z.to_nat m) with (Z.to_nat (m - 1) + 1)%nat by lia.
  rewrite repeat_app. cbn [repeat].
  assert (Hsplit : forall ws1 ws2 l0 l1,
            event_loop fopen_ok fwrite_ok sock l0 ws1 = Returned 0 l1 [] ->
            event_loop fopen_ok fwrite_ok sock l0 (ws1 ++ ws2)
            = event_loop fopen_ok fwrite_ok sock l1 ws2
            \/ running l1 = false).
  { induction ws1 as [| w ws1 IH]; intros ws2 l0 l1 H.
    - cbn [event_loop] in H. inversion H; subst. left. reflexivity.
    - cbn [app event_loop] in *. destruct (running l0) eqn:Er.
      + destruct (event_loop_iteration fopen_ok fwrite_ok sock l0 w)
          as [r0 l0' tr0 | |]; try discriminate H.
        destruct (event_loop fopen_ok fwrite_ok sock l0' ws1)
          as [r1 l1' tr1 | |] eqn:E1; cbn [prepend] in H;
          try discriminate H.
        inversion H; subst.
        apply app_eq_nil in H3. destruct H3 as [-> ->].
        destruct (IH ws2 l0' l1 E1) as [-> | Hoff]; [left | right; exact Hoff].
        destruct (event_loop fopen_ok fwrite_ok sock l1 ws2); reflexivity.
      + inversion H; subst. right. exact Er. }
  destruct (Hsplit (repeat WaitTimeout (Z.to_nat (m - 1))) [WaitTimeout] l _
              (timeouts_below (Z.to_nat (m - 1)) l Hst Hrun
                 ltac:(fold m; lia))) as [-> | Hoff].
  2:{ cbn [set_no_data_iterations running] in Hoff. congruence. }
  cbn [event_loop set_no_data_iterations running]. rewrite Hrun.
  cbn [event_loop_iteration].
  rewrite timeout_aborts
    by (cbn [set_no_data_iterations transfer_state no_data_iterations];
        try assumption; fold m; lia).
  cbn [prepend set_no_data_iterations transfer_state recv_statics
       server_buffer running].
  fold m. rewrite Hrun, app_nil_r. reflexivity.
Qed.

Lemma after_transfer_call_keeps_count result l :
  no_data_iterations (fst (after_transfer_call result l))
  = no_data_iterations l.
Proof.
  unfold after_transfer_call.
  destruct ((result =? 1) || (result =? -1)); reflexivity.
Qed.

Lemma on_file_data_keeps_count l buffer rv l' tr :
  on_file_data fopen_ok fwrite_ok l buffer = Returned rv l' tr ->
  no_data_iterations l' = no_data_iterations l.
Proof.
  unfold on_file_data.
  destruct (receive_file_chunk_epoll fopen_ok fwrite_ok _ buffer)
    as [result [st t] tr0 | |]; try discriminate.
  pose proof (after_transfer_call_keeps_count result (set_transfer st t l))
    as H.
  destruct (after_transfer_call result (set_transfer st t l)) as [l0 tr1].
  intros E. inversion E; subst. exact H.
Qed.

(** Every event on the socket starts the count of timeouts again. *)
Lemma socket_event_resets l err_or_hup epollout epollin
  answer_header answer_payload errno_again r rv l' tr :
  event_loop_iteration fopen_ok fwrite_ok sock l
    (WaitSocket err_or_hup epollout epollin answer_header answer_payload
       errno_again r)
  = Returned rv l' tr ->
  no_data_iterations l' = 0.
Proof.
  cbn [event_loop_iteration].
  destruct err_or_hup; [intros E; inversion E; reflexivity |].
  set (l0 := set_no_data_iterations 0 l).
  assert (H0 : no_data_iterations l0 = 0) by reflexivity.
  destruct (epollout && _).
  - unfold on_socket_writable.
    destruct (send_file_chunk_epoll sock (transfer_state l0)
                answer_header answer_payload errno_again)
      as [[result t] tr0].
    destruct ((result =? 1) || (result =? -1)).
    + pose proof (after_transfer_call_keeps_count result
                    (set_transfer (recv_statics l0) t l0)) as H.
      destruct (after_transfer_call result _) as [l1 tr1].
      intros E. inversion E; subst. exact H.
    + intros E. inversion E; subst. reflexivity.
  - destruct epollin; [| intros E; inversion E; subst; exact H0].
    unfold on_socket_readable.
    destruct (recv 1023 r) as [temp_buffer | | |];
      try (intros E; inversion E; subst; reflexivity).
    assert (Htext : on_text l0 temp_buffer = Returned rv l' tr ->
                    no_data_iterations l' = 0).
    { unfold on_text. destruct (response_loop _ _) as [[buf tr0] |];
        [| discriminate].
      intros E. inversion E; subst. reflexivity. }
    destruct (state (transfer_state l0)).
    + destruct (looks_like_header (transfer_state l0) temp_buffer);
        [| exact Htext].
      intros E. apply on_file_data_keeps_count in E. exact E.
    + destruct (looks_like_header (transfer_state l0) temp_buffer);
        [| exact Htext].
      intros E. apply on_file_data_keeps_count in E. exact E.
    + intros E. apply on_file_data_keeps_count in E. exact E.
Qed.

End Env.
End ClientLoop.

(** C9.  While the client is receiving, its wait has a timeout of ten
    seconds, and every event on the socket sets the count of timeouts to
    0.  Counted from the last event, timeouts below the threshold
    leave the download as it is; the timeout that reaches the threshold (5,
    or 10 when more than 100000 chunks are expected) closes the file that
    is open and initialises the transfer state, which is the command
    state. *)
Theorem C9_stalled_download_aborts
  (fopen_ok : list byte -> bool) (fwrite_ok : Z -> bool) (sock : Z)
  (l : Client.loop_state) :
  Client.state (Client.transfer_state l) = Client.STATE_RECEIVING ->
  Client.running l = true ->
  Client.no_data_iterations l = 0 ->
  let t := Client.transfer_state l in
  let threshold := if 100000 <? Client.total_chunks t then 10 else 5 in
  Client.epoll_timeout l = 10000
  /\ (forall l0 err_or_hup epollout epollin answer_header answer_payload
         errno_again r rv l' tr,
        Client.event_loop_iteration fopen_ok fwrite_ok sock l0
          (Client.WaitSocket err_or_hup epollout epollin
             answer_header answer_payload errno_again r)
        = Returned rv l' tr ->
        Client.no_data_iterations l' = 0)
  /\ (forall k,
        Z.of_nat k < threshold ->
        exists l',
          Client.event_loop fopen_ok fwrite_ok sock l
            (repeat Client.WaitTimeout k) = Returned 0 l' []
          /\ Client.transfer_state l' = t
          /\ Client.no_data_iterations l' = Z.of_nat k)
  /\ exists l',
       Client.event_loop fopen_ok fwrite_ok sock l
         (repeat Client.WaitTimeout (Z.to_nat threshold))
       = Returned 0 l' (Client.fclose_file t)
       /\ Client.transfer_state l' = Client.init_transfer_state
       /\ Client.state (Client.transfer_state l') = Client.STATE_COMMAND
       /\ Client.file_ptr (Client.transfer_state l') = None.
Proof.
  intros Hst Hrun Hzero t threshold.
  assert (Hth : threshold = Client.max_timeouts t) by reflexivity.
  split; [unfold Client.epoll_timeout; rewrite Hst; reflexivity |].
  split; [exact (ClientLoop.socket_event_resets fopen_ok fwrite_ok sock) |].
  split.
  - intros k Hk. eexists. split.
    + apply ClientLoop.timeouts_below; try assumption. fold t. lia.
    + rewrite Hzero. split; reflexivity.
  - eexists. split.
    + rewrite Hth. apply ClientLoop.timeouts_abort; assumption.
    + repeat split.
Qed.

(** A download of two chunks, one received, then silence. *)
Lemma C9_witness :
  (Client.state (Client.transfer_state Examples.stalled)
   = Client.STATE_RECEIVING
   /\ Client.running Examples.stalled = true
   /\ Client.no_data_iterations Examples.stalled = 0)
  /\ exists l',
       Client.event_loop Examples.always Examples.writes 3 Examples.stalled
         (repeat Client.WaitTimeout 5)
       = Returned 0 l' [EFclose (bytes_of "f")]
       /\ Client.state (Client.transfer_state l') = Client.STATE_COMMAND.
Proof.
  split; [repeat split |].
  destruct (C9_stalled_download_aborts Examples.always Examples.writes 3
              Examples.stalled eq_refl eq_refl eq_refl)
    as (_ & _ & _ & l' & Hrun & _ & Hst & _).
  exists l'. split; [exact Hrun | exact Hst].
Defined.

(** ** C3: header sizes out of range *)

(** C3 at an input the code mishandles.  A connection in command mode
    receives, in one read, a first chunk and then a header that announces
    9000 bytes.  [handle_client_data] takes the bytes for a transfer and
    its copy of the chunk loop accepts the second header: no error is
    sent, the connection stays in file transfer mode and waits for 9000
    bytes of payload.  [handle_file_transfer], given the same bytes,
    refuses that header: error frame, command mode, -1. *)
Theorem C3_detection_pass_checks_no_size :
  (exists c tr,
     Server.handle_client_data Examples.always Examples.commanding
       (RecvData Examples.then_oversized) = Returned 0 c tr
     /\ Server.state c = 1
     /\ Server.header_complete c = true
     /\ chunk_size (Server.current_header c) = 9000
     /\ Server.payload_remaining c = 9000
     /\ sent_to 5 tr = [])
  /\ (exists c tr,
        Server.handle_file_transfer Examples.always Examples.uploading
          (RecvData Examples.then_oversized) = Returned (-1) c tr
        /\ Server.state c = 0
        /\ sent_to 5 tr = [Server.MSG_INVALID_HEADER]).
Proof.
  split; eexists _, _; (split; [vm_compute; reflexivity |]);
    repeat split.
Qed.

(** ** C4: when bytes are taken for a file header *)

Module Detection.

Lemma server_test temp_buffer :
  Server.looks_like_header temp_buffer = true
  <-> Server.plausible_header temp_buffer.
Proof.
  unfold Server.looks_like_header, Server.plausible_header.
  rewrite !andb_true_iff, Z.leb_le, !Z.ltb_lt, !Z.leb_le. tauto.
Qed.

Lemma client_test t temp_buffer :
  Client.looks_like_header t temp_buffer = true
  <-> Client.plausible_header t temp_buffer.
Proof.
  unfold Client.looks_like_header, Client.plausible_header.
  rewrite !andb_true_iff, Z.leb_le, Z.eqb_eq, !Z.ltb_lt, !Z.leb_le.
  rewrite negb_true_iff.
  assert (Hb : forall b : byte, Byte.eqb b x00 = false <-> b <> x00).
  { intros b. split.
    - intros E Heq. subst b. discriminate E.
    - intros Hne. destruct (Byte.eqb b x00) eqn:E; [| reflexivity].
      apply Byte.byte_dec_bl in E. contradiction. }
  rewrite Hb.
  assert (Hs : match Client.state t with
               | Client.STATE_COMMAND => true
               | _ => false
               end = true <-> Client.state t = Client.STATE_COMMAND).
  { destruct (Client.state t); split; intros H;
      try reflexivity; discriminate H. }
  rewrite Hs. tauto.
Qed.

End Detection.

(** C4, as stated, fails on the server: eighty bytes that read as a header
    of id 7 with an empty file name, read in command mode, switch the
    connection to file transfer mode; nothing enters the command
    buffer. *)
Lemma C4_counterexample :
  exists c,
    Server.handle_client_data Examples.always Examples.commanding
      (RecvData Examples.nameless_id_7) = Returned 0 c []
    /\ Server.state c = 1
    /\ Server.buffer c = []
    /\ Server.header_complete c = true
    /\ chunk_id (Server.current_header c) = 7
    /\ c_str (filename (Server.current_header c)) = [].
Proof.
  eexists. split; [vm_compute; reflexivity |]. repeat split.
Qed.

(** C4, amended.  The server, in command mode, takes the bytes of a read
    for the start of a transfer exactly when there are at least 80 of them
    and they read as a header with [0 < chunk_size <= 8192] and
    [0 < total_chunks <= 2000000]; it looks neither at the id nor at the
    file name.  The client, when it is not receiving, takes them for the
    start of a download exactly when it is in the command state, there are
    at least 80 of them and they read as a header with [chunk_id = 0],
    [0 < total_chunks < 2000000], [0 < chunk_size <= 512] and a file name
    whose first byte is not NUL.  Bytes not taken so are treated as
    text. *)
Theorem C4_mode_switch_detection
  (fopen_ok : list byte -> bool) (fwrite_ok : Z -> bool) :
  (forall c r temp_buffer,
     Server.state c <> 1 ->
     recv 1023 r = RecvData temp_buffer ->
     (Server.plausible_header temp_buffer ->
      Server.handle_client_data fopen_ok c r
      = Server.handle_detected fopen_ok c temp_buffer)
     /\ (~ Server.plausible_header temp_buffer ->
         Server.handle_client_data fopen_ok c r
         = Server.handle_text c temp_buffer))
  /\ (forall l r temp_buffer,
        Client.state (Client.transfer_state l) <> Client.STATE_RECEIVING ->
        recv 1023 r = RecvData temp_buffer ->
        (Client.plausible_header (Client.transfer_state l) temp_buffer ->
         Client.on_socket_readable fopen_ok fwrite_ok l r
         = Client.on_file_data fopen_ok fwrite_ok
             (Client.set_transfer (Client.recv_statics l)
                (Client.detected_download (Client.transfer_state l)) l)
             temp_buffer)
        /\ (~ Client.plausible_header (Client.transfer_state l) temp_buffer ->
            Client.on_socket_readable fopen_ok fwrite_ok l r
            = Client.on_text l temp_buffer)).
Proof.
  split.
  - intros c r temp_buffer Hst Hrecv.
    assert (E : (Server.state c =? 1) = false) by (apply Z.eqb_neq; exact Hst).
    unfold Server.handle_client_data. rewrite E, Hrecv. split; intros H.
    + apply Detection.server_test in H. rewrite H. reflexivity.
    + destruct (Server.looks_like_header temp_buffer) eqn:El;
        [| reflexivity].
      apply Detection.server_test in El. contradiction.
  - intros l r temp_buffer Hst Hrecv.
    unfold Client.on_socket_readable. rewrite Hrecv. split; intros H.
    + apply Detection.client_test in H. rewrite H.
      destruct (Client.state (Client.transfer_state l));
        [reflexivity | reflexivity | contradiction].
    + destruct (Client.looks_like_header (Client.transfer_state l)
                  temp_buffer) eqn:El.
      * apply Detection.client_test in El. contradiction.
      * destruct (Client.state (Client.transfer_state l));
          [reflexivity | reflexivity | contradiction].
Qed.

(** A header of id 0 for the file [f], read by a client in the command
    state, starts a download. *)
Lemma C4_witness :
  (Client.state (Client.transfer_state Client.initial_loop_state)
   <> Client.STATE_RECEIVING
   /\ recv 1023 (RecvData (Examples.chunk 0 2 "f" ["A"%byte]))
      = RecvData (Examples.chunk 0 2 "f" ["A"%byte])
   /\ Client.plausible_header
        (Client.transfer_state Client.initial_loop_state)
        (Examples.chunk 0 2 "f" ["A"%byte]))
  /\ Client.on_socket_readable Examples.always Examples.writes
       Client.initial_loop_state
       (RecvData (Examples.chunk 0 2 "f" ["A"%byte]))
     = Client.on_file_data Examples.always Examples.writes
         (Client.set_transfer
            (Client.recv_statics Client.initial_loop_state)
            (Client.detected_download
               (Client.transfer_state Client.initial_loop_state))
            Client.initial_loop_state)
         (Examples.chunk 0 2 "f" ["A"%byte]).
Proof.
  assert (H1 : Client.state (Client.transfer_state Client.initial_loop_state)
               <> Client.STATE_RECEIVING) by discriminate.
  assert (H2 : recv 1023 (RecvData (Examples.chunk 0 2 "f" ["A"%byte]))
               = RecvData (Examples.chunk 0 2 "f" ["A"%byte]))
    by reflexivity.
  assert (H3 : Client.plausible_header
                 (Client.transfer_state Client.initial_loop_state)
                 (Examples.chunk 0 2 "f" ["A"%byte])).
  { vm_compute. repeat split; discriminate. }
  split; [auto |].
  exact (proj1 (proj2 (C4_mode_switch_detection Examples.always
                         Examples.writes) _ _ _ H1 H2) H3).
Defined.

(** ** The chunks [send_file] sends *)

Module SendFacts.
Import Commands.

Lemma total_chunks_is_ceiling (fsize : Z) :
  0 <= fsize <= MAX_FILE_SIZE ->
  total_chunks_of fsize = (fsize + 511) / 512
  /\ 512 * (total_chunks_of fsize - 1) < fsize <= 512 * total_chunks_of fsize
  /\ 0 <= total_chunks_of fsize < 2 ^ 31.
Proof.
  intros H. unfold total_chunks_of, MAX_FILE_SIZE, CHUNK_SIZE in *.
  change (2 ^ 40) with 1099511627776 in H.
  replace (fsize + 512 - 1) with (fsize + 511) by lia.
  rewrite Z.quot_div_nonneg by lia.
  pose proof (Z.div_mod (fsize + 511) 512 ltac:(lia)) as Hd.
  pose proof (Z.mod_pos_bound (fsize + 511) 512 ltac:(lia)) as Hm.
  assert (Hq : 0 <= (fsize + 511) / 512 < 2 ^ 31).
  { change (2 ^ 31) with 2147483648. split.
    - apply Z.div_pos; lia.
    - apply Z.div_lt_upper_bound; lia. }
  rewrite to_int_small by exact Hq.
  repeat split; lia.
Qed.

(** A socket with room takes a chunk in one call. *)
Lemma send_with_retry_whole answers k sock chunk_data fuel :
  accepts_whole answers ->
  (0 < length chunk_data <= 592)%nat ->
  send_with_retry (S fuel) answers k sock chunk_data 0 0
  = (ChunkSent, S k, [ESend sock chunk_data]).
Proof.
  intros Hacc Hlen. destruct (Hacc k) as (n & Hk & Hn).
  cbn [send_with_retry].
  assert (E : (0 <? len chunk_data) && (0 <? MAX_RETRIES) = true).
  { unfold len, MAX_RETRIES. apply andb_true_iff.
    split; apply Z.ltb_lt; lia. }
  rewrite E, Hk.
  assert (Hmin : Z.min (Z.of_nat (S n)) (len chunk_data - 0)
                 = len chunk_data) by (unfold len; lia).
  rewrite Hmin. cbn [Z.add].
  assert (Hrest : send_with_retry fuel answers (S k) sock chunk_data
                    (len chunk_data) 0 = (ChunkSent, S k, [])).
  { destruct fuel; cbn [send_with_retry];
      rewrite Z.ltb_irrefl; reflexivity. }
  rewrite Hrest, slice_whole. reflexivity.
Qed.

Lemma sent_to_delay sock total i : sent_to sock (chunk_delay total i) = [].
Proof.
  unfold chunk_delay.
  destruct ((500000 <? total) && (Z.rem i 100 =? 0)); [reflexivity |].
  destruct ((100000 <? total) && (Z.rem i 500 =? 0)); reflexivity.
Qed.

Lemma slice_skip (buf : list byte) (j : nat) :
  slice (skipn 512 buf) (CHUNK_SIZE * Z.of_nat j) CHUNK_SIZE
  = slice buf (CHUNK_SIZE * Z.of_nat (S j)) CHUNK_SIZE.
Proof.
  unfold slice, CHUNK_SIZE. rewrite skipn_skipn. do 2 f_equal. lia.
Qed.

Lemma to_u32_twice (z : Z) : to_u32 (to_u32 z) = to_u32 z.
Proof. unfold to_u32. apply Z.mod_mod. lia. Qed.

Lemma retry_fuel_positive chunk_data :
  exists fuel, retry_fuel chunk_data = S fuel.
Proof.
  unfold retry_fuel. destruct (11 * (length chunk_data + 1))%nat eqn:E;
    [lia | eexists; reflexivity].
Qed.

(** The chunk [send_file] builds from the rest of the file. *)
Lemma built_chunk_says filename unread total i :
  0 <= Z.of_nat i < total -> total < 2 ^ 31 ->
  chunk_says filename unread total i 0
    (encode_header
       (chunk_header filename (Z.of_nat i) (len (firstn 512 unread)) total)
     ++ firstn 512 unread).
Proof.
  intros Hi Htot. unfold chunk_says, chunk_header.
  rewrite decode_encode by apply strncpy_field_length.
  cbn [chunk_id chunk_size total_chunks type Wire.filename].
  rewrite !to_u32_twice.
  assert (Hskip : skipn 80 (encode_header
                    (mkHeader (to_u32 (Z.of_nat i))
                       (to_u32 (len (firstn 512 unread))) (to_u32 total)
                       (to_u32 0) (strncpy_field filename))
                    ++ firstn 512 unread) = firstn 512 unread).
  { rewrite skipn_app, encode_header_length, Nat.sub_diag.
    rewrite skipn_all2 by (rewrite encode_header_length; lia).
    reflexivity. }
  rewrite Hskip.
  assert (Hlen : 0 <= len (firstn 512 unread) <= 512).
  { unfold len. pose proof (firstn_le_length 512 unread). lia. }
  change (2 ^ 31) with 2147483648 in Htot.
  rewrite !to_u32_small by (change (2 ^ 32) with 4294967296; lia).
  repeat split; lia.
Qed.

(** With a socket that has room, the chunk loop sends one chunk for every
    pass, each with a header that says what it carries. *)
Lemma send_chunks_stream answers sock filename path total :
  accepts_whole answers -> total < 2 ^ 31 ->
  forall n k i unread,
    Z.of_nat i + Z.of_nat n = total ->
    exists tr,
      send_chunks n answers k sock filename path total (Z.of_nat i) unread
      = Returned 0 tt tr
      /\ length (sent_to sock tr) = n
      /\ forall j d,
           nth_error (sent_to sock tr) j = Some d ->
           chunk_says filename unread total i j d.
Proof.
  intros Hacc Htot. induction n as [| n IH]; intros k i unread Hsum.
  - cbn [send_chunks]. eexists. split; [reflexivity |].
    split; [reflexivity |]. intros [| j] d H; discriminate H.
  - cbn [send_chunks].
    set (chunk_data :=
           encode_header
             (chunk_header filename (Z.of_nat i) (len (firstn 512 unread))
                total) ++ firstn 512 unread).
    destruct (retry_fuel_positive chunk_data) as [fuel ->].
    rewrite send_with_retry_whole.
    2: exact Hacc.
    2:{ unfold chunk_data. rewrite length_app, encode_header_length.
        pose proof (firstn_le_length 512 unread). lia. }
    replace (Z.of_nat i + 1) with (Z.of_nat (S i)) by lia.
    destruct (IH (S k) (S i) (skipn 512 unread) ltac:(lia))
      as (tr & Hrun & Hlen & Hsay).
    rewrite Hrun. cbn [prepend]. eexists. split; [reflexivity |].
    assert (Hsent : sent_to sock
                      (([ESend sock chunk_data]
                          ++ chunk_delay total (Z.of_nat i)) ++ tr)
                    = chunk_data :: sent_to sock tr).
    { rewrite !sent_to_app, sent_to_delay. cbn [sent_to app].
      rewrite Z.eqb_refl. reflexivity. }
    rewrite Hsent. split; [cbn [length]; lia |].
    intros [| j] d Hd; cbn [nth_error] in Hd.
    + inversion Hd; subst d. replace (i + 0)%nat with i by lia.
      apply built_chunk_says; lia.
    + destruct (Hsay j d Hd) as (H1 & H2 & H3 & H4 & H5).
      unfold chunk_says. repeat split; try assumption.
      * rewrite H1. lia.
      * rewrite H4. apply slice_skip.
Qed.

(** [send_file] on a file that is there, with a socket that has room. *)
Lemma send_file_stream local_file answers sock filename contents :
  local_file filename = Some contents ->
  accepts_whole answers ->
  len contents <= MAX_FILE_SIZE ->
  exists tr,
    send_file local_file answers sock filename = Returned 0 tt tr
    /\ length (sent_to sock tr)
       = Z.to_nat (total_chunks_of (len contents))
    /\ forall j d,
         nth_error (sent_to sock tr) j = Some d ->
         chunk_says filename contents (total_chunks_of (len contents))
           0 j d.
Proof.
  intros Hfile Hacc Hsize. unfold send_file. rewrite Hfile.
  destruct (total_chunks_is_ceiling (len contents)
              (conj (len_nonneg contents) Hsize)) as (_ & _ & Htot).
  destruct (send_chunks_stream answers sock filename filename
              (total_chunks_of (len contents)) Hacc ltac:(lia)
              (Z.to_nat (total_chunks_of (len contents))) 0%nat 0%nat
              contents ltac:(lia))
    as (tr & Hrun & Hlen & Hsay).
  cbn [Z.of_nat] in Hrun. rewrite Hrun. cbn [prepend].
  eexists. split; [reflexivity |]. cbn [app sent_to]. auto.
Qed.

End SendFacts.

(** ** The header [send_file_chunk_epoll] sends *)

Module UploadFacts.
Import Client.

Lemma upload_header_on_wire sock t path unread n answer_payload
  errno_again :
  file_ptr t = Some (ReadFile path unread) ->
  unread <> [] -> (80 <= S n)%nat ->
  exists hd r t' tr,
    send_file_chunk_epoll sock t (SendAccepts n) answer_payload errno_again
    = (r, t', ESend sock hd :: tr)
    /\ length hd = 80%nat
    /\ chunk_size (decode_header hd) = len (firstn 512 unread)
    /\ Wire.filename (decode_header hd)
       = (if current_chunk t =? 0 then strncpy_field (filename t)
          else repeat x00 64)
    /\ (forall m, answer_payload = SendAccepts m -> (512 <= S m)%nat ->
        exists tr', tr = ESend sock (firstn 512 unread) :: tr').
Proof.
  intros Hfile Hne Hroom. unfold send_file_chunk_epoll. rewrite Hfile.
  assert (Hlen : 0 < len (firstn 512 unread) <= 512).
  { unfold len. rewrite length_firstn.
    destruct unread; [congruence | cbn [length]; lia]. }
  assert (E : (len (firstn 512 unread) <=? 0) = false) by lia.
  rewrite E.
  set (t1 := set_file_ptr (Some (ReadFile path (skipn 512 unread))) t).
  set (header := upload_header t1 (len (firstn 512 unread))).
  assert (Hhd : send_whole sock (encode_header header) (SendAccepts n)
                  errno_again
                = (0, [ESend sock (encode_header header)])).
  { unfold send_whole. rewrite encode_header_length.
    assert (E' : (80 <=? S n)%nat = true) by (apply Nat.leb_le; exact Hroom).
    rewrite E'. reflexivity. }
  rewrite Hhd.
  assert (Hfield : length (Wire.filename header) = 64%nat).
  { unfold header, upload_header. cbn [Wire.filename].
    destruct (current_chunk t1 =? 0);
      [apply strncpy_field_length | apply repeat_length]. }
  assert (Hdec : decode_header (encode_header header)
                 = mkHeader (to_u32 (chunk_id header))
                     (to_u32 (chunk_size header))
                     (to_u32 (Wire.total_chunks header))
                     (to_u32 (type header)) (Wire.filename header)).
  { rewrite <- (app_nil_r (encode_header header)) at 1.
    apply decode_encode. exact Hfield. }
  exists (encode_header header).
  destruct (send_whole sock (firstn 512 unread) answer_payload errno_again)
    as [rp trp] eqn:Ep.
  assert (Hshape : exists r t' tr,
            match rp with
            | 0 =>
                if total_chunks (set_current_chunk (current_chunk t1 + 1) t1)
                   <=? current_chunk
                         (set_current_chunk (current_chunk t1 + 1) t1)
                then
                  (1, set_current_chunk (current_chunk t1 + 1) t1,
                   [ESend sock (encode_header header)] ++ trp
                     ++ [EProgress
                           (percent_of
                              (current_chunk
                                 (set_current_chunk (current_chunk t1 + 1) t1))
                              (total_chunks
                                 (set_current_chunk (current_chunk t1 + 1)
                                    t1)))])
                else
                  (0, set_current_chunk (current_chunk t1 + 1) t1,
                   [ESend sock (encode_header header)] ++ trp
                     ++ [EProgress
                           (percent_of
                              (current_chunk
                                 (set_current_chunk (current_chunk t1 + 1) t1))
                              (total_chunks
                                 (set_current_chunk (current_chunk t1 + 1)
                                    t1)))])
            | _ => (rp, t1, [ESend sock (encode_header header)] ++ trp)
            end = (r, t', ESend sock (encode_header header) :: tr)
            /\ exists tr', tr = trp ++ tr').
  { destruct rp as [| q | q].
    - clear E.
      destruct (total_chunks _ <=? _); eexists _, _, _;
        (split; [reflexivity |]); eexists; reflexivity.
    - eexists _, _, _. split; [reflexivity |]. exists [].
      rewrite app_nil_r. reflexivity.
    - eexists _, _, _. split; [reflexivity |]. exists [].
      rewrite app_nil_r. reflexivity. }
  destruct Hshape as (r & t' & tr & Hres & tr' & Htr).
  exists r, t', tr. split; [exact Hres |].
  split; [apply encode_header_length |].
  rewrite Hdec. cbn [chunk_size Wire.filename].
  unfold header, upload_header.
  cbn [chunk_size Wire.filename set_file_ptr current_chunk filename t1].
  rewrite SendFacts.to_u32_twice,
    to_u32_small by (change (2 ^ 32) with 4294967296; lia).
  split; [reflexivity |]. split; [reflexivity |].
  intros m -> Hm. unfold send_whole in Ep.
  assert (E' : (length (firstn 512 unread) <=? S m)%nat = true).
  { apply Nat.leb_le. pose proof (firstn_le_length 512 unread). lia. }
  rewrite E' in Ep. inversion Ep; subst. eexists. reflexivity.
Qed.

End UploadFacts.

Lemma start_file_upload_total local_file name state contents :
  local_file name = Some contents ->
  0 < len contents <= Commands.MAX_FILE_SIZE ->
  exists t,
    Client.start_file_upload local_file name state
    = (0, t, [EFopen name "rb" true])
    /\ Client.total_chunks t = (len contents + 511) / 512
    /\ Client.current_chunk t = 0
    /\ Client.state t = Client.STATE_SENDING
    /\ Client.file_ptr t = Some (Client.ReadFile name contents).
Proof.
  intros Hfile Hsize. unfold Client.start_file_upload. rewrite Hfile.
  assert (E1 : (len contents <=? 0) = false) by lia.
  assert (E2 : (0 <? len contents) = true) by lia.
  rewrite E1, E2. eexists. split; [reflexivity |].
  cbn [Client.set_current_chunk Client.set_total_chunks Client.total_chunks
       Client.current_chunk Client.state Client.file_ptr
       Client.set_file_size Client.set_filename Client.set_file_ptr
       Client.set_state].
  repeat split.
  destruct (SendFacts.total_chunks_is_ceiling (len contents) ltac:(lia))
    as (Hq & _). exact Hq.
Qed.

(** ** C6: how many chunks, and of what size *)

(** C6.  [send_file] computes [total_chunks = (fsize + 511) / 512], the
    least count of chunks of 512 bytes that hold the file, for every file
    whose count fits an [int]; [start_file_upload] computes the same.
    With a socket that takes every chunk, [send_file] sends that many
    chunks; chunk [j] has the id [j], carries the bytes of the file from
    offset [512 * j] on, 512 at most, and its header gives as
    [chunk_size] the number of bytes it carries; so does the header
    [send_file_chunk_epoll] sends.  A file of 512 bytes makes one chunk;
    a file of 513 bytes makes two, the second with a [chunk_size] of 1. *)
Theorem C6_total_chunks_and_sizes :
  (forall local_file answers sock name contents,
     local_file name = Some contents ->
     Commands.accepts_whole answers ->
     len contents <= Commands.MAX_FILE_SIZE ->
     let fsize := len contents in
     let total := Commands.total_chunks_of fsize in
     total = (fsize + 511) / 512
     /\ 512 * (total - 1) < fsize <= 512 * total
     /\ (fsize = 512 -> total = 1)
     /\ (fsize = 513 -> total = 2)
     /\ exists tr,
          Commands.send_file local_file answers sock name
          = Returned 0 tt tr
          /\ length (sent_to sock tr) = Z.to_nat total
          /\ (forall j d,
                nth_error (sent_to sock tr) j = Some d ->
                chunk_id (decode_header d) = Z.of_nat j
                /\ total_chunks (decode_header d) = total
                /\ chunk_size (decode_header d) = len (skipn 80 d)
                /\ skipn 80 d = Commands.piece contents j)
          /\ (fsize = 513 ->
              exists d0 d1,
                sent_to sock tr = [d0; d1]
                /\ chunk_size (decode_header d1) = 1
                /\ len (skipn 80 d1) = 1))
  /\ (forall local_file name state contents,
        local_file name = Some contents ->
        0 < len contents <= Commands.MAX_FILE_SIZE ->
        exists t,
          Client.start_file_upload local_file name state
          = (0, t, [EFopen name "rb" true])
          /\ Client.total_chunks t = (len contents + 511) / 512)
  /\ (forall sock t path unread n answer_payload errno_again,
        Client.file_ptr t = Some (Client.ReadFile path unread) ->
        unread <> [] -> (80 <= S n)%nat ->
        exists hd r t' tr,
          Client.send_file_chunk_epoll sock t (SendAccepts n) answer_payload
            errno_again
          = (r, t', ESend sock hd :: tr)
          /\ chunk_size (decode_header hd) = len (firstn 512 unread)
          /\ (forall m,
                answer_payload = SendAccepts m -> (512 <= S m)%nat ->
                exists tr', tr = ESend sock (firstn 512 unread) :: tr')).
Proof.
  split; [| split].
  - intros local_file answers sock name contents Hfile Hacc Hsize fsize total.
    destruct (SendFacts.total_chunks_is_ceiling fsize
                (conj (len_nonneg contents) Hsize)) as (Hq & Hceil & Hrange).
    fold total in Hq, Hceil, Hrange.
    split; [exact Hq |]. split; [exact Hceil |].
    split; [intros H; lia |]. split; [intros H; lia |].
    destruct (SendFacts.send_file_stream local_file answers sock name
                contents Hfile Hacc Hsize) as (tr & Hrun & Hlen & Hsay).
    fold fsize in Hlen, Hsay. fold total in Hlen, Hsay.
    exists tr. split; [exact Hrun |]. split; [exact Hlen |]. split.
    + intros j d Hd. destruct (Hsay j d Hd) as (H1 & H2 & H3 & H4 & _).
      cbn [Nat.add] in H1. auto.
    + intros H513. assert (Htwo : total = 2) by lia.
      rewrite Htwo in Hlen. change (Z.to_nat 2) with 2%nat in Hlen.
      destruct (sent_to sock tr) as [| d0 [| d1 [| d2 rest]]];
        try discriminate Hlen.
      exists d0, d1. split; [reflexivity |].
      destruct (Hsay 1%nat d1 eq_refl) as (_ & _ & H3 & H4 & _).
      assert (Hone : len (skipn 80 d1) = 1).
      { rewrite H4. unfold Commands.piece, slice, CHUNK_SIZE, len, fsize in *.
        change (Z.to_nat 512) with 512%nat.
        change (Z.to_nat (512 * Z.of_nat 1)) with 512%nat.
        rewrite length_firstn, length_skipn.
        assert (Hc : length contents = 513%nat)
          by (unfold len in H513; lia).
        rewrite Hc. reflexivity. }
      rewrite H3. auto.
  - intros local_file name state contents Hfile Hsize.
    destruct (start_file_upload_total local_file name state contents
                Hfile Hsize) as (t & Hrun & Htot & _).
    exists t. auto.
  - intros sock t path unread n answer_payload errno_again Hfile Hne Hroom.
    destruct (UploadFacts.upload_header_on_wire sock t path unread n
                answer_payload errno_again Hfile Hne Hroom)
      as (hd & r & t' & tr & Hrun & _ & Hsize & _ & Hpay).
    exists hd, r, t', tr. auto.
Qed.

(** The file of 513 bytes, sent through a socket with room. *)
Lemma C6_witness :
  (Examples.file_513 (bytes_of "a") = Some (repeat "x"%byte 513)
   /\ Commands.accepts_whole Examples.roomy
   /\ len (repeat "x"%byte 513) <= Commands.MAX_FILE_SIZE)
  /\ Commands.total_chunks_of (len (repeat "x"%byte 513)) = 2
  /\ exists tr d0 d1,
       Commands.send_file Examples.file_513 Examples.roomy 4 (bytes_of "a")
       = Returned 0 tt tr
       /\ sent_to 4 tr = [d0; d1]
       /\ chunk_size (decode_header d1) = 1.
Proof.
  assert (H1 : Examples.file_513 (bytes_of "a")
               = Some (repeat "x"%byte 513)) by reflexivity.
  assert (H2 : Commands.accepts_whole Examples.roomy).
  { intros k. exists 591%nat. split; [reflexivity | lia]. }
  assert (H3 : len (repeat "x"%byte 513) <= Commands.MAX_FILE_SIZE).
  { vm_compute. discriminate. }
  split; [auto |].
  destruct (proj1 C6_total_chunks_and_sizes Examples.file_513 Examples.roomy
              4 (bytes_of "a") (repeat "x"%byte 513) H1 H2 H3)
    as (_ & _ & _ & Htwo & tr & Hrun & _ & _ & Hlast).
  split; [apply Htwo; reflexivity |].
  destruct (Hlast eq_refl) as (d0 & d1 & Hsent & Hsize & _).
  exists tr, d0, d1. auto.
Defined.

(** ** C7: the file name in the headers *)

(** C7, as stated, fails for [send_file]: of the two chunks of a file of
    513 bytes named [a], the second, of id 1, carries the name [a] in its
    header. *)
Lemma C7_counterexample :
  exists tr d0 d1,
    Commands.send_file Examples.file_513 Examples.roomy 4 (bytes_of "a")
    = Returned 0 tt tr
    /\ sent_to 4 tr = [d0; d1]
    /\ chunk_id (decode_header d1) = 1
    /\ c_str (filename (decode_header d1)) = bytes_of "a".
Proof.
  eexists _, _, _. split; [vm_compute; reflexivity |].
  split; [reflexivity |]. split; reflexivity.
Qed.

(** C7, amended.  The header [send_file_chunk_epoll] sends carries the
    file name, cut to 63 bytes and padded with NUL, when the chunk is
    chunk 0, and 64 NUL bytes, no name, for every other chunk.  Every
    header [send_file] sends carries the file name, cut and padded the
    same way. *)
Theorem C7_filename_field :
  (forall sock t path unread n answer_payload errno_again,
     Client.file_ptr t = Some (Client.ReadFile path unread) ->
     unread <> [] -> (80 <= S n)%nat ->
     exists hd r t' tr,
       Client.send_file_chunk_epoll sock t (SendAccepts n) answer_payload
         errno_again
       = (r, t', ESend sock hd :: tr)
       /\ length hd = 80%nat
       /\ (Client.current_chunk t = 0 ->
           filename (decode_header hd) = strncpy_field (Client.filename t))
       /\ (Client.current_chunk t <> 0 ->
           filename (decode_header hd) = repeat x00 64
           /\ c_str (filename (decode_header hd)) = []))
  /\ (forall local_file answers sock name contents,
        local_file name = Some contents ->
        Commands.accepts_whole answers ->
        len contents <= Commands.MAX_FILE_SIZE ->
        exists tr,
          Commands.send_file local_file answers sock name
          = Returned 0 tt tr
          /\ forall j d,
               nth_error (sent_to sock tr) j = Some d ->
               chunk_id (decode_header d) = Z.of_nat j
               /\ filename (decode_header d) = strncpy_field name).
Proof.
  split.
  - intros sock t path unread n answer_payload errno_again Hfile Hne Hroom.
    destruct (UploadFacts.upload_header_on_wire sock t path unread n
                answer_payload errno_again Hfile Hne Hroom)
      as (hd & r & t' & tr & Hrun & Hlen & _ & Hname & _).
    exists hd, r, t', tr. split; [exact Hrun |]. split; [exact Hlen |].
    split.
    + intros Hzero. rewrite Hname, Hzero. reflexivity.
    + intros Hnz. apply Z.eqb_neq in Hnz. rewrite Hname, Hnz.
      split; reflexivity.
  - intros local_file answers sock name contents Hfile Hacc Hsize.
    destruct (SendFacts.send_file_stream local_file answers sock name
                contents Hfile Hacc Hsize) as (tr & Hrun & _ & Hsay).
    exists tr. split; [exact Hrun |].
    intros j d Hd. destruct (Hsay j d Hd) as (H1 & _ & _ & _ & H5).
    cbn [Nat.add] in H1. auto.
Qed.

(** The second chunk of an upload of two. *)
Lemma C7_witness :
  (Client.file_ptr Examples.midway_upload
   = Some (Client.ReadFile (bytes_of "f") ["z"%byte])
   /\ ["z"%byte] <> [] /\ (80 <= 80)%nat)
  /\ exists hd r t' tr,
       Client.send_file_chunk_epoll 3 Examples.midway_upload
         (SendAccepts 79) (SendAccepts 0) false
       = (r, t', ESend 3 hd :: tr)
       /\ c_str (filename (decode_header hd)) = [].
Proof.
  assert (H1 : Client.file_ptr Examples.midway_upload
               = Some (Client.ReadFile (bytes_of "f") ["z"%byte]))
    by reflexivity.
  assert (H2 : ["z"%byte] <> []) by discriminate.
  assert (H3 : (80 <= 80)%nat) by lia.
  split; [auto |].
  destruct (proj1 C7_filename_field 3 Examples.midway_upload _ _ 79%nat
              (SendAccepts 0) false H1 H2 H3)
    as (hd & r & t' & tr & Hrun & _ & _ & Hnone).
  exists hd, r, t', tr. split; [exact Hrun |].
  apply Hnone. discriminate.
Defined.

(** ** The path an upload is stored at *)

Module StoreFacts.
Import Server ServerFacts.

Section Env.
Variable fopen_ok : list byte -> bool.






(** The bytes read at the name field, for a name that leaves room for a
    NUL and for one that does not. *)
Lemma full_path_cases (f : list byte) (z : Z) :
  (has_nul f = true -> full_path f z = bytes_of "saved/" ++ c_str f)
  /\ (has_nul f = false ->
      full_path f z = bytes_of "saved/" ++ f ++ c_str (int_bytes z)).
Proof.
  split; intros H.
  - exact (full_path_plain f z H).
  - unfold full_path, filename_and_beyond.
    rewrite (c_str_app_plain f _ H). reflexivity.
Qed.


End Env.
End StoreFacts.

(** ** Where the path leads *)

Module PathFacts.
Import Path.







End PathFacts.

(** ** C10: where an upload is stored *)




(** * Further properties *)

(** ** The header on the wire, both ways *)

Lemma skipn_app_exact {A : Type} (l r : list A) :
  skipn (length l) (l ++ r) = r.
Proof. induction l as [| a l IH]; [reflexivity | exact IH]. Qed.

Module WireFacts.

Lemma byte_of_Z_val (z : Z) (b : byte) :
  z mod 256 = byte_val b -> byte_of_Z z = b.
Proof.
  intros H. unfold byte_of_Z, byte_val in *. rewrite H, N2Z.id.
  rewrite Byte.of_to_N. reflexivity.
Qed.

(** Four bytes read through [ntohl] are written back by [htonl]. *)
Lemma htonl_ntohl (raw : list byte) (off : nat) :
  htonl (ntohl raw off)
  = [nth off raw x00; nth (off + 1) raw x00; nth (off + 2) raw x00;
     nth (off + 3) raw x00].
Proof.
  unfold htonl, ntohl.
  pose proof (byte_val_range (nth off raw x00)) as H0.
  pose proof (byte_val_range (nth (off + 1) raw x00)) as H1.
  pose proof (byte_val_range (nth (off + 2) raw x00)) as H2.
  pose proof (byte_val_range (nth (off + 3) raw x00)) as H3.
  remember (byte_val (nth off raw x00)) as b0 eqn:Eb0.
  remember (byte_val (nth (off + 1) raw x00)) as b1 eqn:Eb1.
  remember (byte_val (nth (off + 2) raw x00)) as b2 eqn:Eb2.
  remember (byte_val (nth (off + 3) raw x00)) as b3 eqn:Eb3.
  change (2 ^ 24) with 16777216. change (2 ^ 16) with 65536.
  change (2 ^ 8) with 256.
  set (u := b0 * 16777216 + b1 * 65536 + b2 * 256 + b3).
  assert (Hu : to_u32 u = u).
  { apply to_u32_small. change (2 ^ 32) with 4294967296. unfold u. lia. }
  rewrite Hu.
  assert (E0 : (u / 16777216) mod 256 = b0).
  { replace (u / 16777216) with b0.
    - apply Z.mod_small. lia.
    - apply Z.div_unique with (r := b1 * 65536 + b2 * 256 + b3);
        unfold u; lia. }
  assert (E1 : (u / 65536) mod 256 = b1).
  { replace (u / 65536) with (b0 * 256 + b1).
    - rewrite Z.add_comm, Z.mod_add by lia. apply Z.mod_small. lia.
    - apply Z.div_unique with (r := b2 * 256 + b3);
        unfold u; lia. }
  assert (E2 : (u / 256) mod 256 = b2).
  { replace (u / 256) with ((b0 * 65536 + b1 * 256) + b2).
    - replace (b0 * 65536 + b1 * 256 + b2)
        with (b2 + (b0 * 256 + b1) * 256) by lia.
      rewrite Z.mod_add by lia. apply Z.mod_small. lia.
    - apply Z.div_unique with (r := b3); unfold u; lia. }
  assert (E3 : u mod 256 = b3).
  { replace u with (b3 + (b0 * 65536 + b1 * 256 + b2) * 256)
      by (unfold u; lia).
    rewrite Z.mod_add by lia. apply Z.mod_small. lia. }
  rewrite Eb0 in E0. rewrite Eb1 in E1. rewrite Eb2 in E2.
  rewrite Eb3 in E3.
  rewrite (byte_of_Z_val _ _ E0), (byte_of_Z_val _ _ E1),
    (byte_of_Z_val _ _ E2), (byte_of_Z_val _ _ E3).
  reflexivity.
Qed.

Lemma firstn_app_long {A : Type} (n : nat) (l r : list A) :
  (n <= length l)%nat -> firstn n (l ++ r) = firstn n l.
Proof.
  intros H. rewrite firstn_app.
  replace (n - length l)%nat with 0%nat by lia.
  cbn [firstn]. apply app_nil_r.
Qed.

Lemma firstn_plus {A : Type} (n m : nat) (l : list A) :
  firstn (n + m) l = firstn n l ++ firstn m (skipn n l).
Proof.
  revert l. induction n as [| n IH]; intros l; [reflexivity |].
  destruct l as [| a l]; [cbn; rewrite firstn_nil; reflexivity |].
  cbn [Nat.add firstn skipn app]. rewrite IH. reflexivity.
Qed.

Lemma firstn_16_nth (raw : list byte) :
  (16 <= length raw)%nat ->
  firstn 16 raw
  = [nth 0 raw x00; nth 1 raw x00; nth 2 raw x00; nth 3 raw x00;
     nth 4 raw x00; nth 5 raw x00; nth 6 raw x00; nth 7 raw x00;
     nth 8 raw x00; nth 9 raw x00; nth 10 raw x00; nth 11 raw x00;
     nth 12 raw x00; nth 13 raw x00; nth 14 raw x00; nth 15 raw x00].
Proof.
  intros H.
  do 16 (destruct raw as [| ? raw]; [cbn [length] in H; lia |]).
  reflexivity.
Qed.

Lemma encode_decode (raw : list byte) :
  (80 <= length raw)%nat -> encode_header (decode_header raw) = firstn 80 raw.
Proof.
  intros H. unfold encode_header, decode_header.
  cbn [chunk_id chunk_size total_chunks type filename].
  rewrite !htonl_ntohl. cbn [Nat.add app].
  assert (Hs : (64 <= length (skipn 16 raw))%nat)
    by (rewrite length_skipn; lia).
  assert (E : firstn 64 (firstn 64 (skipn 16 raw ++ repeat x00 64)
                           ++ repeat x00 64)
              = firstn 64 (skipn 16 raw)).
  { rewrite (firstn_app_long 64 (skipn 16 raw)) by exact Hs.
    rewrite firstn_app_long by (rewrite length_firstn; lia).
    rewrite firstn_firstn, Nat.min_id. reflexivity. }
  rewrite E. change 80%nat with (16 + 64)%nat.
  rewrite firstn_plus, (firstn_16_nth raw) by lia. reflexivity.
Qed.

End WireFacts.

(** X1.  The 80 bytes of a header are a faithful image of it: a header
    whose integer fields fit 32 bits and whose name field has 64 bytes is
    read back from its encoding unchanged, whatever bytes follow, and the
    first 80 bytes of any block are the encoding of the header read from
    them. *)
Theorem X1_header_round_trip :
  (forall h payload,
     0 <= chunk_id h < 2 ^ 32 -> 0 <= chunk_size h < 2 ^ 32 ->
     0 <= total_chunks h < 2 ^ 32 -> 0 <= type h < 2 ^ 32 ->
     length (filename h) = 64%nat ->
     length (encode_header h) = 80%nat
     /\ decode_header (encode_header h ++ payload) = h)
  /\ (forall raw,
        (80 <= length raw)%nat ->
        encode_header (decode_header raw) = firstn 80 raw).
Proof.
  split.
  - intros h payload H1 H2 H3 H4 Hf.
    split; [apply encode_header_length |].
    rewrite decode_encode by exact Hf.
    rewrite !to_u32_small by assumption. destruct h; reflexivity.
  - exact WireFacts.encode_decode.
Qed.

(** The header of chunk 3 of 5, 7 bytes of payload, file [a]. *)
Lemma X1_witness :
  decode_header
    (encode_header (mkHeader 3 7 5 0 (strncpy_field (bytes_of "a")))
       ++ bytes_of "payload")
  = mkHeader 3 7 5 0 (strncpy_field (bytes_of "a")).
Proof.
  apply (proj1 X1_header_round_trip
           (mkHeader 3 7 5 0 (strncpy_field (bytes_of "a"))));
    cbn [chunk_id chunk_size total_chunks type filename];
    try lia; reflexivity.
Defined.

(** ** The client table: adding, finding, removing *)

Module TableFacts.
Import Server ServerTable.

Lemma find_client_app clients more fd :
  find_client (clients ++ more) fd
  = match find_client clients fd with
    | Some c => Some c
    | None => find_client more fd
    end.
Proof.
  induction clients as [| x rest IH]; cbn [app find_client]; [reflexivity |].
  destruct (socket_fd x =? fd); [reflexivity | exact IH].
Qed.

Lemma find_client_absent clients fd :
  ~ In fd (descriptors clients) -> find_client clients fd = None.
Proof.
  intros H. apply find_client_none. intros x Hx Hfd. apply H.
  rewrite <- Hfd. apply in_map. exact Hx.
Qed.

Lemma find_client_in clients fd c :
  find_client clients fd = Some c -> In c clients.
Proof.
  induction clients as [| x rest IH]; cbn [find_client]; [discriminate |].
  destruct (socket_fd x =? fd).
  - intros H. inversion H. left. reflexivity.
  - intros H. right. exact (IH H).
Qed.

(** With distinct descriptors, the entry found for a descriptor is the
    entry of the table that carries it. *)
Lemma find_client_unique clients c :
  NoDup (descriptors clients) -> In c clients ->
  find_client clients (socket_fd c) = Some c.
Proof.
  unfold descriptors.
  induction clients as [| x rest IH]; intros Hnd Hin; [destruct Hin |].
  cbn [map] in Hnd. inversion Hnd as [| ? ? Hnotin Hnd']; subst.
  cbn [find_client]. destruct Hin as [-> | Hin].
  - rewrite Z.eqb_refl. reflexivity.
  - destruct (socket_fd x =? socket_fd c) eqn:E.
    + apply Z.eqb_eq in E. exfalso. apply Hnotin. rewrite E.
      apply in_map. exact Hin.
    + exact (IH Hnd' Hin).
Qed.

Lemma last_and_front {A : Type} (l : list A) (last : A) (before : list A) :
  rev l = last :: before -> l = removelast l ++ [last].
Proof.
  intros H. assert (Hl : l = rev before ++ [last]).
  { rewrite <- (rev_involutive l), H. reflexivity. }
  rewrite Hl at 2. rewrite removelast_last. exact Hl.
Qed.

(** What [remove_client] leaves: the entries of the other
    descriptors. *)
Lemma remove_client_entries clients fd :
  NoDup (descriptors clients) ->
  forall x,
    In x (fst (remove_client clients fd))
    <-> In x clients /\ socket_fd x <> fd.
Proof.
  unfold descriptors.
  induction clients as [| c rest IH]; intros Hnd x;
    cbn [remove_client]; [cbn; tauto |].
  cbn [map] in Hnd. inversion Hnd as [| ? ? Hnotin Hnd']; subst.
  destruct (socket_fd c =? fd) eqn:E.
  - apply Z.eqb_eq in E. cbn [fst].
    assert (Hrest : forall y, In y rest -> socket_fd y <> fd).
    { intros y Hy Hfd. apply Hnotin. rewrite E, <- Hfd. apply in_map.
      exact Hy. }
    destruct (rev rest) as [| last before] eqn:Er.
    + assert (rest = []) as ->.
      { rewrite <- (rev_involutive rest), Er. reflexivity. }
      cbn. intuition congruence.
    + pose proof (last_and_front rest last before Er) as Hl.
      split.
      * intros Hin. assert (Hx : In x rest).
        { rewrite Hl. apply in_or_app.
          destruct Hin as [<- | Hin];
            [right; left; reflexivity | left; exact Hin]. }
        split; [right; exact Hx | exact (Hrest x Hx)].
      * intros [[<- | Hin] Hfd]; [congruence |].
        rewrite Hl in Hin. apply in_app_or in Hin.
        destruct Hin as [Hin | [<- | []]];
          [right; exact Hin | left; reflexivity].
  - apply Z.eqb_neq in E. specialize (IH Hnd' x).
    destruct (remove_client rest fd) as [rest' tr]. cbn [fst] in *.
    cbn [In]. rewrite IH. split.
    + intros [<- | [H1 H2]]; [split; [left; reflexivity | exact E] |].
      split; [right; exact H1 | exact H2].
    + intros [[<- | H1] H2]; [left; reflexivity | right; split; assumption].
Qed.

Lemma NoDup_removelast {A : Type} (l : list A) :
  NoDup l -> NoDup (removelast l).
Proof.
  induction l as [| a l IH]; intros H; [exact H |].
  inversion H as [| ? ? Hnotin Hnd]; subst. cbn [removelast].
  destruct l as [| b l]; [constructor |].
  constructor; [| exact (IH Hnd)].
  intros Hin. apply Hnotin. apply in_removelast. exact Hin.
Qed.

Lemma map_removelast {A B : Type} (f : A -> B) (l : list A) :
  map f (removelast l) = removelast (map f l).
Proof.
  induction l as [| a l IH]; [reflexivity |]. cbn [removelast map].
  destruct l as [| b l]; [reflexivity |]. cbn [map] in *. rewrite IH.
  reflexivity.
Qed.

(** The descriptors stay distinct, and the table loses one entry. *)
Lemma remove_client_shape clients fd :
  NoDup (descriptors clients) ->
  NoDup (descriptors (fst (remove_client clients fd)))
  /\ len (fst (remove_client clients fd))
     = match find_client clients fd with
       | Some _ => len clients - 1
       | None => len clients
       end.
Proof.
  unfold descriptors.
  induction clients as [| c rest IH]; intros Hnd;
    cbn [remove_client find_client]; [split; [exact Hnd | reflexivity] |].
  cbn [map] in Hnd. inversion Hnd as [| ? ? Hnotin Hnd']; subst.
  destruct (socket_fd c =? fd) eqn:E.
  - cbn [fst]. destruct (rev rest) as [| last before] eqn:Er.
    + assert (rest = []) as ->.
      { rewrite <- (rev_involutive rest), Er. reflexivity. }
      split; [constructor | reflexivity].
    + pose proof (last_and_front rest last before Er) as Hl. split.
      * cbn [map]. rewrite map_removelast.
        assert (Hm : map socket_fd rest
                     = removelast (map socket_fd rest) ++ [socket_fd last]).
        { rewrite Hl at 1. rewrite map_app, <- map_removelast.
          reflexivity. }
        rewrite Hm in Hnd'. apply NoDup_remove in Hnd'.
        rewrite app_nil_r in Hnd'. destruct Hnd' as [Hnd' Hlast].
        constructor; assumption.
      * unfold len. cbn [length]. rewrite Hl at 2.
        rewrite length_app. cbn [length]. lia.
  - destruct (IH Hnd') as [IH1 IH2].
    pose proof (remove_client_entries rest fd Hnd') as Hin.
    destruct (remove_client rest fd) as [rest' tr]. cbn [fst] in *. split.
    + cbn [map]. constructor; [| exact IH1].
      intros Hc. apply in_map_iff in Hc. destruct Hc as (y & Hy & Hyin).
      apply Hin in Hyin. apply Hnotin. rewrite <- Hy. apply in_map.
      tauto.
    + unfold len in *. cbn [length].
      destruct (find_client rest fd); lia.
Qed.

(** Removing an entry leaves every other descriptor with its entry. *)
Lemma remove_client_others clients fd fd' :
  NoDup (descriptors clients) -> fd' <> fd ->
  find_client (fst (remove_client clients fd)) fd' = find_client clients fd'.
Proof.
  intros Hnd Hne.
  pose proof (remove_client_entries clients fd Hnd) as Hin.
  destruct (remove_client_shape clients fd Hnd) as [Hnd' _].
  destruct (find_client clients fd') as [c |] eqn:Ef.
  - pose proof (find_client_fd _ _ _ Ef) as Hfd.
    pose proof (find_client_in _ _ _ Ef) as Hc.
    rewrite <- Hfd. apply find_client_unique; [exact Hnd' |].
    apply Hin. split; [exact Hc | congruence].
  - destruct (find_client (fst (remove_client clients fd)) fd')
      as [c |] eqn:Ef'; [| reflexivity].
    pose proof (find_client_fd _ _ _ Ef') as Hfd.
    pose proof (find_client_in _ _ _ Ef') as Hc.
    apply Hin in Hc. destruct Hc as [Hc _].
    pose proof (find_client_unique clients c Hnd Hc) as Hfound.
    rewrite Hfd, Ef in Hfound. discriminate Hfound.
Qed.

Lemma remove_client_closes clients fd c :
  find_client clients fd = Some c ->
  snd (remove_client clients fd) = fclose_upload c.
Proof.
  induction clients as [| x rest IH]; cbn [find_client remove_client];
    [discriminate |].
  destruct (socket_fd x =? fd).
  - intros H. inversion H. reflexivity.
  - intros H. specialize (IH H).
    destruct (remove_client rest fd) as [rest' tr]. exact IH.
Qed.

Lemma remove_client_absent clients fd :
  find_client clients fd = None -> remove_client clients fd = (clients, []).
Proof.
  induction clients as [| x rest IH]; cbn [find_client remove_client];
    [reflexivity |].
  destruct (socket_fd x =? fd); [discriminate |].
  intros H. rewrite (IH H). reflexivity.
Qed.

(** An entry added for a descriptor the table did not hold is removed
    without a trace. *)
Lemma remove_added clients fd ip :
  ~ In fd (descriptors clients) ->
  remove_client (clients ++ [new_client fd ip]) fd = (clients, []).
Proof.
  unfold descriptors.
  induction clients as [| x rest IH]; intros Hnotin.
  - cbn [app remove_client new_client socket_fd].
    rewrite Z.eqb_refl. reflexivity.
  - cbn [app remove_client]. cbn [map In] in Hnotin.
    destruct (socket_fd x =? fd) eqn:E;
      [apply Z.eqb_eq in E; tauto |].
    rewrite IH by tauto. reflexivity.
Qed.

(** What [strncpy] keeps of the address: a prefix of it, [n] characters
    at most. *)
Lemma strncpy_string_length (n : nat) (src : string) :
  (String.length (strncpy_string n src) <= n)%nat.
Proof.
  revert src. induction n as [| n IH]; intros src.
  - destruct src; cbn; lia.
  - destruct src as [| a rest]; cbn [strncpy_string]; [cbn; lia |].
    destruct (Ascii.eqb a Ascii.zero); cbn [String.length]; [lia |].
    specialize (IH rest). lia.
Qed.

Lemma strncpy_string_prefix (n : nat) (src : string) :
  String.prefix (strncpy_string n src) src = true.
Proof.
  revert src. induction n as [| n IH]; intros src.
  - destruct src; reflexivity.
  - destruct src as [| a rest]; cbn [strncpy_string]; [reflexivity |].
    destruct (Ascii.eqb a Ascii.zero); [reflexivity |].
    cbn [String.prefix].
    destruct (Ascii.ascii_dec a a) as [_ | H]; [apply IH | contradiction].
Qed.

(** What [add_client] does to the table. *)
Lemma add_client_laws clients fd ip :
  (MAX_CLIENTS <= len clients ->
   add_client clients fd ip = None)
  /\ (len clients < MAX_CLIENTS ->
      exists clients',
        add_client clients fd ip = Some clients'
        /\ len clients' = len clients + 1
        /\ (~ In fd (descriptors clients) ->
            find_client clients' fd
            = Some (mkClient fd [] 0 (strncpy_string 15 ip) None [] 0 0 []
                      false zero_header 0))
        /\ (forall fd',
              fd' <> fd ->
              find_client clients' fd'
              = find_client clients fd')).
Proof.
  unfold add_client. change (INET_ADDRSTRLEN - 1)%nat with 15%nat.
  split.
  - intros H. apply Z.leb_le in H. rewrite H. reflexivity.
  - intros H. apply Z.leb_gt in H. rewrite H. eexists.
    split; [reflexivity |]. split; [| split].
    + rewrite len_app. reflexivity.
    + intros Hnotin. rewrite find_client_app.
      rewrite (find_client_absent _ _ Hnotin).
      cbn [find_client new_client socket_fd].
      rewrite Z.eqb_refl. reflexivity.
    + intros fd' Hne. rewrite find_client_app.
      destruct (find_client clients fd'); [reflexivity |].
      cbn [find_client new_client socket_fd].
      apply Z.eqb_neq in Hne. rewrite Z.eqb_sym, Hne. reflexivity.
Qed.


End TableFacts.

(** X2.  [add_client] takes a new connection exactly when the table
    holds fewer than [MAX_CLIENTS] entries.  The table then has one entry
    more; a descriptor it did not hold is found with a fresh entry
    (command mode, empty buffers, no file) that holds the address as
    [strncpy] keeps it, a prefix of at most 15 characters, and every
    other descriptor is found with the entry it had. *)
Theorem X2_add_then_find clients fd ip :
  (Server.MAX_CLIENTS <= len clients ->
   Server.add_client clients fd ip = None)
  /\ (len clients < Server.MAX_CLIENTS ->
      exists clients',
        Server.add_client clients fd ip = Some clients'
        /\ len clients' = len clients + 1
        /\ (~ In fd (Server.descriptors clients) ->
            Server.find_client clients' fd
            = Some (Server.mkClient fd [] 0 (Server.strncpy_string 15 ip)
                      None [] 0 0 [] false zero_header 0))
        /\ (forall fd',
              fd' <> fd ->
              Server.find_client clients' fd'
              = Server.find_client clients fd'))
  /\ (String.length (Server.strncpy_string 15 ip) <= 15)%nat
  /\ String.prefix (Server.strncpy_string 15 ip) ip = true
  /\ Server.strncpy_string 15 "255.255.255.255" = "255.255.255.255"%string
  /\ Server.strncpy_string 15 "2001:db8:85a3::8a2e:370:7334"
     = "2001:db8:85a3::"%string.
Proof.
  destruct (TableFacts.add_client_laws clients fd ip) as [Hfull Hroom].
  split; [exact Hfull |]. split; [exact Hroom |].
  split; [apply TableFacts.strncpy_string_length |].
  split; [apply TableFacts.strncpy_string_prefix |].
  split; reflexivity.
Qed.

(** A second connection joins a table of one. *)
Lemma X2_witness :
  exists clients',
    Server.add_client [Server.new_client 5 "10.0.0.7"] 6 "10.0.0.8"
    = Some clients'
    /\ Server.find_client clients' 6
       = Some (Server.mkClient 6 [] 0 "10.0.0.8" None [] 0 0 [] false
                 zero_header 0)
    /\ Server.find_client clients' 5
       = Some (Server.new_client 5 "10.0.0.7").
Proof.
  destruct (proj1 (proj2 (X2_add_then_find [Server.new_client 5 "10.0.0.7"]
                            6 "10.0.0.8")))
    as (clients' & Hadd & _ & Hnew & Hold); [vm_compute; reflexivity |].
  exists clients'. split; [exact Hadd |]. split.
  - apply Hnew. cbn. intros [H | []]. discriminate H.
  - rewrite Hold by discriminate. reflexivity.
Defined.

(** X3.  In a table of distinct descriptors, [remove_client] takes out
    the entry of the descriptor it is given and no other: the file that
    entry holds is closed, the descriptor is not found any more, every
    other descriptor is found with the entry it had although the last
    entry has moved, and the table has one entry less.  For a descriptor
    the table does not hold, nothing changes and nothing is closed. *)
Theorem X3_remove_keeps_others clients fd :
  NoDup (Server.descriptors clients) ->
  (forall c,
     Server.find_client clients fd = Some c ->
     snd (Server.remove_client clients fd) = Server.fclose_upload c
     /\ len (fst (Server.remove_client clients fd)) = len clients - 1)
  /\ (Server.find_client clients fd = None ->
      Server.remove_client clients fd = (clients, []))
  /\ Server.find_client (fst (Server.remove_client clients fd)) fd = None
  /\ (forall fd',
        fd' <> fd ->
        Server.find_client (fst (Server.remove_client clients fd)) fd'
        = Server.find_client clients fd')
  /\ NoDup (Server.descriptors (fst (Server.remove_client clients fd))).
Proof.
  intros Hnd.
  destruct (TableFacts.remove_client_shape clients fd Hnd) as [Hnd' Hlen].
  split; [| split; [| split; [| split]]].
  - intros c Hfind. split.
    + exact (TableFacts.remove_client_closes clients fd c Hfind).
    + rewrite Hlen, Hfind. reflexivity.
  - exact (TableFacts.remove_client_absent clients fd).
  - exact (ServerTable.removed_is_gone clients fd Hnd).
  - intros fd' Hne.
    exact (TableFacts.remove_client_others clients fd fd' Hnd Hne).
  - exact Hnd'.
Qed.

(** Of three connections the first is removed: the third takes its
    place and the second is found as before. *)
Lemma X3_witness :
  NoDup (Server.descriptors
           [Server.new_client 5 "a"; Server.new_client 6 "b";
            Server.new_client 7 "c"])
  /\ fst (Server.remove_client
            [Server.new_client 5 "a"; Server.new_client 6 "b";
             Server.new_client 7 "c"] 5)
     = [Server.new_client 7 "c"; Server.new_client 6 "b"]
  /\ Server.find_client
       (fst (Server.remove_client
               [Server.new_client 5 "a"; Server.new_client 6 "b";
                Server.new_client 7 "c"] 5)) 6
     = Some (Server.new_client 6 "b").
Proof.
  assert (Hnd : NoDup (Server.descriptors
                         [Server.new_client 5 "a"; Server.new_client 6 "b";
                          Server.new_client 7 "c"])).
  { cbn. repeat constructor; cbn; intuition discriminate. }
  split; [exact Hnd |]. split; [reflexivity |].
  destruct (X3_remove_keeps_others _ 5 Hnd) as (_ & _ & _ & Hother & _).
  rewrite (Hother 6) by discriminate. reflexivity.
Defined.

(** X4.  [handle_new_connection] tracks a connection or closes it, never
    both and never neither: when it returns 0 the table holds the entry
    [add_client] made; when it returns -1 after [accept] succeeded, the
    socket is closed and, the descriptor being new, the table is as it
    was.  A table that holds [MAX_CLIENTS] connections refuses every
    other, and the table never grows past [MAX_CLIENTS]. *)
Theorem X4_accept_all_or_nothing clients client_fd client_ip
  nonblocking_ok epoll_add_ok :
  ~ In client_fd (Server.descriptors clients) ->
  len clients <= Server.MAX_CLIENTS ->
  let '(r, clients', tr) :=
    Connections.handle_new_connection clients
      (Connections.Accepted client_fd client_ip nonblocking_ok
         epoll_add_ok) in
  len clients' <= Server.MAX_CLIENTS
  /\ (r = 0 \/ r = -1)
  /\ (r = 0 <->
      nonblocking_ok = true /\ epoll_add_ok = true
      /\ len clients < Server.MAX_CLIENTS)
  /\ (r = 0 ->
      tr = []
      /\ Server.find_client clients' client_fd
         = Some (Server.new_client client_fd
                   (Server.strncpy_string 15 client_ip))
      /\ forall fd',
           fd' <> client_fd ->
           Server.find_client clients' fd' = Server.find_client clients fd')
  /\ (r = -1 -> tr = [EClose client_fd] /\ clients' = clients).
Proof.
  intros Hnew Hlen. unfold Connections.handle_new_connection.
  destruct nonblocking_ok; cbn [negb].
  2: { repeat split; try lia; try (right; reflexivity);
       try discriminate; intuition discriminate. }
  destruct (TableFacts.add_client_laws clients client_fd client_ip)
    as [Hfull Hroom].
  destruct (Z_lt_le_dec (len clients) Server.MAX_CLIENTS) as [Hlt | Hge].
  - destruct (Hroom Hlt) as (clients1 & Hadd & Hlen1 & Hfound & Hothers).
    rewrite Hadd. destruct epoll_add_ok.
    + split; [lia |]. split; [left; reflexivity |].
      split; [tauto |]. split; [| discriminate].
      intros _. split; [reflexivity |].
      split; [exact (Hfound Hnew) | exact Hothers].
    + unfold Server.add_client in Hadd.
      destruct (Server.MAX_CLIENTS <=? len clients); [discriminate |].
      inversion Hadd; subst clients1.
      rewrite (TableFacts.remove_added clients client_fd _ Hnew).
      split; [exact Hlen |]. split; [right; reflexivity |].
      split; [split; [discriminate | intros (_ & H & _); discriminate H] |].
      split; [discriminate |]. intros _. split; reflexivity.
  - rewrite (Hfull Hge).
    split; [exact Hlen |]. split; [right; reflexivity |].
    split; [split; [discriminate | lia] |].
    split; [discriminate |]. intros _. split; reflexivity.
Qed.

(** A second connection that [epoll] refuses is closed and forgotten. *)
Lemma X4_witness :
  (~ In 6 (Server.descriptors [Server.new_client 5 "a"])
   /\ len [Server.new_client 5 "a"] <= Server.MAX_CLIENTS)
  /\ Connections.handle_new_connection [Server.new_client 5 "a"]
       (Connections.Accepted 6 "b" true false)
     = (-1, [Server.new_client 5 "a"], [EClose 6]).
Proof.
  assert (H1 : ~ In 6 (Server.descriptors [Server.new_client 5 "a"])).
  { cbn. intros [H | []]. discriminate H. }
  assert (H2 : len [Server.new_client 5 "a"] <= Server.MAX_CLIENTS).
  { vm_compute. discriminate. }
  split; [split; assumption |].
  pose proof (X4_accept_all_or_nothing [Server.new_client 5 "a"] 6 "b"
                true false H1 H2) as H.
  destruct (Connections.handle_new_connection [Server.new_client 5 "a"]
              (Connections.Accepted 6 "b" true false))
    as [[r clients'] tr].
  destruct H as (_ & [Hr | Hr] & Hiff & _ & Hfail).
  - apply Hiff in Hr. destruct Hr as (_ & Hr & _). discriminate Hr.
  - destruct (Hfail Hr) as [-> ->]. rewrite Hr. reflexivity.
Defined.

(** ** Command lines on the server *)

Module CommandFacts.
Import Server.

Lemma byte_eqb_refl (b : byte) : Byte.eqb b b = true.
Proof. apply Byte.byte_dec_lb. reflexivity. Qed.

Lemma byte_eqb_neq (a b : byte) : a <> b -> Byte.eqb a b = false.
Proof.
  intros H. destruct (Byte.eqb a b) eqn:E; [| reflexivity].
  apply Byte.byte_dec_bl in E. contradiction.
Qed.

(** [strchr] finds the line feed that ends a plain line. *)
Lemma strchr_nl_line (l rest : list byte) :
  Text.plain l -> strchr_nl (l ++ x0a :: rest) = Some (length l).
Proof.
  intros [Hnl Hnul]. induction l as [| b l IH]; [reflexivity |].
  cbn [app strchr_nl length]. cbn [In] in Hnl, Hnul.
  rewrite (byte_eqb_neq b x0a), (byte_eqb_neq b x00) by intuition congruence.
  rewrite IH by tauto. reflexivity.
Qed.

(** It stops at a NUL. *)
Lemma strchr_nl_nul (buf : list byte) :
  Text.nul_first buf -> strchr_nl buf = None.
Proof.
  intros (pre & post & -> & Hnl).
  induction pre as [| b pre IH]; [reflexivity |].
  cbn [app strchr_nl]. cbn [In] in Hnl.
  rewrite (byte_eqb_neq b x0a) by intuition congruence.
  destruct (Byte.eqb b x00); [reflexivity |].
  rewrite IH by tauto. reflexivity.
Qed.

Lemma nul_first_app (buf more : list byte) :
  Text.nul_first buf -> Text.nul_first (buf ++ more).
Proof.
  intros (pre & post & -> & Hnl). exists pre, (post ++ more).
  split; [rewrite <- app_assoc; reflexivity | exact Hnl].
Qed.

(** A command changes nothing of the entry but the mode, and that only
    for [upload]. *)
Lemma command_entry c command :
  fst (process_client_command c command)
  = if is_prefix (bytes_of "upload") command then set_state 1 c else c.
Proof.
  unfold process_client_command.
  repeat match goal with
         | |- context [if ?b then _ else _] => destruct b
         | |- context [match ?l with [] => _ | _ :: _ => _ end] =>
             destruct l
         end; reflexivity.
Qed.

(** What a command causes depends on the entry through its descriptor
    only. *)
Lemma command_events c1 c2 command :
  socket_fd c1 = socket_fd c2 ->
  snd (process_client_command c1 command)
  = snd (process_client_command c2 command).
Proof.
  intros H. unfold process_client_command. rewrite H.
  repeat match goal with
         | |- context [if ?b then _ else _] => destruct b
         | |- context [match ?l with [] => _ | _ :: _ => _ end] =>
             destruct l
         end; reflexivity.
Qed.

(** The entry after the commands [cmds]. *)
Lemma mode_after (cmds : list (list byte)) (c : client_info_t) :
  forall tail cmd,
    set_buffer tail
      (if existsb Text.is_upload cmds
       then set_state 1
              (set_buffer (Text.framed_lines cmds ++ tail)
                 (if Text.is_upload cmd then set_state 1 c else c))
       else set_buffer (Text.framed_lines cmds ++ tail)
              (if Text.is_upload cmd then set_state 1 c else c))
    = set_buffer tail
        (if Text.is_upload cmd || existsb Text.is_upload cmds
         then set_state 1 c else c).
Proof.
  intros tail cmd.
  destruct (Text.is_upload cmd), (existsb Text.is_upload cmds);
    destruct c; reflexivity.
Qed.

Lemma lines_shorter (cmds : list (list byte)) (tail : list byte) :
  (length cmds <= length (Text.framed_lines cmds ++ tail))%nat.
Proof.
  induction cmds as [| cmd cmds IH]; [cbn; lia |].
  cbn [Text.framed_lines flat_map length] in *.
  rewrite <- !app_assoc, length_app. cbn [app length].
  unfold Text.framed_lines in IH. lia.
Qed.

Lemma command_loop_step fuel c :
  command_loop (S fuel) c
  = match strchr_nl (buffer c) with
    | None => Returned 0 c []
    | Some pos =>
        let command := strip_cr (firstn pos (buffer c)) in
        let '(c1, tr) := process_client_command c command in
        let remaining := buffer_len c - (Z.of_nat pos + 1) in
        let c2 :=
          if 0 <? remaining then set_buffer (skipn (S pos) (buffer c)) c1
          else set_buffer [] c1 in
        prepend tr (command_loop fuel c2)
    end.
Proof. reflexivity. Qed.

(** The command loop takes the lines one after another and leaves what
    follows the last in the buffer. *)
Lemma command_loop_lines (cmds : list (list byte)) :
  forall c tail fuel,
    buffer c = Text.framed_lines cmds ++ tail ->
    Forall Text.plain cmds -> strchr_nl tail = None ->
    (length cmds <= fuel)%nat ->
    command_loop (S fuel) c
    = Returned 0
        (set_buffer tail
           (if existsb Text.is_upload cmds then set_state 1 c else c))
        (flat_map
           (fun cmd => snd (process_client_command c (strip_cr cmd))) cmds).
Proof.
  induction cmds as [| cmd cmds IH]; intros c tail fuel Hbuf Hplain Htail Hf.
  - cbn [Text.framed_lines flat_map app existsb] in *.
    cbn [command_loop]. rewrite Hbuf, Htail. f_equal.
    destruct c; cbn in *; subst; reflexivity.
  - inversion Hplain as [| ? ? Hcmd Hrest]; subst.
    destruct fuel as [| fuel]; [cbn in Hf; lia |].
    cbn [Text.framed_lines flat_map] in Hbuf.
    fold (Text.framed_lines cmds) in Hbuf.
    rewrite <- !app_assoc in Hbuf. cbn [app] in Hbuf.
    rewrite command_loop_step. rewrite Hbuf.
    rewrite (strchr_nl_line cmd _ Hcmd). cbv zeta.
    rewrite firstn_app_exact by reflexivity.
    destruct (process_client_command c (strip_cr cmd)) as [c1 tr] eqn:Ep.
    assert (Hc1 : c1 = if Text.is_upload cmd then set_state 1 c else c).
    { pose proof (command_entry c (strip_cr cmd)) as H.
      rewrite Ep in H. exact H. }
    assert (Hskip : skipn (S (length cmd))
                      (cmd ++ x0a :: Text.framed_lines cmds ++ tail)
                    = Text.framed_lines cmds ++ tail).
    { replace (S (length cmd)) with (length (cmd ++ [x0a]))
        by (rewrite length_app; cbn; lia).
      replace (cmd ++ x0a :: Text.framed_lines cmds ++ tail)
        with ((cmd ++ [x0a]) ++ Text.framed_lines cmds ++ tail)
        by (rewrite <- app_assoc; reflexivity).
      apply skipn_app_exact. }
    rewrite Hskip.
    assert (Hnext :
      (if 0 <? buffer_len c - (Z.of_nat (length cmd) + 1)
       then set_buffer (Text.framed_lines cmds ++ tail) c1
       else set_buffer [] c1)
      = set_buffer (Text.framed_lines cmds ++ tail) c1).
    { destruct (0 <? buffer_len c - (Z.of_nat (length cmd) + 1)) eqn:E;
        [reflexivity |].
      apply Z.ltb_ge in E. unfold buffer_len, len in E. rewrite Hbuf in E.
      rewrite length_app in E. cbn [length] in E.
      destruct (Text.framed_lines cmds ++ tail); [reflexivity |].
      cbn [length] in E. lia. }
    rewrite Hnext.
    rewrite (IH (set_buffer (Text.framed_lines cmds ++ tail) c1) tail fuel);
      try assumption; [| destruct c1; reflexivity | cbn in Hf; lia].
    cbn [prepend flat_map existsb]. f_equal.
    + subst c1. apply mode_after.
    + rewrite Ep. cbn [snd]. f_equal.
      apply flat_map_ext. intros cmd'.
      apply command_events. subst c1.
      destruct (Text.is_upload cmd); destruct c; reflexivity.
Qed.

(** Text read in command mode, cut at the line feeds. *)
Lemma data_lines (fopen_ok : list byte -> bool) c r data cmds tail :
  Server.state c <> 1 ->
  recv 1023 r = RecvData data ->
  Server.looks_like_header data = false ->
  Server.buffer c ++ data = Text.framed_lines cmds ++ tail ->
  Forall Text.plain cmds ->
  Server.strchr_nl tail = None ->
  Server.buffer_len c + len data < Server.BUFFER_SIZE - 1 ->
  Server.handle_client_data fopen_ok c r
  = Returned 0
      (Server.set_buffer tail
         (if existsb Text.is_upload cmds then Server.set_state 1 c else c))
      (flat_map
         (fun cmd =>
            snd (Server.process_client_command c (Server.strip_cr cmd)))
         cmds).
Proof.
  intros Hst Hrecv Hlook Hbuf Hplain Htail Hroom.
  apply Z.eqb_neq in Hst. apply Z.ltb_lt in Hroom.
  unfold Server.handle_client_data. rewrite Hst, Hrecv, Hlook.
  unfold Server.handle_text. rewrite Hroom.
  pose proof (command_loop_lines cmds
                (Server.set_buffer (Server.buffer c ++ data) c) tail
                (length (Server.buffer c ++ data))) as H.
  cbn [Server.buffer Server.set_buffer] in H |- *.
  rewrite H; try assumption.
  - f_equal.
    + destruct (existsb Text.is_upload cmds); destruct c; reflexivity.
    + apply flat_map_ext. intros cmd. apply command_events.
      reflexivity.
  - rewrite Hbuf. apply lines_shorter.
Qed.

End CommandFacts.

(** X5.  Text read in command mode is cut at the line feeds: with what
    the buffer already held, the complete lines are taken as commands one
    after another, in order, each without its carriage return, and what
    follows the last line feed stays in the buffer for the next read.
    The entry is otherwise left alone, except that an [upload] among the
    commands sets file transfer mode; the commands after it in the same
    buffer are still carried out. *)
Theorem X5_command_lines (fopen_ok : list byte -> bool) c r data cmds tail :
  Server.state c <> 1 ->
  recv 1023 r = RecvData data ->
  Server.looks_like_header data = false ->
  Server.buffer c ++ data = Text.framed_lines cmds ++ tail ->
  Forall Text.plain cmds ->
  Server.strchr_nl tail = None ->
  Server.buffer_len c + len data < Server.BUFFER_SIZE - 1 ->
  Server.handle_client_data fopen_ok c r
  = Returned 0
      (Server.set_buffer tail
         (if existsb Text.is_upload cmds then Server.set_state 1 c else c))
      (flat_map
         (fun cmd =>
            snd (Server.process_client_command c (Server.strip_cr cmd)))
         cmds).
Proof.
  exact (CommandFacts.data_lines fopen_ok c r data cmds tail).
Qed.

(** The buffer holds [l]; the read brings the rest of [ls], [pwd] and
    the start of a third command. *)
Lemma X5_witness :
  Server.handle_client_data Examples.always
    (Server.set_buffer (bytes_of "l") Examples.commanding)
    (RecvData (bytes_of "s" ++ [x0d; x0a] ++ line "pwd" ++ bytes_of "ge"))
  = Returned 0
      (Server.set_buffer (bytes_of "ge") Examples.commanding)
      [ECall "send_list" 5 []; ECall "send_pwd" 5 []].
Proof.
  apply (X5_command_lines Examples.always
           (Server.set_buffer (bytes_of "l") Examples.commanding)
           (RecvData
              (bytes_of "s" ++ [x0d; x0a] ++ line "pwd" ++ bytes_of "ge"))
           (bytes_of "s" ++ [x0d; x0a] ++ line "pwd" ++ bytes_of "ge")
           [bytes_of "ls" ++ [x0d]; bytes_of "pwd"] (bytes_of "ge")).
  - discriminate.
  - reflexivity.
  - reflexivity.
  - reflexivity.
  - repeat constructor; cbn; intuition discriminate.
  - reflexivity.
  - vm_compute. reflexivity.
Defined.

(** X6.  A read in command mode that begins with the line [upload] is
    never taken for a file header.  The line sets file transfer mode and
    the bytes that follow it in the same read, when they hold no line
    feed before a NUL or their end, stay in the command buffer: no file
    is opened and nothing is written, although the connection now is in
    file transfer mode. *)
Theorem X6_upload_line_keeps_rest (fopen_ok : list byte -> bool) c rest :
  Server.state c <> 1 ->
  Server.buffer c = [] ->
  Server.strchr_nl rest = None ->
  len rest <= 1015 ->
  Server.looks_like_header (line "upload" ++ rest) = false
  /\ Server.handle_client_data fopen_ok c (RecvData (line "upload" ++ rest))
     = Returned 0 (Server.set_buffer rest (Server.set_state 1 c)) [].
Proof.
  intros Hst Hbuf Hrest Hlen.
  assert (Hlook : Server.looks_like_header (line "upload" ++ rest) = false).
  { unfold Server.looks_like_header.
    destruct (HEADER_SIZE <=? len (line "upload" ++ rest));
      [| reflexivity].
    cbn [andb]. unfold decode_header. cbn [chunk_size total_chunks].
    assert (H : 8192 < ntohl (line "upload" ++ rest) 4).
    { unfold ntohl.
      change (line "upload") with [x75; x70; x6c; x6f; x61; x64; x0a].
      cbn [app nth Nat.add].
      pose proof (byte_val_range (nth 0 rest x00)) as Hb.
      change (byte_val x61) with 97. change (byte_val x64) with 100.
      change (byte_val x0a) with 10. lia. }
    apply Z.leb_gt in H. rewrite H, andb_false_r. reflexivity. }
  split; [exact Hlook |].
  assert (Hrecv : recv 1023 (RecvData (line "upload" ++ rest))
                  = RecvData (line "upload" ++ rest)).
  { change (line "upload") with [x75; x70; x6c; x6f; x61; x64; x0a].
    cbn [app recv]. f_equal.
    apply firstn_all2. unfold len in Hlen. cbn [length]. lia. }
  rewrite (CommandFacts.data_lines fopen_ok c _ _ [bytes_of "upload"] rest
             Hst Hrecv Hlook).
  - reflexivity.
  - rewrite Hbuf. cbn [app Text.framed_lines flat_map line].
    rewrite <- app_assoc. reflexivity.
  - repeat constructor; cbn; intuition discriminate.
  - exact Hrest.
  - unfold Server.buffer_len. rewrite Hbuf, len_app.
    change (len (line "upload")) with 7. change (len []) with 0.
    unfold Server.BUFFER_SIZE. lia.
Qed.

(** The first chunk of an upload arrives with the command. *)
Lemma X6_witness :
  Server.handle_client_data Examples.always Examples.commanding
    (RecvData (line "upload" ++ Examples.chunk 0 1 "f" ["A"%byte]))
  = Returned 0
      (Server.set_buffer (Examples.chunk 0 1 "f" ["A"%byte])
         (Server.set_state 1 Examples.commanding)) [].
Proof.
  apply (X6_upload_line_keeps_rest Examples.always Examples.commanding
           (Examples.chunk 0 1 "f" ["A"%byte])).
  - discriminate.
  - reflexivity.
  - reflexivity.
  - vm_compute. discriminate.
Defined.

(** X7.  A NUL that comes before every line feed of the command buffer
    stops the commands of that connection for good: whatever text is read
    afterwards is put behind it and no command is carried out, until the
    buffer is full and the read that fills it has the connection dropped
    with the overflow error. *)
Theorem X7_nul_stops_commands (fopen_ok : list byte -> bool) c r data :
  Server.state c <> 1 ->
  recv 1023 r = RecvData data ->
  Server.looks_like_header data = false ->
  Text.nul_first (Server.buffer c ++ data) ->
  (Server.buffer_len c + len data < Server.BUFFER_SIZE - 1 ->
   Server.handle_client_data fopen_ok c r
   = Returned 0 (Server.set_buffer (Server.buffer c ++ data) c) []
   /\ forall more, Text.nul_first ((Server.buffer c ++ data) ++ more))
  /\ (Server.BUFFER_SIZE - 1 <= Server.buffer_len c + len data ->
      Server.handle_client_data fopen_ok c r
      = Returned (-1) c
          [ESend (Server.socket_fd c) Server.MSG_OVERFLOW;
           EFsyncFd (Server.socket_fd c); EUsleep 100000]).
Proof.
  intros Hst Hrecv Hlook Hnul. apply Z.eqb_neq in Hst.
  unfold Server.handle_client_data. rewrite Hst, Hrecv, Hlook.
  unfold Server.handle_text. split; intros Hroom.
  - apply Z.ltb_lt in Hroom. rewrite Hroom. split.
    + cbn [Server.command_loop Server.buffer Server.set_buffer].
      rewrite (CommandFacts.strchr_nl_nul _ Hnul). reflexivity.
    + intros more. apply CommandFacts.nul_first_app. exact Hnul.
  - apply Z.ltb_ge in Hroom. rewrite Hroom. reflexivity.
Qed.

(** After a NUL, the command [ls] is not carried out. *)
Lemma X7_witness :
  Server.handle_client_data Examples.always
    (Server.set_buffer [x00] Examples.commanding) (RecvData (line "ls"))
  = Returned 0
      (Server.set_buffer (x00 :: line "ls") Examples.commanding) [].
Proof.
  apply (proj1 (X7_nul_stops_commands Examples.always
                  (Server.set_buffer [x00] Examples.commanding)
                  (RecvData (line "ls")) (line "ls")
                  ltac:(discriminate) eq_refl eq_refl
                  ltac:(exists [], (line "ls"); split;
                        [reflexivity | intros []]))).
  vm_compute. reflexivity.
Defined.

(** ** Lines of the server on the client *)

Module ResponseFacts.
Import Client.

Lemma response_loop_step fuel server_buffer :
  response_loop (S fuel) server_buffer
  = match Server.strchr_nl server_buffer with
    | None => Some (server_buffer, [])
    | Some pos =>
        let text := firstn pos server_buffer in
        let tr := match text with [] => [] | _ => [EPrintLine text] end in
        let remaining := len server_buffer - (Z.of_nat pos + 1) in
        let rest :=
          if 0 <? remaining then skipn (S pos) server_buffer else [] in
        match response_loop fuel rest with
        | Some (buf, tr') => Some (buf, tr ++ tr')
        | None => None
        end
    end.
Proof. reflexivity. Qed.

(** The lines shown: those that are not empty. *)
Lemma response_loop_lines (ls : list (list byte)) :
  forall tail fuel,
    Forall Text.plain ls -> Server.strchr_nl tail = None ->
    (length ls <= fuel)%nat ->
    response_loop (S fuel) (Text.framed_lines ls ++ tail)
    = Some (tail,
            flat_map
              (fun text =>
                 match text with [] => [] | _ => [EPrintLine text] end) ls).
Proof.
  induction ls as [| text ls IH]; intros tail fuel Hplain Htail Hf.
  - cbn [Text.framed_lines flat_map app].
    rewrite response_loop_step, Htail. reflexivity.
  - inversion Hplain as [| ? ? Htext Hrest]; subst.
    destruct fuel as [| fuel]; [cbn in Hf; lia |].
    cbn [Text.framed_lines flat_map].
    fold (Text.framed_lines ls).
    rewrite <- !app_assoc. cbn [app].
    rewrite response_loop_step.
    rewrite (CommandFacts.strchr_nl_line text _ Htext). cbv zeta.
    rewrite firstn_app_exact by reflexivity.
    assert (Hskip : skipn (S (length text))
                      (text ++ x0a :: Text.framed_lines ls ++ tail)
                    = Text.framed_lines ls ++ tail).
    { replace (S (length text)) with (length (text ++ [x0a]))
        by (rewrite length_app; cbn; lia).
      replace (text ++ x0a :: Text.framed_lines ls ++ tail)
        with ((text ++ [x0a]) ++ Text.framed_lines ls ++ tail)
        by (rewrite <- app_assoc; reflexivity).
      apply skipn_app_exact. }
    rewrite Hskip.
    assert (Hnext :
      (if 0 <? len (text ++ x0a :: Text.framed_lines ls ++ tail)
                - (Z.of_nat (length text) + 1)
       then Text.framed_lines ls ++ tail else [])
      = Text.framed_lines ls ++ tail).
    { destruct (0 <? _) eqn:E; [reflexivity |].
      apply Z.ltb_ge in E. unfold len in E.
      rewrite length_app in E. cbn [length] in E.
      destruct (Text.framed_lines ls ++ tail); [reflexivity |].
      cbn [length] in E. lia. }
    rewrite Hnext.
    rewrite (IH tail fuel) by (try assumption; cbn in Hf; lia).
    reflexivity.
Qed.

Section Env.
Variable fopen_ok : list byte -> bool.
Variable fwrite_ok : Z -> bool.

(** A read that is not taken for file data is handled as text. *)
Lemma readable_text l r data :
  state (transfer_state l) <> STATE_RECEIVING ->
  recv 1023 r = RecvData data ->
  looks_like_header (transfer_state l) data = false ->
  on_socket_readable fopen_ok fwrite_ok l r = on_text l data.
Proof.
  intros Hst Hrecv Hlook. unfold on_socket_readable.
  rewrite Hrecv, Hlook.
  destruct (state (transfer_state l)); [reflexivity | reflexivity |].
  contradiction.
Qed.

(** Text cut at the line feeds. *)
Lemma text_lines l data ls tail :
  server_buffer l ++ data = Text.framed_lines ls ++ tail ->
  Forall Text.plain ls -> Server.strchr_nl tail = None ->
  len (server_buffer l) + len data < SERVER_BUFFER_SIZE - 1 ->
  on_text l data
  = Returned 0 (set_server_buffer tail l)
      (flat_map
         (fun text => match text with [] => [] | _ => [EPrintLine text] end)
         ls).
Proof.
  intros Hbuf Hplain Htail Hroom. apply Z.ltb_lt in Hroom.
  unfold on_text. rewrite Hroom, Hbuf.
  rewrite response_loop_lines; try assumption; [reflexivity |].
  apply CommandFacts.lines_shorter.
Qed.

(** Behind a NUL nothing is shown. *)
Lemma text_behind_nul l data :
  Text.nul_first (server_buffer l) ->
  exists buf,
    on_text l data = Returned 0 (set_server_buffer buf l) []
    /\ Text.nul_first buf.
Proof.
  intros Hnul. unfold on_text.
  set (buf := if len (server_buffer l) + len data <? SERVER_BUFFER_SIZE - 1
              then server_buffer l ++ data else server_buffer l).
  assert (Hbuf : Text.nul_first buf).
  { unfold buf. destruct (_ <? _); [| exact Hnul].
    apply CommandFacts.nul_first_app. exact Hnul. }
  rewrite response_loop_step, (CommandFacts.strchr_nl_nul _ Hbuf).
  exists buf. split; [reflexivity | exact Hbuf].
Qed.

End Env.
End ResponseFacts.

(** X8.  Text the client reads from the server is cut at the line feeds:
    with what its buffer already held, every complete line that is not
    empty is shown, in order, and what follows the last line feed stays
    in the buffer for the next read. *)
Theorem X8_response_lines (fopen_ok : list byte -> bool)
  (fwrite_ok : Z -> bool) l r data ls tail :
  Client.state (Client.transfer_state l) <> Client.STATE_RECEIVING ->
  recv 1023 r = RecvData data ->
  Client.looks_like_header (Client.transfer_state l) data = false ->
  Client.server_buffer l ++ data = Text.framed_lines ls ++ tail ->
  Forall Text.plain ls ->
  Server.strchr_nl tail = None ->
  len (Client.server_buffer l) + len data < Client.SERVER_BUFFER_SIZE - 1 ->
  Client.on_socket_readable fopen_ok fwrite_ok l r
  = Returned 0 (Client.set_server_buffer tail l)
      (flat_map
         (fun text => match text with [] => [] | _ => [EPrintLine text] end)
         ls).
Proof.
  intros Hst Hrecv Hlook Hbuf Hplain Htail Hroom.
  rewrite (ResponseFacts.readable_text fopen_ok fwrite_ok l r data)
    by assumption.
  apply ResponseFacts.text_lines; assumption.
Qed.

(** Half a line is held; the read brings its end, an empty line, a
    second line and the start of a third. *)
Lemma X8_witness :
  Client.on_socket_readable Examples.always Examples.writes
    (Client.set_server_buffer (bytes_of "OK: Direc")
       Client.initial_loop_state)
    (RecvData (line "tory changed" ++ line "" ++ line "a.txt"
                 ++ bytes_of "b.t"))
  = Returned 0
      (Client.set_server_buffer (bytes_of "b.t") Client.initial_loop_state)
      [EPrintLine (bytes_of "OK: Directory changed");
       EPrintLine (bytes_of "a.txt")].
Proof.
  apply (X8_response_lines Examples.always Examples.writes
           (Client.set_server_buffer (bytes_of "OK: Direc")
              Client.initial_loop_state)
           (RecvData (line "tory changed" ++ line "" ++ line "a.txt"
                        ++ bytes_of "b.t"))
           (line "tory changed" ++ line "" ++ line "a.txt"
              ++ bytes_of "b.t")
           [bytes_of "OK: Directory changed"; []; bytes_of "a.txt"]
           (bytes_of "b.t")).
  - discriminate.
  - reflexivity.
  - reflexivity.
  - reflexivity.
  - repeat constructor; cbn; intuition discriminate.
  - reflexivity.
  - vm_compute. reflexivity.
Defined.

(** X9.  The answer [delete_file] sends when the file was deleted, and
    the one [rename_file] sends when it was renamed, end with a NUL: 23
    bytes are sent of a text of 22.  A client in command mode with an
    empty buffer shows the line and keeps the NUL at the head of its
    buffer; from then on whatever text the server sends is put behind the
    NUL, or dropped when the buffer is full, and no line is shown any
    more. *)
Theorem X9_reply_with_nul_silences_client (fopen_ok : list byte -> bool)
  (fwrite_ok : Z -> bool) (unlink_ok : list byte -> bool)
  (rename_ok : list byte -> list byte -> bool) sock :
  (forall name l,
     unlink_ok name = true ->
     Client.state (Client.transfer_state l) = Client.STATE_COMMAND ->
     Client.server_buffer l = [] ->
     exists reply,
       Handlers.delete_file unlink_ok sock name = [ESend sock reply]
       /\ len reply = 23
       /\ Client.on_socket_readable fopen_ok fwrite_ok l (RecvData reply)
          = Returned 0 (Client.set_server_buffer [x00] l)
              [EPrintLine (bytes_of "SUCCESS: File deleted")])
  /\ (forall old_name new_name l,
        rename_ok old_name new_name = true ->
        Client.state (Client.transfer_state l) = Client.STATE_COMMAND ->
        Client.server_buffer l = [] ->
        exists reply,
          Handlers.rename_file rename_ok sock old_name new_name
          = [ESend sock reply]
          /\ len reply = 23
          /\ Client.on_socket_readable fopen_ok fwrite_ok l (RecvData reply)
             = Returned 0 (Client.set_server_buffer [x00] l)
                 [EPrintLine (bytes_of "SUCCESS: File renamed")])
  /\ (forall l r data,
        Text.nul_first (Client.server_buffer l) ->
        Client.state (Client.transfer_state l) <> Client.STATE_RECEIVING ->
        recv 1023 r = RecvData data ->
        Client.looks_like_header (Client.transfer_state l) data = false ->
        exists buf,
          Client.on_socket_readable fopen_ok fwrite_ok l r
          = Returned 0 (Client.set_server_buffer buf l) []
          /\ Text.nul_first buf).
Proof.
  split; [| split].
  - intros name l Hok Hst Hbuf. unfold Handlers.delete_file. rewrite Hok.
    eexists. split; [reflexivity |]. split; [reflexivity |].
    rewrite (ResponseFacts.readable_text fopen_ok fwrite_ok l _
               Handlers.MSG_DELETED);
      [| rewrite Hst; discriminate | reflexivity | reflexivity].
    apply (ResponseFacts.text_lines l Handlers.MSG_DELETED
             [bytes_of "SUCCESS: File deleted"] [x00]).
    + rewrite Hbuf. reflexivity.
    + repeat constructor; cbn; intuition discriminate.
    + reflexivity.
    + rewrite Hbuf. vm_compute. reflexivity.
  - intros old_name new_name l Hok Hst Hbuf. unfold Handlers.rename_file.
    rewrite Hok.
    eexists. split; [reflexivity |]. split; [reflexivity |].
    rewrite (ResponseFacts.readable_text fopen_ok fwrite_ok l _
               Handlers.MSG_RENAMED);
      [| rewrite Hst; discriminate | reflexivity | reflexivity].
    apply (ResponseFacts.text_lines l Handlers.MSG_RENAMED
             [bytes_of "SUCCESS: File renamed"] [x00]).
    + rewrite Hbuf. reflexivity.
    + repeat constructor; cbn; intuition discriminate.
    + reflexivity.
    + rewrite Hbuf. vm_compute. reflexivity.
  - intros l r data Hnul Hst Hrecv Hlook.
    rewrite (ResponseFacts.readable_text fopen_ok fwrite_ok l r data)
      by assumption.
    apply ResponseFacts.text_behind_nul. exact Hnul.
Qed.

(** After a file was deleted, the listing the server sends is not
    shown. *)
Lemma X9_witness :
  exists buf,
    Client.on_socket_readable Examples.always Examples.writes
      (Client.set_server_buffer [x00] Client.initial_loop_state)
      (RecvData (line "a.txt" ++ line "END_OF_LIST"))
    = Returned 0
        (Client.set_server_buffer buf Client.initial_loop_state) []
    /\ Text.nul_first buf.
Proof.
  apply (proj2 (proj2 (X9_reply_with_nul_silences_client Examples.always
                         Examples.writes Examples.always
                         (fun _ _ => true) 3))
           (Client.set_server_buffer [x00] Client.initial_loop_state)
           (RecvData (line "a.txt" ++ line "END_OF_LIST"))
           (line "a.txt" ++ line "END_OF_LIST")).
  - exists [], []. split; [reflexivity | intros []].
  - discriminate.
  - reflexivity.
  - reflexivity.
Defined.

(** ** One chunk of an upload *)

Module ChunkFacts.
Import Client Upload.

Lemma read_some (unread : list byte) :
  unread <> [] ->
  0 < len (firstn 512 unread) <= 512
  /\ (len (firstn 512 unread) <=? 0) = false.
Proof.
  intros Hne.
  assert (H : 0 < len (firstn 512 unread) <= 512).
  { unfold len. rewrite length_firstn.
    destruct unread; [congruence | cbn [length]; lia]. }
  split; [exact H | lia].
Qed.

(** A chunk that the socket takes whole. *)
Lemma chunk_sent sock t path unread n1 n2 errno_again :
  file_ptr t = Some (ReadFile path unread) ->
  unread <> [] -> (80 <= S n1)%nat -> (512 <= S n2)%nat ->
  send_file_chunk_epoll sock t (SendAccepts n1) (SendAccepts n2) errno_again
  = (if total_chunks t <=? current_chunk t + 1 then 1 else 0,
     set_current_chunk (current_chunk t + 1) (after_read path unread t),
     [ESend sock
        (encode_header (upload_header t (len (firstn 512 unread))));
      ESend sock (firstn 512 unread);
      EProgress (percent_of (current_chunk t + 1) (total_chunks t))]).
Proof.
  intros Hfile Hne H1 H2. unfold send_file_chunk_epoll. rewrite Hfile.
  destruct (read_some unread Hne) as [Hlen E]. rewrite E.
  unfold send_whole. rewrite encode_header_length.
  assert (E1 : (80 <=? S n1)%nat = true) by (apply Nat.leb_le; exact H1).
  assert (E2 : (length (firstn 512 unread) <=? S n2)%nat = true).
  { apply Nat.leb_le. rewrite length_firstn. lia. }
  rewrite E1, E2. fold (after_read path unread t).
  cbn [current_chunk total_chunks set_current_chunk after_read
         set_file_ptr].
  destruct (total_chunks t <=? current_chunk t + 1); reflexivity.
Qed.

(** A header that the socket does not take. *)
Lemma header_blocked sock t path unread answer_payload errno_again :
  file_ptr t = Some (ReadFile path unread) -> unread <> [] ->
  send_file_chunk_epoll sock t SendWouldBlock answer_payload errno_again
  = (-2, after_read path unread t, []).
Proof.
  intros Hfile Hne. unfold send_file_chunk_epoll. rewrite Hfile.
  destruct (read_some unread Hne) as [_ E]. rewrite E. reflexivity.
Qed.

(** A payload that the socket does not take, the header gone. *)
Lemma payload_blocked sock t path unread n1 errno_again :
  file_ptr t = Some (ReadFile path unread) -> unread <> [] ->
  (80 <= S n1)%nat ->
  send_file_chunk_epoll sock t (SendAccepts n1) SendWouldBlock errno_again
  = (-2, after_read path unread t,
     [ESend sock
        (encode_header (upload_header t (len (firstn 512 unread))))]).
Proof.
  intros Hfile Hne H1. unfold send_file_chunk_epoll. rewrite Hfile.
  destruct (read_some unread Hne) as [_ E]. rewrite E.
  unfold send_whole. rewrite encode_header_length.
  assert (E1 : (80 <=? S n1)%nat = true) by (apply Nat.leb_le; exact H1).
  rewrite E1. reflexivity.
Qed.

(** At the end of the file nothing is sent and nothing changes. *)
Lemma at_end_of_file sock t path a1 a2 errno_again :
  file_ptr t = Some (ReadFile path []) ->
  send_file_chunk_epoll sock t a1 a2 errno_again = (0, t, []).
Proof.
  intros Hfile. unfold send_file_chunk_epoll. rewrite Hfile.
  cbn [firstn skipn len length Z.of_nat Z.leb Z.compare].
  rewrite <- Hfile. destruct t; reflexivity.
Qed.

End ChunkFacts.

(** X10.  When the socket would block, [send_file_chunk_epoll] returns -2
    with the chunk it had read from the file neither sent nor kept: the
    file stands behind those bytes and the chunk count is as before.  The
    next call therefore sends, under the same chunk id, the bytes that
    follow in the file; and when the header had gone out before the
    payload was refused, a header without payload is left on the wire.
    When the bytes lost were the last of the file, every later call
    reads nothing and returns 0: the count never reaches the total. *)
Theorem X10_would_block_loses_chunk sock t path unread :
  Client.file_ptr t = Some (Client.ReadFile path unread) ->
  unread <> [] ->
  let t' :=
    Client.set_file_ptr (Some (Client.ReadFile path (skipn 512 unread))) t in
  (forall answer_payload errno_again,
     Client.send_file_chunk_epoll sock t SendWouldBlock answer_payload
       errno_again
     = (-2, t', []))
  /\ (forall n1 errno_again,
        (80 <= S n1)%nat ->
        Client.send_file_chunk_epoll sock t (SendAccepts n1) SendWouldBlock
          errno_again
        = (-2, t',
           [ESend sock
              (encode_header
                 (Client.upload_header t (len (firstn 512 unread))))]))
  /\ Client.current_chunk t' = Client.current_chunk t
  /\ (skipn 512 unread <> [] ->
      forall n1 n2 errno_again,
        (80 <= S n1)%nat -> (512 <= S n2)%nat ->
        exists r t2 tr,
          Client.send_file_chunk_epoll sock t' (SendAccepts n1)
            (SendAccepts n2) errno_again
          = (r, t2,
             ESend sock
               (encode_header
                  (mkHeader (to_u32 (Client.current_chunk t))
                     (to_u32 (len (firstn 512 (skipn 512 unread))))
                     (to_u32 (Client.total_chunks t)) 0
                     (if Client.current_chunk t =? 0
                      then strncpy_field (Client.filename t)
                      else repeat x00 64)))
               :: ESend sock (firstn 512 (skipn 512 unread)) :: tr))
  /\ (skipn 512 unread = [] ->
      forall a1 a2 errno_again,
        Client.send_file_chunk_epoll sock t' a1 a2 errno_again
        = (0, t', [])).
Proof.
  intros Hfile Hne t'.
  split; [| split; [| split; [| split]]].
  - intros answer_payload errno_again.
    exact (ChunkFacts.header_blocked sock t path unread answer_payload
             errno_again Hfile Hne).
  - intros n1 errno_again H1.
    exact (ChunkFacts.payload_blocked sock t path unread n1 errno_again
             Hfile Hne H1).
  - reflexivity.
  - intros Hmore n1 n2 errno_again H1 H2.
    rewrite (ChunkFacts.chunk_sent sock t' path (skipn 512 unread) n1 n2
               errno_again)
      by (try assumption; reflexivity).
    eexists _, _, _. reflexivity.
  - intros Hend a1 a2 errno_again.
    apply (ChunkFacts.at_end_of_file sock t' path).
    unfold t'. cbn [Client.file_ptr Client.set_file_ptr]. rewrite Hend.
    reflexivity.
Qed.

(** A file of 600 bytes whose first header meets a full socket: the
    second call sends the last 88 bytes as chunk 0. *)
Lemma X10_witness :
  exists t' r t2 hd tr,
    Client.send_file_chunk_epoll 3
      (Client.mkTransfer Client.STATE_SENDING
         (Some (Client.ReadFile (bytes_of "f") (repeat "x"%byte 600)))
         (bytes_of "f") 2 0 600 zero_header)
      SendWouldBlock SendWouldBlock false
    = (-2, t', [])
    /\ Client.send_file_chunk_epoll 3 t' (SendAccepts 79) (SendAccepts 511)
         false
       = (r, t2, ESend 3 hd :: ESend 3 (repeat "x"%byte 88) :: tr)
    /\ chunk_id (decode_header hd) = 0.
Proof.
  pose (t := Client.mkTransfer Client.STATE_SENDING
               (Some (Client.ReadFile (bytes_of "f") (repeat "x"%byte 600)))
               (bytes_of "f") 2 0 600 zero_header).
  assert (Hfile : Client.file_ptr t
                  = Some (Client.ReadFile (bytes_of "f")
                            (repeat "x"%byte 600))) by reflexivity.
  assert (Hne : repeat "x"%byte 600 <> []) by discriminate.
  destruct (X10_would_block_loses_chunk 3 t (bytes_of "f")
              (repeat "x"%byte 600) Hfile Hne)
    as (Hblock & _ & _ & Hnext & _).
  destruct (Hnext ltac:(discriminate) 79%nat 511%nat false
              ltac:(lia) ltac:(lia))
    as (r & t2 & tr & Hrun).
  eexists _, r, t2, _, tr.
  split; [exact (Hblock SendWouldBlock false) |].
  split; [exact Hrun |]. vm_compute. reflexivity.
Defined.

(** ** The retry loop of [send_file] *)

Lemma slice_app (buf : list byte) (off n k : Z) :
  0 <= off -> 0 <= n -> 0 <= k ->
  slice buf off n ++ slice buf (off + n) k = slice buf off (n + k).
Proof.
  intros Ho Hn Hk. unfold slice.
  rewrite (Z2Nat.inj_add n k) by assumption.
  rewrite WireFacts.firstn_plus, skipn_skipn.
  rewrite (Z2Nat.inj_add off n) by assumption.
  rewrite (Nat.add_comm (Z.to_nat n)). reflexivity.
Qed.

Lemma slice_empty (buf : list byte) (off : Z) : slice buf off 0 = [].
Proof. reflexivity. Qed.

Module RetryFacts.
Import Commands.

Lemma retry_step fuel answers k sock chunk_data sent retry_count :
  send_with_retry (S fuel) answers k sock chunk_data sent retry_count
  = if (sent <? len chunk_data) && (retry_count <? MAX_RETRIES) then
      match answers k with
      | SendAccepts n =>
          let result :=
            Z.min (Z.of_nat (S n)) (len chunk_data - sent) in
          let '(st, k', tr) :=
            send_with_retry fuel answers (S k) sock chunk_data
              (sent + result) 0 in
          (st, k', ESend sock (slice chunk_data sent result) :: tr)
      | SendWouldBlock =>
          let '(st, k', tr) :=
            send_with_retry fuel answers (S k) sock chunk_data
              sent (retry_count + 1) in
          (st, k', EUsleep (1000 * (retry_count + 1)) :: tr)
      | SendReset | SendFails => (ChunkFailed, S k, [])
      end
    else if sent <? len chunk_data then (ChunkFailed, k, [])
    else (ChunkSent, k, []).
Proof. reflexivity. Qed.

Lemma retry_stop answers k sock chunk_data sent retry_count :
  send_with_retry 0 answers k sock chunk_data sent retry_count
  = if (sent <? len chunk_data) && (retry_count <? MAX_RETRIES)
    then (NoFuel, k, [])
    else if sent <? len chunk_data then (ChunkFailed, k, [])
    else (ChunkSent, k, []).
Proof. reflexivity. Qed.

(** What has left is the chunk from where the loop started up to some
    point, which is the end exactly when the loop reports the chunk
    sent. *)
Lemma sends_in_order answers sock chunk_data :
  forall fuel k sent retry_count,
    0 <= sent <= len chunk_data ->
    exists st k' tr m,
      send_with_retry fuel answers k sock chunk_data sent retry_count
      = (st, k', tr)
      /\ sent <= m <= len chunk_data
      /\ concat (sent_to sock tr) = slice chunk_data sent (m - sent)
      /\ (st = ChunkSent -> m = len chunk_data)
      /\ (st = ChunkFailed -> m < len chunk_data)
      /\ (st = NoFuel ->
          Z.of_nat fuel
          < 11 * (len chunk_data - sent) + (MAX_RETRIES - retry_count)).
Proof.
  induction fuel as [| fuel IH]; intros k sent retry_count Hs.
  - rewrite retry_stop.
    destruct (sent <? len chunk_data) eqn:E1;
      destruct (retry_count <? MAX_RETRIES) eqn:E2; cbn [andb];
      eexists _, _, _, sent;
      (split; [reflexivity |]); (split; [lia |]);
      rewrite Z.sub_diag; (split; [reflexivity |]);
      repeat split; try discriminate; intros _; unfold MAX_RETRIES in *;
      lia.
  - rewrite retry_step.
    destruct (sent <? len chunk_data) eqn:E1;
      destruct (retry_count <? MAX_RETRIES) eqn:E2; cbn [andb];
      try (eexists _, _, _, sent;
           (split; [reflexivity |]); (split; [lia |]);
           rewrite Z.sub_diag; (split; [reflexivity |]);
           repeat split; try discriminate; intros _; lia).
    destruct (answers k) as [n | | |] eqn:Ea;
      try (eexists _, _, _, sent;
           (split; [reflexivity |]); (split; [lia |]);
           rewrite Z.sub_diag; (split; [reflexivity |]);
           repeat split; try discriminate; intros _; lia).
    + cbv zeta.
      set (result := Z.min (Z.of_nat (S n)) (len chunk_data - sent)).
      assert (Hr : 0 < result <= len chunk_data - sent)
        by (unfold result; lia).
      destruct (IH (S k) (sent + result) 0 ltac:(lia))
        as (st & k' & tr & m & Hrun & Hm & Hcat & Hok & Hfail & Hfuel).
      rewrite Hrun. eexists _, _, _, m.
      split; [reflexivity |]. split; [lia |]. split.
      * cbn [sent_to]. rewrite Z.eqb_refl. cbn [concat]. rewrite Hcat.
        replace (m - sent) with (result + (m - (sent + result))) by lia.
        apply slice_app; lia.
      * split; [exact Hok |]. split; [exact Hfail |].
        intros H. specialize (Hfuel H). unfold MAX_RETRIES in *. lia.
    + destruct (IH (S k) sent (retry_count + 1) Hs)
        as (st & k' & tr & m & Hrun & Hm & Hcat & Hok & Hfail & Hfuel).
      rewrite Hrun. eexists _, _, _, m.
      split; [reflexivity |]. split; [lia |]. split; [exact Hcat |].
      split; [exact Hok |]. split; [exact Hfail |].
      intros H. specialize (Hfuel H). lia.
Qed.

(** Ten refusals in a row end the loop. *)
Lemma gives_up answers sock chunk_data sent :
  forall todo fuel k retry_count,
    sent < len chunk_data ->
    0 <= retry_count -> retry_count + Z.of_nat todo = MAX_RETRIES ->
    (todo <= fuel)%nat ->
    (forall i, (i < todo)%nat -> answers (k + i)%nat = SendWouldBlock) ->
    send_with_retry fuel answers k sock chunk_data sent retry_count
    = (ChunkFailed, (k + todo)%nat,
       map (fun i => EUsleep (1000 * (retry_count + 1 + Z.of_nat i)))
         (seq 0 todo)).
Proof.
  induction todo as [| todo IH]; intros fuel k retry_count Hs Hr Hsum Hf Hans.
  - assert (E1 : (sent <? len chunk_data) = true) by lia.
    assert (E2 : (retry_count <? MAX_RETRIES) = false) by lia.
    rewrite Nat.add_0_r.
    destruct fuel; [rewrite retry_stop | rewrite retry_step];
      rewrite E1, E2; reflexivity.
  - destruct fuel as [| fuel]; [lia |].
    assert (E1 : (sent <? len chunk_data) = true) by lia.
    assert (E2 : (retry_count <? MAX_RETRIES) = true) by lia.
    rewrite retry_step, E1, E2. cbn [andb].
    pose proof (Hans 0%nat ltac:(lia)) as H0. rewrite Nat.add_0_r in H0.
    rewrite H0.
    rewrite (IH fuel (S k) (retry_count + 1)); try lia.
    + f_equal; [f_equal; lia |].
      cbn [seq map]. rewrite Z.add_0_r. f_equal.
      rewrite <- seq_shift, map_map. apply map_ext. intros i.
      f_equal. lia.
    + intros i Hi. replace (S k + i)%nat with (k + S i)%nat by lia.
      apply Hans. lia.
Qed.

End RetryFacts.

(** X11.  The retry loop of [send_file] sends the bytes of a chunk in
    order, each once: whatever the socket answers, what has left when
    the loop ends is the chunk up to some point, the whole chunk exactly
    when the loop reports it sent, and less than the whole chunk when it
    gives up, so that a chunk given up leaves a broken frame on the wire.
    The loop always ends within the iterations [send_file] needs, and ten
    refusals in a row make it give up after pauses of 1 to 10
    milliseconds. *)
Theorem X11_retry_sends_in_order answers sock chunk_data k :
  (exists st k' tr m,
     Commands.send_with_retry (Commands.retry_fuel chunk_data) answers k
       sock chunk_data 0 0 = (st, k', tr)
     /\ st <> Commands.NoFuel
     /\ 0 <= m <= len chunk_data
     /\ concat (sent_to sock tr) = firstn (Z.to_nat m) chunk_data
     /\ (st = Commands.ChunkSent <-> m = len chunk_data))
  /\ (chunk_data <> [] ->
      (forall i, (i < 10)%nat -> answers (k + i)%nat = SendWouldBlock) ->
      Commands.send_with_retry (Commands.retry_fuel chunk_data) answers k
        sock chunk_data 0 0
      = (Commands.ChunkFailed, (k + 10)%nat,
         map (fun ms => EUsleep (1000 * ms)) [1; 2; 3; 4; 5; 6; 7; 8; 9; 10])).
Proof.
  split.
  - destruct (RetryFacts.sends_in_order answers sock chunk_data
                (Commands.retry_fuel chunk_data) k 0 0)
      as (st & k' & tr & m & Hrun & Hm & Hcat & Hok & Hfail & Hfuel).
    { pose proof (len_nonneg chunk_data). lia. }
    exists st, k', tr, m. split; [exact Hrun |].
    split.
    { intros H. specialize (Hfuel H).
      unfold Commands.retry_fuel, Commands.MAX_RETRIES, len in Hfuel.
      lia. }
    split; [lia |]. split.
    { rewrite Hcat. unfold slice. rewrite Z.sub_0_r. reflexivity. }
    split; [exact Hok |].
    intros ->. destruct st; [reflexivity | | ].
    + specialize (Hfail eq_refl). lia.
    + specialize (Hfuel eq_refl).
      unfold Commands.retry_fuel, Commands.MAX_RETRIES, len in Hfuel.
      lia.
  - intros Hne Hans.
    rewrite (RetryFacts.gives_up answers sock chunk_data 0 10
               (Commands.retry_fuel chunk_data) k 0);
      try reflexivity; try assumption; try lia.
    + unfold len. destruct chunk_data; [congruence | cbn [length]; lia].
    + unfold Commands.retry_fuel. lia.
Qed.

(** A socket that refuses ten times: the frame is given up after 55
    milliseconds of pauses. *)
Lemma X11_witness :
  Commands.send_with_retry (Commands.retry_fuel (repeat "x"%byte 592))
    (fun _ => SendWouldBlock) 0 3 (repeat "x"%byte 592) 0 0
  = (Commands.ChunkFailed, 10%nat,
     map (fun ms => EUsleep (1000 * ms)) [1; 2; 3; 4; 5; 6; 7; 8; 9; 10]).
Proof.
  apply (proj2 (X11_retry_sends_in_order (fun _ => SendWouldBlock) 3
                  (repeat "x"%byte 592) 0)).
  - discriminate.
  - reflexivity.
Defined.

(** ** Chunks on the wire *)

Module FrameFacts.
Import Frames.

Lemma ntohl_firstn (raw : list byte) (off : nat) :
  (off + 3 < 80)%nat -> ntohl (firstn 80 raw) off = ntohl raw off.
Proof. exact (ntohl_first_80 raw off). Qed.

(** A header is read from the first 80 bytes. *)
Lemma decode_firstn (raw : list byte) :
  decode_header (firstn 80 raw) = decode_header raw.
Proof. exact (decode_first_80 raw). Qed.

Lemma decode_app (d tail : list byte) :
  (80 <= length d)%nat -> decode_header (d ++ tail) = decode_header d.
Proof.
  intros H. rewrite <- (decode_firstn (d ++ tail)), <- (decode_firstn d).
  rewrite WireFacts.firstn_app_long by exact H. reflexivity.
Qed.

Lemma chunk_length n i d :
  is_chunk n i d ->
  (80 < length d)%nat /\ len d = 80 + len (payload_of d).
Proof.
  intros (_ & _ & _ & Hp). unfold payload_of, len in *.
  rewrite length_skipn in *. lia.
Qed.

Lemma chunk_split n i d :
  is_chunk n i d -> d = firstn 80 d ++ payload_of d.
Proof. intros _. unfold payload_of. symmetry. apply firstn_skipn. Qed.

Lemma payload_app n i d tail :
  is_chunk n i d -> skipn 80 (d ++ tail) = payload_of d ++ tail.
Proof.
  intros H. destruct (chunk_length n i d H) as [Hl _].
  unfold payload_of. rewrite skipn_app.
  replace (80 - length d)%nat with 0%nat by lia. reflexivity.
Qed.

Lemma chunks_from_app n i ds1 ds2 :
  chunks_from n i (ds1 ++ ds2)
  <-> chunks_from n i ds1 /\ chunks_from n (i + len ds1) ds2.
Proof.
  revert i. induction ds1 as [| d ds1 IH]; intros i.
  - cbn [app chunks_from]. change (len []) with 0. rewrite Z.add_0_r.
    tauto.
  - cbn [app chunks_from]. rewrite IH.
    replace (i + len (d :: ds1)) with (i + 1 + len ds1)
      by (unfold len; cbn [length]; lia).
    tauto.
Qed.

Lemma written_app path tr1 tr2 :
  written path (tr1 ++ tr2) = written path tr1 ++ written path tr2.
Proof.
  induction tr1 as [| ev tr1 IH]; [reflexivity |].
  destruct ev; cbn [app written]; try exact IH.
  destruct (bytes_eqb path0 path); [| exact IH].
  rewrite IH, app_assoc. reflexivity.
Qed.

Lemma bytes_eqb_refl (a : list byte) : bytes_eqb a a = true.
Proof.
  unfold bytes_eqb. destruct (list_eq_dec Byte.byte_eq_dec a a);
    [reflexivity | congruence].
Qed.

(** The payloads written one after another make up what the chunks
    carry. *)
Lemma written_payloads path (ds : list (list byte)) (rest : list event) :
  written path (map (fun d => EFwrite path (payload_of d)) ds ++ rest)
  = carried ds ++ written path rest.
Proof.
  induction ds as [| d ds IH]; [reflexivity |].
  cbn [map app written carried flat_map]. rewrite bytes_eqb_refl.
  rewrite <- app_assoc. f_equal. exact IH.
Qed.

End FrameFacts.

(** ** The blocking receiver *)

Lemma prepend_app {St : Type} (tr1 tr2 : list event) (o : outcome St) :
  prepend tr1 (prepend tr2 o) = prepend (tr1 ++ tr2) o.
Proof. destruct o; cbn [prepend]; rewrite ?app_assoc; reflexivity. Qed.

Lemma prepend_nil {St : Type} (o : outcome St) : prepend [] o = o.
Proof. destruct o; reflexivity. Qed.

Module BlockingFacts.
Import Commands Frames FrameFacts.

Section Env.
Variable fopen_ok : list byte -> bool.
Variable sock : Z.

Lemma chunk_fields n i d tail :
  is_chunk n i d -> 0 <= i < 2 ^ 31 -> 0 < n < 2 ^ 31 ->
  (len (d ++ tail) <? HEADER_SIZE) = false
  /\ decode_header (firstn 80 (d ++ tail)) = decode_header d
  /\ to_int (chunk_id (decode_header d)) = i
  /\ to_int (chunk_size (decode_header d)) = len (payload_of d)
  /\ to_int (total_chunks (decode_header d)) = n
  /\ firstn (Z.to_nat (len (payload_of d))) (payload_of d ++ tail)
     = payload_of d
  /\ skipn (Z.to_nat (len (payload_of d))) (payload_of d ++ tail) = tail.
Proof.
  intros Hc Hi Hn. pose proof Hc as (Hid & Htot & Hsize & Hp).
  destruct (chunk_length n i d Hc) as [Hl Hlen].
  split; [rewrite len_app; pose proof (len_nonneg tail);
          unfold HEADER_SIZE; lia |].
  split; [rewrite decode_firstn; apply decode_app; lia |].
  split; [rewrite Hid; apply to_int_small; lia |].
  split; [rewrite Hsize; apply to_int_small; unfold CHUNK_SIZE in Hp; lia |].
  split; [rewrite Htot; apply to_int_small; lia |].
  unfold len. rewrite Nat2Z.id. split.
  - apply firstn_app_exact. reflexivity.
  - apply skipn_app_exact.
Qed.

(** One chunk that arrives whole. *)
Lemma receive_chunk fuel n i d tail fp received path :
  is_chunk n i d -> 0 <= i < 2 ^ 31 -> 0 < n < 2 ^ 31 ->
  (i = 0 -> path = blocking_path d /\ fopen_ok path = true) ->
  (i <> 0 -> fp = Some path) ->
  receive_file_loop (S fuel) fopen_ok sock (d ++ tail) fp received
  = if n <=? received + 1 then
      Returned 0 tt
        ((if i =? 0 then [EFopen path "wb" true] else [])
           ++ [EFwrite path (payload_of d)]
           ++ [EFclose path; ESend sock MSG_UPLOADED])
    else
      prepend
        ((if i =? 0 then [EFopen path "wb" true] else [])
           ++ [EFwrite path (payload_of d)])
        (receive_file_loop fuel fopen_ok sock tail (Some path)
           (received + 1)).
Proof.
  intros Hc Hi Hn Hfirst Hlater.
  destruct (chunk_length n i d Hc) as [Hl _].
  pose proof Hc as (_ & _ & _ & Hp).
  cbn [receive_file_loop].
  destruct (d ++ tail) as [| b s] eqn:Ed.
  { destruct d; [cbn in Hl; lia | discriminate]. }
  rewrite <- Ed. clear Ed b s.
  destruct (chunk_fields n i d tail Hc Hi Hn)
    as (E1 & E2 & E3 & E4 & E5 & E6 & E7).
  rewrite E1, E2, E3, E4, E5.
  rewrite (payload_app n i d tail Hc), E6, E7.
  assert (E8 : (len (payload_of d) <? 0) || (CHUNK_SIZE <? len (payload_of d))
               = false) by lia.
  rewrite E8, Z.eqb_refl. cbn [negb].
  destruct (i =? 0) eqn:Ei.
  - apply Z.eqb_eq in Ei. destruct (Hfirst Ei) as [Hpath Hopen].
    fold (name_of d). fold (blocking_path d). rewrite <- Hpath, Hopen.
    destruct (n <=? received + 1); reflexivity.
  - apply Z.eqb_neq in Ei. rewrite (Hlater Ei).
    destruct (n <=? received + 1); reflexivity.
Qed.

(** A chunk whose payload the stream does not bring whole. *)
Lemma receive_cut fuel n i d k fp received path :
  is_chunk n i d -> 0 <= i < 2 ^ 31 -> 0 < n < 2 ^ 31 ->
  (80 <= k < length d)%nat ->
  (i = 0 -> path = blocking_path d /\ fopen_ok path = true) ->
  (i <> 0 -> fp = Some path) ->
  receive_file_loop (S fuel) fopen_ok sock (firstn k d) fp received
  = Returned 0 tt
      ((if i =? 0 then [EFopen path "wb" true] else [])
         ++ [EFclose path; ESend sock MSG_UPLOADED]).
Proof.
  intros Hc Hi Hn Hk Hfirst Hlater.
  pose proof Hc as (Hid & Htot & Hsize & Hp).
  assert (Hl : length (firstn k d) = k) by (rewrite length_firstn; lia).
  cbn [receive_file_loop].
  destruct (firstn k d) as [| b s] eqn:Ed; [cbn in Hl; lia |].
  rewrite <- Ed. rewrite <- Ed in Hl. clear Ed b s.
  assert (E1 : (len (firstn k d) <? HEADER_SIZE) = false).
  { unfold len, HEADER_SIZE. lia. }
  assert (E2 : decode_header (firstn 80 (firstn k d)) = decode_header d).
  { rewrite firstn_firstn, Nat.min_l by lia. apply decode_firstn. }
  assert (E3 : to_int (chunk_id (decode_header d)) = i)
    by (rewrite Hid; apply to_int_small; lia).
  assert (E4 : to_int (chunk_size (decode_header d)) = len (payload_of d)).
  { rewrite Hsize. apply to_int_small. unfold CHUNK_SIZE in Hp. lia. }
  assert (E5 : to_int (total_chunks (decode_header d)) = n)
    by (rewrite Htot; apply to_int_small; lia).
  assert (E6 : len (firstn (Z.to_nat (len (payload_of d)))
                      (skipn 80 (firstn k d)))
               <> len (payload_of d)).
  { unfold len, payload_of. rewrite Nat2Z.id.
    rewrite length_firstn, !length_skipn, Hl. lia. }
  rewrite E1, E2, E3, E4, E5.
  assert (E8 : (len (payload_of d) <? 0) || (CHUNK_SIZE <? len (payload_of d))
               = false) by lia.
  rewrite E8. apply Z.eqb_neq in E6. rewrite E6. cbn [negb].
  destruct (i =? 0) eqn:Ei.
  - apply Z.eqb_eq in Ei. destruct (Hfirst Ei) as [Hpath Hopen].
    fold (name_of d). fold (blocking_path d). rewrite <- Hpath, Hopen. reflexivity.
  - apply Z.eqb_neq in Ei. rewrite (Hlater Ei). reflexivity.
Qed.

(** Chunks after the first, none of them the last. *)
Lemma receive_chunks n path (ds : list (list byte)) :
  forall i fuel tail,
    chunks_from n i ds -> 0 < i -> i + len ds < n -> n < 2 ^ 31 ->
    receive_file_loop (length ds + fuel) fopen_ok sock (concat ds ++ tail)
      (Some path) i
    = prepend (map (fun d => EFwrite path (payload_of d)) ds)
        (receive_file_loop fuel fopen_ok sock tail (Some path)
           (i + len ds)).
Proof.
  induction ds as [| d ds IH]; intros i fuel tail Hcs Hi Hlast Hn.
  - cbn [length Nat.add concat app map]. change (len []) with 0.
    rewrite Z.add_0_r, prepend_nil. reflexivity.
  - destruct Hcs as [Hc Hcs]. pose proof (len_nonneg ds) as Hds.
    assert (Hlen : len (d :: ds) = 1 + len ds)
      by (unfold len; cbn [length]; lia).
    rewrite Hlen in Hlast.
    cbn [length Nat.add concat map]. rewrite <- app_assoc.
    rewrite (receive_chunk _ n i d _ (Some path) i path Hc);
      try lia; try (intros _; reflexivity).
    assert (E : (n <=? i + 1) = false) by lia. rewrite E.
    assert (Ei : (i =? 0) = false) by lia. rewrite Ei. cbn [app].
    rewrite (IH (i + 1) fuel tail Hcs) by lia.
    rewrite Hlen, prepend_app.
    replace (i + 1 + len ds) with (i + (1 + len ds)) by lia.
    reflexivity.
Qed.

(** The first chunk, and those that follow it short of the last. *)
Lemma receive_front n d0 (ds : list (list byte)) fuel tail :
  chunks_from n 0 (d0 :: ds) -> 1 + len ds < n -> n < 2 ^ 31 ->
  fopen_ok (blocking_path d0) = true ->
  receive_file_loop (S (length ds + fuel)) fopen_ok sock
    (concat (d0 :: ds) ++ tail) None 0
  = prepend
      (EFopen (blocking_path d0) "wb" true
         :: map (fun d => EFwrite (blocking_path d0) (payload_of d)) (d0 :: ds))
      (receive_file_loop fuel fopen_ok sock tail (Some (blocking_path d0))
         (1 + len ds)).
Proof.
  intros [Hc Hcs] Hlast Hn Hopen. pose proof (len_nonneg ds) as Hds.
  cbn [concat]. rewrite <- app_assoc.
  rewrite (receive_chunk _ n 0 d0 _ None 0 (blocking_path d0) Hc);
    try lia; try (intros _; split; [reflexivity | exact Hopen]).
  assert (E : (n <=? 0 + 1) = false) by lia. rewrite E.
  change (0 =? 0) with true. change (0 + 1) with 1 in *.
  rewrite (receive_chunks n (blocking_path d0) ds 1 fuel tail Hcs) by lia.
  rewrite prepend_app. reflexivity.
Qed.

(** Every chunk is longer than its header. *)
Lemma chunks_length n (ds : list (list byte)) :
  forall i, chunks_from n i ds -> (length ds <= length (concat ds))%nat.
Proof.
  induction ds as [| d ds IH]; intros i Hcs; [cbn; lia |].
  destruct Hcs as [Hc Hcs]. destruct (chunk_length n i d Hc) as [Hl _].
  cbn [concat length]. rewrite length_app. specialize (IH _ Hcs). lia.
Qed.

(** A whole file. *)
Lemma receive_whole n d0 (ds : list (list byte)) tail :
  whole_file n (d0 :: ds) -> n < 2 ^ 31 ->
  fopen_ok (blocking_path d0) = true ->
  receive_file fopen_ok sock (concat (d0 :: ds) ++ tail)
  = Returned 0 tt
      (EMkdir (bytes_of "saved")
         :: EFopen (blocking_path d0) "wb" true
         :: map (fun d => EFwrite (blocking_path d0) (payload_of d))
              (d0 :: ds)
         ++ [EFclose (blocking_path d0); ESend sock MSG_UPLOADED]).
Proof.
  intros [Hcs Hlen] Hn Hopen. unfold receive_file.
  pose proof (chunks_length n (d0 :: ds) 0 Hcs) as Hlong.
  assert (Hl : (length (d0 :: ds)
                <= length (concat (d0 :: ds) ++ tail))%nat)
    by (rewrite length_app; lia).
  destruct (exists_last (l := d0 :: ds) ltac:(discriminate))
    as (front & dl & Hsplit).
  destruct front as [| d0' mid].
  - (* one chunk *)
    cbn [app] in Hsplit. inversion Hsplit as [[H0 Hds]]. subst d0 ds.
    clear Hsplit.
    destruct Hcs as [Hc _]. unfold len in Hlen. cbn [length] in Hlen.
    cbn [concat app]. rewrite <- app_assoc. cbn [app].
    rewrite (receive_chunk _ n 0 dl _ None 0 (blocking_path dl) Hc);
      try lia; try (intros _; split; [reflexivity | exact Hopen]).
    assert (E : (n <=? 0 + 1) = true) by lia. rewrite E. reflexivity.
  - cbn [app] in Hsplit. inversion Hsplit as [[H0 Hds]]. subst d0'.
    clear Hsplit. subst ds.
    change (d0 :: mid ++ [dl]) with ((d0 :: mid) ++ [dl]) in *.
    apply chunks_from_app in Hcs. destruct Hcs as [Hfront [Hc _]].
    rewrite len_app in Hlen. change (len [dl]) with 1 in Hlen.
    assert (Hm : len (d0 :: mid) = 1 + len mid)
      by (unfold len; cbn [length]; lia).
    rewrite Hm in Hlen. rewrite Hm in Hc.
    pose proof (len_nonneg mid) as Hmid.
    rewrite concat_app. change (concat [dl]) with (dl ++ []).
    rewrite app_nil_r, <- app_assoc.
    set (stream := concat (d0 :: mid) ++ dl ++ tail).
    assert (Hl' : (length mid + 2 <= length stream)%nat).
    { unfold stream.
      pose proof (chunks_length n (d0 :: mid) 0 Hfront) as H1.
      destruct (chunk_length _ _ _ Hc) as [H2 _].
      rewrite !length_app. cbn [length] in H1. lia. }
    replace (S (length stream))
      with (S (length mid + S (length stream - length mid - 1))) by lia.
    unfold stream.
    rewrite (receive_front n d0 mid _ _ Hfront) by (try lia; exact Hopen).
    rewrite (receive_chunk _ n (0 + (1 + len mid)) dl _
               (Some (blocking_path d0)) (1 + len mid) (blocking_path d0)
               Hc); try lia; try (intros _; reflexivity).
    assert (E : (n <=? 1 + len mid + 1) = true) by lia. rewrite E.
    assert (Ei : (0 + (1 + len mid) =? 0) = false) by lia. rewrite Ei.
    rewrite map_app. cbn [prepend app map].
    rewrite <- !app_assoc. reflexivity.
Qed.

(** A stream that ends inside a chunk, or between two chunks. *)
Lemma receive_part n (ds1 : list (list byte)) d ds2 k first :
  whole_file n (ds1 ++ d :: ds2) -> n < 2 ^ 31 ->
  first = hd d ds1 ->
  fopen_ok (blocking_path first) = true ->
  (80 <= k < length d)%nat \/ (k = 0%nat /\ ds1 <> []) ->
  receive_file fopen_ok sock (concat ds1 ++ firstn k d)
  = Returned 0 tt
      (EMkdir (bytes_of "saved")
         :: EFopen (blocking_path first) "wb" true
         :: map (fun d => EFwrite (blocking_path first) (payload_of d)) ds1
         ++ [EFclose (blocking_path first); ESend sock MSG_UPLOADED]).
Proof.
  intros [Hcs Hlen] Hn Hfirst Hopen Hk. unfold receive_file.
  apply chunks_from_app in Hcs. destruct Hcs as [Hfront [Hc _]].
  rewrite len_app in Hlen.
  assert (Hd : len (d :: ds2) = 1 + len ds2)
    by (unfold len; cbn [length]; lia).
  rewrite Hd in Hlen. pose proof (len_nonneg ds2) as Hds2.
  pose proof (len_nonneg ds1) as Hds1.
  destruct ds1 as [| d0 mid].
  - cbn [hd] in Hfirst. subst first.
    destruct Hk as [Hk | [_ Hk]]; [| congruence].
    cbn [concat app map].
    rewrite (receive_cut _ n 0 d k None 0 (blocking_path d) Hc);
      try lia; try (intros _; split; [reflexivity | exact Hopen]).
    reflexivity.
  - cbn [hd] in Hfirst. subst first.
    assert (Hm : len (d0 :: mid) = 1 + len mid)
      by (unfold len; cbn [length]; lia).
    rewrite Hm in Hlen, Hc. pose proof (len_nonneg mid) as Hmid.
    pose proof (chunks_length n (d0 :: mid) 0 Hfront) as Hlong.
    set (stream := concat (d0 :: mid) ++ firstn k d) in *.
    assert (Hl : (length (d0 :: mid) <= length stream)%nat)
      by (unfold stream; rewrite length_app; lia).
    cbn [length] in Hl.
    replace (S (length stream))
      with (S (length mid + S (length stream - length mid - 1))) by lia.
    unfold stream.
    rewrite (receive_front n d0 mid _ _ Hfront) by (try lia; exact Hopen).
    destruct Hk as [Hk | [-> _]].
    + rewrite (receive_cut _ n (0 + (1 + len mid)) d k
                 (Some (blocking_path d0)) (1 + len mid) (blocking_path d0)
                 Hc); try lia; try (intros _; reflexivity).
      assert (Ei : (0 + (1 + len mid) =? 0) = false) by lia. rewrite Ei.
      cbn [prepend app]. reflexivity.
    + cbn [firstn receive_file_loop prepend app]. reflexivity.
Qed.

End Env.
End BlockingFacts.

(** X12.  The blocking [receive_file] stores a file that arrives whole:
    it opens the file the first chunk names under [saved/], writes the
    payload of every chunk in order, closes the file and answers
    [SUCCESS: File uploaded]; what follows the last chunk in the stream
    is not read. *)
Theorem X12_blocking_receiver_stores_file (fopen_ok : list byte -> bool)
  sock n d0 ds tail :
  Frames.whole_file n (d0 :: ds) -> n < 2 ^ 31 ->
  fopen_ok (Frames.blocking_path d0) = true ->
  exists tr,
    Commands.receive_file fopen_ok sock (concat (d0 :: ds) ++ tail)
    = Returned 0 tt tr
    /\ tr = EMkdir (bytes_of "saved")
            :: EFopen (Frames.blocking_path d0) "wb" true
            :: map (fun d =>
                      EFwrite (Frames.blocking_path d0) (Frames.payload_of d))
                 (d0 :: ds)
            ++ [EFclose (Frames.blocking_path d0);
                ESend sock Commands.MSG_UPLOADED]
    /\ Frames.written (Frames.blocking_path d0) tr
       = Frames.carried (d0 :: ds).
Proof.
  intros Hwhole Hn Hopen. eexists. split; [| split; [reflexivity |]].
  - exact (BlockingFacts.receive_whole fopen_ok sock n d0 ds tail Hwhole Hn
             Hopen).
  - cbn [Frames.written]. rewrite FrameFacts.written_payloads.
    cbn [Frames.written]. apply app_nil_r.
Qed.

(** X13.  The blocking [receive_file] takes the end of the stream for
    the end of the file: when the first chunk has opened the file and
    the stream then ends inside a later chunk, after its header, or
    between two chunks, the chunks that came whole are written, the rest
    is dropped, the file is closed and the answer is still
    [SUCCESS: File uploaded]. *)
Theorem X13_cut_stream_reported_as_success (fopen_ok : list byte -> bool)
  sock n ds1 d ds2 k first :
  Frames.whole_file n (ds1 ++ d :: ds2) -> n < 2 ^ 31 ->
  first = hd d ds1 ->
  fopen_ok (Frames.blocking_path first) = true ->
  (80 <= k < length d)%nat \/ (k = 0%nat /\ ds1 <> []) ->
  Commands.receive_file fopen_ok sock (concat ds1 ++ firstn k d)
  = Returned 0 tt
      (EMkdir (bytes_of "saved")
         :: EFopen (Frames.blocking_path first) "wb" true
         :: map (fun d =>
                   EFwrite (Frames.blocking_path first) (Frames.payload_of d))
              ds1
         ++ [EFclose (Frames.blocking_path first);
             ESend sock Commands.MSG_UPLOADED]).
Proof.
  exact (BlockingFacts.receive_part fopen_ok sock n ds1 d ds2 k first).
Qed.

(** A file of two chunks of one byte. *)
Lemma X12_witness :
  exists tr,
    Commands.receive_file Examples.always 4
      (Examples.chunk 0 2 "f" ["A"%byte] ++ Examples.chunk 1 2 "" ["B"%byte])
    = Returned 0 tt tr
    /\ Frames.written (bytes_of "saved/f") tr = ["A"%byte; "B"%byte].
Proof.
  assert (Hw : Frames.whole_file 2
                 [Examples.chunk 0 2 "f" ["A"%byte];
                  Examples.chunk 1 2 "" ["B"%byte]]).
  { vm_compute. repeat split; try reflexivity; discriminate. }
  destruct (X12_blocking_receiver_stores_file Examples.always 4 2
              (Examples.chunk 0 2 "f" ["A"%byte])
              [Examples.chunk 1 2 "" ["B"%byte]] [] Hw ltac:(lia) eq_refl)
    as (tr & Hrun & _ & Hwr).
  exists tr. split; [| exact Hwr].
  rewrite <- Hrun. cbn [concat]. rewrite !app_nil_r. reflexivity.
Defined.

(** Of two chunks the second loses its payload: the answer is success
    and the file holds one byte. *)
Lemma X13_witness :
  Commands.receive_file Examples.always 4
    (Examples.chunk 0 2 "f" ["A"%byte] ++ Examples.header_only 1 1 2 "")
  = Returned 0 tt
      [EMkdir (bytes_of "saved"); EFopen (bytes_of "saved/f") "wb" true;
       EFwrite (bytes_of "saved/f") ["A"%byte];
       EFclose (bytes_of "saved/f"); ESend 4 Commands.MSG_UPLOADED].
Proof.
  assert (Hw : Frames.whole_file 2
                 ([Examples.chunk 0 2 "f" ["A"%byte]]
                    ++ Examples.chunk 1 2 "" ["B"%byte] :: [])).
  { vm_compute. repeat split; try reflexivity; discriminate. }
  assert (Hk : (80 <= 80 < length (Examples.chunk 1 2 "" ["B"%byte]))%nat)
    by (vm_compute; lia).
  exact (X13_cut_stream_reported_as_success Examples.always 4 2
           [Examples.chunk 0 2 "f" ["A"%byte]]
           (Examples.chunk 1 2 "" ["B"%byte]) [] 80
           (Examples.chunk 0 2 "f" ["A"%byte]) Hw ltac:(lia) eq_refl eq_refl
           (or_introl Hk)).
Defined.

(** ** An upload over several reads *)

Lemma aligned_slice (temp more d after : list byte) (p o t : Z) :
  0 <= p -> 0 <= o -> 0 <= t -> t <= len temp - p -> t <= len d - o ->
  skipn (Z.to_nat p) temp ++ more = skipn (Z.to_nat o) d ++ after ->
  slice temp p t = slice d o t
  /\ skipn (Z.to_nat (p + t)) temp ++ more
     = skipn (Z.to_nat (o + t)) d ++ after.
Proof.
  intros Hp Ho Ht Htp Hto H. unfold len in *.
  assert (L1 : (Z.to_nat t <= length (skipn (Z.to_nat p) temp))%nat)
    by (rewrite length_skipn; lia).
  assert (L2 : (Z.to_nat t <= length (skipn (Z.to_nat o) d))%nat)
    by (rewrite length_skipn; lia).
  split.
  - unfold slice.
    rewrite <- (WireFacts.firstn_app_long _ _ more L1), H.
    apply WireFacts.firstn_app_long. exact L2.
  - rewrite !Z2Nat.inj_add by lia.
    rewrite (Nat.add_comm (Z.to_nat p)), (Nat.add_comm (Z.to_nat o)).
    rewrite <- !skipn_skipn.
    assert (S1 : forall (l r : list byte) k,
               (k <= length l)%nat -> skipn k l ++ r = skipn k (l ++ r)).
    { intros l r k Hk. rewrite skipn_app.
      replace (k - length l)%nat with 0%nat by lia. reflexivity. }
    rewrite (S1 _ more _ L1), (S1 _ after _ L2), H. reflexivity.
Qed.

Lemma firstn_slice (d : list byte) (o t : Z) :
  0 <= o -> 0 <= t ->
  firstn (Z.to_nat o) d ++ slice d o t = firstn (Z.to_nat (o + t)) d.
Proof.
  intros Ho Ht. unfold slice. rewrite Z2Nat.inj_add by lia.
  symmetry. apply WireFacts.firstn_plus.
Qed.

Lemma skipn_whole (d : list byte) : skipn (Z.to_nat (len d)) d = [].
Proof. apply skipn_all2. unfold len. lia. Qed.

Module UploadFacts2.
Import Server Frames FrameFacts Session.
Import ServerCounts.

Lemma min_avail_min (bytes_read processed wanted : Z) :
  min_avail bytes_read processed wanted
  = Z.min (bytes_read - processed) wanted.
Proof.
  unfold min_avail.
  destruct (bytes_read - processed <? wanted) eqn:E; lia.
Qed.

Section Env.
Variable fopen_ok : list byte -> bool.
Variable n : Z.
Variable path : list byte.
Hypothesis Hn : 0 < n <= 2000000.

(** A pass of the loop on bytes of a header. *)
Lemma step_header temp p more c j d o after :
  stands_at n path c j d o -> o < 80 -> is_chunk n j d -> 0 <= j ->
  (j = 0 ->
   path = full_path (filename (decode_header d))
            (chunk_size (decode_header d))
   /\ fopen_ok path = true) ->
  0 <= p < len temp ->
  skipn (Z.to_nat p) temp ++ more = skipn (Z.to_nat o) d ++ after ->
  exists c' tr,
    transfer_step fopen_ok temp (len temp) c p
    = Continue c' (p + Z.min (len temp - p) (80 - o)) tr
    /\ stands_at n path c' j d (o + Z.min (len temp - p) (80 - o))
    /\ written path tr = [] /\ sent_to (socket_fd c) tr = []
    /\ socket_fd c' = socket_fd c /\ buffer c' = buffer c.
Proof.
  intros (Hst & Ho & Hhead & Hpay & Hfile) Hlt Hc Hj Hpath Hp Hal.
  destruct (Hhead Hlt) as [Hhc Hrb].
  destruct (chunk_length n j d Hc) as [_ Hlen].
  pose proof Hc as (Hid & Htot & Hsize & Hpl).
  set (t := Z.min (len temp - p) (80 - o)).
  assert (Ht : 0 < t <= 80 - o /\ t <= len temp - p) by (unfold t; lia).
  destruct (aligned_slice temp more d after p o t) as [Hslice _];
    try lia; try exact Hal.
  assert (Hbytes : bytes_in_buffer c = o).
  { unfold bytes_in_buffer, len. rewrite Hrb, length_firstn.
    unfold len in *. lia. }
  unfold transfer_step. rewrite Hhc. cbn [negb].
  rewrite min_avail_min, Hbytes. unfold HEADER_SIZE. fold t.
  assert (E1 : (t <? 0) || (p <? 0) = false) by lia. rewrite E1.
  rewrite Hrb, Hslice, firstn_slice by lia.
  assert (Hbytes' : bytes_in_buffer
                      (set_recv_buffer (firstn (Z.to_nat (o + t)) d) c)
                    = o + t).
  { unfold bytes_in_buffer, len. cbn [recv_buffer set_recv_buffer].
    rewrite length_firstn. unfold len in *. lia. }
  rewrite Hbytes'.
  destruct (80 <=? o + t) eqn:E2.
  - (* the header is complete *)
    assert (Hot : o + t = 80) by lia. rewrite Hot.
    unfold header_complete_actions.
    cbn [recv_buffer set_recv_buffer].
    change (Z.to_nat 80) with 80%nat.
    rewrite firstn_firstn, Nat.min_id, decode_firstn.
    rewrite Hid, Htot, Hsize.
    assert (E3 : (len (payload_of d) =? 0) || (n =? 0)
                 || (8192 <? len (payload_of d)) || (2000000 <? n) = false)
      by (unfold CHUNK_SIZE in Hpl; lia).
    rewrite E3.
    destruct (j =? 0) eqn:Ej.
    + apply Z.eqb_eq in Ej. destruct (Hpath Ej) as [Hp1 Hp2].
      rewrite Hsize in Hp1. cbn [payload_remaining set_payload_remaining].
      rewrite <- Hp1, Hp2. eexists _, _. split; [reflexivity |].
      unfold stands_at. unfold_setters.
      repeat split; try lia; try reflexivity; try discriminate.
    + apply Z.eqb_neq in Ej. eexists _, _. split; [reflexivity |].
      destruct Hfile as (Hf1 & Hf2 & Hf3); [left; lia |].
      unfold stands_at. unfold_setters.
      repeat split; try lia; try reflexivity; try assumption.
  - eexists _, _. split; [reflexivity |]. split; [| repeat split].
    unfold stands_at. unfold_setters.
    split; [exact Hst |]. split; [lia |].
    split; [intros _; split; [exact Hhc | reflexivity] |].
    split; [intros H; lia |].
    intros [H | H]; [apply Hfile; left; exact H | lia].
Qed.

Lemma written_write (data : list byte) :
  written path [EFwrite path data; EFflush path] = data.
Proof.
  cbn [written]. rewrite bytes_eqb_refl. apply app_nil_r.
Qed.

(** A pass of the loop on bytes of a payload: the chunk goes on, or it
    ends and another follows, or it ends the file. *)
Lemma step_payload temp p more c j d o after :
  stands_at n path c j d o -> 80 <= o -> is_chunk n j d -> 0 <= j < n ->
  0 <= p < len temp ->
  skipn (Z.to_nat p) temp ++ more = skipn (Z.to_nat o) d ++ after ->
  let t := Z.min (len temp - p) (len d - o) in
  exists c' tr,
    written path tr = slice d o t
    /\ socket_fd c' = socket_fd c /\ buffer c' = buffer c
    /\ ((o + t < len d
         /\ transfer_step fopen_ok temp (len temp) c p
            = Continue c' (p + t) tr
         /\ stands_at n path c' j d (o + t)
         /\ sent_to (socket_fd c) tr = [])
        \/ (o + t = len d /\ j + 1 < n
            /\ transfer_step fopen_ok temp (len temp) c p
               = Continue c' (p + t) tr
            /\ (forall d', 0 < len d' -> stands_at n path c' (j + 1) d' 0)
            /\ sent_to (socket_fd c) tr = [])
        \/ (o + t = len d /\ j + 1 = n
            /\ transfer_step fopen_ok temp (len temp) c p = Return 0 c' tr
            /\ stored c'
            /\ sent_to (socket_fd c) tr = [MSG_UPLOADED])).
Proof.
  intros (Hst & Ho & Hhead & Hpay & Hfile) Hge Hc Hj Hp Hal t.
  destruct (Hpay Hge) as [Hhc Hrem].
  destruct Hfile as (Hf1 & Hf2 & Hf3); [right; exact Hge |].
  assert (Ht : 0 < t <= len d - o /\ t <= len temp - p) by (unfold t; lia).
  destruct (aligned_slice temp more d after p o t) as [Hslice _];
    try lia; try exact Hal.
  unfold transfer_step. rewrite Hhc. cbn [negb].
  rewrite min_avail_min, Hrem. fold t. rewrite Hf1.
  assert (E1 : (t <? 0) || (p <? 0) = false) by lia. rewrite E1.
  rewrite Hslice.
  cbn [payload_remaining set_payload_remaining].
  destruct (len d - o - t =? 0) eqn:E2.
  - (* the chunk is complete *)
    unfold chunk_complete_actions.
    cbn [expected_chunks received_chunks set_recv_buffer
           set_header_complete set_received_chunks set_payload_remaining
           socket_fd].
    rewrite Hf2, Hf3.
    destruct (n <=? j + 1) eqn:E3.
    + eexists _, _. split; [| split; [| split]].
      4: { right. right. split; [lia |]. split; [lia |].
           split; [reflexivity |]. split.
           - unfold stored. unfold_setters. repeat split.
           - unfold fclose_upload. unfold_setters. rewrite Hf1.
             rewrite sent_to_app. cbn [sent_to app].
             rewrite Z.eqb_refl. reflexivity. }
      * unfold fclose_upload. unfold_setters. rewrite Hf1.
        rewrite written_app, written_write. cbn [written app].
        apply app_nil_r.
      * reflexivity.
      * reflexivity.
    + eexists _, _. split; [| split; [| split]].
      4: { right. left. split; [lia |]. split; [lia |].
           split; [reflexivity |]. split.
           - intros d' Hd'. unfold stands_at. unfold_setters.
             repeat split; try lia; try assumption; try reflexivity.
           - rewrite sent_to_app. reflexivity. }
      * rewrite written_app, written_write. cbn [written].
        apply app_nil_r.
      * reflexivity.
      * reflexivity.
  - eexists _, _. split; [| split; [| split]].
    4: { left. split; [lia |]. split; [reflexivity |]. split.
         - unfold stands_at. unfold_setters.
           repeat split; try lia; try assumption; try reflexivity.
         - reflexivity. }
    + apply written_write.
    + reflexivity.
    + reflexivity.
Qed.

Lemma payload_left_header o o' d rest :
  o <= 80 -> o' <= 80 -> payload_left o d rest = payload_left o' d rest.
Proof.
  intros H H'. unfold payload_left.
  rewrite !Z.max_r by assumption. reflexivity.
Qed.

Lemma payload_left_split o t d rest :
  80 <= o -> 0 <= t ->
  payload_left o d rest = slice d o t ++ payload_left (o + t) d rest.
Proof.
  intros Ho Ht. unfold payload_left, slice.
  rewrite !Z.max_l by lia. rewrite app_assoc. f_equal.
  rewrite Z2Nat.inj_add by lia.
  rewrite (Nat.add_comm (Z.to_nat o)), <- skipn_skipn.
  symmetry. apply firstn_skipn.
Qed.

Lemma payload_left_next d d' rest :
  payload_left (len d) d (d' :: rest) = payload_left 0 d' rest.
Proof.
  unfold payload_left. pose proof (len_nonneg d) as H.
  assert (E : skipn (Z.to_nat (Z.max (len d) 80)) d = []).
  { apply skipn_all2. unfold len. lia. }
  rewrite E. reflexivity.
Qed.

Lemma payload_left_last d :
  payload_left (len d) d [] = [].
Proof.
  unfold payload_left. pose proof (len_nonneg d) as H.
  assert (E : skipn (Z.to_nat (Z.max (len d) 80)) d = []).
  { apply skipn_all2. unfold len. lia. }
  rewrite E. reflexivity.
Qed.

Lemma run_loop_pass body fuel bytes_read c processed :
  run_loop body (S fuel) bytes_read c processed
  = if processed <? bytes_read then
      match body c processed with
      | Continue c' processed' tr =>
          prepend tr (run_loop body fuel bytes_read c' processed')
      | Return r c' tr => Returned r c' tr
      | Stuck => Undefined
      end
    else Returned 0 c [].
Proof. reflexivity. Qed.

Lemma run_loop_end body fuel bytes_read c processed :
  bytes_read <= processed ->
  run_loop body fuel bytes_read c processed = Returned 0 c [].
Proof.
  intros H. assert (E : (processed <? bytes_read) = false) by lia.
  destruct fuel; cbn [run_loop]; rewrite E; reflexivity.
Qed.

(** The loop on one read: it stores the bytes of the file the read
    holds, and ends the upload when the read holds the end of the
    stream. *)
Lemma loop_upload temp :
  forall k fuel c p j d rest o more,
    (Z.to_nat (len temp - p) <= k)%nat -> (k <= fuel)%nat ->
    0 <= p <= len temp ->
    stands_at n path c j d o -> placed fopen_ok n path j d rest ->
    skipn (Z.to_nat p) temp ++ more = skipn (Z.to_nat o) d ++ concat rest ->
    exists c' tr,
      run_loop (transfer_step fopen_ok temp (len temp)) fuel (len temp) c p
      = Returned 0 c' tr
      /\ socket_fd c' = socket_fd c /\ buffer c' = buffer c
      /\ ((more = [] /\ stored c'
           /\ sent_to (socket_fd c) tr = [MSG_UPLOADED]
           /\ written path tr = payload_left o d rest)
          \/ (exists j' d' rest' o',
                stands_at n path c' j' d' o'
                /\ placed fopen_ok n path j' d' rest'
                /\ more = skipn (Z.to_nat o') d' ++ concat rest'
                /\ sent_to (socket_fd c) tr = []
                /\ written path tr ++ payload_left o' d' rest'
                   = payload_left o d rest)).
Proof.
  induction k as [| k IH];
    intros fuel c p j d rest o more Hk Hfuel Hp Hat Hpl Hal.
  - (* nothing left of the read *)
    rewrite run_loop_end by lia.
    eexists _, _. split; [reflexivity |]. split; [reflexivity |].
    split; [reflexivity |]. right. exists j, d, rest, o.
    split; [exact Hat |]. split; [exact Hpl |].
    split; [| split; reflexivity].
    rewrite <- Hal. rewrite skipn_all2 by (unfold len in *; lia).
    reflexivity.
  - destruct (Z_lt_le_dec p (len temp)) as [Hlt | Hge].
    2: { rewrite run_loop_end by lia.
         eexists _, _. split; [reflexivity |]. split; [reflexivity |].
         split; [reflexivity |]. right. exists j, d, rest, o.
         split; [exact Hat |]. split; [exact Hpl |].
         split; [| split; reflexivity].
         rewrite <- Hal. rewrite skipn_all2 by (unfold len in *; lia).
         reflexivity. }
    destruct fuel as [| fuel]; [lia |].
    rewrite run_loop_pass.
    assert (E : (p <? len temp) = true) by lia. rewrite E.
    pose proof Hat as (_ & Ho & _).
    destruct Hpl as (Hcs & Hsum & Hj & Hpath).
    pose proof Hcs as [Hc Hrest].
    assert (Hlen : len (d :: rest) = 1 + len rest)
      by (unfold len; cbn [length]; lia).
    pose proof (len_nonneg rest) as Hrl.
    destruct (Z_lt_le_dec o 80) as [Hhead | Hpay].
    + (* bytes of a header *)
      destruct (step_header temp p more c j d o (concat rest) Hat Hhead Hc
                  Hj Hpath ltac:(lia) Hal)
        as (c1 & tr1 & Hstep & Hat1 & Hw1 & Hs1 & Hfd1 & Hb1).
      set (t := Z.min (len temp - p) (80 - o)) in *.
      assert (Ht : 0 < t <= 80 - o /\ t <= len temp - p)
        by (unfold t; lia).
      destruct (chunk_length n j d Hc) as [_ Hdl].
      pose proof (len_nonneg (payload_of d)) as Hpn.
      destruct (aligned_slice temp more d (concat rest) p o t)
        as [_ Hal1]; try lia; try exact Hal.
      rewrite Hstep.
      destruct (IH fuel c1 (p + t) j d rest (o + t) more)
        as (c' & tr & Hrun & Hfd & Hb & Hres);
        try lia; try assumption.
      { exact (conj Hcs (conj Hsum (conj Hj Hpath))). }
      rewrite Hrun. cbn [prepend].
      eexists _, _. split; [reflexivity |].
      split; [congruence |]. split; [congruence |].
      rewrite Hfd1 in Hres.
      destruct Hres as [(Hm & Hdone & Hsent & Hwr)
                       | (j' & d' & rest' & o' & Hat' & Hpl' & Hm & Hsent
                          & Hwr)].
      * left. split; [exact Hm |]. split; [exact Hdone |].
        split; [rewrite sent_to_app, Hs1; exact Hsent |].
        rewrite written_app, Hw1, Hwr. cbn [app].
        apply payload_left_header; lia.
      * right. exists j', d', rest', o'.
        split; [exact Hat' |]. split; [exact Hpl' |].
        split; [exact Hm |].
        split; [rewrite sent_to_app, Hs1; exact Hsent |].
        rewrite written_app, Hw1. cbn [app]. rewrite Hwr.
        apply payload_left_header; lia.
    + (* bytes of a payload *)
      destruct (step_payload temp p more c j d o (concat rest) Hat Hpay Hc
                  ltac:(lia) ltac:(lia) Hal)
        as (c1 & tr1 & Hw1 & Hfd1 & Hb1 & Hcases).
      set (t := Z.min (len temp - p) (len d - o)) in *.
      assert (Ht : 0 < t <= len d - o /\ t <= len temp - p)
        by (unfold t; lia).
      destruct (aligned_slice temp more d (concat rest) p o t)
        as [_ Hal1]; try lia; try exact Hal.
      destruct Hcases as [(Hot & Hstep & Hat1 & Hs1)
                         | [(Hot & Hjn & Hstep & Hat1 & Hs1)
                           | (Hot & Hjn & Hstep & Hdone & Hs1)]].
      * (* the chunk goes on *)
        rewrite Hstep.
        destruct (IH fuel c1 (p + t) j d rest (o + t) more)
          as (c' & tr & Hrun & Hfd & Hb & Hres);
          try lia; try assumption.
        { exact (conj Hcs (conj Hsum (conj Hj Hpath))). }
        rewrite Hrun. cbn [prepend].
        eexists _, _. split; [reflexivity |].
        split; [congruence |]. split; [congruence |].
        rewrite Hfd1 in Hres.
        rewrite (payload_left_split o t d rest) by lia.
        destruct Hres as [(Hm & Hdone & Hsent & Hwr)
                         | (j' & d' & rest' & o' & Hat' & Hpl' & Hm & Hsent
                            & Hwr)].
        -- left. split; [exact Hm |]. split; [exact Hdone |].
           split; [rewrite sent_to_app, Hs1; exact Hsent |].
           rewrite written_app, Hw1, Hwr. reflexivity.
        -- right. exists j', d', rest', o'.
           split; [exact Hat' |]. split; [exact Hpl' |].
           split; [exact Hm |].
           split; [rewrite sent_to_app, Hs1; exact Hsent |].
           rewrite written_app, Hw1, <- app_assoc, Hwr. reflexivity.
      * (* the chunk ends and another follows *)
        destruct rest as [| d' rest'].
        { change (len []) with 0 in *. lia. }
        destruct Hrest as [Hc' Hrest'].
        destruct (chunk_length n (j + 1) d' Hc') as [_ Hdl'].
        pose proof Hc' as (_ & _ & _ & Hpl').
        rewrite Hstep.
        assert (Hal2 : skipn (Z.to_nat (p + t)) temp ++ more
                       = skipn (Z.to_nat 0) d' ++ concat rest').
        { rewrite Hal1, Hot, skipn_whole. reflexivity. }
        assert (Hlen' : len (d' :: rest') = 1 + len rest')
          by (unfold len; cbn [length]; lia).
        destruct (IH fuel c1 (p + t) (j + 1) d' rest' 0 more)
          as (c' & tr & Hrun & Hfd & Hb & Hres);
          try lia; try assumption.
        { apply Hat1. lia. }
        { unfold placed. split; [split; assumption |]. split; [lia |].
          split; [lia |]. intros H. lia. }
        rewrite Hrun. cbn [prepend].
        eexists _, _. split; [reflexivity |].
        split; [congruence |]. split; [congruence |].
        rewrite Hfd1 in Hres.
        rewrite (payload_left_split o t d (d' :: rest')) by lia.
        rewrite Hot, payload_left_next.
        destruct Hres as [(Hm & Hdone & Hsent & Hwr)
                         | (j2 & d2 & rest2 & o2 & Hat' & Hpl2 & Hm & Hsent
                            & Hwr)].
        -- left. split; [exact Hm |]. split; [exact Hdone |].
           split; [rewrite sent_to_app, Hs1; exact Hsent |].
           rewrite written_app, Hw1, Hwr. reflexivity.
        -- right. exists j2, d2, rest2, o2.
           split; [exact Hat' |]. split; [exact Hpl2 |].
           split; [exact Hm |].
           split; [rewrite sent_to_app, Hs1; exact Hsent |].
           rewrite written_app, Hw1, <- app_assoc, Hwr. reflexivity.
      * (* the chunk ends the file *)
        destruct rest as [| d' rest'].
        2: { pose proof (len_nonneg rest').
             assert (len (d' :: rest') = 1 + len rest')
               by (unfold len; cbn [length]; lia).
             lia. }
        rewrite Hstep.
        eexists _, _. split; [reflexivity |].
        split; [exact Hfd1 |]. split; [exact Hb1 |].
        left. split.
        { rewrite Hot, skipn_whole in Hal1.
          cbn [concat app] in Hal1.
          apply app_eq_nil in Hal1. tauto. }
        split; [exact Hdone |]. split; [exact Hs1 |].
        rewrite Hw1.
        rewrite (payload_left_split o t d []) by lia.
        rewrite Hot, payload_left_last, app_nil_r. reflexivity.
Qed.

Lemma concat_nonempty_reads (reads : list (list byte)) :
  Forall (fun r => 0 < len r <= 2048) reads -> concat reads = [] ->
  reads = [].
Proof.
  intros Hall Hnil. destruct reads as [| r rs]; [reflexivity |].
  inversion Hall as [| ? ? Hr _]; subst. cbn [concat] in Hnil.
  apply app_eq_nil in Hnil. destruct Hnil as [-> _].
  change (len []) with 0 in Hr. lia.
Qed.

(** The reads of a connection one after another: the upload is stored
    when the last byte of the stream has been read. *)
Lemma serve_upload (reads : list (list byte)) :
  forall c j d rest o,
    stands_at n path c j d o -> placed fopen_ok n path j d rest ->
    concat reads = skipn (Z.to_nat o) d ++ concat rest ->
    Forall (fun r => 0 < len r <= 2048) reads ->
    exists c' tr,
      serve fopen_ok c reads = Returned 0 c' tr
      /\ stored c' /\ socket_fd c' = socket_fd c /\ buffer c' = buffer c
      /\ sent_to (socket_fd c) tr = [MSG_UPLOADED]
      /\ written path tr = payload_left o d rest.
Proof.
  induction reads as [| r rs IH]; intros c j d rest o Hat Hpl Hcat Hall.
  - exfalso. pose proof Hat as (_ & Ho & _).
    cbn [concat] in Hcat. symmetry in Hcat.
    apply app_eq_nil in Hcat. destruct Hcat as [Hcat _].
    apply (f_equal (@length byte)) in Hcat.
    rewrite length_skipn in Hcat. unfold len in Ho. cbn in Hcat. lia.
  - inversion Hall as [| ? ? Hr Hrs]; subst.
    pose proof Hat as (Hst & _).
    cbn [serve]. unfold handle_client_data. rewrite Hst. cbn [Z.eqb Pos.eqb].
    unfold handle_file_transfer.
    assert (Hrecv : recv 2048 (RecvData r) = RecvData r).
    { destruct r as [| b r']; [change (len []) with 0 in Hr; lia |].
      unfold recv. f_equal. apply firstn_all2. unfold len in Hr. lia. }
    rewrite Hrecv.
    destruct (loop_upload r (length r) (loop_fuel r) c 0 j d rest o
                (concat rs))
      as (c1 & tr1 & Hrun & Hfd1 & Hb1 & Hres);
      try assumption.
    { unfold len. lia. }
    { unfold loop_fuel. lia. }
    { unfold len. lia. }
    rewrite Hrun. cbn [Z.eqb].
    destruct Hres as [(Hm & Hdone & Hsent & Hwr)
                     | (j' & d' & rest' & o' & Hat' & Hpl' & Hm & Hsent
                        & Hwr)].
    + rewrite (concat_nonempty_reads rs Hrs Hm). cbn [serve prepend].
      rewrite app_nil_r. eexists _, _. split; [reflexivity |].
      repeat split; try assumption; apply Hdone.
    + destruct (IH c1 j' d' rest' o' Hat' Hpl' Hm Hrs)
        as (c' & tr & Hrun' & Hdone & Hfd & Hb & Hsent' & Hwr').
      rewrite Hrun'. cbn [prepend].
      eexists _, _. split; [reflexivity |].
      split; [exact Hdone |]. split; [congruence |]. split; [congruence |].
      split.
      * rewrite sent_to_app, Hsent. rewrite Hfd1 in Hsent'. exact Hsent'.
      * rewrite written_app, Hwr', Hwr. reflexivity.
Qed.

End Env.

(** An upload from its first byte. *)
Lemma upload_stored fopen_ok c n d0 ds reads :
  whole_file n (d0 :: ds) -> n <= 2000000 ->
  state c = 1 -> header_complete c = false -> recv_buffer c = [] ->
  fopen_ok
    (full_path (filename (decode_header d0)) (chunk_size (decode_header d0)))
  = true ->
  concat reads = concat (d0 :: ds) ->
  Forall (fun r => 0 < len r <= 2048) reads ->
  exists c' tr,
    serve fopen_ok c reads = Returned 0 c' tr
    /\ written
         (full_path (filename (decode_header d0))
            (chunk_size (decode_header d0))) tr
       = carried (d0 :: ds)
    /\ sent_to (socket_fd c) tr = [MSG_UPLOADED]
    /\ stored c' /\ buffer c' = buffer c.
Proof.
  intros [Hcs Hlen] Hn Hst Hhc Hrb Hopen Hcat Hall.
  assert (Hpos : 0 < n).
  { rewrite <- Hlen. unfold len. cbn [length]. lia. }
  pose proof Hcs as [Hc _].
  destruct (chunk_length n 0 d0 Hc) as [_ Hdl].
  pose proof Hc as (_ & _ & _ & Hpl).
  destruct (serve_upload fopen_ok n
              (full_path (filename (decode_header d0))
                 (chunk_size (decode_header d0)))
              (conj Hpos Hn) reads c 0 d0 ds 0)
    as (c' & tr & Hrun & Hdone & Hfd & Hb & Hsent & Hwr).
  - unfold stands_at. rewrite Hst, Hhc, Hrb.
    repeat split; try lia; try reflexivity;
      try (intros [H | H]; lia).
  - unfold placed. split; [exact Hcs |]. split; [lia |].
    split; [lia |]. intros _. split; [reflexivity | exact Hopen].
  - exact Hcat.
  - exact Hall.
  - exists c', tr. split; [exact Hrun |].
    split; [rewrite Hwr; reflexivity |].
    split; [exact Hsent |]. split; [exact Hdone | exact Hb].
Qed.

End UploadFacts2.

(** X14.  The server stores an upload whole, however the stream is cut
    into reads.  For a connection in file transfer mode that has read
    nothing of the stream yet, and the chunks 0 to [n - 1] of a file that
    arrive in reads of any sizes: the calls of [handle_client_data] all
    return 0, the file opened is the one [full_path] names from the name
    field of the first chunk and the size of that chunk ([saved/] and the
    name, for a name that ends with a NUL inside the field), the bytes
    written to it are the payloads of the chunks in order and nothing
    else, [SUCCESS: File uploaded] is sent once, with the last byte, and
    the connection is back in command mode with its command buffer as it
    was. *)
Theorem X14_upload_stored_across_reads (fopen_ok : list byte -> bool)
  c n d0 ds reads :
  Frames.whole_file n (d0 :: ds) -> n <= 2000000 ->
  Server.state c = 1 -> Server.header_complete c = false ->
  Server.recv_buffer c = [] ->
  let path :=
    Server.full_path (filename (decode_header d0))
      (chunk_size (decode_header d0)) in
  fopen_ok path = true ->
  concat reads = concat (d0 :: ds) ->
  Forall (fun r => 0 < len r <= 2048) reads ->
  (exists c' tr,
     Session.serve fopen_ok c reads = Returned 0 c' tr
     /\ Frames.written path tr = Frames.carried (d0 :: ds)
     /\ sent_to (Server.socket_fd c) tr = [Server.MSG_UPLOADED]
     /\ Session.stored c' /\ Server.buffer c' = Server.buffer c)
  /\ (has_nul (filename (decode_header d0)) = true ->
      path = bytes_of "saved/" ++ c_str (filename (decode_header d0)))
  /\ (has_nul (filename (decode_header d0)) = false ->
      path
      = bytes_of "saved/" ++ filename (decode_header d0)
          ++ c_str (int_bytes (chunk_size (decode_header d0)))).
Proof.
  intros Hw Hn Hst Hhc Hrb path Hopen Hcat Hall.
  split; [| exact (StoreFacts.full_path_cases _ _)].
  exact (UploadFacts2.upload_stored fopen_ok c n d0 ds reads Hw Hn Hst Hhc
           Hrb Hopen Hcat Hall).
Qed.

(** Two chunks of one byte, in reads of 50, 100 and 12 bytes. *)
Lemma X14_witness :
  exists c' tr,
    Session.serve Examples.always Examples.uploading
      [firstn 50 (Examples.chunk 0 2 "f" ["A"%byte]);
       skipn 50 (Examples.chunk 0 2 "f" ["A"%byte])
         ++ firstn 69 (Examples.chunk 1 2 "" ["B"%byte]);
       skipn 69 (Examples.chunk 1 2 "" ["B"%byte])]
    = Returned 0 c' tr
    /\ Frames.written (bytes_of "saved/f") tr = ["A"%byte; "B"%byte]
    /\ sent_to 5 tr = [Server.MSG_UPLOADED]
    /\ Server.state c' = 0.
Proof.
  assert (Hw : Frames.whole_file 2
                 [Examples.chunk 0 2 "f" ["A"%byte];
                  Examples.chunk 1 2 "" ["B"%byte]]).
  { vm_compute. repeat split; try reflexivity; discriminate. }
  destruct (X14_upload_stored_across_reads Examples.always
              Examples.uploading 2
              (Examples.chunk 0 2 "f" ["A"%byte])
              [Examples.chunk 1 2 "" ["B"%byte]]
              [firstn 50 (Examples.chunk 0 2 "f" ["A"%byte]);
               skipn 50 (Examples.chunk 0 2 "f" ["A"%byte])
                 ++ firstn 69 (Examples.chunk 1 2 "" ["B"%byte]);
               skipn 69 (Examples.chunk 1 2 "" ["B"%byte])]
              Hw ltac:(lia) eq_refl eq_refl eq_refl eq_refl)
    as ((c' & tr & Hrun & Hwr & Hsent & Hdone & _) & _).
  - vm_compute. reflexivity.
  - repeat constructor; vm_compute; congruence.
  - exists c', tr. split; [exact Hrun |]. split; [exact Hwr |].
    split; [exact Hsent | apply Hdone].
Defined.

(** ** A download over several reads *)

Module DownloadFacts.
Import Client Frames FrameFacts Download.
Import ClientCounts.

Lemma client_min_avail (bytes_available processed wanted : Z) :
  min_avail bytes_available processed wanted
  = Z.min (bytes_available - processed) wanted.
Proof.
  unfold min_avail.
  destruct (bytes_available - processed <? wanted) eqn:E; lia.
Qed.

Lemma slice_payload (d : list byte) :
  80 <= len d -> slice d 80 (len d - 80) = payload_of d.
Proof.
  intros H. unfold slice, payload_of. change (Z.to_nat 80) with 80%nat.
  apply firstn_all2. rewrite length_skipn. unfold len in *. lia.
Qed.

Section Env.
Variable fopen_ok : list byte -> bool.
Variable fwrite_ok : Z -> bool.
Variable n : Z.
Variable name : list byte.
Hypothesis Hn : 0 < n <= 2000000.
Hypothesis Hwrite : forall k, fwrite_ok k = true.

(** A pass of the loop on bytes of a header. *)
Lemma download_step_header buffer p more s j d o after :
  stands_at n name s j d o -> o < 80 -> is_chunk n j d -> 0 <= j < n ->
  (j = 0 -> name = local_name (decode_header d) /\ fopen_ok name = true) ->
  0 <= p < len buffer ->
  skipn (Z.to_nat p) buffer ++ more = skipn (Z.to_nat o) d ++ after ->
  exists s' tr,
    receive_step fopen_ok fwrite_ok buffer (len buffer) s p
    = Continue s' (p + Z.min (len buffer - p) (80 - o)) tr
    /\ stands_at n name s' j d (o + Z.min (len buffer - p) (80 - o))
    /\ written name tr = [].
Proof.
  destruct s as [st t].
  intros (Ho & Hact & Hst & Hcur & Hhead & Hpay & Hfile) Hlt Hc Hj Hname
    Hp Hal.
  cbn [fst snd] in *.
  destruct (Hhead Hlt) as (Hexp & Hrb & Hlast).
  destruct (chunk_length n j d Hc) as [_ Hlen].
  pose proof Hc as (Hid & Htot & Hsize & Hpl).
  pose proof (len_nonneg (payload_of d)) as Hpn.
  set (k := Z.min (len buffer - p) (80 - o)).
  assert (Hk : 0 < k <= 80 - o /\ k <= len buffer - p) by (unfold k; lia).
  destruct (aligned_slice buffer more d after p o k) as [Hslice _];
    try lia; try exact Hal.
  assert (Hpos : recv_pos st = o).
  { unfold recv_pos, len. rewrite Hrb, length_firstn. unfold len in *. lia. }
  unfold receive_step. rewrite Hexp.
  rewrite client_min_avail, Hpos. unfold HEADER_SIZE. fold k.
  assert (E1 : (k <? 0) || (p <? 0) = false) by lia. rewrite E1.
  rewrite Hrb, Hslice, firstn_slice by lia.
  assert (Hpos' : recv_pos (set_recv_buffer (firstn (Z.to_nat (o + k)) d) st)
                  = o + k).
  { unfold recv_pos, len. cbn [recv_buffer set_recv_buffer].
    rewrite length_firstn. unfold len in *. lia. }
  rewrite Hpos'.
  destruct (80 <=? o + k) eqn:E2.
  - (* the header is complete *)
    assert (Hok : o + k = 80) by lia. rewrite Hok.
    unfold header_complete_actions.
    cbn [recv_buffer set_recv_buffer].
    change (Z.to_nat 80) with 80%nat.
    rewrite firstn_firstn, Nat.min_id, decode_firstn.
    rewrite Hid, Htot, Hsize.
    assert (E3 : (CHUNK_SIZE <? len (payload_of d))
                 || (len (payload_of d) <=? 0) = false) by lia.
    assert (E4 : (2000000 <? n) = false) by lia.
    rewrite E3, E4.
    cbn [current_chunk set_current_header last_chunk_id set_recv_buffer].
    rewrite Hcur.
    assert (E5 : (0 <? j) && negb (j =? to_u32 (last_chunk_id st + 1))
                 = false).
    { destruct (0 <? j) eqn:E; [| reflexivity]. cbn [andb].
      rewrite (Hlast ltac:(lia)).
      rewrite to_u32_small by (change (2 ^ 32) with 4294967296; lia).
      replace (j - 1 + 1) with j by lia. rewrite Z.eqb_refl. reflexivity. }
    rewrite E5.
    assert (E6 : to_int j = j)
      by (apply to_int_small; change (2 ^ 31) with 2147483648; lia).
    rewrite E6.
    destruct (j =? 0) eqn:Ej.
    + apply Z.eqb_eq in Ej. destruct (Hname Ej) as [Hn1 Hn2].
      cbn [Wire.filename Wire.total_chunks filename set_filename
             set_total_chunks set_current_header].
      change (c_str (firstn 63 (Wire.filename (decode_header d)) ++ [x00]))
        with (local_name (decode_header d)).
      rewrite <- Hn1, Hn2.
      eexists _, _. split; [reflexivity |]. split; [| reflexivity].
      unfold stands_at. unfold_setters.
      assert (E7 : to_int n = n)
        by (apply to_int_small; change (2 ^ 31) with 2147483648; lia).
      rewrite E7.
      repeat split; try lia; try reflexivity; try assumption;
        try discriminate.
    + apply Z.eqb_neq in Ej. eexists _, _. split; [reflexivity |].
      split; [| reflexivity].
      destruct Hfile as (Hf1 & Hf2); [left; lia |].
      unfold stands_at. unfold_setters.
      repeat split; try lia; try reflexivity; try assumption;
        try discriminate.
  - eexists _, _. split; [reflexivity |]. split; [| reflexivity].
    unfold stands_at. unfold_setters.
    split; [lia |]. split; [exact Hact |]. split; [exact Hst |].
    split; [exact Hcur |].
    split; [intros _; split; [exact Hexp | split; [reflexivity | exact Hlast]] |].
    split; [intros H; lia |].
    intros [H | H]; [apply Hfile; left; exact H | lia].
Qed.

(** What a chunk that is complete leaves in the file. *)
Lemma written_chunk (data : list byte) (flush sync : bool) (percent : Z) :
  written name
    ([EFwrite name data] ++ (if flush then [EFflush name] else [])
       ++ [EProgress percent]
       ++ (if sync then [EFflush name; EFsync name] else []))
  = data.
Proof.
  destruct flush, sync; cbn [app written]; rewrite bytes_eqb_refl;
    apply app_nil_r.
Qed.

(** A pass of the loop on bytes of a payload: the chunk goes on, or it
    ends and another follows, or it ends the file. *)
Lemma download_step_payload buffer p more s j d o after :
  stands_at n name s j d o -> 80 <= o -> is_chunk n j d -> 0 <= j < n ->
  0 <= p < len buffer ->
  skipn (Z.to_nat p) buffer ++ more = skipn (Z.to_nat o) d ++ after ->
  let k := Z.min (len buffer - p) (len d - o) in
  exists s' tr,
    (o + k < len d
     /\ receive_step fopen_ok fwrite_ok buffer (len buffer) s p
        = Continue s' (p + k) tr
     /\ stands_at n name s' j d (o + k)
     /\ written name tr = [])
    \/ (o + k = len d /\ j + 1 < n
        /\ receive_step fopen_ok fwrite_ok buffer (len buffer) s p
           = Continue s' (p + k) tr
        /\ (forall d', 0 < len d' -> stands_at n name s' (j + 1) d' 0)
        /\ written name tr = payload_of d)
    \/ (o + k = len d /\ j + 1 = n
        /\ receive_step fopen_ok fwrite_ok buffer (len buffer) s p
           = Return 1 s' tr
        /\ fst s' = initial_statics
        /\ file_ptr (snd s') = Some (WriteFile name)
        /\ written name tr = payload_of d).
Proof.
  destruct s as [st t].
  intros (Ho & Hact & Hst & Hcur & Hhead & Hpay & Hfile) Hge Hc Hj Hp Hal k.
  cbn [fst snd] in *.
  destruct (Hpay Hge) as (Hexp & Hrb & Hrem & Hlast).
  destruct Hfile as (Hf1 & Hf2); [right; exact Hge |].
  destruct (chunk_length n j d Hc) as [_ Hlen].
  pose proof Hc as (Hid & Htot & Hsize & Hpl).
  assert (Hk : 0 < k <= len d - o /\ k <= len buffer - p)
    by (unfold k; lia).
  destruct (aligned_slice buffer more d after p o k) as [Hslice _];
    try lia; try exact Hal.
  assert (Hpos : recv_pos st = o - 80).
  { unfold recv_pos. rewrite Hrb. apply slice_len; lia. }
  unfold receive_step. rewrite Hexp.
  rewrite client_min_avail, Hrem, Hpos. fold k.
  assert (E1 : (k <? 0) || (p <? 0) || (RECV_BUFFER_SIZE <? o - 80 + k)
               = false).
  { unfold RECV_BUFFER_SIZE, HEADER_SIZE, CHUNK_SIZE in *. lia. }
  rewrite E1. rewrite Hrb, Hslice.
  assert (Hbuf : slice d 80 (o - 80) ++ slice d o k
                 = slice d 80 (o + k - 80)).
  { replace (slice d o k) with (slice d (80 + (o - 80)) k)
      by (f_equal; lia).
    rewrite slice_app by lia. f_equal. lia. }
  rewrite Hbuf.
  cbn [payload_remaining set_payload_remaining set_recv_buffer].
  rewrite ?Hrem.
  destruct (len d - o - k =? 0) eqn:E2.
  - (* the chunk is complete *)
    assert (Hok : o + k = len d) by lia.
    rewrite Hok, slice_payload by lia.
    unfold payload_complete_actions. rewrite Hf1, Hwrite. cbn [negb].
    cbn [current_chunk total_chunks set_current_chunk file_path
           recv_buffer set_payload_remaining set_recv_buffer].
    rewrite Hf2, Hcur.
    destruct (n <=? j + 1) eqn:E3.
    + eexists _, _. right. right.
      split; [reflexivity |]. split; [lia |]. split; [reflexivity |].
      split; [reflexivity |]. split; [exact Hf1 |].
      apply written_chunk.
    + eexists _, _. right. left.
      split; [reflexivity |]. split; [lia |]. split; [reflexivity |].
      split; [| apply written_chunk].
      intros d' Hd'. unfold stands_at. unfold_setters.
      repeat split; try lia; try assumption; try reflexivity.
  - eexists _, _. left.
    split; [lia |]. split; [reflexivity |]. split; [| reflexivity].
    unfold stands_at. unfold_setters.
    repeat split; try lia; try assumption; try reflexivity.
Qed.

Lemma receive_loop_pass its buffer bytes s p :
  receive_loop fopen_ok fwrite_ok (S its) buffer bytes s p
  = if p <? bytes then
      match receive_step fopen_ok fwrite_ok buffer bytes s p with
      | Continue s' p' tr =>
          prepend tr (receive_loop fopen_ok fwrite_ok its buffer bytes s' p')
      | Return r s' tr => Returned r s' tr
      | Stuck => Undefined
      end
    else Returned 0 s [].
Proof. reflexivity. Qed.

Lemma carried_cons d (rest : list (list byte)) :
  carried (d :: rest) = payload_of d ++ carried rest.
Proof. reflexivity. Qed.

(** The loop on one read: the chunks the read completes are written, and
    the download ends when the read holds the end of the stream. *)
Lemma loop_download buffer :
  forall k its s p j d rest o more,
    (Z.to_nat (len buffer - p) <= k)%nat -> (k < its)%nat ->
    0 <= p <= len buffer ->
    stands_at n name s j d o -> placed fopen_ok n name j d rest ->
    skipn (Z.to_nat p) buffer ++ more
    = skipn (Z.to_nat o) d ++ concat rest ->
    exists rv s' tr,
      receive_loop fopen_ok fwrite_ok its buffer (len buffer) s p
      = Returned rv s' tr
      /\ ((rv = 1 /\ more = [] /\ fst s' = initial_statics
           /\ file_ptr (snd s') = Some (WriteFile name)
           /\ written name tr = carried (d :: rest))
          \/ (rv = 0
              /\ exists j' d' rest' o',
                   stands_at n name s' j' d' o'
                   /\ placed fopen_ok n name j' d' rest'
                   /\ more = skipn (Z.to_nat o') d' ++ concat rest'
                   /\ written name tr ++ carried (d' :: rest')
                      = carried (d :: rest))).
Proof.
  induction k as [| k IH];
    intros its s p j d rest o more Hk Hits Hp Hat Hpl Hal.
  - destruct its as [| its]; [lia |].
    rewrite receive_loop_pass.
    assert (E : (p <? len buffer) = false) by lia. rewrite E.
    eexists _, _, _. split; [reflexivity |]. right.
    split; [reflexivity |]. exists j, d, rest, o.
    split; [exact Hat |]. split; [exact Hpl |]. split; [| reflexivity].
    rewrite <- Hal. rewrite skipn_all2 by (unfold len in *; lia).
    reflexivity.
  - destruct its as [| its]; [lia |].
    rewrite receive_loop_pass.
    destruct (Z_lt_le_dec p (len buffer)) as [Hlt | Hge].
    2: { assert (E : (p <? len buffer) = false) by lia. rewrite E.
         eexists _, _, _. split; [reflexivity |]. right.
         split; [reflexivity |]. exists j, d, rest, o.
         split; [exact Hat |]. split; [exact Hpl |]. split; [| reflexivity].
         rewrite <- Hal. rewrite skipn_all2 by (unfold len in *; lia).
         reflexivity. }
    assert (E : (p <? len buffer) = true) by lia. rewrite E.
    pose proof Hat as (Ho & _).
    destruct Hpl as (Hcs & Hsum & Hj & Hname).
    pose proof Hcs as [Hc Hrest].
    assert (Hlen : len (d :: rest) = 1 + len rest)
      by (unfold len; cbn [length]; lia).
    pose proof (len_nonneg rest) as Hrl.
    destruct (chunk_length n j d Hc) as [_ Hdl].
    pose proof (len_nonneg (payload_of d)) as Hpn.
    destruct (Z_lt_le_dec o 80) as [Hhead | Hpay].
    + (* bytes of a header *)
      destruct (download_step_header buffer p more s j d o (concat rest) Hat Hhead
                  Hc ltac:(lia) Hname ltac:(lia) Hal)
        as (s1 & tr1 & Hstep & Hat1 & Hw1).
      set (t := Z.min (len buffer - p) (80 - o)) in *.
      assert (Ht : 0 < t <= 80 - o /\ t <= len buffer - p)
        by (unfold t; lia).
      destruct (aligned_slice buffer more d (concat rest) p o t)
        as [_ Hal1]; try lia; try exact Hal.
      rewrite Hstep.
      destruct (IH its s1 (p + t) j d rest (o + t) more)
        as (rv & s' & tr & Hrun & Hres); try lia; try assumption.
      { exact (conj Hcs (conj Hsum (conj Hj Hname))). }
      rewrite Hrun. cbn [prepend].
      eexists _, _, _. split; [reflexivity |].
      destruct Hres as [(Hrv & Hm & Hs' & Hf' & Hwr)
                       | (Hrv & j' & d' & rest' & o' & Hat' & Hpl' & Hm
                          & Hwr)].
      * left. split; [exact Hrv |]. split; [exact Hm |].
        split; [exact Hs' |]. split; [exact Hf' |].
        rewrite written_app, Hw1. exact Hwr.
      * right. split; [exact Hrv |]. exists j', d', rest', o'.
        split; [exact Hat' |]. split; [exact Hpl' |].
        split; [exact Hm |].
        rewrite written_app, Hw1. exact Hwr.
    + (* bytes of a payload *)
      destruct (download_step_payload buffer p more s j d o (concat rest) Hat Hpay Hc
                  ltac:(lia) ltac:(lia) Hal)
        as (s1 & tr1 & Hcases).
      set (t := Z.min (len buffer - p) (len d - o)) in *.
      assert (Ht : 0 < t <= len d - o /\ t <= len buffer - p)
        by (unfold t; lia).
      destruct (aligned_slice buffer more d (concat rest) p o t)
        as [_ Hal1]; try lia; try exact Hal.
      destruct Hcases as [(Hot & Hstep & Hat1 & Hw1)
                         | [(Hot & Hjn & Hstep & Hat1 & Hw1)
                           | (Hot & Hjn & Hstep & Hs1 & Hf1 & Hw1)]].
      * (* the chunk goes on *)
        rewrite Hstep.
        destruct (IH its s1 (p + t) j d rest (o + t) more)
          as (rv & s' & tr & Hrun & Hres); try lia; try assumption.
        { exact (conj Hcs (conj Hsum (conj Hj Hname))). }
        rewrite Hrun. cbn [prepend].
        eexists _, _, _. split; [reflexivity |].
        destruct Hres as [(Hrv & Hm & Hs' & Hf' & Hwr)
                         | (Hrv & j' & d' & rest' & o' & Hat' & Hpl' & Hm
                            & Hwr)].
        -- left. split; [exact Hrv |]. split; [exact Hm |].
           split; [exact Hs' |]. split; [exact Hf' |].
           rewrite written_app, Hw1. exact Hwr.
        -- right. split; [exact Hrv |]. exists j', d', rest', o'.
           split; [exact Hat' |]. split; [exact Hpl' |].
           split; [exact Hm |].
           rewrite written_app, Hw1. exact Hwr.
      * (* the chunk ends and another follows *)
        destruct rest as [| d' rest'].
        { change (len []) with 0 in *. lia. }
        destruct Hrest as [Hc' Hrest'].
        destruct (chunk_length n (j + 1) d' Hc') as [_ Hdl'].
        pose proof Hc' as (_ & _ & _ & Hpl').
        rewrite Hstep.
        assert (Hal2 : skipn (Z.to_nat (p + t)) buffer ++ more
                       = skipn (Z.to_nat 0) d' ++ concat rest').
        { rewrite Hal1, Hot, skipn_whole. reflexivity. }
        assert (Hlen' : len (d' :: rest') = 1 + len rest')
          by (unfold len; cbn [length]; lia).
        destruct (IH its s1 (p + t) (j + 1) d' rest' 0 more)
          as (rv & s' & tr & Hrun & Hres); try lia; try assumption.
        { apply Hat1. lia. }
        { unfold placed. split; [split; assumption |]. split; [lia |].
          split; [lia |]. intros H. lia. }
        rewrite Hrun. cbn [prepend].
        eexists _, _, _. split; [reflexivity |].
        rewrite (carried_cons d (d' :: rest')).
        destruct Hres as [(Hrv & Hm & Hs' & Hf' & Hwr)
                         | (Hrv & j2 & d2 & rest2 & o2 & Hat' & Hpl2 & Hm
                            & Hwr)].
        -- left. split; [exact Hrv |]. split; [exact Hm |].
           split; [exact Hs' |]. split; [exact Hf' |].
           rewrite written_app, Hw1, Hwr. reflexivity.
        -- right. split; [exact Hrv |]. exists j2, d2, rest2, o2.
           split; [exact Hat' |]. split; [exact Hpl2 |].
           split; [exact Hm |].
           rewrite written_app, Hw1, <- app_assoc, Hwr. reflexivity.
      * (* the chunk ends the file *)
        destruct rest as [| d' rest'].
        2: { pose proof (len_nonneg rest').
             assert (len (d' :: rest') = 1 + len rest')
               by (unfold len; cbn [length]; lia).
             lia. }
        rewrite Hstep.
        eexists _, _, _. split; [reflexivity |].
        left. split; [reflexivity |]. split.
        { rewrite Hot, skipn_whole in Hal1.
          cbn [concat app] in Hal1.
          apply app_eq_nil in Hal1. tauto. }
        split; [exact Hs1 |]. split; [exact Hf1 |].
        rewrite Hw1. cbn [carried flat_map]. rewrite app_nil_r.
        reflexivity.
Qed.

Variable sock : Z.

Lemma recv_whole (cap : nat) (r : list byte) :
  0 < len r <= Z.of_nat cap -> recv cap (RecvData r) = RecvData r.
Proof.
  intros H. destruct r as [| b r']; [change (len []) with 0 in H; lia |].
  unfold recv. f_equal. apply firstn_all2. unfold len in H. lia.
Qed.

(** The call of [receive_file_chunk_epoll] on a read, and what the event
    loop does with its value. *)
Lemma file_data l r j d rest o more :
  stands_at n name
    (entry_statics (recv_statics l) (transfer_state l), transfer_state l)
    j d o ->
  placed fopen_ok n name j d rest ->
  0 < len r ->
  r ++ more = skipn (Z.to_nat o) d ++ concat rest ->
  exists rv l' tr,
    on_file_data fopen_ok fwrite_ok l r = Returned rv l' tr
    /\ left_by_read fopen_ok n name l l' tr d rest more.
Proof.
  intros Hat Hpl Hr Hal.
  unfold on_file_data, receive_file_chunk_epoll.
  destruct (loop_download r (length r) (Z.to_nat (len r * 2))
              (entry_statics (recv_statics l) (transfer_state l),
               transfer_state l) 0 j d rest o more)
    as (rv & [st' t'] & tr & Hrun & Hres); try assumption.
  { unfold len. lia. }
  { unfold len in *. lia. }
  { unfold len. lia. }
  rewrite Hrun. unfold after_transfer_call.
  destruct Hres as [(Hrv & Hm & Hs' & Hf' & Hwr)
                   | (Hrv & j' & d' & rest' & o' & Hat' & Hpl' & Hm & Hwr)].
  - subst rv. cbn [Z.eqb Pos.eqb orb fst snd] in *.
    eexists _, _, _. split; [reflexivity |].
    unfold left_by_read, fclose_file.
    cbn [server_buffer running transfer_state recv_statics set_transfer].
    rewrite Hf'. cbn [file_path].
    split; [reflexivity |]. split; [reflexivity |]. left.
    split; [exact Hm |]. split; [reflexivity |]. split; [exact Hs' |].
    split.
    + rewrite written_app, Hwr. cbn [written]. apply app_nil_r.
    + apply in_or_app. right. left. reflexivity.
  - subst rv. cbn [Z.eqb orb].
    eexists _, _, _. split; [reflexivity |].
    unfold left_by_read.
    cbn [server_buffer running transfer_state recv_statics set_transfer].
    split; [reflexivity |]. split; [reflexivity |]. right.
    exists j', d', rest', o'. rewrite app_nil_r.
    split; [exact Hat' |]. split; [exact Hpl' |].
    split; [exact Hm | exact Hwr].
Qed.

(** A read while the download goes on. *)
Lemma next_read l r j d rest o more :
  stands_at n name (recv_statics l, transfer_state l) j d o ->
  placed fopen_ok n name j d rest ->
  0 < len r <= 1023 ->
  r ++ more = skipn (Z.to_nat o) d ++ concat rest ->
  exists rv l' tr,
    event_loop_iteration fopen_ok fwrite_ok sock l (readable r)
    = Returned rv l' tr
    /\ left_by_read fopen_ok n name l l' tr d rest more.
Proof.
  intros Hat Hpl Hr Hal.
  pose proof Hat as (_ & Hact & Hst & _). cbn [fst snd] in Hact, Hst.
  unfold event_loop_iteration, readable.
  cbn [transfer_state set_no_data_iterations]. rewrite Hst.
  cbn [andb]. unfold on_socket_readable.
  rewrite recv_whole by (cbn; lia).
  cbn [transfer_state set_no_data_iterations]. rewrite Hst.
  destruct (file_data (set_no_data_iterations 0 l) r j d rest o more)
    as (rv & l' & tr & Hrun & Hleft); try assumption; try lia.
  { cbn [transfer_state recv_statics set_no_data_iterations].
    unfold entry_statics. rewrite Hact, andb_false_r. exact Hat. }
  exists rv, l', tr. split; [exact Hrun | exact Hleft].
Qed.

(** The reads that follow, to the end of the stream. *)
Lemma rest_of_download (reads : list (list byte)) :
  forall l j d rest o,
    stands_at n name (recv_statics l, transfer_state l) j d o ->
    placed fopen_ok n name j d rest ->
    running l = true ->
    concat reads = skipn (Z.to_nat o) d ++ concat rest ->
    Forall (fun r => 0 < len r <= 1023) reads ->
    exists l' tr,
      event_loop fopen_ok fwrite_ok sock l (map readable reads)
      = Returned 0 l' tr
      /\ server_buffer l' = server_buffer l /\ running l' = true
      /\ transfer_state l' = init_transfer_state
      /\ recv_statics l' = initial_statics
      /\ written name tr = carried (d :: rest)
      /\ In (EFclose name) tr.
Proof.
  induction reads as [| r rs IH]; intros l j d rest o Hat Hpl Hrun Hcat Hall.
  - exfalso. pose proof Hat as (Ho & _).
    cbn [concat] in Hcat. symmetry in Hcat.
    apply app_eq_nil in Hcat. destruct Hcat as [Hcat _].
    apply (f_equal (@length byte)) in Hcat.
    rewrite length_skipn in Hcat. unfold len in Ho. cbn in Hcat. lia.
  - inversion Hall as [| ? ? Hr Hrs]; subst.
    cbn [map event_loop]. rewrite Hrun.
    destruct (next_read l r j d rest o (concat rs) Hat Hpl Hr Hcat)
      as (rv & l1 & tr1 & Hit & Hb1 & Hr1 & Hres).
    rewrite Hit.
    destruct Hres as [(Hm & Ht1 & Hs1 & Hwr & Hcl)
                     | (j' & d' & rest' & o' & Hat' & Hpl' & Hm & Hwr)].
    + assert (Hnil : rs = []).
      { destruct rs as [| r' rs']; [reflexivity |].
        inversion Hrs as [| ? ? Hr' _]; subst. cbn [concat] in Hm.
        apply app_eq_nil in Hm. destruct Hm as [-> _].
        change (len []) with 0 in Hr'. lia. }
      subst rs. cbn [map event_loop prepend]. rewrite app_nil_r.
      eexists _, _. split; [reflexivity |].
      repeat split; try assumption; congruence.
    + destruct (IH l1 j' d' rest' o' Hat' Hpl' ltac:(congruence) Hm Hrs)
        as (l' & tr & Hrun' & Hb & Hr' & Ht' & Hs' & Hwr' & Hcl).
      rewrite Hrun'. cbn [prepend].
      eexists _, _. split; [reflexivity |].
      split; [congruence |]. split; [exact Hr' |]. split; [exact Ht' |].
      split; [exact Hs' |]. split.
      * rewrite written_app, Hwr'. exact Hwr.
      * apply in_or_app. right. exact Hcl.
Qed.

(** The header at the head of the first read is that of the first
    chunk. *)
Lemma first_header r more d rest0 :
  80 <= len r -> (80 <= length d)%nat -> r ++ more = d ++ rest0 ->
  decode_header r = decode_header d.
Proof.
  intros Hr Hd Heq.
  rewrite <- (decode_firstn r), <- (decode_firstn d).
  rewrite <- (WireFacts.firstn_app_long 80 r more)
    by (unfold len in Hr; lia).
  rewrite <- (WireFacts.firstn_app_long 80 d rest0) by exact Hd.
  rewrite Heq. reflexivity.
Qed.

(** The read that starts the download. *)
Lemma first_read l r d rest more :
  state (transfer_state l) = STATE_COMMAND ->
  transfer_active (recv_statics l) = false ->
  placed fopen_ok n name 0 d rest -> n < 2000000 ->
  nth 0 (Wire.filename (decode_header d)) x00 <> x00 ->
  80 <= len r <= 1023 ->
  r ++ more = d ++ concat rest ->
  exists rv l' tr,
    event_loop_iteration fopen_ok fwrite_ok sock l (readable r)
    = Returned rv l' tr
    /\ left_by_read fopen_ok n name l l' tr d rest more.
Proof.
  intros Hst Hact Hpl Hlt Hnm Hr Hal.
  pose proof Hpl as ([Hc _] & _).
  destruct (chunk_length n 0 d Hc) as [Hdl _].
  pose proof Hc as (Hid & Htot & Hsize & Hp).
  assert (Hdec : decode_header r = decode_header d)
    by (apply (first_header r more d (concat rest)); try lia; exact Hal).
  assert (Hlook : looks_like_header (transfer_state l) r = true).
  { unfold looks_like_header. rewrite Hst, Hdec, Hid, Htot, Hsize.
    rewrite (CommandFacts.byte_eqb_neq _ _ Hnm).
    unfold HEADER_SIZE.
    assert (E1 : (80 <=? len r) = true) by lia.
    assert (E2 : (0 <? n) = true) by lia.
    assert (E3 : (n <? 2000000) = true) by lia.
    assert (E4 : (0 <? len (payload_of d)) = true) by lia.
    assert (E5 : (len (payload_of d) <=? CHUNK_SIZE) = true) by lia.
    rewrite E1, E2, E3, E4, E5. reflexivity. }
  unfold event_loop_iteration, readable.
  cbn [transfer_state set_no_data_iterations]. rewrite Hst.
  cbn [andb]. unfold on_socket_readable.
  rewrite recv_whole by (cbn; lia).
  cbn [transfer_state set_no_data_iterations]. rewrite Hst, Hlook.
  destruct (file_data
              (set_transfer (recv_statics (set_no_data_iterations 0 l))
                 (detected_download (transfer_state l))
                 (set_no_data_iterations 0 l)) r 0 d rest 0 more)
    as (rv & l' & tr & Hrun & Hleft); try assumption; try lia.
  { cbn [transfer_state recv_statics set_no_data_iterations set_transfer].
    unfold entry_statics, detected_download. unfold_setters.
    rewrite Hact. cbn [Z.eqb andb negb].
    unfold stands_at. cbn [fst snd]. unfold_setters.
    repeat split; try lia; try reflexivity; try (intros [H | H]; lia);
      unfold len; lia. }
  exists rv, l', tr. split; [exact Hrun | exact Hleft].
Qed.

(** A download from its first byte. *)
Lemma download_stored l d0 ds r0 reads :
  whole_file n (d0 :: ds) -> n < 2000000 ->
  name = local_name (decode_header d0) ->
  nth 0 (Wire.filename (decode_header d0)) x00 <> x00 ->
  fopen_ok name = true ->
  state (transfer_state l) = STATE_COMMAND -> running l = true ->
  transfer_active (recv_statics l) = false ->
  concat (r0 :: reads) = concat (d0 :: ds) ->
  Forall (fun r => 0 < len r <= 1023) (r0 :: reads) ->
  80 <= len r0 ->
  exists l' tr,
    event_loop fopen_ok fwrite_ok sock l (map readable (r0 :: reads))
    = Returned 0 l' tr
    /\ written name tr = carried (d0 :: ds)
    /\ In (EFclose name) tr
    /\ transfer_state l' = init_transfer_state
    /\ recv_statics l' = initial_statics
    /\ server_buffer l' = server_buffer l /\ running l' = true.
Proof.
  intros [Hcs Hlen] Hlt Hname Hnm Hopen Hst Hrun Hact Hcat Hall Hr0.
  assert (Hr : 0 < len r0 <= 1023) by (inversion Hall; assumption).
  assert (Hrs : Forall (fun r => 0 < len r <= 1023) reads)
    by (inversion Hall; assumption).
  assert (Hpl : placed fopen_ok n name 0 d0 ds).
  { unfold placed. split; [exact Hcs |]. split; [lia |].
    split; [lia |]. intros _. split; [exact Hname | exact Hopen]. }
  cbn [concat] in Hcat.
  cbn [map event_loop]. rewrite Hrun.
  destruct (first_read l r0 d0 ds (concat reads) Hst Hact Hpl Hlt Hnm
              ltac:(lia) Hcat)
    as (rv & l1 & tr1 & Hit & Hb1 & Hr1 & Hres).
  rewrite Hit.
  destruct Hres as [(Hm & Ht1 & Hs1 & Hwr & Hcl)
                   | (j' & d' & rest' & o' & Hat' & Hpl' & Hm & Hwr)].
  - assert (Hnil : reads = []).
    { destruct reads as [| r' rs']; [reflexivity |].
      inversion Hrs as [| ? ? Hr' _]; subst. cbn [concat] in Hm.
      apply app_eq_nil in Hm. destruct Hm as [-> _].
      change (len []) with 0 in Hr'. lia. }
    subst reads. cbn [map event_loop prepend]. rewrite app_nil_r.
    eexists _, _. split; [reflexivity |].
    repeat split; try assumption; congruence.
  - destruct (rest_of_download reads l1 j' d' rest' o' Hat' Hpl'
                ltac:(congruence) Hm Hrs)
      as (l' & tr & Hrun' & Hb & Hr' & Ht' & Hs' & Hwr' & Hcl).
    rewrite Hrun'. cbn [prepend].
    eexists _, _. split; [reflexivity |]. split.
    + rewrite written_app, Hwr'. exact Hwr.
    + split; [apply in_or_app; right; exact Hcl |].
      split; [exact Ht' |]. split; [exact Hs' |].
      split; [congruence | exact Hr'].
Qed.

End Env.
End DownloadFacts.

(** X15.  The client stores a download whole, however the stream is cut
    into reads after a first read that holds the whole first header.
    For a client in the command state and the chunks 0 to [n - 1] of a
    file, the first with a name: the event loop takes the first read for
    the start of a download, opens the file under the name of the first
    chunk, cut to 63 bytes, writes to it the payloads of the chunks in
    order and nothing else, closes it when the last chunk is complete
    and is back in the command state, its text buffer as it was. *)
Theorem X15_download_stored_across_reads (fopen_ok : list byte -> bool)
  (fwrite_ok : Z -> bool) sock l n d0 ds r0 reads :
  Frames.whole_file n (d0 :: ds) -> n < 2000000 ->
  nth 0 (filename (decode_header d0)) x00 <> x00 ->
  fopen_ok (Client.local_name (decode_header d0)) = true ->
  (forall k, fwrite_ok k = true) ->
  Client.state (Client.transfer_state l) = Client.STATE_COMMAND ->
  Client.running l = true ->
  Client.transfer_active (Client.recv_statics l) = false ->
  concat (r0 :: reads) = concat (d0 :: ds) ->
  Forall (fun r => 0 < len r <= 1023) (r0 :: reads) ->
  80 <= len r0 ->
  exists l' tr,
    Client.event_loop fopen_ok fwrite_ok sock l
      (map Download.readable (r0 :: reads))
    = Returned 0 l' tr
    /\ Frames.written (Client.local_name (decode_header d0)) tr
       = Frames.carried (d0 :: ds)
    /\ In (EFclose (Client.local_name (decode_header d0))) tr
    /\ Client.transfer_state l' = Client.init_transfer_state
    /\ Client.recv_statics l' = Client.initial_statics
    /\ Client.server_buffer l' = Client.server_buffer l
    /\ Client.running l' = true.
Proof.
  intros Hwhole Hlt Hnm Hopen Hwrite Hst Hrun Hact Hcat Hall Hr0.
  assert (Hn : 0 < n <= 2000000).
  { destruct Hwhole as [_ Hlen]. rewrite <- Hlen. unfold len.
    cbn [length]. unfold len in Hlen. cbn [length] in Hlen. lia. }
  exact (DownloadFacts.download_stored fopen_ok fwrite_ok n
           (Client.local_name (decode_header d0)) Hn Hwrite sock l d0 ds
           r0 reads Hwhole Hlt eq_refl Hnm Hopen Hst Hrun Hact Hcat Hall
           Hr0).
Qed.

(** Two chunks of one byte, in reads of 100 and 62 bytes. *)
Lemma X15_witness :
  exists l' tr,
    Client.event_loop Examples.always Examples.writes 3
      Client.initial_loop_state
      (map Download.readable
         [Examples.chunk 0 2 "f" ["A"%byte]
            ++ firstn 19 (Examples.chunk 1 2 "" ["B"%byte]);
          skipn 19 (Examples.chunk 1 2 "" ["B"%byte])])
    = Returned 0 l' tr
    /\ Frames.written (bytes_of "f") tr = ["A"%byte; "B"%byte]
    /\ Client.transfer_state l' = Client.init_transfer_state.
Proof.
  assert (Hw : Frames.whole_file 2
                 [Examples.chunk 0 2 "f" ["A"%byte];
                  Examples.chunk 1 2 "" ["B"%byte]]).
  { vm_compute. repeat split; try reflexivity; discriminate. }
  destruct (X15_download_stored_across_reads Examples.always
              Examples.writes 3 Client.initial_loop_state 2
              (Examples.chunk 0 2 "f" ["A"%byte])
              [Examples.chunk 1 2 "" ["B"%byte]]
              (Examples.chunk 0 2 "f" ["A"%byte]
                 ++ firstn 19 (Examples.chunk 1 2 "" ["B"%byte]))
              [skipn 19 (Examples.chunk 1 2 "" ["B"%byte])]
              Hw ltac:(lia))
    as (l' & tr & Hrun & Hwr & _ & Hdone & _).
  - vm_compute. discriminate.
  - reflexivity.
  - intros k. reflexivity.
  - reflexivity.
  - reflexivity.
  - reflexivity.
  - vm_compute. reflexivity.
  - repeat constructor; vm_compute; congruence.
  - vm_compute. discriminate.
  - exists l', tr. split; [exact Hrun |]. split; [exact Hwr | exact Hdone].
Defined.

(** ** What the senders put on the wire *)

Module SenderFacts.
Import Frames FrameFacts.

Lemma c_str_no_nul (l : list byte) : ~ In x00 (c_str l).
Proof.
  induction l as [| b l IH]; cbn [c_str]; [intros [] |].
  destruct (Byte.eqb b x00) eqn:E; [intros [] |].
  intros [H | H]; [| exact (IH H)].
  subst b. discriminate E.
Qed.

Lemma c_str_app_nul (s r : list byte) :
  ~ In x00 s -> c_str (s ++ x00 :: r) = s.
Proof.
  induction s as [| b s IH]; intros H; [reflexivity |].
  cbn [app c_str]. cbn [In] in H.
  rewrite (CommandFacts.byte_eqb_neq b x00) by intuition congruence.
  rewrite IH by tauto. reflexivity.
Qed.

Lemma firstn_no_nul (k : nat) (l : list byte) :
  ~ In x00 l -> ~ In x00 (firstn k l).
Proof.
  revert l. induction k as [| k IH]; intros l H; [intros [] |].
  destruct l as [| b l]; [intros [] |].
  cbn [firstn In] in *. intros [Hb | Hin]; [tauto |].
  exact (IH l ltac:(tauto) Hin).
Qed.

(** The name held in a name field. *)
Lemma c_str_field (name : list byte) :
  c_str (strncpy_field name) = firstn 63 (c_str name).
Proof.
  unfold strncpy_field.
  pose proof (firstn_le_length 63 (c_str name)) as Hl.
  destruct (64 - length (firstn 63 (c_str name)))%nat as [| m] eqn:E;
    [lia |].
  cbn [repeat]. apply c_str_app_nul.
  apply firstn_no_nul, c_str_no_nul.
Qed.

(** The name under which the client stores the file of that field. *)
Lemma local_name_field (h : FileChunkHeader) (name : list byte) :
  filename h = strncpy_field name ->
  Client.local_name h = firstn 63 (c_str name).
Proof.
  intros Hf. unfold Client.local_name. rewrite Hf. unfold strncpy_field.
  pose proof (firstn_le_length 63 (c_str name)) as Hl.
  set (s := firstn 63 (c_str name)) in *.
  assert (Hs : ~ In x00 s) by apply firstn_no_nul, c_str_no_nul.
  rewrite firstn_app.
  rewrite (firstn_all2 s Hl).
  destruct (64 - length s)%nat as [| m] eqn:Em; [lia |].
  rewrite <- app_assoc.
  destruct (63 - length s)%nat as [| k] eqn:Ek.
  - cbn [firstn app]. apply c_str_app_nul. exact Hs.
  - cbn [repeat firstn app]. apply c_str_app_nul. exact Hs.
Qed.

Lemma field_first_byte (name : list byte) (b : byte) (rest : list byte) :
  c_str name = b :: rest -> nth 0 (strncpy_field name) x00 <> x00.
Proof.
  intros H. unfold strncpy_field. rewrite H. cbn [firstn app nth].
  intros Hb. pose proof (c_str_no_nul name) as Hn. rewrite H in Hn.
  apply Hn. left. exact Hb.
Qed.

(** Chunks told apart by their place in a list. *)
Lemma chunks_from_nth n (ds : list (list byte)) :
  forall i,
    (forall j d, nth_error ds j = Some d -> is_chunk n (i + Z.of_nat j) d) ->
    chunks_from n i ds.
Proof.
  induction ds as [| d ds IH]; intros i H; [exact I |].
  cbn [chunks_from]. split.
  - specialize (H 0%nat d eq_refl). rewrite Z.add_0_r in H. exact H.
  - apply IH. intros j d' Hj. specialize (H (S j) d' Hj).
    replace (i + 1 + Z.of_nat j) with (i + Z.of_nat (S j)) by lia.
    exact H.
Qed.

(** The pieces of a file one after another. *)
Lemma carried_pieces contents (ds : list (list byte)) :
  forall i,
    (forall j d,
       nth_error ds j = Some d ->
       payload_of d = Commands.piece contents (i + j)) ->
    carried ds
    = slice contents (CHUNK_SIZE * Z.of_nat i) (CHUNK_SIZE * len ds).
Proof.
  induction ds as [| d ds IH]; intros i H; [reflexivity |].
  cbn [carried flat_map]. fold (carried ds).
  rewrite (H 0%nat d eq_refl), Nat.add_0_r.
  rewrite (IH (S i)).
  - unfold Commands.piece.
    replace (CHUNK_SIZE * Z.of_nat (S i))
      with (CHUNK_SIZE * Z.of_nat i + CHUNK_SIZE)
      by (unfold CHUNK_SIZE; lia).
    rewrite slice_app by (unfold CHUNK_SIZE, len; lia).
    f_equal. unfold len. cbn [length]. unfold CHUNK_SIZE. lia.
  - intros j d' Hj. rewrite (H (S j) d' Hj). f_equal. lia.
Qed.

(** What [send_file] sends: the chunks of the file, every one with the
    name. *)
Lemma send_file_frames local_file answers sock filename contents :
  local_file filename = Some contents ->
  Commands.accepts_whole answers ->
  0 < len contents <= Commands.MAX_FILE_SIZE ->
  exists tr,
    Commands.send_file local_file answers sock filename = Returned 0 tt tr
    /\ whole_file (Commands.total_chunks_of (len contents)) (sent_to sock tr)
    /\ carried (sent_to sock tr) = contents
    /\ (forall d,
          In d (sent_to sock tr) ->
          Wire.filename (decode_header d) = strncpy_field filename).
Proof.
  intros Hfile Hacc Hsize.
  destruct (SendFacts.send_file_stream local_file answers sock filename
              contents Hfile Hacc ltac:(lia))
    as (tr & Hrun & Hcount & Hsay).
  destruct (SendFacts.total_chunks_is_ceiling (len contents) ltac:(lia))
    as (_ & Hceil & Hrange).
  set (total := Commands.total_chunks_of (len contents)) in *.
  exists tr. split; [exact Hrun |].
  assert (Hj : forall j d,
             nth_error (sent_to sock tr) j = Some d ->
             Z.of_nat j < total).
  { intros j d Hd.
    assert (nth_error (sent_to sock tr) j <> None) by congruence.
    apply nth_error_Some in H. lia. }
  assert (Hpiece : forall j,
             Z.of_nat j < total ->
             0 < len (Commands.piece contents j) <= CHUNK_SIZE).
  { intros j Hlt. unfold Commands.piece, slice, len, CHUNK_SIZE in *.
    rewrite length_firstn, length_skipn. lia. }
  split; [| split].
  - split; [| unfold len; lia].
    apply chunks_from_nth. intros j d Hd.
    destruct (Hsay j d Hd) as (H1 & H2 & H3 & H4 & H5).
    pose proof (Hpiece j (Hj j d Hd)) as Hp.
    unfold is_chunk, payload_of. rewrite H4.
    repeat split; try lia; try assumption.
    rewrite H3, H4. reflexivity.
  - rewrite (carried_pieces contents (sent_to sock tr) 0).
    + unfold slice. cbn [Z.of_nat Z.mul Z.to_nat skipn].
      apply firstn_all2. unfold len, CHUNK_SIZE in *. lia.
    + intros j d Hd. destruct (Hsay j d Hd) as (_ & _ & _ & H4 & _).
      exact H4.
  - intros d Hin. apply In_nth_error in Hin. destruct Hin as [j Hd].
    destruct (Hsay j d Hd) as (_ & _ & _ & _ & H5). exact H5.
Qed.

End SenderFacts.

(** X16.  A download arrives whole.  What [send_file] sends for a file
    that is not empty, named and of fewer than 2000000 chunks, to a
    socket that takes every frame, the client stores byte for byte,
    however the stream is cut into reads after a first read of 80 bytes
    or more: the file it writes, under the name asked for cut to 63
    bytes, holds the contents of the file sent, it is closed, and the
    client is back in the command state. *)
Theorem X16_download_round_trip local_file answers ssock filename contents
  (fopen_ok : list byte -> bool) (fwrite_ok : Z -> bool) csock l :
  local_file filename = Some contents ->
  Commands.accepts_whole answers ->
  0 < len contents <= 512 * 1999999 ->
  c_str filename <> [] ->
  fopen_ok (firstn 63 (c_str filename)) = true ->
  (forall k, fwrite_ok k = true) ->
  Client.state (Client.transfer_state l) = Client.STATE_COMMAND ->
  Client.running l = true ->
  Client.transfer_active (Client.recv_statics l) = false ->
  exists tr_s,
    Commands.send_file local_file answers ssock filename
    = Returned 0 tt tr_s
    /\ forall r0 reads,
         concat (r0 :: reads) = concat (sent_to ssock tr_s) ->
         Forall (fun r => 0 < len r <= 1023) (r0 :: reads) ->
         80 <= len r0 ->
         exists l' tr,
           Client.event_loop fopen_ok fwrite_ok csock l
             (map Download.readable (r0 :: reads))
           = Returned 0 l' tr
           /\ Frames.written (firstn 63 (c_str filename)) tr = contents
           /\ In (EFclose (firstn 63 (c_str filename))) tr
           /\ Client.transfer_state l' = Client.init_transfer_state
           /\ Client.recv_statics l' = Client.initial_statics
           /\ Client.server_buffer l' = Client.server_buffer l
           /\ Client.running l' = true.
Proof.
  intros Hfile Hacc Hsize Hname Hopen Hwrite Hst Hrun Hact.
  assert (Hmax : 0 < len contents <= Commands.MAX_FILE_SIZE).
  { unfold Commands.MAX_FILE_SIZE. change (2 ^ 40) with 1099511627776.
    lia. }
  destruct (SenderFacts.send_file_frames local_file answers ssock filename
              contents Hfile Hacc Hmax)
    as (tr_s & Hsend & Hwhole & Hcar & Hnames).
  destruct (SendFacts.total_chunks_is_ceiling (len contents) ltac:(lia))
    as (Hceil & Hbounds & _).
  set (total := Commands.total_chunks_of (len contents)) in *.
  assert (Htotal : 0 < total < 2000000).
  { split; [lia |]. rewrite Hceil.
    apply Z.div_lt_upper_bound; lia. }
  exists tr_s. split; [exact Hsend |].
  intros r0 reads Hcat Hall Hr0.
  destruct (sent_to ssock tr_s) as [| d0 ds] eqn:Eds.
  { destruct Hwhole as [_ Hlen]. change (len []) with 0 in Hlen. lia. }
  pose proof (Hnames d0 (or_introl eq_refl)) as Hfield.
  destruct (c_str filename) as [| b rest] eqn:Ec; [congruence |].
  rewrite <- Ec in *.
  destruct (DownloadFacts.download_stored fopen_ok fwrite_ok total
              (firstn 63 (c_str filename)) ltac:(lia) Hwrite csock l d0 ds
              r0 reads Hwhole ltac:(lia))
    as (l' & tr & Hloop & Hwr & Hcl & Hrest); try assumption.
  - symmetry. apply SenderFacts.local_name_field. exact Hfield.
  - rewrite Hfield. exact (SenderFacts.field_first_byte filename b rest Ec).
  - exists l', tr. split; [exact Hloop |]. split; [| split; assumption].
    rewrite Hwr. exact Hcar.
Qed.

(** The file of 513 bytes named [a], read by the client in pieces of 600
    and 73 bytes. *)
Lemma X16_witness :
  exists l' tr,
    Client.event_loop Examples.always Examples.writes 3
      Client.initial_loop_state
      (map Download.readable
         [encode_header
            (Commands.chunk_header (bytes_of "a") 0 512 2)
            ++ repeat "x"%byte 512
            ++ firstn 8 (encode_header
                           (Commands.chunk_header (bytes_of "a") 1 1 2));
          skipn 8 (encode_header
                     (Commands.chunk_header (bytes_of "a") 1 1 2))
            ++ ["x"%byte]])
    = Returned 0 l' tr
    /\ Frames.written (bytes_of "a") tr = repeat "x"%byte 513.
Proof.
  destruct (X16_download_round_trip Examples.file_513 Examples.roomy 4
              (bytes_of "a") (repeat "x"%byte 513) Examples.always
              Examples.writes 3 Client.initial_loop_state)
    as (tr_s & Hsend & Hclient).
  - reflexivity.
  - intros k. exists 591%nat. split; [reflexivity | lia].
  - vm_compute. split; [reflexivity | discriminate].
  - discriminate.
  - reflexivity.
  - intros k. reflexivity.
  - reflexivity.
  - reflexivity.
  - reflexivity.
  - assert (Etr : sent_to 4 tr_s
                  = [encode_header
                       (Commands.chunk_header (bytes_of "a") 0 512 2)
                       ++ repeat "x"%byte 512;
                     encode_header
                       (Commands.chunk_header (bytes_of "a") 1 1 2)
                       ++ ["x"%byte]]).
    { assert (E : Returned 0 tt tr_s
                  = Commands.send_file Examples.file_513 Examples.roomy 4
                      (bytes_of "a")) by (symmetry; exact Hsend).
      vm_compute in E. inversion E. reflexivity. }
    destruct (Hclient
                (encode_header
                   (Commands.chunk_header (bytes_of "a") 0 512 2)
                   ++ repeat "x"%byte 512
                   ++ firstn 8 (encode_header
                                  (Commands.chunk_header (bytes_of "a") 1 1
                                     2)))
                [skipn 8 (encode_header
                            (Commands.chunk_header (bytes_of "a") 1 1 2))
                   ++ ["x"%byte]])
      as (l' & tr & Hloop & Hwr & _).
    + rewrite Etr. vm_compute. reflexivity.
    + repeat constructor; vm_compute; congruence.
    + vm_compute. discriminate.
    + exists l', tr. split; [exact Hloop | exact Hwr].
Defined.

(** ** An upload from the user's command to the file on the server *)

Module UploadTrip.
Import Client Console Frames FrameFacts.

Lemma piece_at (contents : list byte) (j : nat) :
  firstn 512 (skipn (512 * j) contents) = Commands.piece contents j.
Proof.
  unfold Commands.piece, slice, CHUNK_SIZE. f_equal. f_equal. lia.
Qed.

Lemma piece_length (contents : list byte) (total : Z) (j : nat) :
  512 * (total - 1) < len contents <= 512 * total ->
  Z.of_nat j < total ->
  0 < len (Commands.piece contents j) <= 512.
Proof.
  intros Hc Hj. unfold Commands.piece, slice, len, CHUNK_SIZE in *.
  rewrite length_firstn, length_skipn. lia.
Qed.

Lemma unread_left (contents : list byte) (total : Z) (j : nat) :
  512 * (total - 1) < len contents <= 512 * total ->
  Z.of_nat j < total ->
  skipn (512 * j) contents <> [].
Proof.
  intros Hc Hj H. apply (f_equal (@length byte)) in H.
  rewrite length_skipn in H. unfold len in Hc. cbn [length] in H. lia.
Qed.

Section Sender.
Variable fopen_ok : list byte -> bool.
Variable fwrite_ok : Z -> bool.
Variables (sock : Z) (path name contents : list byte) (total : Z).
Variables n1 n2 : nat.
Variable errno_again : bool.
Hypothesis H1 : (80 <= S n1)%nat.
Hypothesis H2 : (512 <= S n2)%nat.
Hypothesis Hc : 512 * (total - 1) < len contents <= 512 * total.

(** One pass of the loop while the socket is writable. *)
Lemma writable_pass l (j : nat) :
  Z.of_nat j < total ->
  state (transfer_state l) = STATE_SENDING ->
  file_ptr (transfer_state l)
  = Some (ReadFile path (skipn (512 * j) contents)) ->
  filename (transfer_state l) = name ->
  total_chunks (transfer_state l) = total ->
  current_chunk (transfer_state l) = Z.of_nat j ->
  event_loop_iteration fopen_ok fwrite_ok sock l (writable n1 n2 errno_again)
  = Returned 0
      (if total <=? Z.of_nat j + 1
       then set_transfer (recv_statics l) init_transfer_state
              (set_no_data_iterations 0 l)
       else set_transfer (recv_statics l)
              (set_current_chunk (Z.of_nat j + 1)
                 (Upload.after_read path (skipn (512 * j) contents)
                    (transfer_state l)))
              (set_no_data_iterations 0 l))
      ([ESend sock (encode_header (upload_head name contents total j));
        ESend sock (Commands.piece contents j);
        EProgress (percent_of (Z.of_nat j + 1) total)]
       ++ if total <=? Z.of_nat j + 1
          then [EFclose path; EEpollMod sock false] else []).
Proof.
  intros Hj Hst Hfp Hname Htot Hcur.
  unfold event_loop_iteration, writable.
  cbn [transfer_state set_no_data_iterations]. rewrite Hst.
  cbn [andb]. unfold on_socket_writable.
  cbn [transfer_state set_no_data_iterations recv_statics].
  rewrite (ChunkFacts.chunk_sent sock (transfer_state l) path
             (skipn (512 * j) contents) n1 n2 errno_again Hfp
             (unread_left contents total j Hc Hj) H1 H2).
  rewrite Htot, Hcur.
  assert (Hh : upload_header (transfer_state l)
                 (len (firstn 512 (skipn (512 * j) contents)))
               = upload_head name contents total j).
  { unfold upload_header, upload_head.
    rewrite Hname, Htot, Hcur, piece_at. reflexivity. }
  rewrite Hh, piece_at.
  destruct (total <=? Z.of_nat j + 1) eqn:E.
  - cbn [Z.eqb Pos.eqb orb]. unfold after_transfer_call.
    cbn [Z.eqb Pos.eqb orb]. unfold fclose_file.
    cbn [transfer_state set_transfer recv_statics set_no_data_iterations
           file_ptr set_current_chunk Upload.after_read set_file_ptr
           file_path].
    cbn [app]. reflexivity.
  - cbn [Z.eqb orb]. rewrite app_nil_r. reflexivity.
Qed.

Lemma event_loop_pass l w ws :
  event_loop fopen_ok fwrite_ok sock l (w :: ws)
  = if running l then
      match event_loop_iteration fopen_ok fwrite_ok sock l w with
      | Returned _ l' tr =>
          prepend tr (event_loop fopen_ok fwrite_ok sock l' ws)
      | other => other
      end
    else Returned 0 l [].
Proof. reflexivity. Qed.

(** The socket takes every chunk: the loop sends them all, closes the
    file and stops asking for [EPOLLOUT]. *)
Lemma sender_loop :
  forall k j l,
    Z.of_nat j + Z.of_nat (S k) = total ->
    running l = true ->
    state (transfer_state l) = STATE_SENDING ->
    file_ptr (transfer_state l)
    = Some (ReadFile path (skipn (512 * j) contents)) ->
    filename (transfer_state l) = name ->
    total_chunks (transfer_state l) = total ->
    current_chunk (transfer_state l) = Z.of_nat j ->
    exists l' tr,
      event_loop fopen_ok fwrite_ok sock l
        (repeat (writable n1 n2 errno_again) (S k))
      = Returned 0 l' tr
      /\ transfer_state l' = init_transfer_state
      /\ recv_statics l' = recv_statics l
      /\ server_buffer l' = server_buffer l
      /\ running l' = true
      /\ sent_to sock tr
         = flat_map
             (fun i => [encode_header (upload_head name contents total i);
                        Commands.piece contents i])
             (seq j (S k))
      /\ In (EFclose path) tr /\ In (EEpollMod sock false) tr.
Proof.
  induction k as [| k IH]; intros j l Hjk Hrun Hst Hfp Hname Htot Hcur.
  - change (repeat (writable n1 n2 errno_again) 1)
      with [writable n1 n2 errno_again].
    rewrite event_loop_pass, Hrun.
    rewrite (writable_pass l j) by (assumption || lia).
    assert (E : (total <=? Z.of_nat j + 1) = true) by (apply Z.leb_le; lia).
    rewrite E. cbn [event_loop prepend app].
    eexists _, _. split; [reflexivity |].
    cbn [transfer_state recv_statics server_buffer running set_transfer
           set_no_data_iterations sent_to flat_map seq app].
    rewrite Z.eqb_refl.
    repeat split; try assumption; cbn [In]; auto 10.
  - change (repeat (writable n1 n2 errno_again) (S (S k)))
      with (writable n1 n2 errno_again
              :: repeat (writable n1 n2 errno_again) (S k)).
    rewrite event_loop_pass, Hrun.
    rewrite (writable_pass l j) by (assumption || lia).
    assert (E : (total <=? Z.of_nat j + 1) = false) by (apply Z.leb_gt; lia).
    rewrite E.
    destruct (IH (S j)
                (set_transfer (recv_statics l)
                   (set_current_chunk (Z.of_nat j + 1)
                      (Upload.after_read path (skipn (512 * j) contents)
                         (transfer_state l)))
                   (set_no_data_iterations 0 l)))
      as (l' & tr & Hloop & Ht & Hs & Hb & Hr & Hsent & Hcl & Hmod).
    + lia.
    + exact Hrun.
    + exact Hst.
    + cbn [transfer_state set_transfer file_ptr set_current_chunk
             Upload.after_read set_file_ptr].
      rewrite skipn_skipn. do 3 f_equal. lia.
    + exact Hname.
    + exact Htot.
    + cbn [transfer_state set_transfer current_chunk set_current_chunk].
      lia.
    + rewrite Hloop. cbn [prepend].
      eexists _, _. split; [reflexivity |].
      split; [exact Ht |]. split; [exact Hs |]. split; [exact Hb |].
      split; [exact Hr |].
      split.
      * cbn [app sent_to]. rewrite Z.eqb_refl, Hsent. reflexivity.
      * split; apply in_or_app; right; assumption.
Qed.

End Sender.

Lemma c_str_plain (s : list byte) : ~ In x00 s -> c_str s = s.
Proof.
  induction s as [| b s IH]; intros H; [reflexivity |].
  cbn [c_str]. cbn [In] in H.
  rewrite (CommandFacts.byte_eqb_neq b x00) by intuition congruence.
  rewrite IH by tauto. reflexivity.
Qed.

Lemma frame_payload name contents total j :
  payload_of (upload_frame name contents total j)
  = Commands.piece contents j.
Proof.
  unfold payload_of, upload_frame.
  rewrite skipn_app, encode_header_length, Nat.sub_diag.
  rewrite skipn_all2 by (rewrite encode_header_length; lia).
  reflexivity.
Qed.

Lemma frame_header name contents total j :
  0 < total < 2 ^ 31 -> Z.of_nat j < total ->
  512 * (total - 1) < len contents <= 512 * total ->
  decode_header (upload_frame name contents total j)
  = mkHeader (Z.of_nat j) (len (Commands.piece contents j)) total 0
      (if Z.of_nat j =? 0 then strncpy_field name else repeat x00 64).
Proof.
  intros Ht Hj Hc. unfold upload_frame.
  pose proof (piece_length contents total j Hc Hj) as Hp.
  change (2 ^ 31) with 2147483648 in Ht.
  rewrite decode_encode.
  - unfold upload_head.
    cbn [chunk_id chunk_size Wire.total_chunks type Wire.filename].
    rewrite !SendFacts.to_u32_twice.
    rewrite !to_u32_small by (change (2 ^ 32) with 4294967296; lia).
    reflexivity.
  - unfold upload_head. cbn [Wire.filename].
    destruct (Z.of_nat j =? 0);
      [apply strncpy_field_length | apply repeat_length].
Qed.

(** The chunks the client sends are the chunks of the file. *)
Lemma upload_frames_whole name contents total :
  0 < total < 2 ^ 31 ->
  512 * (total - 1) < len contents <= 512 * total ->
  whole_file total
    (map (upload_frame name contents total) (seq 0 (Z.to_nat total)))
  /\ carried (map (upload_frame name contents total)
                (seq 0 (Z.to_nat total)))
     = contents.
Proof.
  intros Ht Hc.
  assert (Hnth : forall j d,
             nth_error (map (upload_frame name contents total)
                          (seq 0 (Z.to_nat total))) j = Some d ->
             Z.of_nat j < total /\ d = upload_frame name contents total j).
  { intros j d Hd. rewrite nth_error_map in Hd.
    destruct (nth_error (seq 0 (Z.to_nat total)) j) as [i |] eqn:E;
      [| discriminate].
    assert (Hlt : (j < length (seq 0 (Z.to_nat total)))%nat).
    { apply nth_error_Some. congruence. }
    rewrite length_seq in Hlt.
    rewrite (nth_error_nth' _ 0%nat) in E by (rewrite length_seq; lia).
    rewrite seq_nth in E by lia. cbn [Nat.add] in E.
    inversion E; subst i. cbn [option_map] in Hd. inversion Hd.
    split; [lia | reflexivity]. }
  split; [split |].
  - apply SenderFacts.chunks_from_nth. intros j d Hd.
    destruct (Hnth j d Hd) as [Hj ->].
    pose proof (piece_length contents total j Hc Hj) as Hp.
    unfold is_chunk. rewrite frame_payload, frame_header by assumption.
    cbn [chunk_id chunk_size Wire.total_chunks]. unfold CHUNK_SIZE.
    repeat split; lia.
  - unfold len. rewrite length_map, length_seq. lia.
  - rewrite (SenderFacts.carried_pieces contents _ 0).
    + unfold slice. cbn [Z.of_nat Z.mul Z.to_nat skipn].
      apply firstn_all2. unfold len, CHUNK_SIZE in *.
      rewrite length_map, length_seq. lia.
    + intros j d Hd. destruct (Hnth j d Hd) as [_ ->].
      apply frame_payload.
Qed.

(** Header and payload leave in two [send] calls; on the wire they are
    the chunk. *)
Lemma two_sends name contents total (js : list nat) :
  concat (flat_map
            (fun i => [encode_header (upload_head name contents total i);
                       Commands.piece contents i]) js)
  = concat (map (upload_frame name contents total) js).
Proof.
  induction js as [| j js IH]; [reflexivity |].
  cbn [flat_map map concat app]. rewrite IH. unfold upload_frame.
  rewrite <- app_assoc. reflexivity.
Qed.

(** The line [upload], alone in a read, sets file transfer mode. *)
Lemma upload_line (fopen_ok : list byte -> bool) c :
  Server.state c = 0 -> Server.buffer c = [] ->
  Server.handle_client_data fopen_ok c (RecvData (line "upload"))
  = Returned 0 (Server.set_buffer [] (Server.set_state 1 c)) [].
Proof.
  intros Hst Hbuf.
  rewrite (CommandFacts.data_lines fopen_ok c _ (line "upload")
             [bytes_of "upload"] []).
  - reflexivity.
  - rewrite Hst. discriminate.
  - reflexivity.
  - reflexivity.
  - rewrite Hbuf. reflexivity.
  - repeat constructor; cbn; intuition discriminate.
  - reflexivity.
  - unfold Server.buffer_len. rewrite Hbuf. vm_compute. reflexivity.
Qed.

(** What [send <filename>] does on the client before the first chunk. *)
Lemma send_command local_file sock filename contents m t :
  local_file filename = Some contents -> 0 < len contents ->
  len contents <= 512 * 2000000 ->
  filename <> [] -> state t = STATE_COMMAND -> (7 <= S m)%nat ->
  exists t1,
    process_user_command local_file sock (bytes_of "send " ++ filename)
      (SendAccepts m) t
    = (t1, [EFopen filename "rb" true; ESend sock (line "upload");
            EEpollMod sock true])
    /\ state t1 = STATE_SENDING
    /\ file_ptr t1 = Some (ReadFile filename contents)
    /\ Client.filename t1 = firstn 63 (c_str filename)
    /\ total_chunks t1 = (len contents + 511) / 512
    /\ current_chunk t1 = 0.
Proof.
  intros Hfile Hpos Hmax Hne Hst Hm. unfold process_user_command.
  assert (E1 : is_prefix (bytes_of "get ") (bytes_of "send " ++ filename)
               = false) by reflexivity.
  assert (E2 : is_prefix (bytes_of "send ") (bytes_of "send " ++ filename)
               = true) by reflexivity.
  assert (E3 : skipn 5 (bytes_of "send " ++ filename) = filename)
    by reflexivity.
  rewrite E1, E2, E3, Hst.
  assert (Hmatch : forall (A : Type) (x y : A),
             match filename with [] => x | _ :: _ => y end = y).
  { intros A x y. destruct filename; [congruence | reflexivity]. }
  rewrite Hmatch.
  unfold start_file_upload. rewrite Hfile.
  assert (E4 : (len contents <=? 0) = false) by (apply Z.leb_gt; lia).
  assert (E5 : (0 <? len contents) = true) by (apply Z.ltb_lt; lia).
  rewrite E4, E5.
  assert (E6 : firstn (S m) (line "upload") = line "upload").
  { apply firstn_all2. cbn. lia. }
  unfold sent. rewrite E6. cbn [app].
  eexists. split; [reflexivity |].
  cbn [state file_ptr Client.filename total_chunks current_chunk
         set_state set_file_ptr set_filename set_file_size
         set_total_chunks set_current_chunk].
  repeat split.
  unfold CHUNK_SIZE.
  replace (len contents + 512 - 1) with (len contents + 511) by lia.
  rewrite Z.quot_div_nonneg by lia.
  apply to_int_small.
  pose proof (Z.div_le_upper_bound (len contents + 511) 512 2000001
                ltac:(lia) ltac:(lia)) as Hu.
  pose proof (Z.div_pos (len contents + 511) 512 ltac:(lia) ltac:(lia)).
  change (2 ^ 31) with 2147483648. lia.
Qed.

End UploadTrip.

(** X17.  An upload arrives whole.  For [send <filename>] typed at a
    client in the command state, a file that is there and not empty and a
    socket that takes every chunk: the client sends the line [upload],
    opens the file, sends its chunks one for each time the socket is
    writable, closes the file and is back in the command state.  When the
    server reads the line [upload] alone and then the rest of what the
    client sent, cut into reads in any way, it stores the contents of the
    file byte for byte under [saved/] and the name cut to 63 bytes,
    answers [SUCCESS: File uploaded] once and is back in command mode. *)
Theorem X17_upload_round_trip local_file
  (client_fopen_ok : list byte -> bool) (fwrite_ok : Z -> bool)
  (fopen_ok : list byte -> bool) csock filename contents l c m n1 n2
  errno_again :
  local_file filename = Some contents ->
  0 < len contents <= 512 * 2000000 ->
  filename <> [] -> ~ In x00 filename ->
  Client.state (Client.transfer_state l) = Client.STATE_COMMAND ->
  Client.running l = true ->
  (7 <= S m)%nat -> (80 <= S n1)%nat -> (512 <= S n2)%nat ->
  Server.state c = 0 -> Server.buffer c = [] ->
  Server.header_complete c = false -> Server.recv_buffer c = [] ->
  fopen_ok (bytes_of "saved/" ++ firstn 63 filename) = true ->
  exists t1 tr0 l' tr1,
    Console.process_user_command local_file csock
      (bytes_of "send " ++ filename) (SendAccepts m)
      (Client.transfer_state l)
    = (t1, tr0)
    /\ Client.event_loop client_fopen_ok fwrite_ok csock
         (Client.set_transfer (Client.recv_statics l) t1 l)
         (repeat (Console.writable n1 n2 errno_again)
            (Z.to_nat ((len contents + 511) / 512)))
       = Returned 0 l' tr1
    /\ Client.transfer_state l' = Client.init_transfer_state
    /\ In (EFclose filename) tr1
    /\ In (EEpollMod csock false) tr1
    /\ forall reads,
         line "upload" ++ concat reads
         = concat (sent_to csock (tr0 ++ tr1)) ->
         Forall (fun r => 0 < len r <= 2048) reads ->
         exists c' tr_s,
           Session.serve fopen_ok c (line "upload" :: reads)
           = Returned 0 c' tr_s
           /\ Frames.written (bytes_of "saved/" ++ firstn 63 filename) tr_s
              = contents
           /\ sent_to (Server.socket_fd c) tr_s = [Server.MSG_UPLOADED]
           /\ Session.stored c' /\ Server.buffer c' = [].
Proof.
  intros Hfile Hsize Hne Hnul Hst Hrun Hm H1 H2 Hsst Hbuf Hhc Hrb Hopen.
  destruct (UploadTrip.send_command local_file csock filename contents m
              (Client.transfer_state l) Hfile ltac:(lia) ltac:(lia) Hne Hst
              Hm)
    as (t1 & Hcmd & Ht1 & Hfp & Hname & Htot & Hcur).
  set (total := (len contents + 511) / 512) in *.
  assert (Hc : 512 * (total - 1) < len contents <= 512 * total).
  { subst total.
    pose proof (Z.div_mod (len contents + 511) 512 ltac:(lia)) as Hd.
    pose proof (Z.mod_pos_bound (len contents + 511) 512 ltac:(lia)) as Hb.
    lia. }
  assert (Ht : 0 < total <= 2000000) by lia.
  destruct (Z.to_nat total) as [| k] eqn:Ek; [lia |].
  destruct (UploadTrip.sender_loop client_fopen_ok fwrite_ok csock filename
              (firstn 63 (c_str filename)) contents total n1 n2 errno_again
              H1 H2 Hc k 0%nat
              (Client.set_transfer (Client.recv_statics l) t1 l))
    as (l' & tr1 & Hloop & Hdone & _ & _ & _ & Hsent & Hcl & Hmod);
    try assumption; try (cbn; lia).
  eexists t1, _, l', tr1. split; [exact Hcmd |]. split; [exact Hloop |].
  split; [exact Hdone |]. split; [exact Hcl |]. split; [exact Hmod |].
  intros reads Hcat Hall.
  rewrite sent_to_app, Hsent in Hcat. cbn [sent_to app] in Hcat.
  rewrite Z.eqb_refl in Hcat. cbn [sent_to concat app] in Hcat.
  apply app_inv_head in Hcat.
  rewrite UploadTrip.two_sends in Hcat.
  destruct (UploadTrip.upload_frames_whole (firstn 63 (c_str filename))
              contents total ltac:(change (2 ^ 31) with 2147483648; lia) Hc)
    as [Hwhole Hcar].
  rewrite Ek in Hwhole, Hcar.
  change (seq 0 (S k)) with (0%nat :: seq 1 k) in Hwhole, Hcar, Hcat.
  cbn [map] in Hwhole, Hcar, Hcat.
  set (d0 := Console.upload_frame (firstn 63 (c_str filename)) contents
               total 0) in *.
  set (ds := map (Console.upload_frame (firstn 63 (c_str filename))
                    contents total) (seq 1 k)) in *.
  assert (Hpath : Server.full_path (Wire.filename (decode_header d0))
                    (chunk_size (decode_header d0))
                  = bytes_of "saved/" ++ firstn 63 filename).
  { subst d0.
    rewrite UploadTrip.frame_header
      by (try assumption; change (2 ^ 31) with 2147483648; lia).
    cbn [Wire.filename chunk_size Z.of_nat Z.eqb].
    rewrite full_path_plain by apply strncpy_field_has_nul.
    rewrite SenderFacts.c_str_field.
    rewrite (UploadTrip.c_str_plain filename Hnul).
    rewrite UploadTrip.c_str_plain
      by (apply SenderFacts.firstn_no_nul; exact Hnul).
    rewrite firstn_firstn, Nat.min_id. reflexivity. }
  cbn [Session.serve].
  rewrite (UploadTrip.upload_line fopen_ok c Hsst Hbuf).
  cbn [Z.eqb prepend app].
  destruct (UploadFacts2.upload_stored fopen_ok
              (Server.set_buffer [] (Server.set_state 1 c)) total d0 ds
              reads Hwhole ltac:(lia))
    as (c' & tr_s & Hserve & Hwr & Hs & Hstored & Hb); try assumption;
    try reflexivity.
  - rewrite Hpath. exact Hopen.
  - exists c', tr_s. split; [rewrite Hserve; reflexivity |].
    split; [rewrite <- Hpath, Hwr; exact Hcar |].
    split; [exact Hs |]. split; [exact Hstored | exact Hb].
Qed.

(** The file of 513 bytes named [a]: the server reads the command, then
    the two chunks, of 592 and 81 bytes. *)
Lemma X17_witness :
  exists c' tr_s,
    Session.serve Examples.always Examples.commanding
      [line "upload";
       Console.upload_frame (bytes_of "a") (repeat "x"%byte 513) 2 0;
       Console.upload_frame (bytes_of "a") (repeat "x"%byte 513) 2 1]
    = Returned 0 c' tr_s
    /\ Frames.written (bytes_of "saved/a") tr_s = repeat "x"%byte 513
    /\ sent_to 5 tr_s = [Server.MSG_UPLOADED].
Proof.
  destruct (X17_upload_round_trip Examples.file_513 Examples.always
              Examples.writes Examples.always 3 (bytes_of "a")
              (repeat "x"%byte 513) Client.initial_loop_state
              Examples.commanding 6 79 511 false)
    as (t1 & tr0 & l' & tr1 & Hcmd & Hloop & _ & _ & _ & Hserver).
  - reflexivity.
  - vm_compute. split; [reflexivity | discriminate].
  - discriminate.
  - vm_compute. intuition discriminate.
  - reflexivity.
  - reflexivity.
  - lia.
  - lia.
  - lia.
  - reflexivity.
  - reflexivity.
  - reflexivity.
  - reflexivity.
  - reflexivity.
  - vm_compute in Hcmd. inversion Hcmd; subst t1 tr0. clear Hcmd.
    vm_compute in Hloop. inversion Hloop; subst l' tr1. clear Hloop.
    destruct (Hserver
                [Console.upload_frame (bytes_of "a")
                   (repeat "x"%byte 513) 2 0;
                 Console.upload_frame (bytes_of "a")
                   (repeat "x"%byte 513) 2 1])
      as (c' & tr_s & Hrun & Hwr & Hsent & _).
    + vm_compute. reflexivity.
    + repeat constructor; vm_compute; congruence.
    + exists c', tr_s. split; [exact Hrun |].
      split; [exact Hwr | exact Hsent].
Defined.

(** ** From the user's command to the handler on the server *)

Module ConsoleFacts.
Import Console.

Lemma typed_not (command : list byte) (b : byte) :
  typed command -> byte_val b < 32 -> ~ In b command.
Proof.
  intros Ht Hb Hin. unfold typed in Ht. rewrite Forall_forall in Ht.
  specialize (Ht b Hin). lia.
Qed.

Lemma typed_plain (command : list byte) : typed command -> Text.plain command.
Proof.
  intros Ht. split; apply (typed_not command _ Ht); vm_compute; reflexivity.
Qed.

Lemma typed_keeps_end (command : list byte) :
  typed command -> Server.strip_cr command = command.
Proof.
  intros Ht. unfold Server.strip_cr.
  destruct (rev command) as [| b before] eqn:E; [reflexivity |].
  rewrite CommandFacts.byte_eqb_neq; [reflexivity |].
  intros ->. apply (typed_not command x0d Ht); [vm_compute; reflexivity |].
  apply in_rev. rewrite E. left. reflexivity.
Qed.

(** A line of text is not taken for the header of a chunk. *)
Lemma typed_no_header (command : list byte) :
  typed command ->
  Server.looks_like_header (command ++ [x0a]) = false.
Proof.
  intros Ht. unfold Server.looks_like_header.
  destruct (HEADER_SIZE <=? len (command ++ [x0a])) eqn:E; [| reflexivity].
  cbn [andb]. apply Z.leb_le in E. unfold HEADER_SIZE in E.
  rewrite len_app in E. change (len [x0a]) with 1 in E.
  assert (H : 8192 < chunk_size (decode_header (command ++ [x0a]))).
  { unfold decode_header. cbn [chunk_size]. unfold ntohl.
    assert (H4 : 32 <= byte_val (nth 4 (command ++ [x0a]) x00)).
    { unfold typed in Ht. rewrite Forall_forall in Ht. apply Ht.
      rewrite app_nth1 by (unfold len in E; lia).
      apply nth_In. unfold len in E. lia. }
    pose proof (byte_val_range (nth (4 + 1) (command ++ [x0a]) x00)).
    pose proof (byte_val_range (nth (4 + 2) (command ++ [x0a]) x00)).
    pose proof (byte_val_range (nth (4 + 3) (command ++ [x0a]) x00)).
    change (2 ^ 24) with 16777216. change (2 ^ 16) with 65536.
    change (2 ^ 8) with 256. lia. }
  apply Z.leb_gt in H. rewrite H, andb_false_r. reflexivity.
Qed.

(** A typed line that arrives alone at a connection in command mode is
    dispatched as it was typed. *)
Lemma line_relayed (fopen_ok : list byte -> bool) c command :
  typed command -> len command <= 254 ->
  Server.state c = 0 -> Server.buffer c = [] ->
  Session.serve fopen_ok c [command ++ [x0a]]
  = Returned 0
      (if Text.is_upload command then Server.set_state 1 c else c)
      (snd (Server.process_client_command c command)).
Proof.
  intros Ht Hlen Hst Hbuf. cbn [Session.serve].
  rewrite (CommandFacts.data_lines fopen_ok c _ (command ++ [x0a])
             [command] []).
  - cbn [Z.eqb prepend existsb flat_map orb app].
    rewrite orb_false_r, !app_nil_r, (typed_keeps_end command Ht).
    f_equal. destruct (Text.is_upload command); destruct c;
      cbn in Hbuf; subst; reflexivity.
  - rewrite Hst. discriminate.
  - destruct (command ++ [x0a]) as [| b rest] eqn:E.
    + destruct command; discriminate E.
    + cbn [recv]. rewrite <- E. f_equal. apply firstn_all2.
      rewrite length_app. unfold len in Hlen. cbn [length]. lia.
  - exact (typed_no_header command Ht).
  - rewrite Hbuf. cbn [app Text.framed_lines flat_map].
    rewrite !app_nil_r. reflexivity.
  - constructor; [exact (typed_plain command Ht) | constructor].
  - reflexivity.
  - unfold Server.buffer_len. rewrite Hbuf, len_app.
    change (len []) with 0. change (len [x0a]) with 1.
    unfold Server.BUFFER_SIZE. lia.
Qed.

(** The line the client makes of a command leaves whole. *)
Lemma sends_line sock (command : list byte) m :
  len command <= 254 -> (255 <= S m)%nat ->
  sent sock (snprintf_256 (command ++ [x0a])) (SendAccepts m)
  = [ESend sock (command ++ [x0a])].
Proof.
  intros Hlen Hm. unfold sent, snprintf_256.
  assert (Hl : (length (command ++ [x0a]) <= 255)%nat).
  { rewrite length_app. unfold len in Hlen. cbn [length]. lia. }
  rewrite (firstn_all2 (n := 255)) by exact Hl.
  rewrite firstn_all2 by lia. reflexivity.
Qed.

Ltac differ :=
  unfold bytes_eqb;
  repeat match goal with
         | |- context [list_eq_dec ?d ?a ?b] =>
             let E := fresh "E" in
             destruct (list_eq_dec d a b) as [E | E];
             [vm_compute in E; discriminate E |]
         end.

Lemma rest_given {A : Type} (arg : list byte) (x y : A) :
  arg <> [] -> match arg with [] => x | _ :: _ => y end = y.
Proof. intros H. destruct arg; [congruence | reflexivity]. Qed.

End ConsoleFacts.

(** X18.  The commands of the user reach their handler on the server.
    For a command typed without control characters, of at most 254
    bytes, at a client in the command state, and a socket that takes the
    line: what [process_user_command] sends, read by the server in one
    read on a connection in command mode with an empty buffer, makes the
    server call the handler of that command with the argument as typed:
    [list] calls [send_list], [pwd] calls [send_pwd], [health] calls
    [send_health_info], [cd], [delete] and [get] call [change_dir],
    [delete_file] and [send_file] with what follows the command word.
    The entry of the connection is left as it was.  For [rename] the
    client sends nothing. *)
Theorem X18_commands_reach_their_handlers local_file
  (fopen_ok : list byte -> bool) csock command m t c :
  Console.typed command -> len command <= 254 -> (255 <= S m)%nat ->
  Client.state t = Client.STATE_COMMAND ->
  Server.state c = 0 -> Server.buffer c = [] ->
  let reads :=
    sent_to csock
      (snd (Console.process_user_command local_file csock command
              (SendAccepts m) t)) in
  let calls (fn : string) (args : list (list byte)) :=
    Session.serve fopen_ok c reads
    = Returned 0 c [ECall fn (Server.socket_fd c) args] in
  (command = bytes_of "list" -> calls "send_list"%string [])
  /\ (command = bytes_of "pwd" -> calls "send_pwd"%string [])
  /\ (command = bytes_of "health" -> calls "send_health_info"%string [])
  /\ (forall arg, arg <> [] -> command = bytes_of "cd " ++ arg ->
      calls "change_dir"%string [arg])
  /\ (forall arg, arg <> [] -> command = bytes_of "delete " ++ arg ->
      calls "delete_file"%string [arg])
  /\ (forall arg, arg <> [] -> command = bytes_of "get " ++ arg ->
      calls "send_file"%string [arg])
  /\ (forall arg, command = bytes_of "rename " ++ arg -> reads = []).
Proof.
  intros Ht Hlen Hm Hst Hsst Hbuf reads calls. subst reads calls.
  cbv beta.
  assert (Hwire : forall line_sent typed_as,
             Console.typed typed_as -> len typed_as <= 254 ->
             sent_to csock
               (snd (Console.process_user_command local_file csock command
                       (SendAccepts m) t))
             = [typed_as ++ [x0a]] ->
             Text.is_upload typed_as = false ->
             snd (Server.process_client_command c typed_as) = line_sent ->
             Session.serve fopen_ok c
               (sent_to csock
                  (snd (Console.process_user_command local_file csock
                          command (SendAccepts m) t)))
             = Returned 0 c line_sent).
  { intros line_sent typed_as Hty Hl Hw Hup Hcall. rewrite Hw.
    rewrite (ConsoleFacts.line_relayed fopen_ok c typed_as Hty Hl Hsst
               Hbuf).
    rewrite Hup, Hcall. reflexivity. }
  repeat split.
  - intros ->. apply (Hwire _ (bytes_of "ls")).
    + repeat constructor; vm_compute; discriminate.
    + vm_compute. discriminate.
    + lazy -[Z.eqb firstn]. rewrite firstn_all2 by (cbn [length]; lia).
      rewrite Z.eqb_refl. reflexivity.
    + reflexivity.
    + reflexivity.
  - intros ->. apply (Hwire _ (bytes_of "pwd")).
    + repeat constructor; vm_compute; discriminate.
    + vm_compute. discriminate.
    + lazy -[Z.eqb firstn]. rewrite firstn_all2 by (cbn [length]; lia).
      rewrite Z.eqb_refl. reflexivity.
    + reflexivity.
    + reflexivity.
  - intros ->. apply (Hwire _ (bytes_of "health")).
    + repeat constructor; vm_compute; discriminate.
    + vm_compute. discriminate.
    + lazy -[Z.eqb firstn]. rewrite firstn_all2 by (cbn [length]; lia).
      rewrite Z.eqb_refl. reflexivity.
    + reflexivity.
    + reflexivity.
  - intros arg Harg ->. apply (Hwire _ (bytes_of "cd " ++ arg) Ht Hlen).
    + unfold Console.process_user_command.
      change (is_prefix (bytes_of "get ") (bytes_of "cd " ++ arg))
        with false.
      change (is_prefix (bytes_of "send ") (bytes_of "cd " ++ arg))
        with false.
      change (is_prefix (bytes_of "cd ") (bytes_of "cd " ++ arg))
        with true.
      change (skipn 3 (bytes_of "cd " ++ arg)) with arg.
      ConsoleFacts.differ.
      rewrite (ConsoleFacts.rest_given arg _ _ Harg). cbn [snd].
      rewrite ConsoleFacts.sends_line by assumption.
      cbn [sent_to]. rewrite Z.eqb_refl. reflexivity.
    + unfold Text.is_upload.
      rewrite (ConsoleFacts.typed_keeps_end _ Ht). reflexivity.
    + unfold Server.process_client_command.
      change (is_prefix (bytes_of "upload") (bytes_of "cd " ++ arg))
        with false.
      change (is_prefix (bytes_of "get ") (bytes_of "cd " ++ arg))
        with false.
      change (is_prefix (bytes_of "cd ") (bytes_of "cd " ++ arg))
        with true.
      ConsoleFacts.differ. reflexivity.
  - intros arg Harg ->.
    apply (Hwire _ (bytes_of "delete " ++ arg) Ht Hlen).
    + unfold Console.process_user_command.
      change (is_prefix (bytes_of "get ") (bytes_of "delete " ++ arg))
        with false.
      change (is_prefix (bytes_of "send ") (bytes_of "delete " ++ arg))
        with false.
      change (is_prefix (bytes_of "cd ") (bytes_of "delete " ++ arg))
        with false.
      change (is_prefix (bytes_of "delete ") (bytes_of "delete " ++ arg))
        with true.
      change (skipn 7 (bytes_of "delete " ++ arg)) with arg.
      ConsoleFacts.differ.
      rewrite (ConsoleFacts.rest_given arg _ _ Harg). cbn [snd].
      rewrite ConsoleFacts.sends_line by assumption.
      cbn [sent_to]. rewrite Z.eqb_refl. reflexivity.
    + unfold Text.is_upload.
      rewrite (ConsoleFacts.typed_keeps_end _ Ht). reflexivity.
    + unfold Server.process_client_command.
      change (is_prefix (bytes_of "upload") (bytes_of "delete " ++ arg))
        with false.
      change (is_prefix (bytes_of "get ") (bytes_of "delete " ++ arg))
        with false.
      change (is_prefix (bytes_of "cd ") (bytes_of "delete " ++ arg))
        with false.
      change (is_prefix (bytes_of "delete ") (bytes_of "delete " ++ arg))
        with true.
      ConsoleFacts.differ. reflexivity.
  - intros arg Harg ->. apply (Hwire _ (bytes_of "get " ++ arg) Ht Hlen).
    + unfold Console.process_user_command.
      change (is_prefix (bytes_of "get ") (bytes_of "get " ++ arg))
        with true.
      change (skipn 4 (bytes_of "get " ++ arg)) with arg.
      rewrite (ConsoleFacts.rest_given arg _ _ Harg), Hst.
      unfold Console.start_file_download. cbn [snd].
      replace (bytes_of "get " ++ arg ++ [x0a])
        with ((bytes_of "get " ++ arg) ++ [x0a])
        by (rewrite <- app_assoc; reflexivity).
      rewrite ConsoleFacts.sends_line by assumption.
      cbn [sent_to]. rewrite Z.eqb_refl. reflexivity.
    + unfold Text.is_upload.
      rewrite (ConsoleFacts.typed_keeps_end _ Ht). reflexivity.
    + unfold Server.process_client_command.
      change (is_prefix (bytes_of "upload") (bytes_of "get " ++ arg))
        with false.
      change (is_prefix (bytes_of "get ") (bytes_of "get " ++ arg))
        with true.
      reflexivity.
  - intros arg ->. unfold Console.process_user_command.
    change (is_prefix (bytes_of "get ") (bytes_of "rename " ++ arg))
      with false.
    change (is_prefix (bytes_of "send ") (bytes_of "rename " ++ arg))
      with false.
    change (is_prefix (bytes_of "cd ") (bytes_of "rename " ++ arg))
      with false.
    change (is_prefix (bytes_of "delete ") (bytes_of "rename " ++ arg))
      with false.
    ConsoleFacts.differ. reflexivity.
Qed.

(** [cd docs], typed at a fresh client, read by a fresh connection. *)
Lemma X18_witness :
  Session.serve Examples.always Examples.commanding
    (sent_to 3
       (snd (Console.process_user_command Examples.file_513 3
               (bytes_of "cd docs") (SendAccepts 254)
               Client.init_transfer_state)))
  = Returned 0 Examples.commanding [ECall "change_dir" 5 [bytes_of "docs"]].
Proof.
  assert (Ht : Console.typed (bytes_of "cd docs"))
    by (repeat constructor; vm_compute; discriminate).
  assert (Hlen : len (bytes_of "cd docs") <= 254)
    by (vm_compute; discriminate).
  assert (Hm : (255 <= 255)%nat) by lia.
  pose proof (X18_commands_reach_their_handlers Examples.file_513
                Examples.always 3 (bytes_of "cd docs") 254
                Client.init_transfer_state Examples.commanding Ht Hlen Hm
                eq_refl eq_refl eq_refl) as H.
  cbv zeta in H. destruct H as (_ & _ & _ & Hcd & _).
  apply (Hcd (bytes_of "docs")); [discriminate | reflexivity].
Defined.

(** ** A download that times out *)

Module TimeoutFacts.
Import Client.

Lemma timeout_passes fopen_ok fwrite_ok sock l ws :
  state (transfer_state l) = STATE_RECEIVING -> running l = true ->
  total_chunks (transfer_state l) <= 100000 ->
  no_data_iterations l + 1 < 5 ->
  event_loop fopen_ok fwrite_ok sock l (WaitTimeout :: ws)
  = event_loop fopen_ok fwrite_ok sock
      (set_no_data_iterations (no_data_iterations l + 1) l) ws.
Proof.
  intros Hst Hrun Htot Hn.
  rewrite UploadTrip.event_loop_pass, Hrun.
  unfold event_loop_iteration, on_timeout. rewrite Hst.
  cbn [no_data_iterations set_no_data_iterations].
  unfold max_timeouts.
  assert (E : (100000 <? total_chunks (transfer_state l)) = false)
    by (apply Z.ltb_ge; lia).
  rewrite E.
  assert (E' : (5 <=? no_data_iterations l + 1) = false)
    by (apply Z.leb_gt; lia).
  rewrite E'.
  destruct (event_loop fopen_ok fwrite_ok sock
              (set_no_data_iterations (no_data_iterations l + 1) l) ws);
    reflexivity.
Qed.

Lemma timeout_resets fopen_ok fwrite_ok sock l ws :
  state (transfer_state l) = STATE_RECEIVING -> running l = true ->
  total_chunks (transfer_state l) <= 100000 ->
  no_data_iterations l + 1 = 5 ->
  event_loop fopen_ok fwrite_ok sock l (WaitTimeout :: ws)
  = prepend (fclose_file (transfer_state l))
      (event_loop fopen_ok fwrite_ok sock
         (set_transfer (recv_statics l) init_transfer_state
            (set_no_data_iterations 5 l)) ws).
Proof.
  intros Hst Hrun Htot Hn.
  rewrite UploadTrip.event_loop_pass, Hrun.
  unfold event_loop_iteration, on_timeout. rewrite Hst.
  cbn [no_data_iterations set_no_data_iterations].
  unfold max_timeouts.
  assert (E : (100000 <? total_chunks (transfer_state l)) = false)
    by (apply Z.ltb_ge; lia).
  rewrite E, Hn. cbn [Z.leb Z.compare Pos.compare Pos.compare_cont].
  cbn [recv_statics set_no_data_iterations]. reflexivity.
Qed.

(** Five waits without data end a download of at most 100000 chunks. *)
Lemma five_timeouts fopen_ok fwrite_ok sock l ws :
  state (transfer_state l) = STATE_RECEIVING -> running l = true ->
  total_chunks (transfer_state l) <= 100000 ->
  no_data_iterations l = 0 ->
  event_loop fopen_ok fwrite_ok sock l (repeat WaitTimeout 5 ++ ws)
  = prepend (fclose_file (transfer_state l))
      (event_loop fopen_ok fwrite_ok sock
         (set_transfer (recv_statics l) init_transfer_state
            (set_no_data_iterations 5 l)) ws).
Proof.
  intros Hst Hrun Htot Hn.
  change (repeat WaitTimeout 5 ++ ws)
    with (WaitTimeout :: WaitTimeout :: WaitTimeout :: WaitTimeout
            :: WaitTimeout :: ws).
  rewrite timeout_passes by (assumption || lia). rewrite Hn.
  rewrite timeout_passes by (assumption || (cbn; lia)).
  cbn [no_data_iterations set_no_data_iterations].
  rewrite timeout_passes by (assumption || (cbn; lia)).
  cbn [no_data_iterations set_no_data_iterations].
  rewrite timeout_passes by (assumption || (cbn; lia)).
  cbn [no_data_iterations set_no_data_iterations].
  rewrite timeout_resets by (assumption || (cbn; lia)).
  destruct l; reflexivity.
Qed.

(** The first read of a download, met by what an earlier download left
    in the static variables in the middle of a payload. *)
Lemma read_into_stale_payload fopen_ok fwrite_ok sock l r0 :
  transfer_state l = init_transfer_state -> running l = true ->
  transfer_active (recv_statics l) = true ->
  expecting_header (recv_statics l) = false ->
  0 < payload_remaining (recv_statics l) <= len r0 ->
  recv_pos (recv_statics l) + payload_remaining (recv_statics l)
    <= RECV_BUFFER_SIZE ->
  len r0 <= 1023 ->
  looks_like_header init_transfer_state r0 = true ->
  event_loop_iteration fopen_ok fwrite_ok sock l (Download.readable r0)
  = Returned 1
      (set_transfer initial_statics init_transfer_state
         (set_no_data_iterations 0 l))
      [EProgress 0].
Proof.
  intros Ht Hrun Hact Hexp Hp Hroom Hlen Hlook.
  unfold event_loop_iteration, Download.readable.
  cbn [transfer_state set_no_data_iterations]. rewrite Ht.
  cbn [state init_transfer_state andb]. unfold on_socket_readable.
  assert (Hrecv : recv 1023 (RecvData r0) = RecvData r0).
  { destruct r0 as [| b r] eqn:E; [cbn in Hp; lia |].
    cbn [recv]. rewrite <- E. f_equal. apply firstn_all2.
    rewrite <- E in Hlen. unfold len in Hlen. lia. }
  rewrite Hrecv. cbn [transfer_state set_no_data_iterations]. rewrite Ht.
  cbn [state init_transfer_state]. rewrite Hlook.
  unfold on_file_data, receive_file_chunk_epoll.
  cbn [transfer_state recv_statics set_transfer set_no_data_iterations].
  unfold entry_statics. rewrite Hact, andb_false_r.
  destruct (Z.to_nat (len r0 * 2)) as [| its] eqn:Eits; [lia |].
  rewrite DownloadFacts.receive_loop_pass.
  assert (E0 : (0 <? len r0) = true) by (apply Z.ltb_lt; lia).
  rewrite E0. unfold receive_step. rewrite Hexp.
  assert (Emin : min_avail (len r0) 0 (payload_remaining (recv_statics l))
                 = payload_remaining (recv_statics l)).
  { unfold min_avail.
    assert (E : (len r0 - 0 <? payload_remaining (recv_statics l)) = false)
      by (apply Z.ltb_ge; lia).
    rewrite E. reflexivity. }
  rewrite Emin.
  assert (E1 : (payload_remaining (recv_statics l) <? 0) = false)
    by (apply Z.ltb_ge; lia).
  assert (E2 : (RECV_BUFFER_SIZE
                  <? recv_pos (recv_statics l)
                     + payload_remaining (recv_statics l)) = false)
    by (apply Z.ltb_ge; lia).
  rewrite E1, E2. cbn [Z.ltb Z.compare orb].
  cbn [payload_remaining set_payload_remaining set_recv_buffer].
  rewrite Z.sub_diag. cbn [Z.eqb].
  unfold payload_complete_actions, detected_download.
  cbn [file_ptr init_transfer_state set_filename set_total_chunks
         set_current_chunk set_state total_chunks current_chunk].
  cbn [Z.add Z.ltb Z.compare andb Z.leb percent_of].
  unfold after_transfer_call. cbn [Z.eqb Pos.eqb orb].
  unfold fclose_file.
  cbn [transfer_state set_transfer file_ptr app recv_statics].
  reflexivity.
Qed.

End TimeoutFacts.

(** X19.  A download that times out spoils the next one.  When the
    download of a file of at most 100000 chunks stalls in the middle of
    a payload, five waits of ten seconds make the client close the file
    and go back to the command state, but the static variables of
    [receive_file_chunk_epoll] stay as they were.  The first read of the
    next download, although it begins with a good first header, is then
    taken for the rest of the old payload: no file is opened, nothing is
    written, the download counts as complete and the client is in the
    command state again. *)
Theorem X19_stalled_download_spoils_the_next (fopen_ok : list byte -> bool)
  (fwrite_ok : Z -> bool) sock l r0 :
  Client.state (Client.transfer_state l) = Client.STATE_RECEIVING ->
  Client.running l = true ->
  Client.no_data_iterations l = 0 ->
  Client.total_chunks (Client.transfer_state l) <= 100000 ->
  Client.transfer_active (Client.recv_statics l) = true ->
  Client.expecting_header (Client.recv_statics l) = false ->
  0 < Client.payload_remaining (Client.recv_statics l) <= len r0 ->
  Client.recv_pos (Client.recv_statics l)
    + Client.payload_remaining (Client.recv_statics l)
    <= Client.RECV_BUFFER_SIZE ->
  len r0 <= 1023 ->
  Client.looks_like_header Client.init_transfer_state r0 = true ->
  exists l',
    Client.event_loop fopen_ok fwrite_ok sock l
      (repeat Client.WaitTimeout 5 ++ [Download.readable r0])
    = Returned 0 l'
        (Client.fclose_file (Client.transfer_state l) ++ [EProgress 0])
    /\ Client.transfer_state l' = Client.init_transfer_state
    /\ Client.recv_statics l' = Client.initial_statics
    /\ Client.server_buffer l' = Client.server_buffer l
    /\ Client.running l' = true.
Proof.
  intros Hst Hrun Hn Htot Hact Hexp Hp Hroom Hlen Hlook.
  rewrite TimeoutFacts.five_timeouts by assumption.
  rewrite UploadTrip.event_loop_pass.
  cbn [Client.running Client.set_transfer Client.set_no_data_iterations].
  rewrite Hrun.
  rewrite TimeoutFacts.read_into_stale_payload; try assumption;
    try reflexivity.
  cbn [Client.event_loop prepend app].
  eexists. split; [reflexivity |].
  cbn [Client.transfer_state Client.recv_statics Client.server_buffer
         Client.running Client.set_transfer Client.set_no_data_iterations].
  repeat split. exact Hrun.
Qed.

(** A download stalls one byte short of its first payload; the next
    download, of one chunk, begins fifty seconds later. *)
Lemma X19_witness :
  exists l',
    Client.event_loop Examples.always Examples.writes 3 Stalled.in_payload
      (repeat Client.WaitTimeout 5
         ++ [Download.readable (Examples.chunk 0 1 "g" ["B"%byte])])
    = Returned 0 l' [EFclose (bytes_of "f"); EProgress 0]
    /\ Client.transfer_state l' = Client.init_transfer_state.
Proof.
  destruct (X19_stalled_download_spoils_the_next Examples.always
              Examples.writes 3 Stalled.in_payload
              (Examples.chunk 0 1 "g" ["B"%byte]))
    as (l' & Hrun & Hdone & _).
  - reflexivity.
  - reflexivity.
  - reflexivity.
  - vm_compute. discriminate.
  - reflexivity.
  - reflexivity.
  - vm_compute. split; [reflexivity | discriminate].
  - vm_compute. discriminate.
  - vm_compute. discriminate.
  - vm_compute. reflexivity.
  - exists l'. split; [exact Hrun | exact Hdone].
Defined.

(** ** Lines read a byte at a time *)

Module LineFacts.
Import Lines.

Lemma drain_line (l rest : list byte) :
  ~ In x0a l -> drain (l ++ x0a :: rest) = rest.
Proof.
  induction l as [| b l IH]; intros H; [reflexivity |].
  cbn [app drain]. cbn [In] in H.
  rewrite (CommandFacts.byte_eqb_neq b x0a) by intuition congruence.
  apply IH. tauto.
Qed.

Lemma drain_all (l : list byte) : ~ In x0a l -> drain l = [].
Proof.
  induction l as [| b l IH]; intros H; [reflexivity |].
  cbn [drain]. cbn [In] in H.
  rewrite (CommandFacts.byte_eqb_neq b x0a) by intuition congruence.
  apply IH. tauto.
Qed.

(** A line that ends with a line feed. *)
Lemma line_from (room : nat) :
  forall l rest buf,
    ~ In x0a l ->
    read_line_from room (l ++ x0a :: rest) buf
    = (len (buf ++ firstn room l), buf ++ firstn room l, rest).
Proof.
  induction room as [| room IH]; intros l rest buf H.
  - cbn [read_line_from firstn]. rewrite app_nil_r, drain_line by exact H.
    reflexivity.
  - destruct l as [| b l].
    + cbn [app read_line_from firstn]. rewrite app_nil_r. reflexivity.
    + cbn [app read_line_from firstn]. cbn [In] in H.
      rewrite (CommandFacts.byte_eqb_neq b x0a) by intuition congruence.
      rewrite IH by tauto. rewrite <- app_assoc. reflexivity.
Qed.

(** A line that the end of the stream cuts. *)
Lemma cut_line_from (room : nat) :
  forall l buf,
    ~ In x0a l ->
    read_line_from room l buf
    = if (length l <? room)%nat then (0, buf ++ l, [])
      else (len (buf ++ firstn room l), buf ++ firstn room l, []).
Proof.
  induction room as [| room IH]; intros l buf H.
  - cbn [read_line_from firstn]. rewrite app_nil_r, drain_all by exact H.
    reflexivity.
  - destruct l as [| b l].
    + cbn [read_line_from length Nat.ltb Nat.leb]. rewrite app_nil_r.
      reflexivity.
    + cbn [read_line_from firstn length]. cbn [In] in H.
      rewrite (CommandFacts.byte_eqb_neq b x0a) by intuition congruence.
      rewrite IH by tauto. rewrite <- !app_assoc. cbn [app].
      change (S (length l) <? S room)%nat with (length l <? room)%nat.
      reflexivity.
Qed.

End LineFacts.

(** X20.  [read_line] reads through the first line feed and no further.
    For a line followed by a line feed it stores the first
    [max_len - 1] bytes of the line, returns how many it stored and
    leaves what follows the line feed unread: a longer line is cut and
    its end dropped, and an empty line gives 0, the value of a closed
    connection.  A last line that the end of the stream cuts gives 0 as
    well when it is shorter than [max_len - 1], and is returned, cut to
    [max_len - 1] bytes, when it is not. *)
Theorem X20_read_line_takes_one_line (max_len : nat) (l rest : list byte) :
  (1 <= max_len)%nat -> ~ In x0a l ->
  Lines.read_line max_len (l ++ x0a :: rest)
  = (Z.min (len l) (Z.of_nat max_len - 1), firstn (max_len - 1) l, rest)
  /\ Lines.read_line max_len l
     = if len l <? Z.of_nat max_len - 1 then (0, l, [])
       else (Z.of_nat max_len - 1, firstn (max_len - 1) l, []).
Proof.
  intros Hmax Hl. unfold Lines.read_line. split.
  - rewrite LineFacts.line_from by exact Hl. cbn [app].
    f_equal. f_equal. unfold len. rewrite length_firstn. lia.
  - rewrite LineFacts.cut_line_from by exact Hl. cbn [app].
    destruct (length l <? max_len - 1)%nat eqn:E.
    + apply Nat.ltb_lt in E.
      assert (E' : (len l <? Z.of_nat max_len - 1) = true)
        by (apply Z.ltb_lt; unfold len; lia).
      rewrite E'. reflexivity.
    + apply Nat.ltb_ge in E.
      assert (E' : (len l <? Z.of_nat max_len - 1) = false)
        by (apply Z.ltb_ge; unfold len; lia).
      rewrite E'. f_equal. f_equal. unfold len. rewrite length_firstn.
      lia.
Qed.

(** The buffer of [handle_client], of 128 bytes: a command of 130
    bytes before [pwd]. *)
Lemma X20_witness :
  Lines.read_line 128 (repeat "a"%byte 130 ++ x0a :: line "pwd")
  = (127, repeat "a"%byte 127, line "pwd").
Proof.
  destruct (X20_read_line_takes_one_line 128 (repeat "a"%byte 130)
              (line "pwd")) as [H _].
  - lia.
  - intros Hin. apply repeat_spec in Hin. discriminate Hin.
  - rewrite H. reflexivity.
Defined.

(** ** The words of a [rename] command *)

Module RenameFacts.
Import Server.

(** A word is taken whole. *)
Lemma strtok_word (w : list byte) :
  forall cur s,
    ~ In x20 w -> strtok_spaces cur (w ++ s) = strtok_spaces (rev w ++ cur) s.
Proof.
  induction w as [| b w IH]; intros cur s H; [reflexivity |].
  cbn [app strtok_spaces]. cbn [In] in H.
  rewrite (CommandFacts.byte_eqb_neq b x20) by intuition congruence.
  rewrite IH by tauto. cbn [rev]. rewrite <- app_assoc. reflexivity.
Qed.

Lemma strtok_last (w : list byte) :
  w <> [] -> ~ In x20 w -> strtok_spaces [] w = [w].
Proof.
  intros Hne H. rewrite <- (app_nil_r w) at 1.
  rewrite strtok_word by exact H. rewrite app_nil_r.
  cbn [strtok_spaces]. destruct (rev w) as [| b r] eqn:E.
  - apply (f_equal (@rev byte)) in E. rewrite rev_involutive in E.
    contradiction.
  - rewrite <- E, rev_involutive. reflexivity.
Qed.

Lemma strtok_two (old new : list byte) :
  old <> [] -> new <> [] -> ~ In x20 old -> ~ In x20 new ->
  strtok_spaces [] (old ++ x20 :: new) = [old; new].
Proof.
  intros Ho Hn Hso Hsn. rewrite strtok_word by exact Hso.
  rewrite app_nil_r. cbn [strtok_spaces].
  rewrite CommandFacts.byte_eqb_refl.
  destruct (rev old) as [| b r] eqn:E.
  - apply (f_equal (@rev byte)) in E. rewrite rev_involutive in E.
    contradiction.
  - rewrite <- E, rev_involutive, strtok_last by assumption. reflexivity.
Qed.

(** [rename] is none of the commands tested before it. *)
Lemma rename_branch c (rest : list byte) :
  process_client_command c (bytes_of "rename " ++ rest)
  = match strtok_spaces []
            (skipn 7 (firstn 127 (bytes_of "rename " ++ rest))) with
    | old_name :: new_name :: _ =>
        (c, [ECall "rename_file" (socket_fd c) [old_name; new_name]])
    | _ => (c, [ESend (socket_fd c) MSG_BAD_RENAME])
    end.
Proof.
  unfold process_client_command.
  change (is_prefix (bytes_of "upload") (bytes_of "rename " ++ rest))
    with false.
  change (is_prefix (bytes_of "get ") (bytes_of "rename " ++ rest))
    with false.
  change (is_prefix (bytes_of "cd ") (bytes_of "rename " ++ rest))
    with false.
  change (is_prefix (bytes_of "delete ") (bytes_of "rename " ++ rest))
    with false.
  change (is_prefix (bytes_of "rename ") (bytes_of "rename " ++ rest))
    with true.
  ConsoleFacts.differ. reflexivity.
Qed.

Lemma firstn_no_space (k : nat) (l : list byte) :
  ~ In x20 l -> ~ In x20 (firstn k l).
Proof.
  revert l. induction k as [| k IH]; intros l H; [intros [] |].
  destruct l as [| b l]; [intros [] |].
  cbn [firstn In] in *. intros [Hb | Hin]; [tauto |].
  exact (IH l ltac:(tauto) Hin).
Qed.

End RenameFacts.

(** X21.  [rename] takes the first two words of the first 127 bytes of
    the command.  For two names without spaces, the first of at most 118
    bytes, [rename <old> <new>] calls [rename_file] with the old name and
    with as much of the new name as the 127 bytes hold: a longer new
    name is cut without a word to the client.  With one name only the
    server answers [ERROR: Invalid rename command]. *)
Theorem X21_rename_cut_at_127_bytes c (old new : list byte) :
  old <> [] -> new <> [] -> ~ In x20 old -> ~ In x20 new ->
  len old <= 118 ->
  Server.process_client_command c
    (bytes_of "rename " ++ old ++ x20 :: new)
  = (c, [ECall "rename_file" (Server.socket_fd c)
           [old; firstn (Z.to_nat (119 - len old)) new]])
  /\ Server.process_client_command c (bytes_of "rename " ++ old)
     = (c, [ESend (Server.socket_fd c) Server.MSG_BAD_RENAME]).
Proof.
  intros Ho Hn Hso Hsn Hlen. split.
  - rewrite RenameFacts.rename_branch.
    assert (E : skipn 7 (firstn 127
                           (bytes_of "rename " ++ old ++ x20 :: new))
                = old ++ x20 :: firstn (Z.to_nat (119 - len old)) new).
    { change 127%nat with (7 + 120)%nat.
      rewrite WireFacts.firstn_plus.
      change (firstn 7 (bytes_of "rename " ++ old ++ x20 :: new))
        with (bytes_of "rename ").
      change (skipn 7 (bytes_of "rename " ++ old ++ x20 :: new))
        with (old ++ x20 :: new).
      change 7%nat with (length (bytes_of "rename ")) at 1.
      rewrite skipn_app_exact.
      rewrite firstn_app.
      assert (Hold : (length old <= 120)%nat) by (unfold len in Hlen; lia).
      rewrite (firstn_all2 old Hold).
      f_equal.
      destruct (120 - length old)%nat as [| k] eqn:Ek;
        [unfold len in Hlen; lia |].
      cbn [firstn]. f_equal. f_equal. unfold len in *. lia. }
    rewrite E.
    rewrite RenameFacts.strtok_two; try assumption.
    + reflexivity.
    + destruct new as [| b new']; [congruence |].
      destruct (Z.to_nat (119 - len old)) as [| k] eqn:Ek; [lia |].
      discriminate.
    + apply RenameFacts.firstn_no_space. exact Hsn.
  - rewrite RenameFacts.rename_branch.
    assert (E : skipn 7 (firstn 127 (bytes_of "rename " ++ old)) = old).
    { rewrite firstn_all2
        by (rewrite length_app; unfold len in Hlen; cbn [length]; 
            change (length (bytes_of "rename ")) with 7%nat; lia).
      change 7%nat with (length (bytes_of "rename ")).
      apply skipn_app_exact. }
    rewrite E, RenameFacts.strtok_last by assumption. reflexivity.
Qed.

(** A new name of 120 bytes after an old name of 9: 110 bytes are
    kept. *)
Lemma X21_witness :
  Server.process_client_command Examples.commanding
    (bytes_of "rename " ++ bytes_of "notes.txt"
       ++ x20 :: repeat "n"%byte 120)
  = (Examples.commanding,
     [ECall "rename_file" 5 [bytes_of "notes.txt"; repeat "n"%byte 110]]).
Proof.
  destruct (X21_rename_cut_at_127_bytes Examples.commanding
              (bytes_of "notes.txt") (repeat "n"%byte 120)) as [H _].
  - discriminate.
  - discriminate.
  - vm_compute. intuition discriminate.
  - intros Hin. apply repeat_spec in Hin. discriminate Hin.
  - vm_compute. discriminate.
  - rewrite H. reflexivity.
Defined.

(** ** Text and file data told apart *)

Module DetectFacts.

Lemma byte_val_zero (b : byte) : byte_val b = 0 -> b = x00.
Proof.
  intros H. unfold byte_val in H.
  assert (E : Byte.to_N b = 0%N) by lia.
  pose proof (Byte.of_to_N b) as Hb. rewrite E in Hb.
  cbn in Hb. congruence.
Qed.

(** A byte of a text is not 0. *)
Lemma text_byte (data : list byte) (k : nat) :
  ~ In x00 data -> (k < length data)%nat ->
  1 <= byte_val (nth k data x00) < 256.
Proof.
  intros Hnul Hk. pose proof (byte_val_range (nth k data x00)) as Hr.
  assert (byte_val (nth k data x00) <> 0).
  { intros H. apply byte_val_zero in H. apply Hnul. rewrite <- H.
    apply nth_In. exact Hk. }
  lia.
Qed.

Lemma text_field (data : list byte) (off : nat) :
  ~ In x00 data -> (off + 3 < length data)%nat ->
  2 ^ 24 <= ntohl data off.
Proof.
  intros Hnul Hlen. unfold ntohl.
  pose proof (text_byte data off Hnul ltac:(lia)).
  pose proof (byte_val_range (nth (off + 1) data x00)).
  pose proof (byte_val_range (nth (off + 2) data x00)).
  pose proof (byte_val_range (nth (off + 3) data x00)).
  change (2 ^ 24) with 16777216. change (2 ^ 16) with 65536.
  change (2 ^ 8) with 256. lia.
Qed.

Lemma server_sees_text (data : list byte) :
  ~ In x00 data -> Server.looks_like_header data = false.
Proof.
  intros Hnul. unfold Server.looks_like_header.
  destruct (HEADER_SIZE <=? len data) eqn:E; [| reflexivity].
  apply Z.leb_le in E. unfold HEADER_SIZE, len in E.
  pose proof (text_field data 4 Hnul ltac:(lia)) as H.
  change (2 ^ 24) with 16777216 in H.
  unfold decode_header. cbn [chunk_size total_chunks andb].
  assert (E' : (ntohl data 4 <=? 8192) = false) by (apply Z.leb_gt; lia).
  rewrite E', andb_false_r. reflexivity.
Qed.

Lemma client_sees_text t (data : list byte) :
  ~ In x00 data -> Client.looks_like_header t data = false.
Proof.
  intros Hnul. unfold Client.looks_like_header.
  destruct (HEADER_SIZE <=? len data) eqn:E; [| reflexivity].
  apply Z.leb_le in E. unfold HEADER_SIZE, len in E.
  pose proof (text_field data 0 Hnul ltac:(lia)) as H.
  change (2 ^ 24) with 16777216 in H.
  unfold decode_header. cbn [chunk_id].
  assert (E' : (ntohl data 0 =? 0) = false) by (apply Z.eqb_neq; lia).
  rewrite E'. cbn [andb]. rewrite andb_false_r. reflexivity.
Qed.

End DetectFacts.

(** X22.  Text is never taken for file data.  Bytes without a NUL that
    are read in command mode are handled as text, whatever they are and
    however many: the server appends them to its command buffer and
    carries out the commands, the client appends them to its response
    buffer and shows the lines. *)
Theorem X22_text_is_not_file_data (fopen_ok : list byte -> bool)
  (fwrite_ok : Z -> bool) c l (data : list byte) :
  ~ In x00 data -> data <> [] -> len data <= 1023 ->
  (Server.state c <> 1 ->
   Server.handle_client_data fopen_ok c (RecvData data)
   = Server.handle_text c data)
  /\ (Client.state (Client.transfer_state l) = Client.STATE_COMMAND ->
      Client.on_socket_readable fopen_ok fwrite_ok l (RecvData data)
      = Client.on_text l data).
Proof.
  intros Hnul Hne Hlen.
  assert (Hrecv : recv 1023 (RecvData data) = RecvData data).
  { destruct data as [| b r] eqn:E; [congruence |].
    cbn [recv]. rewrite <- E. f_equal. apply firstn_all2.
    rewrite <- E in Hlen. unfold len in Hlen. lia. }
  split.
  - intros Hst. apply Z.eqb_neq in Hst.
    unfold Server.handle_client_data.
    rewrite Hst, Hrecv, (DetectFacts.server_sees_text data Hnul).
    reflexivity.
  - intros Hst. unfold Client.on_socket_readable.
    rewrite Hrecv, Hst, (DetectFacts.client_sees_text _ data Hnul).
    reflexivity.
Qed.

(** A hundred bytes of a listing. *)
Lemma X22_witness :
  Client.on_socket_readable Examples.always Examples.writes
    Client.initial_loop_state (RecvData (repeat "a"%byte 99 ++ [x0a]))
  = Client.on_text Client.initial_loop_state (repeat "a"%byte 99 ++ [x0a]).
Proof.
  apply (X22_text_is_not_file_data Examples.always Examples.writes
           Examples.commanding Client.initial_loop_state
           (repeat "a"%byte 99 ++ [x0a])).
  - intros Hin. apply in_app_or in Hin. destruct Hin as [Hin | Hin].
    + apply repeat_spec in Hin. discriminate Hin.
    + destruct Hin as [Hin | []]. discriminate Hin.
  - discriminate.
  - vm_compute. discriminate.
  - reflexivity.
Defined.

(** ** An upload that begins in command mode *)

Module DetectedFacts.
Import Server Frames FrameFacts Session.
Import ServerCounts.

Section Env.
Variable fopen_ok : list byte -> bool.
Variable n : Z.
Variable path : list byte.
Hypothesis Hn : 0 < n <= 2000000.

(** A pass of the loop of [handle_client_data] on bytes of a header. *)
Lemma detect_header temp p more c j d o after :
  stands_at n path c j d o -> o < 80 -> is_chunk n j d -> 0 <= j ->
  (j = 0 ->
   path = full_path (filename (decode_header d))
            (chunk_size (decode_header d))
   /\ fopen_ok path = true) ->
  0 <= p < len temp ->
  skipn (Z.to_nat p) temp ++ more = skipn (Z.to_nat o) d ++ after ->
  exists c' tr,
    detect_step fopen_ok temp (len temp) c p
    = Continue c' (p + Z.min (len temp - p) (80 - o)) tr
    /\ stands_at n path c' j d (o + Z.min (len temp - p) (80 - o))
    /\ written path tr = [] /\ sent_to (socket_fd c) tr = []
    /\ socket_fd c' = socket_fd c /\ buffer c' = buffer c.
Proof.
  intros (Hst & Ho & Hhead & Hpay & Hfile) Hlt Hc Hj Hpath Hp Hal.
  destruct (Hhead Hlt) as [Hhc Hrb].
  destruct (chunk_length n j d Hc) as [_ Hlen].
  pose proof Hc as (Hid & Htot & Hsize & Hpl).
  set (t := Z.min (len temp - p) (80 - o)).
  assert (Ht : 0 < t <= 80 - o /\ t <= len temp - p) by (unfold t; lia).
  destruct (aligned_slice temp more d after p o t) as [Hslice _];
    try lia; try exact Hal.
  assert (Hbytes : bytes_in_buffer c = o).
  { unfold bytes_in_buffer, len. rewrite Hrb, length_firstn.
    unfold len in *. lia. }
  unfold detect_step. rewrite Hhc. cbn [negb].
  rewrite UploadFacts2.min_avail_min, Hbytes. unfold HEADER_SIZE. fold t.
  assert (E1 : (t <? 0) || (p <? 0) = false) by lia. rewrite E1.
  rewrite Hrb, Hslice, firstn_slice by lia.
  assert (Hbytes' : bytes_in_buffer
                      (set_recv_buffer (firstn (Z.to_nat (o + t)) d) c)
                    = o + t).
  { unfold bytes_in_buffer, len. cbn [recv_buffer set_recv_buffer].
    rewrite length_firstn. unfold len in *. lia. }
  rewrite Hbytes'.
  destruct (80 <=? o + t) eqn:E2.
  - (* the header is complete *)
    assert (Hot : o + t = 80) by lia. rewrite Hot.
    unfold detected_header_actions.
    cbn [recv_buffer set_recv_buffer].
    change (Z.to_nat 80) with 80%nat.
    rewrite firstn_firstn, Nat.min_id, decode_firstn.
    rewrite Hid, Htot, Hsize.
    assert (Hsz : to_int (len (payload_of d)) = len (payload_of d)).
    { apply to_int_small. unfold CHUNK_SIZE in Hpl.
      change (2 ^ 31) with 2147483648. lia. }
    assert (Htn : to_int n = n).
    { apply to_int_small. change (2 ^ 31) with 2147483648. lia. }
    rewrite Hsz, Htn.
    destruct (j =? 0) eqn:Ej.
    + apply Z.eqb_eq in Ej. destruct (Hpath Ej) as [Hp1 Hp2].
      rewrite Hsize in Hp1.
      cbn [payload_remaining set_payload_remaining set_recv_buffer].
      assert (Hnul : has_nul
                       (filename_and_beyond (filename (decode_header d))
                          (len (payload_of d))) = true).
      { unfold filename_and_beyond. rewrite has_nul_app.
        rewrite int_bytes_small
          by (unfold CHUNK_SIZE in Hpl; change (2 ^ 24) with 16777216; lia).
        apply orb_true_r. }
      rewrite Hnul. cbn [negb].
      rewrite <- Hp1, Hp2. eexists _, _. split; [reflexivity |].
      unfold stands_at. unfold_setters.
      repeat split; try lia; try reflexivity; try discriminate.
    + apply Z.eqb_neq in Ej. eexists _, _. split; [reflexivity |].
      destruct Hfile as (Hf1 & Hf2 & Hf3); [left; lia |].
      unfold stands_at. unfold_setters.
      repeat split; try lia; try reflexivity; try assumption.
  - eexists _, _. split; [reflexivity |]. split; [| repeat split].
    unfold stands_at. unfold_setters.
    split; [exact Hst |]. split; [lia |].
    split; [intros _; split; [exact Hhc | reflexivity] |].
    split; [intros H; lia |].
    intros [H | H]; [apply Hfile; left; exact H | lia].
Qed.

(** A pass of that loop on bytes of a payload: the chunk goes on, or it
    ends and another follows, or it ends the file; the loop goes on even
    then. *)
Lemma detect_payload temp p more c j d o after :
  stands_at n path c j d o -> 80 <= o -> is_chunk n j d -> 0 <= j < n ->
  0 <= p < len temp ->
  skipn (Z.to_nat p) temp ++ more = skipn (Z.to_nat o) d ++ after ->
  let t := Z.min (len temp - p) (len d - o) in
  exists c' tr,
    detect_step fopen_ok temp (len temp) c p = Continue c' (p + t) tr
    /\ written path tr = slice d o t
    /\ socket_fd c' = socket_fd c /\ buffer c' = buffer c
    /\ ((o + t < len d /\ stands_at n path c' j d (o + t)
         /\ sent_to (socket_fd c) tr = [])
        \/ (o + t = len d /\ j + 1 < n
            /\ (forall d', 0 < len d' -> stands_at n path c' (j + 1) d' 0)
            /\ sent_to (socket_fd c) tr = [])
        \/ (o + t = len d /\ j + 1 = n /\ stored c'
            /\ sent_to (socket_fd c) tr = [MSG_UPLOADED])).
Proof.
  intros (Hst & Ho & Hhead & Hpay & Hfile) Hge Hc Hj Hp Hal t.
  destruct (Hpay Hge) as [Hhc Hrem].
  destruct Hfile as (Hf1 & Hf2 & Hf3); [right; exact Hge |].
  assert (Ht : 0 < t <= len d - o /\ t <= len temp - p) by (unfold t; lia).
  destruct (aligned_slice temp more d after p o t) as [Hslice _];
    try lia; try exact Hal.
  unfold detect_step. rewrite Hhc. cbn [negb].
  rewrite UploadFacts2.min_avail_min, Hrem. fold t. rewrite Hf1.
  assert (E1 : (t <? 0) || (p <? 0) = false) by lia. rewrite E1.
  rewrite Hslice.
  cbn [payload_remaining set_payload_remaining].
  destruct (len d - o - t =? 0) eqn:E2.
  - (* the chunk is complete *)
    unfold detected_chunk_actions.
    cbn [expected_chunks received_chunks set_recv_buffer
           set_header_complete set_received_chunks set_payload_remaining
           socket_fd].
    rewrite Hf2, Hf3.
    destruct (n <=? j + 1) eqn:E3.
    + eexists _, _. split; [reflexivity |]. split; [| split; [| split]].
      4: { right. right. split; [lia |]. split; [lia |]. split.
           - unfold stored. unfold_setters. repeat split.
           - unfold fclose_upload. unfold_setters. rewrite Hf1.
             rewrite sent_to_app. cbn [sent_to app].
             rewrite Z.eqb_refl. reflexivity. }
      * unfold fclose_upload. unfold_setters. rewrite Hf1.
        rewrite written_app, UploadFacts2.written_write.
        cbn [written app]. apply app_nil_r.
      * reflexivity.
      * reflexivity.
    + eexists _, _. split; [reflexivity |]. split; [| split; [| split]].
      4: { right. left. split; [lia |]. split; [lia |]. split.
           - intros d' Hd'. unfold stands_at. unfold_setters.
             repeat split; try lia; try assumption; try reflexivity.
           - rewrite sent_to_app. reflexivity. }
      * rewrite written_app, UploadFacts2.written_write. cbn [written].
        apply app_nil_r.
      * reflexivity.
      * reflexivity.
  - eexists _, _. split; [reflexivity |]. split; [| split; [| split]].
    4: { left. split; [lia |]. split.
         - unfold stands_at. unfold_setters.
           repeat split; try lia; try assumption; try reflexivity.
         - reflexivity. }
    + apply UploadFacts2.written_write.
    + reflexivity.
    + reflexivity.
Qed.

(** That loop on the first read: it stores the bytes of the file the
    read holds, and ends the upload when the read holds the end of the
    stream. *)
Lemma loop_detect temp :
  forall k fuel c p j d rest o more,
    (Z.to_nat (len temp - p) <= k)%nat -> (k <= fuel)%nat ->
    0 <= p <= len temp ->
    stands_at n path c j d o -> placed fopen_ok n path j d rest ->
    skipn (Z.to_nat p) temp ++ more = skipn (Z.to_nat o) d ++ concat rest ->
    exists c' tr,
      run_loop (detect_step fopen_ok temp (len temp)) fuel (len temp) c p
      = Returned 0 c' tr
      /\ socket_fd c' = socket_fd c /\ buffer c' = buffer c
      /\ ((more = [] /\ stored c'
           /\ sent_to (socket_fd c) tr = [MSG_UPLOADED]
           /\ written path tr = payload_left o d rest)
          \/ (exists j' d' rest' o',
                stands_at n path c' j' d' o'
                /\ placed fopen_ok n path j' d' rest'
                /\ more = skipn (Z.to_nat o') d' ++ concat rest'
                /\ sent_to (socket_fd c) tr = []
                /\ written path tr ++ payload_left o' d' rest'
                   = payload_left o d rest)).
Proof.
  induction k as [| k IH];
    intros fuel c p j d rest o more Hk Hfuel Hp Hat Hpl Hal.
  - (* nothing left of the read *)
    rewrite UploadFacts2.run_loop_end by lia.
    eexists _, _. split; [reflexivity |]. split; [reflexivity |].
    split; [reflexivity |]. right. exists j, d, rest, o.
    split; [exact Hat |]. split; [exact Hpl |].
    split; [| split; reflexivity].
    rewrite <- Hal. rewrite skipn_all2 by (unfold len in *; lia).
    reflexivity.
  - destruct (Z_lt_le_dec p (len temp)) as [Hlt | Hge].
    2: { rewrite UploadFacts2.run_loop_end by lia.
         eexists _, _. split; [reflexivity |]. split; [reflexivity |].
         split; [reflexivity |]. right. exists j, d, rest, o.
         split; [exact Hat |]. split; [exact Hpl |].
         split; [| split; reflexivity].
         rewrite <- Hal. rewrite skipn_all2 by (unfold len in *; lia).
         reflexivity. }
    destruct fuel as [| fuel]; [lia |].
    rewrite UploadFacts2.run_loop_pass.
    assert (E : (p <? len temp) = true) by lia. rewrite E.
    pose proof Hat as (_ & Ho & _).
    destruct Hpl as (Hcs & Hsum & Hj & Hpath).
    pose proof Hcs as [Hc Hrest].
    assert (Hlen : len (d :: rest) = 1 + len rest)
      by (unfold len; cbn [length]; lia).
    pose proof (len_nonneg rest) as Hrl.
    destruct (Z_lt_le_dec o 80) as [Hhead | Hpay].
    + (* bytes of a header *)
      destruct (detect_header temp p more c j d o (concat rest) Hat Hhead
                  Hc Hj Hpath ltac:(lia) Hal)
        as (c1 & tr1 & Hstep & Hat1 & Hw1 & Hs1 & Hfd1 & Hb1).
      set (t := Z.min (len temp - p) (80 - o)) in *.
      assert (Ht : 0 < t <= 80 - o /\ t <= len temp - p)
        by (unfold t; lia).
      destruct (chunk_length n j d Hc) as [_ Hdl].
      pose proof (len_nonneg (payload_of d)) as Hpn.
      destruct (aligned_slice temp more d (concat rest) p o t)
        as [_ Hal1]; try lia; try exact Hal.
      rewrite Hstep.
      destruct (IH fuel c1 (p + t) j d rest (o + t) more)
        as (c' & tr & Hrun & Hfd & Hb & Hres);
        try lia; try assumption.
      { exact (conj Hcs (conj Hsum (conj Hj Hpath))). }
      rewrite Hrun. cbn [prepend].
      eexists _, _. split; [reflexivity |].
      split; [congruence |]. split; [congruence |].
      rewrite Hfd1 in Hres.
      destruct Hres as [(Hm & Hdone & Hsent & Hwr)
                       | (j' & d' & rest' & o' & Hat' & Hpl' & Hm & Hsent
                          & Hwr)].
      * left. split; [exact Hm |]. split; [exact Hdone |].
        split; [rewrite sent_to_app, Hs1; exact Hsent |].
        rewrite written_app, Hw1, Hwr. cbn [app].
        apply UploadFacts2.payload_left_header; lia.
      * right. exists j', d', rest', o'.
        split; [exact Hat' |]. split; [exact Hpl' |].
        split; [exact Hm |].
        split; [rewrite sent_to_app, Hs1; exact Hsent |].
        rewrite written_app, Hw1. cbn [app]. rewrite Hwr.
        apply UploadFacts2.payload_left_header; lia.
    + (* bytes of a payload *)
      destruct (detect_payload temp p more c j d o (concat rest) Hat Hpay
                  Hc ltac:(lia) ltac:(lia) Hal)
        as (c1 & tr1 & Hstep & Hw1 & Hfd1 & Hb1 & Hcases).
      set (t := Z.min (len temp - p) (len d - o)) in *.
      assert (Ht : 0 < t <= len d - o /\ t <= len temp - p)
        by (unfold t; lia).
      destruct (aligned_slice temp more d (concat rest) p o t)
        as [_ Hal1]; try lia; try exact Hal.
      rewrite Hstep.
      destruct Hcases as [(Hot & Hat1 & Hs1)
                         | [(Hot & Hjn & Hat1 & Hs1)
                           | (Hot & Hjn & Hdone & Hs1)]].
      * (* the chunk goes on *)
        destruct (IH fuel c1 (p + t) j d rest (o + t) more)
          as (c' & tr & Hrun & Hfd & Hb & Hres);
          try lia; try assumption.
        { exact (conj Hcs (conj Hsum (conj Hj Hpath))). }
        rewrite Hrun. cbn [prepend].
        eexists _, _. split; [reflexivity |].
        split; [congruence |]. split; [congruence |].
        rewrite Hfd1 in Hres.
        rewrite (UploadFacts2.payload_left_split o t d rest) by lia.
        destruct Hres as [(Hm & Hdone & Hsent & Hwr)
                         | (j' & d' & rest' & o' & Hat' & Hpl' & Hm & Hsent
                            & Hwr)].
        -- left. split; [exact Hm |]. split; [exact Hdone |].
           split; [rewrite sent_to_app, Hs1; exact Hsent |].
           rewrite written_app, Hw1, Hwr. reflexivity.
        -- right. exists j', d', rest', o'.
           split; [exact Hat' |]. split; [exact Hpl' |].
           split; [exact Hm |].
           split; [rewrite sent_to_app, Hs1; exact Hsent |].
           rewrite written_app, Hw1, <- app_assoc, Hwr. reflexivity.
      * (* the chunk ends and another follows *)
        destruct rest as [| d' rest'].
        { change (len []) with 0 in *. lia. }
        destruct Hrest as [Hc' Hrest'].
        destruct (chunk_length n (j + 1) d' Hc') as [_ Hdl'].
        pose proof Hc' as (_ & _ & _ & Hpl').
        assert (Hal2 : skipn (Z.to_nat (p + t)) temp ++ more
                       = skipn (Z.to_nat 0) d' ++ concat rest').
        { rewrite Hal1, Hot, skipn_whole. reflexivity. }
        assert (Hlen' : len (d' :: rest') = 1 + len rest')
          by (unfold len; cbn [length]; lia).
        destruct (IH fuel c1 (p + t) (j + 1) d' rest' 0 more)
          as (c' & tr & Hrun & Hfd & Hb & Hres);
          try lia; try assumption.
        { apply Hat1. lia. }
        { unfold placed. split; [split; assumption |]. split; [lia |].
          split; [lia |]. intros H. lia. }
        rewrite Hrun. cbn [prepend].
        eexists _, _. split; [reflexivity |].
        split; [congruence |]. split; [congruence |].
        rewrite Hfd1 in Hres.
        rewrite (UploadFacts2.payload_left_split o t d (d' :: rest'))
          by lia.
        rewrite Hot, UploadFacts2.payload_left_next.
        destruct Hres as [(Hm & Hdone & Hsent & Hwr)
                         | (j2 & d2 & rest2 & o2 & Hat' & Hpl2 & Hm & Hsent
                            & Hwr)].
        -- left. split; [exact Hm |]. split; [exact Hdone |].
           split; [rewrite sent_to_app, Hs1; exact Hsent |].
           rewrite written_app, Hw1, Hwr. reflexivity.
        -- right. exists j2, d2, rest2, o2.
           split; [exact Hat' |]. split; [exact Hpl2 |].
           split; [exact Hm |].
           split; [rewrite sent_to_app, Hs1; exact Hsent |].
           rewrite written_app, Hw1, <- app_assoc, Hwr. reflexivity.
      * (* the chunk ends the file, and the read *)
        destruct rest as [| d' rest'].
        2: { pose proof (len_nonneg rest').
             assert (len (d' :: rest') = 1 + len rest')
               by (unfold len; cbn [length]; lia).
             lia. }
        rewrite Hot, skipn_whole in Hal1. cbn [concat app] in Hal1.
        apply app_eq_nil in Hal1. destruct Hal1 as [Hend Hmore].
        assert (Hpt : len temp <= p + t).
        { apply (f_equal (@length byte)) in Hend.
          rewrite length_skipn in Hend. cbn [length] in Hend.
          unfold len in *. lia. }
        rewrite UploadFacts2.run_loop_end by exact Hpt.
        cbn [prepend]. rewrite app_nil_r.
        eexists _, _. split; [reflexivity |].
        split; [exact Hfd1 |]. split; [exact Hb1 |].
        left. split; [exact Hmore |].
        split; [exact Hdone |]. split; [exact Hs1 |].
        rewrite Hw1.
        rewrite (UploadFacts2.payload_left_split o t d []) by lia.
        rewrite Hot, UploadFacts2.payload_left_last, app_nil_r.
        reflexivity.
Qed.

End Env.
(** The first read of a stream of chunks passes the test. *)
Lemma first_read_detected n d0 (r0 more after : list byte) :
  is_chunk n 0 d0 -> 0 < n <= 2000000 -> 80 <= len r0 ->
  r0 ++ more = d0 ++ after ->
  looks_like_header r0 = true.
Proof.
  intros Hc Hn Hr Hcat.
  destruct (chunk_length n 0 d0 Hc) as [Hdl _].
  pose proof Hc as (_ & Htot & Hsize & Hpl).
  assert (Hdec : decode_header r0 = decode_header d0).
  { rewrite <- (decode_firstn r0), <- (decode_firstn d0). f_equal.
    rewrite <- (WireFacts.firstn_app_long 80 r0 more)
      by (unfold len in Hr; lia).
    rewrite Hcat. apply WireFacts.firstn_app_long. lia. }
  unfold looks_like_header. rewrite Hdec, Htot, Hsize.
  unfold HEADER_SIZE, CHUNK_SIZE in *.
  repeat (apply andb_true_intro; split); lia.
Qed.

(** An upload that arrives at a connection in command mode. *)
Lemma detected_stored fopen_ok c n d0 ds r0 reads :
  whole_file n (d0 :: ds) -> n <= 2000000 ->
  state c <> 1 -> header_complete c = false -> recv_buffer c = [] ->
  fopen_ok
    (full_path (filename (decode_header d0)) (chunk_size (decode_header d0)))
  = true ->
  concat (r0 :: reads) = concat (d0 :: ds) ->
  80 <= len r0 <= 1023 ->
  Forall (fun r => 0 < len r <= 2048) reads ->
  exists c' tr,
    serve fopen_ok c (r0 :: reads) = Returned 0 c' tr
    /\ written
         (full_path (filename (decode_header d0))
            (chunk_size (decode_header d0))) tr
       = carried (d0 :: ds)
    /\ sent_to (socket_fd c) tr = [MSG_UPLOADED]
    /\ stored c' /\ buffer c' = buffer c.
Proof.
  intros [Hcs Hlen] Hmax Hst Hhc Hrb Hopen Hcat Hr0 Hall.
  assert (Hpos : 0 < n).
  { rewrite <- Hlen. unfold len. cbn [length]. lia. }
  pose proof Hcs as [Hc _].
  destruct (chunk_length n 0 d0 Hc) as [_ Hdl].
  pose proof Hc as (_ & _ & _ & Hpl).
  set (path := full_path (filename (decode_header d0))
                 (chunk_size (decode_header d0))) in *.
  cbn [concat] in Hcat.
  assert (Hlook : looks_like_header r0 = true).
  { apply (first_read_detected n d0 r0 (concat reads) (concat ds) Hc
             (conj Hpos Hmax) ltac:(lia) Hcat). }
  assert (Hrecv : recv 1023 (RecvData r0) = RecvData r0).
  { destruct r0 as [| b r] eqn:E; [change (len []) with 0 in Hr0; lia |].
    cbn [recv]. rewrite <- E. f_equal. apply firstn_all2.
    rewrite <- E in Hr0. unfold len in Hr0. lia. }
  apply Z.eqb_neq in Hst.
  cbn [serve]. unfold handle_client_data.
  rewrite Hst, Hrecv, Hlook. unfold handle_detected.
  destruct (loop_detect fopen_ok n path (conj Hpos Hmax) r0 (length r0)
              (loop_fuel r0) (set_state 1 c) 0 0 d0 ds 0 (concat reads))
    as (c1 & tr1 & Hrun & Hfd1 & Hb1 & Hres).
  - unfold len. lia.
  - unfold loop_fuel. lia.
  - unfold len. lia.
  - unfold stands_at. unfold_setters. rewrite Hhc, Hrb.
    repeat split; try lia; try reflexivity;
      try (intros [H | H]; lia).
  - unfold placed. split; [exact Hcs |]. split; [lia |].
    split; [lia |]. intros _. split; [reflexivity | exact Hopen].
  - exact Hcat.
  - rewrite Hrun. cbn [Z.eqb].
    cbn [socket_fd set_state buffer] in Hfd1, Hb1, Hres.
    destruct Hres as [(Hm & Hdone & Hsent & Hwr)
                     | (j' & d' & rest' & o' & Hat' & Hpl' & Hm & Hsent
                        & Hwr)].
    + rewrite (UploadFacts2.concat_nonempty_reads reads Hall Hm).
      cbn [serve prepend]. rewrite app_nil_r.
      eexists _, _. split; [reflexivity |].
      split; [rewrite Hwr; reflexivity |].
      split; [exact Hsent |]. split; [exact Hdone | exact Hb1].
    + destruct (UploadFacts2.serve_upload fopen_ok n path (conj Hpos Hmax)
                  reads c1 j' d' rest' o' Hat' Hpl' Hm Hall)
        as (c' & tr & Hrun' & Hdone & Hfd & Hb & Hsent' & Hwr').
      rewrite Hrun'. cbn [prepend].
      eexists _, _. split; [reflexivity |].
      split; [rewrite written_app, Hwr', Hwr; reflexivity |].
      split; [rewrite sent_to_app, Hsent; rewrite Hfd1 in Hsent';
              exact Hsent' |].
      split; [exact Hdone | congruence].
Qed.

End DetectedFacts.

(** X23.  An upload that begins in command mode is stored as well.  When
    the first read of a connection in command mode holds at least the
    first header of the chunks 0 to [n - 1] of a file, the server takes
    it for file data without any [upload] command and runs its second
    copy of the chunk loop on it; the reads that follow go through
    [handle_file_transfer].  However the stream is cut into reads, every
    call returns 0, the file opened is the one [full_path] names from the
    name field of the first chunk and the size of that chunk ([saved/]
    and the name, for a name that ends with a NUL inside the field), the
    bytes written to it are the payloads of the chunks in order,
    [SUCCESS: File uploaded] is sent once and the connection is in
    command mode again, its command buffer untouched. *)
Theorem X23_upload_without_command (fopen_ok : list byte -> bool)
  c n d0 ds r0 reads :
  Frames.whole_file n (d0 :: ds) -> n <= 2000000 ->
  Server.state c <> 1 -> Server.header_complete c = false ->
  Server.recv_buffer c = [] ->
  let path :=
    Server.full_path (filename (decode_header d0))
      (chunk_size (decode_header d0)) in
  fopen_ok path = true ->
  concat (r0 :: reads) = concat (d0 :: ds) ->
  80 <= len r0 <= 1023 ->
  Forall (fun r => 0 < len r <= 2048) reads ->
  (exists c' tr,
     Session.serve fopen_ok c (r0 :: reads) = Returned 0 c' tr
     /\ Frames.written path tr = Frames.carried (d0 :: ds)
     /\ sent_to (Server.socket_fd c) tr = [Server.MSG_UPLOADED]
     /\ Session.stored c' /\ Server.buffer c' = Server.buffer c)
  /\ (has_nul (filename (decode_header d0)) = true ->
      path = bytes_of "saved/" ++ c_str (filename (decode_header d0)))
  /\ (has_nul (filename (decode_header d0)) = false ->
      path
      = bytes_of "saved/" ++ filename (decode_header d0)
          ++ c_str (int_bytes (chunk_size (decode_header d0)))).
Proof.
  intros Hw Hn Hst Hhc Hrb path Hopen Hcat Hr0 Hall.
  split; [| exact (StoreFacts.full_path_cases _ _)].
  exact (DetectedFacts.detected_stored fopen_ok c n d0 ds r0 reads Hw Hn Hst
           Hhc Hrb Hopen Hcat Hr0 Hall).
Qed.

(** Two chunks of one byte, in reads of 100 and 62 bytes, at a fresh
    connection. *)
Lemma X23_witness :
  exists c' tr,
    Session.serve Examples.always Examples.commanding
      [Examples.chunk 0 2 "f" ["A"%byte]
         ++ firstn 19 (Examples.chunk 1 2 "" ["B"%byte]);
       skipn 19 (Examples.chunk 1 2 "" ["B"%byte])]
    = Returned 0 c' tr
    /\ Frames.written (bytes_of "saved/f") tr = ["A"%byte; "B"%byte]
    /\ sent_to 5 tr = [Server.MSG_UPLOADED]
    /\ Server.state c' = 0.
Proof.
  assert (Hw : Frames.whole_file 2
                 [Examples.chunk 0 2 "f" ["A"%byte];
                  Examples.chunk 1 2 "" ["B"%byte]]).
  { vm_compute. repeat split; try reflexivity; discriminate. }
  destruct (X23_upload_without_command Examples.always
              Examples.commanding 2
              (Examples.chunk 0 2 "f" ["A"%byte])
              [Examples.chunk 1 2 "" ["B"%byte]]
              (Examples.chunk 0 2 "f" ["A"%byte]
                 ++ firstn 19 (Examples.chunk 1 2 "" ["B"%byte]))
              [skipn 19 (Examples.chunk 1 2 "" ["B"%byte])]
              Hw ltac:(lia))
    as ((c' & tr & Hrun & Hwr & Hsent & Hdone & _) & _).
  - discriminate.
  - reflexivity.
  - reflexivity.
  - reflexivity.
  - vm_compute. reflexivity.
  - vm_compute. split; discriminate.
  - repeat constructor; vm_compute; congruence.
  - exists c', tr. split; [exact Hrun |]. split; [exact Hwr |].
    split; [exact Hsent | apply Hdone].
Defined.

(** ** A command typed while an upload is under way *)

Module InterleavedFacts.
Import Server Frames FrameFacts.

(** The size field of a header read three bytes late. *)
Lemma shifted_size n j (d : list byte) :
  is_chunk n j d -> 0 <= j < 2 ^ 24 ->
  chunk_size (decode_header (line "ls" ++ d)) = 256 * j.
Proof.
  intros (Hid & _ & Hsize & Hpl) Hj.
  unfold decode_header in *. cbn [chunk_id chunk_size] in *.
  unfold ntohl in *.
  change (line "ls") with [x6c; x73; x0a].
  cbn [app nth Nat.add] in *.
  pose proof (byte_val_range (nth 0 d x00)).
  pose proof (byte_val_range (nth 1 d x00)).
  pose proof (byte_val_range (nth 2 d x00)).
  pose proof (byte_val_range (nth 3 d x00)).
  pose proof (byte_val_range (nth 4 d x00)).
  pose proof (byte_val_range (nth 5 d x00)).
  pose proof (byte_val_range (nth 6 d x00)).
  pose proof (byte_val_range (nth 7 d x00)).
  unfold CHUNK_SIZE in Hpl.
  change (2 ^ 24) with 16777216 in *. change (2 ^ 16) with 65536 in *.
  change (2 ^ 8) with 256 in *. lia.
Qed.

Section Env.
Variable fopen_ok : list byte -> bool.

(** A read that completes a header with a size that is refused. *)
Lemma bad_header_read c temp :
  state c = 1 -> header_arrives c temp 0 ->
  bad_sizes (arriving_header c temp 0) -> len temp <= 2048 ->
  exists c',
    handle_client_data fopen_ok c (RecvData temp)
    = Returned (-1) c' [ESend (socket_fd c) MSG_INVALID_HEADER]
    /\ state c' = 0 /\ upload_file c' = upload_file c.
Proof.
  intros Hst Harr Hbad Hlen.
  pose proof Harr as (_ & _ & Hlt & Hge).
  unfold handle_client_data. rewrite Hst. cbn [Z.eqb Pos.eqb].
  unfold handle_file_transfer.
  assert (Hrecv : recv 2048 (RecvData temp) = RecvData temp).
  { destruct temp as [| b r] eqn:E.
    - change (len []) with 0 in Hge. lia.
    - cbn [recv]. rewrite <- E. f_equal. apply firstn_all2.
      rewrite <- E in Hlen. unfold len in Hlen. lia. }
  rewrite Hrecv. unfold loop_fuel.
  replace (2 * length temp + 2)%nat with (S (2 * length temp + 1))
    by lia.
  rewrite UploadFacts2.run_loop_pass.
  assert (E : (0 <? len temp) = true) by (apply Z.ltb_lt; lia).
  rewrite E, (ServerFacts.transfer_step_header fopen_ok c temp 0 Harr).
  rewrite <- (ServerFacts.with_header_decodes c temp 0 Harr) in Hbad.
  destruct (ServerFacts.header_actions_bad_sizes fopen_ok _
              (0 + (HEADER_SIZE - bytes_in_buffer c)) Hbad)
    as (c' & Hact & Hst' & Hfile & Hfd).
  rewrite Hact. exists c'. split; [reflexivity |].
  split; [exact Hst' | exact Hfile].
Qed.

End Env.
End InterleavedFacts.

(** X24.  A command typed while an upload is under way breaks the
    upload.  [process_user_command] sends [list] at once as [ls] and a
    line feed whatever the transfer state is, so the three bytes leave
    between two chunks.  The server, in file transfer mode and between
    two chunks, takes them for the first bytes of the next header: when
    chunk [j] follows, in the same read or in the next, it reads a
    chunk size of 256 times [j], and for [j] 0 or above 32 it answers
    [ERROR: Invalid file transfer header], goes back to command mode and
    [handle_client_data] returns -1. *)
Theorem X24_command_during_upload local_file (fopen_ok : list byte -> bool)
  csock m t c n j d more :
  (3 <= S m)%nat ->
  Server.state c = 1 -> Server.header_complete c = false ->
  Server.recv_buffer c = [] ->
  Frames.is_chunk n j d -> 0 <= j < 2 ^ 24 -> j = 0 \/ 32 < j ->
  len (line "ls" ++ d ++ more) <= 2048 ->
  Console.process_user_command local_file csock (bytes_of "list")
    (SendAccepts m) t
  = (t, [ESend csock (line "ls")])
  /\ forall reads,
       reads = [line "ls" ++ d ++ more] \/ reads = [line "ls"; d ++ more] ->
       exists c',
         Session.serve fopen_ok c reads
         = Returned (-1) c'
             [ESend (Server.socket_fd c) Server.MSG_INVALID_HEADER]
         /\ Server.state c' = 0
         /\ Server.upload_file c' = Server.upload_file c.
Proof.
  intros Hm Hst Hhc Hrb Hc Hj Hbadj Hlen. split.
  - lazy -[firstn]. rewrite firstn_all2 by (cbn [length]; lia).
    reflexivity.
  - destruct (FrameFacts.chunk_length n j d Hc) as [Hdl _].
    assert (Hdec : forall tail,
               decode_header (firstn 80 (line "ls" ++ d ++ tail))
               = decode_header (line "ls" ++ d)).
    { intros tail. rewrite FrameFacts.decode_firstn.
      rewrite app_assoc. apply FrameFacts.decode_app.
      rewrite length_app. lia. }
    assert (Hbad : Server.bad_sizes (decode_header (line "ls" ++ d))).
    { unfold Server.bad_sizes.
      rewrite (InterleavedFacts.shifted_size n j d Hc Hj).
      destruct Hbadj as [-> | Hbig]; [left; reflexivity |].
      right. right. left. lia. }
    rewrite !len_app in Hlen. change (len (line "ls")) with 3 in Hlen.
    pose proof (len_nonneg more) as Hmore.
    intros reads [-> | ->].
    + destruct (InterleavedFacts.bad_header_read fopen_ok c
                  (line "ls" ++ d ++ more) Hst)
        as (c' & Hrun & Hst' & Hfile).
      * unfold Server.header_arrives, Server.bytes_in_buffer.
        rewrite Hrb, !len_app. change (len []) with 0.
        change (len (line "ls")) with 3. unfold HEADER_SIZE, len in *.
        repeat split; try assumption; lia.
      * unfold Server.arriving_header. rewrite Hrb. cbn [app Z.to_nat skipn].
        rewrite Hdec. exact Hbad.
      * rewrite !len_app. change (len (line "ls")) with 3. lia.
      * cbn [Session.serve]. rewrite Hrun. cbn [Z.eqb].
        exists c'. split; [reflexivity |]. split; assumption.
    + assert (Hfirst : Server.handle_client_data fopen_ok c
                         (RecvData (line "ls"))
                       = Returned 0 (Server.set_recv_buffer (line "ls") c)
                           []).
      { destruct c. cbn in Hst, Hhc, Hrb. subst. reflexivity. }
      destruct (InterleavedFacts.bad_header_read fopen_ok
                  (Server.set_recv_buffer (line "ls") c) (d ++ more))
        as (c' & Hrun & Hst' & Hfile).
      * exact Hst.
      * unfold Server.header_arrives, Server.bytes_in_buffer.
        cbn [Server.recv_buffer Server.set_recv_buffer
               Server.header_complete].
        rewrite len_app. change (len (line "ls")) with 3.
        unfold HEADER_SIZE, len in *.
        repeat split; try assumption; lia.
      * unfold Server.arriving_header.
        cbn [Server.recv_buffer Server.set_recv_buffer Z.to_nat skipn].
        rewrite Hdec. exact Hbad.
      * rewrite len_app. lia.
      * cbn [Session.serve]. rewrite Hfirst. cbn [Z.eqb].
        rewrite Hrun. cbn [Z.eqb prepend app].
        exists c'. split; [reflexivity |]. split; assumption.
Qed.

(** [list] typed before the first chunk of an upload has left; the
    server reads the three bytes, then the chunk. *)
Lemma X24_witness :
  exists c',
    Session.serve Examples.always Examples.uploading
      [line "ls"; Examples.chunk 0 1 "f" ["A"%byte]]
    = Returned (-1) c' [ESend 5 Server.MSG_INVALID_HEADER]
    /\ Server.state c' = 0.
Proof.
  assert (Hc : Frames.is_chunk 1 0 (Examples.chunk 0 1 "f" ["A"%byte])).
  { vm_compute. repeat split; try reflexivity; discriminate. }
  destruct (X24_command_during_upload Examples.file_513 Examples.always 3
              2 Client.init_transfer_state Examples.uploading 1 0
              (Examples.chunk 0 1 "f" ["A"%byte]) [])
    as [_ H].
  - lia.
  - reflexivity.
  - reflexivity.
  - reflexivity.
  - exact Hc.
  - vm_compute. split; [discriminate | reflexivity].
  - left. reflexivity.
  - vm_compute. discriminate.
  - destruct (H [line "ls"; Examples.chunk 0 1 "f" ["A"%byte]])
      as (c' & Hrun & Hst & _).
    + right. rewrite app_nil_r. reflexivity.
    + exists c'. split; [exact Hrun | exact Hst].
Defined.

(** ** A command too long for the client's buffer *)

Module LongFacts.
Import Console.

Lemma typed_app (a b : list byte) : typed a -> typed b -> typed (a ++ b).
Proof. unfold typed. intros Ha Hb. apply Forall_app. split; assumption. Qed.

Lemma typed_firstn (k : nat) (a : list byte) : typed a -> typed (firstn k a).
Proof.
  unfold typed. revert a. induction k as [| k IH]; intros a Ha;
    [constructor |].
  destruct a as [| b a]; [constructor |].
  inversion Ha; subst. cbn [firstn]. constructor; [assumption |].
  apply IH. assumption.
Qed.

Lemma typed_no_line (a : list byte) :
  typed a -> Server.strchr_nl a = None.
Proof.
  intros Ha. induction a as [| b a IH]; [reflexivity |].
  unfold typed in Ha. inversion Ha as [| ? ? Hb Hrest]; subst.
  cbn [Server.strchr_nl].
  rewrite (CommandFacts.byte_eqb_neq b x0a)
    by (intros ->; vm_compute in Hb; congruence).
  rewrite (CommandFacts.byte_eqb_neq b x00)
    by (intros ->; vm_compute in Hb; congruence).
  rewrite (IH Hrest). reflexivity.
Qed.

Lemma typed_no_nul (a : list byte) : typed a -> ~ In x00 a.
Proof.
  intros Ha. apply (ConsoleFacts.typed_not a x00 Ha).
  vm_compute. reflexivity.
Qed.

End LongFacts.

(** X25.  A command too long for the 256 bytes of the client's buffer
    loses its line feed.  For [cd] with a path of 252 bytes or more,
    typed without control characters, the client sends the first 255
    bytes of the command and nothing else.  The server, in command mode
    with an empty buffer, keeps them as an unfinished line and carries
    nothing out; the next command of the user, here [pwd], then ends
    that line, and the server changes to the directory named by the
    first 252 bytes of the path followed by [pwd]. *)
Theorem X25_long_command_loses_its_line_feed local_file
  (fopen_ok : list byte -> bool) csock m t c (arg : list byte) :
  Console.typed arg -> 252 <= len arg -> (255 <= S m)%nat ->
  Server.state c = 0 -> Server.buffer c = [] ->
  sent_to csock
    (snd (Console.process_user_command local_file csock
            (bytes_of "cd " ++ arg) (SendAccepts m) t))
  = [bytes_of "cd " ++ firstn 252 arg]
  /\ Session.serve fopen_ok c [bytes_of "cd " ++ firstn 252 arg]
     = Returned 0
         (Server.set_buffer (bytes_of "cd " ++ firstn 252 arg) c) []
  /\ Session.serve fopen_ok c
       [bytes_of "cd " ++ firstn 252 arg; line "pwd"]
     = Returned 0 c
         [ECall "change_dir" (Server.socket_fd c)
            [firstn 252 arg ++ bytes_of "pwd"]].
Proof.
  intros Ht Hlen Hm Hst Hbuf.
  assert (Hcd : Console.typed (bytes_of "cd "))
    by (repeat constructor; vm_compute; discriminate).
  assert (Hpwd : Console.typed (bytes_of "pwd"))
    by (repeat constructor; vm_compute; discriminate).
  set (cut := bytes_of "cd " ++ firstn 252 arg).
  assert (Hcut : Console.typed cut)
    by (apply LongFacts.typed_app;
        [exact Hcd | apply LongFacts.typed_firstn; exact Ht]).
  assert (Hcl : length cut = 255%nat).
  { unfold cut. rewrite length_app, length_firstn.
    change (length (bytes_of "cd ")) with 3%nat. unfold len in Hlen. lia. }
  assert (Hfirst : Server.handle_client_data fopen_ok c (RecvData cut)
                   = Returned 0 (Server.set_buffer cut c) []).
  { rewrite (CommandFacts.data_lines fopen_ok c _ cut [] cut).
    - reflexivity.
    - rewrite Hst. discriminate.
    - destruct cut as [| b r] eqn:E; [discriminate Hcl |].
      unfold recv. f_equal. apply firstn_all2. lia.
    - apply DetectFacts.server_sees_text, LongFacts.typed_no_nul.
      exact Hcut.
    - rewrite Hbuf. reflexivity.
    - constructor.
    - apply LongFacts.typed_no_line. exact Hcut.
    - unfold Server.buffer_len, len. rewrite Hbuf, Hcl.
      unfold Server.BUFFER_SIZE. cbn [length]. lia. }
  split; [| split].
  - unfold Console.process_user_command.
    change (is_prefix (bytes_of "get ") (bytes_of "cd " ++ arg))
      with false.
    change (is_prefix (bytes_of "send ") (bytes_of "cd " ++ arg))
      with false.
    change (is_prefix (bytes_of "cd ") (bytes_of "cd " ++ arg))
      with true.
    change (skipn 3 (bytes_of "cd " ++ arg)) with arg.
    ConsoleFacts.differ.
    assert (Harg : arg <> []).
    { intros ->. change (len []) with 0 in Hlen. lia. }
    rewrite (ConsoleFacts.rest_given arg _ _ Harg). cbn [snd].
    unfold Console.sent, Console.snprintf_256.
    assert (E255 : firstn 255 ((bytes_of "cd " ++ arg) ++ [x0a]) = cut).
    { rewrite <- app_assoc.
      change 255%nat with (3 + 252)%nat.
      rewrite WireFacts.firstn_plus.
      change (firstn 3 (bytes_of "cd " ++ arg ++ [x0a]))
        with (bytes_of "cd ").
      change (skipn 3 (bytes_of "cd " ++ arg ++ [x0a]))
        with (arg ++ [x0a]).
      rewrite WireFacts.firstn_app_long by (unfold len in Hlen; lia).
      reflexivity. }
    rewrite E255, firstn_all2 by lia.
    cbn [sent_to]. rewrite Z.eqb_refl. reflexivity.
  - cbn [Session.serve]. rewrite Hfirst. reflexivity.
  - cbn [Session.serve]. rewrite Hfirst. cbn [Z.eqb].
    rewrite (CommandFacts.data_lines fopen_ok (Server.set_buffer cut c) _
               (line "pwd") [cut ++ bytes_of "pwd"] []).
    + cbn [Z.eqb prepend existsb flat_map orb app].
      assert (Hall : Console.typed (cut ++ bytes_of "pwd"))
        by (apply LongFacts.typed_app; assumption).
      rewrite (ConsoleFacts.typed_keeps_end _ Hall).
      assert (Hup : Text.is_upload (cut ++ bytes_of "pwd") = false).
      { unfold Text.is_upload.
        rewrite (ConsoleFacts.typed_keeps_end _ Hall). reflexivity. }
      rewrite Hup. cbn [orb].
      assert (Hcall : snd (Server.process_client_command
                             (Server.set_buffer cut c)
                             (cut ++ bytes_of "pwd"))
                      = [ECall "change_dir" (Server.socket_fd c)
                           [firstn 252 arg ++ bytes_of "pwd"]]).
      { unfold cut. rewrite <- app_assoc.
        unfold Server.process_client_command.
        change (is_prefix (bytes_of "upload")
                  (bytes_of "cd " ++ firstn 252 arg ++ bytes_of "pwd"))
          with false.
        change (is_prefix (bytes_of "get ")
                  (bytes_of "cd " ++ firstn 252 arg ++ bytes_of "pwd"))
          with false.
        change (is_prefix (bytes_of "cd ")
                  (bytes_of "cd " ++ firstn 252 arg ++ bytes_of "pwd"))
          with true.
        ConsoleFacts.differ. reflexivity. }
      rewrite Hcall, !app_nil_r. f_equal.
      destruct c; cbn in Hbuf; subst; reflexivity.
    + cbn [Server.state Server.set_buffer]. rewrite Hst. discriminate.
    + reflexivity.
    + reflexivity.
    + cbn [Server.buffer Server.set_buffer Text.framed_lines flat_map].
      rewrite !app_nil_r, <- app_assoc. reflexivity.
    + constructor; [| constructor].
      apply ConsoleFacts.typed_plain, LongFacts.typed_app; assumption.
    + reflexivity.
    + unfold Server.buffer_len, len.
      cbn [Server.buffer Server.set_buffer]. rewrite Hcl.
      unfold Server.BUFFER_SIZE. cbn. lia.
Qed.

(** A path of 300 bytes. *)
Lemma X25_witness :
  Session.serve Examples.always Examples.commanding
    [bytes_of "cd " ++ repeat "p"%byte 252; line "pwd"]
  = Returned 0 Examples.commanding
      [ECall "change_dir" 5 [repeat "p"%byte 252 ++ bytes_of "pwd"]].
Proof.
  destruct (X25_long_command_loses_its_line_feed Examples.file_513
              Examples.always 3 254 Client.init_transfer_state
              Examples.commanding (repeat "p"%byte 300))
    as (_ & _ & H).
  - apply Forall_forall. intros b Hb. apply repeat_spec in Hb. subst b.
    vm_compute. discriminate.
  - vm_compute. discriminate.
  - lia.
  - reflexivity.
  - reflexivity.
  - exact H.
Defined.
